(* ===== verification/_CoqProject ===== *)
-Q . S2P
Prelude.v
Protocol.v
ItemSet.v
Host.v
Screenshot.v
Fixture.v
Registry.v
Bundles.v
Dispatch.v
Causes.v
Typing.v
Harness.v
Lifecycle.v
Resources.v
Order.v
Run.v
