(* ===== verification/Prelude.v ===== *)
(** * Verification of the Impress/Draw dialog screenshot fixture

    Program: [src/sd/qa/unit/dialogs-test.cxx], the CppUnit fixture
    [SdDialogsTest].  It registers 22 dialogs by the path of their UI
    description, and builds each of them on request from a hand-assembled
    bundle of document objects and attribute sets.  The test body reads a
    batch file of paths and renders each dialog it names.

    ** Parts of the program and where they are modelled

    - [Prelude] (this file): the effects of the fixture's member functions.
      A member function is a state transformer [Fx S A := S -> Outcome A * S]
      over the fixture object.  [CPPUNIT_ASSERT] throws, so a call either
      returns ([Ok]) or fails ([Failed]); the members assigned before the
      throw keep their values, which is why a failure carries the state too.
      Using a null pointer is kept apart from a failed assertion
      ([NullDereference] against [AssertionFailed]), each with the source
      line at which it happens.  The file also has the triples used for
      invariants ([triple], [preserves]), the judgement [safe] (an
      invariant is kept and no null pointer is used), the predicate
      [fails_in] (a failure is an assertion of a given list of lines) and
      the conversions to [sal_uInt16] and [sal_uInt32].
    - [Protocol]: the order in which CppUnit drives any fixture.  The two
      member functions [SdDialogsTest] overrides of [CppUnit::TestFixture]
      (lines 79 and 81) are the fields of the interface [TestFixture];
      the run of a test is the step relation [step] and the function
      [run_test], written against the interface.  A test body is a list
      of items of work ([run_work]).  CppUnit is outside [src/].
    - [ItemSet]: attribute sets ([SfxItemSet]): a pool, the which-id ranges
      given to the constructor and a finite map from which-id to item state;
      [Put], [InvalidateItem], the item constructors and the interface
      [SdAttrIds] of the which-ids of [sdattr.hrc].  This is library code
      outside [src/]; it is modelled from the specification's glossary.
    - [Host]: the object graph the fixture borrows: component, document,
      document shell, view shell, draw view, pages, objects, style sheets,
      the dialog factory with its 22 creation methods ([FactoryCall]) and
      the class [HostEnv] of the free functions the fixture calls
      ([loadFromDesktop], [SdAbstractDialogFactory::Create],
      [Application::GetDefDialogParent], [SdResId]).  Also outside [src/].
    - [Fixture]: the class [SdDialogsTest] (lines 39-207): its nine members
      as the record [SdDialogsTest], the constructor, [setUp], [tearDown]
      and the eight private getters, which fill the members on first use.
    - [Registry]: [registerKnownDialogsByID] (lines 209-234) as 22 inserts
      into a [gmap string N], in the order of the source.
    - [Bundles]: the attribute sets [createDialogByID] builds by hand in
      cases 6, 7, 12 and 17 ([snapline_attrs], [layer_attrs],
      [present_attrs], [action_attrs]; lines 315-317, 329-337, 395-413
      and 479-495), each [Put] and [InvalidateItem] in source order.
    - [Dispatch]: [createDialogByID] (lines 236-562): the guard on the
      factory, the [switch] ([switch_nID]) and one definition [case_k] per
      [case].
    - [Screenshot]: the base class [ScreenshotTest] for any fixture.  The
      two member functions [SdDialogsTest] overrides (lines 68-74) are the
      fields of the interface [KnownDialogs]; the member functions of the
      base class (the map of known dialogs, the batch file, the two ways
      to write a screenshot) are written against it.  The state
      [ScreenshotTest T] has the members [T] of the fixture, the map of
      known dialogs and what the object did to the application: the
      screenshots written ([shots]), the components disposed
      ([disposed]) and whether [tearDown] of the base class was called
      ([torn_down]).  The base class is outside [src/]: it is modelled
      from the specification and from the comments of lines 68-73, which
      say that the known dialogs are registered in [setUp] and that
      [createDialogByID] has to be implemented for each of them (the
      contract [Implemented]).
    - [Harness]: the fixture as an instance of the interface
      ([SdDialogsTest_overrides]) and [openAnyDialog] (lines 564-612) with
      its four blocks, which calls the overrides through the object.
    - [Lifecycle]: the fixture as an instance of [TestFixture]
      ([SdDialogsTest_fixture]), with [setUp] and [tearDown] on the whole
      object: [full_setUp] has the call of the base class (line 103),
      [full_tearDown] is [tearDown] with [mxComponent->dispose()] (line
      117) recorded in the state and the call of the base class after it
      (line 118); and the run of the test [openAnyDialog]
      by the protocol, as the relation [test_step] (one step for each
      line of the batch file) and as the function [runTest].
    - [Resources]: what the fixture holds of the application in each phase
      of a run ([resources_inv]): the component loaded and disposed, the
      three owning pointers to attribute sets, the borrowed pointers; and
      when the base class is torn down ([base_inv]).
    - [Order]: the same factory calls with the order in which their
      arguments are evaluated as a parameter ([args2], [args3],
      [case_k_in], [switch_nID_in], [createDialogByID_in]; a [Sequencing]
      chooses an order for the call of each case), since C++ leaves the
      order of the arguments of a call to the compiler, and the interface
      [OnDemand] of a getter (the member it fills and the function of the
      document it computes), which the six getters implement.  The
      definitions [case_k_in] translate the same lines as [case_k].  The
      getters among the arguments of each call are listed by position
      ([arguments]); [spec_createDialogByID_in] is the result for a given
      order and [reports] the failures a call can report over all orders.
    - [Causes]: the objects of the document the assertions check
      ([Requirement]), the objects the case of each ID checks ([requires])
      and the object each assertion guards, by its line ([guarded]).
    - [Typing]: the item class each which-id is declared with in
      [sdattr.hrc] ([attr_type], outside [src/]), the width of each class,
      and the attribute sets among the parameters of a factory call
      ([call_sets]).
    - [Run]: the registration of the test (lines 86-88, 614, 616): the
      suite [SdDialogsTest_suite] with its one test, the registry
      [registered_suites] and the runner [run_registered], which gives
      each test an object of its own; and [run_spec], what a whole run
      reports and writes as a function of what the host loads; and what
      each line of the batch file asks of the document ([asked],
      [line_meets], [cause]); and the overrides and the run of the test
      as a compiler with a given order of evaluation builds them
      ([SdDialogsTest_compiled], [runTest_in]).

    ** Correspondence of state and data

    A pointer member is an [option] of the object it points to; the host
    objects do not change while the fixture runs, so the value stands for
    the object and two members holding the same value alias the same
    object.  The three [std::unique_ptr<SfxItemSet>] members are [option
    SfxItemSet]; a dialog receives a reference to the cached set, which the
    model passes by value because the dialogs take it [const].  A dialog ID
    ([sal_uInt32]) is an [N]; only literals 0 to 21 are ever compared with
    it.  The object expression of a factory call is evaluated first, then
    its arguments from left to right, which is the order of the getters in
    each [case_k]; [Order] has the other readings, and the theorems of
    [Dispatch], [Harness] and [Run] that name the line of a failure name
    the one of the reading from left to right.  A dialog is the
    factory call that built it; a screenshot is the dialog or the path it
    was asked for.  [dispose()] does not change the value that stands for
    the component: that a component is disposed is recorded in the list
    [disposed] of the run, and a pointer is dangling when the component it
    leads into is in that list.  The use of an empty reference or of a
    null pointer, undefined in C++, is a failure of its own kind that ends
    the member function like a thrown assertion.

    ** What is assumed of the host

    The theorems hold for every host and every numbering of the
    which-ids: [HostEnv] and [SdAttrIds] are classes, and no theorem
    depends on an instance.  [SdAttrIds] asks that every which-id lies in
    the range of its group and that different names have different
    which-ids; that an item lands inside the ranges of its set and
    overwrites no other follows from this, not from the source.  The
    table [ui_of_call] (the UI description each dialog class loads) and
    the table [attr_type] (the item class each which-id is declared
    with) are taken from host code and headers outside [src/]; the
    theorems that compare the registry with the dialogs built, and the
    items put with their classes, check the code against these tables.

    ** What the theorems show

    - [Prelude]: monad laws, rules of the triples and of [safe], rules of
      [fails_in], bounds of the integer conversions.
    - [ItemSet]: [Put] and [InvalidateItem] change exactly one which-id and
      only inside the ranges; a sequence of them on distinct which-ids of
      the range is the list of its slots ([set_slots]).
    - [Fixture]: the cache invariant [coherent] (every filled member is the
      object the document gives), established by [setUp] and kept by every
      getter also when it fails; each getter computes its specification, a
      function of the document alone, on a hit and on a miss; filling
      members commutes and is idempotent; every getter is [safe] on a
      fixture that has a factory and a document; what [setUp] and
      [tearDown] do to every member in every case, also when there is no
      document or no component.
    - [Registry]: the 22 paths are pairwise distinct, the IDs are exactly
      0 to 21, lookup and [path_of_id] are inverse, re-registering changes
      nothing.
    - [Bundles]: the four attribute sets hold exactly the slots of
      [action_slots], [present_slots], [layer_slots] and
      [snapline_slots]; the pause timeout is stored modulo 2^32.
    - [Dispatch]: [createDialogByID] refines [spec_createDialogByID], the
      factory call computed from the document alone, with exactly the
      members of [spec_needs] filled; an unregistered ID or a missing
      factory gives an empty result and leaves the fixture alone; on a
      complete document the dialog built for an ID is the one whose UI
      file is registered under it, and every registered ID returns
      exactly on the complete documents; no null pointer is used on a
      fixture that holds a document; a failure is
      an assertion at one of the lines of [failure_lines].
    - [Prelude] also has the order of strings by which a [std::map] with
      [OString] keys is traversed: [String.leb] is transitive and total.
    - [Screenshot]: for every fixture that meets [Implemented], a batch is
      processed to its end, every entry answered by one screenshot in the
      order of the lines, and all known dialogs are processed in the
      order of their paths ([known_by_path] is sorted and a permutation
      of the map); the theorem is proved from the contract alone.  With
      [setUp] and [tearDown] as the protocol needs them ([Orderly]), the
      whole run of a batch reports no failure ([run_test_served]).  Two
      implementations of the overrides that are [Interchangeable] are
      treated alike by the base class ([process_lines_alike]).
    - [Harness]: [SdDialogsTest] meets [Implemented] on a complete
      document with a factory that builds every dialog; on any document
      the test body refines [batch_result], which stops at the first line
      whose assertion fails; on a complete document the batch writes one
      screenshot per entry, each showing the dialog its line names, and
      processing all known dialogs writes 22 screenshots in the order of
      the paths.
    - [Protocol]: lemmas on the protocol itself, for every fixture and
      every body: [step] is deterministic, [run_test] is the run of
      [step] and every run that can go no further ends in the state it
      computes, [step] terminates (the measure [remaining]) and reaches
      the end of [tearDown].  They say nothing of [SdDialogsTest] and no
      property of the program is claimed from them alone; the theorems
      on runs use them to pass from the function to the relation.
    - [Lifecycle]: the invariant [run_inv] holds in every state a run of
      the test reaches (rule induction on [test_step]); on a complete
      document the run reports no failure, and the fixture is then one
      that meets the contracts [Implemented] and [Orderly] of the base
      class; without a document the run reports the assertion of [setUp]
      and then the null reference of [tearDown].
    - [Resources]: on every host, nothing is disposed while [setUp] and
      the test body run, and after [tearDown] the component that was
      loaded is disposed once and the attribute sets are released,
      whatever failed; [tearDown] leaves the pointers to the document,
      its shell and its views dangling, and the getters hand them out,
      because they test against null only; the base class is torn down
      exactly in the runs that loaded a component, because [tearDown]
      calls it after the use of the component reference.
    - [Order]: two or three getters of the interface can be evaluated in
      any order in front of any continuation (all orders return or all
      fail, and a return is the same return); [createDialogByID] and
      [createDialogByID_in] agree in this sense for every [Sequencing]
      and every ID, while the line of the assertion that reports a
      failure can differ (ID 10); for every [Sequencing] the result is
      [spec_createDialogByID_in], and the failures some order reports are
      exactly those of [reports].
    - [Causes]: [createDialogByID] returns exactly when the document has
      every object the ID requires, and a failed assertion guards a
      required object that is missing.
    - [Typing]: [Put] and [InvalidateItem] keep a set well typed; every
      set the fixture hands to a dialog or caches is well typed.
    - [Run]: on every host the run of the registered test refines
      [run_spec] and disposes what the host loaded; the only null pointer
      a run can use is the component in [tearDown], when nothing was
      loaded; a run fails exactly when the document lacks an object that
      a dialog named in the batch file requires, with the assertion on
      such an object; the run of the test built with any order of
      evaluation writes, disposes and tears down the same, and reports
      the same failure or another report of the same dialog.

    ** Bounds and fuel

    No definition needs fuel: the only loops are those over the lines of
    the batch file and over the known dialogs, which are structural
    recursions on a list, and every definition is a total function.  The
    source has no loop and no recursion of its own, so termination is not
    a property of this code: that a run ends is a fact of the protocol
    model, and calls into the host that could block are not modelled.  Line
    numbers in failures are those of the source file.  [sal_uInt16] and
    [sal_uInt32] values are integers reduced modulo 2^16 and 2^32.

    ** Not modelled

    The dialogs themselves, the rendering of screenshots, the reading of
    the batch file and the loading of documents are host code: the model
    takes their results as given values of [HostEnv], of the factory and
    of the function [getLines].  What a disposed document does when it is
    used is host code too: the model says which pointers lead into a
    disposed component, not what a call through them returns.  Exceptions
    thrown by host calls (UNO exceptions of [loadFromDesktop], of the
    factory or of a dialog) are not modelled: the failures of the model
    are those the lines of the file raise themselves, a failed
    [CPPUNIT_ASSERT] and the use of a null pointer.  The
    lifetime of the dialogs ([ScopedVclPtr] in the third block of
    [openAnyDialog], which is switched off) is not modelled: a dialog has
    no state.  The numeric values of the which-ids are
    not in [src/]; theorems hold for every numbering that satisfies
    [SdAttrIds], and the witnesses use one such numbering.  What the
    registration macros expand to is CppUnit code; [Run] models what they
    declare, not the generated classes.  The lines of the file outside
    the map are the licence header, the includes and the using directive
    (lines 1-38), which have no behaviour. *)

From Stdlib Require Import ZArith Lia String.
From stdpp Require Import base tactics option list.

Declare Scope fx_scope.
Delimit Scope fx_scope with fx.

(** ** Outcomes of a member function *)

(** Why a call did not return: a [CPPUNIT_ASSERT] threw, or a null pointer
    was used.  [line] is the line of the source file. *)
Inductive Failure : Type :=
| AssertionFailed (line : N)
| NullDereference (line : N).

Inductive Outcome (A : Type) : Type :=
| Ok (a : A)
| Failed (f : Failure).

Arguments Ok {A} a.
Arguments Failed {A} f.

#[export] Instance Failure_eq_dec : EqDecision Failure.
Proof. solve_decision. Defined.

#[export] Instance Outcome_eq_dec {A} `{EqDecision A} : EqDecision (Outcome A).
Proof. solve_decision. Defined.

Definition is_ok {A} (o : Outcome A) : bool :=
  match o with Ok _ => true | Failed _ => false end.

Definition is_null_deref {A} (o : Outcome A) : bool :=
  match o with Failed (NullDereference _) => true | _ => false end.

Definition outcome_map {A B} (f : A -> B) (o : Outcome A) : Outcome B :=
  match o with Ok a => Ok (f a) | Failed e => Failed e end.

Definition to_option {A} (o : Outcome A) : option A :=
  match o with Ok a => Some a | Failed _ => None end.

(** The failure a call reports, if any. *)
Definition failure_of {A} (o : Outcome A) : list Failure :=
  match o with Ok _ => [] | Failed e => [e] end.

(** The outcome of [CPPUNIT_ASSERT(p)] at [line] for a pointer [p]. *)
Definition expect {A} (line : N) (p : option A) : Outcome A :=
  match p with Some a => Ok a | None => Failed (AssertionFailed line) end.

Definition outcome_bind {A B} (o : Outcome A) (k : A -> Outcome B) : Outcome B :=
  match o with Ok a => k a | Failed e => Failed e end.

(** ** The monad of member functions *)

Definition Fx (S A : Type) : Type := S -> Outcome A * S.

Section Monad.
Context {S : Type}.

Definition ret {A} (a : A) : Fx S A := fun s => (Ok a, s).

Definition bind {A B} (m : Fx S A) (k : A -> Fx S B) : Fx S B :=
  fun s =>
    match m s with
    | (Ok a, s') => k a s'
    | (Failed e, s') => (Failed e, s')
    end.

(** Read a member. *)
Definition gets {A} (f : S -> A) : Fx S A := fun s => (Ok (f s), s).

(** Assign a member. *)
Definition modify (f : S -> S) : Fx S unit := fun s => (Ok tt, f s).

(** [CPPUNIT_ASSERT(cond)] at [line]. *)
Definition CPPUNIT_ASSERT (line : N) (cond : bool) : Fx S unit :=
  fun s => if cond then (Ok tt, s) else (Failed (AssertionFailed line), s).

(** [CPPUNIT_ASSERT(p)] on a pointer, giving the object for the uses that
    follow the assertion. *)
Definition assert_ptr {A} (line : N) (p : option A) : Fx S A :=
  fun s =>
    match p with
    | Some a => (Ok a, s)
    | None => (Failed (AssertionFailed line), s)
    end.

(** [p->] or [*p] with no check before it. *)
Definition deref {A} (line : N) (p : option A) : Fx S A :=
  fun s =>
    match p with
    | Some a => (Ok a, s)
    | None => (Failed (NullDereference line), s)
    end.

End Monad.

Notation "x <- m ;; k" := (bind m (fun x => k))
  (at level 100, m at next level, right associativity) : fx_scope.
Notation "m ;;; k" := (bind m (fun _ => k))
  (at level 100, right associativity) : fx_scope.

Notation "'let*' x := o 'in' k" := (outcome_bind o (fun x => k))
  (at level 10, x name, o at level 100, k at level 200) : fx_scope.

#[global] Open Scope fx_scope.

(** ** Integer conversions *)

Definition to_uInt16 (z : Z) : Z := (z mod 2 ^ 16)%Z.
Definition to_uInt32 (z : Z) : Z := (z mod 2 ^ 32)%Z.

(** ** Tactics *)

(** Unfold the monad operations in the goal and in the context. *)
Ltac fx_unfold :=
  unfold bind, ret, gets, modify, CPPUNIT_ASSERT, assert_ptr, deref in *.

(** Split on the first [match] or [if] scrutinee of the goal. *)
Ltac fx_case :=
  match goal with
  | |- context [match ?x with _ => _ end] =>
      lazymatch x with
      | context [match _ with _ => _ end] => fail
      | _ => destruct x eqn:?
      end
  end.

Ltac fx_crush := fx_unfold; simpl in *; repeat (fx_case; simpl in *); try done.

(** ** Monad laws *)

Section Laws.
Context {S : Type}.
Implicit Types s : S.

Lemma bind_ret_l {A B} (a : A) (k : A -> Fx S B) s : bind (ret a) k s = k a s.
Proof. reflexivity. Qed.

Lemma bind_ret_r {A} (m : Fx S A) s : bind m ret s = m s.
Proof. unfold bind, ret. by destruct (m s) as [[?|?] ?]. Qed.

Lemma bind_assoc {A B C} (m : Fx S A) (k : A -> Fx S B) (h : B -> Fx S C) s :
  bind (bind m k) h s = bind m (fun a => bind (k a) h) s.
Proof. unfold bind. by destruct (m s) as [[?|?] ?]. Qed.

Lemma bind_ok {A B} (m : Fx S A) (k : A -> Fx S B) s a s' :
  m s = (Ok a, s') -> bind m k s = k a s'.
Proof. unfold bind. by intros ->. Qed.

Lemma bind_failed {A B} (m : Fx S A) (k : A -> Fx S B) s e s' :
  m s = (Failed e, s') -> bind m k s = (Failed e, s').
Proof. unfold bind. by intros ->. Qed.

(** A bind returns exactly when both halves do. *)
Lemma bind_ok_inv {A B} (m : Fx S A) (k : A -> Fx S B) s b s2 :
  bind m k s = (Ok b, s2) ->
  exists a s1, m s = (Ok a, s1) /\ k a s1 = (Ok b, s2).
Proof.
  unfold bind. destruct (m s) as [[a|e] s1]; [eauto | discriminate].
Qed.

Lemma bind_failed_inv {A B} (m : Fx S A) (k : A -> Fx S B) s e s2 :
  bind m k s = (Failed e, s2) ->
  m s = (Failed e, s2) \/
  exists a s1, m s = (Ok a, s1) /\ k a s1 = (Failed e, s2).
Proof.
  unfold bind. destruct (m s) as [[a|e'] s1]; [eauto | left; congruence].
Qed.

Lemma assert_ptr_Some {A} line (a : A) s : assert_ptr line (Some a) s = (Ok a, s).
Proof. reflexivity. Qed.

Lemma assert_ptr_None {A} line s :
  assert_ptr line (@None A) s = (Failed (AssertionFailed line), s).
Proof. reflexivity. Qed.

Lemma deref_Some {A} line (a : A) s : deref line (Some a) s = (Ok a, s).
Proof. reflexivity. Qed.

Lemma deref_None {A} line s :
  deref line (@None A) s = (Failed (NullDereference line), s).
Proof. reflexivity. Qed.

(** Running a bind whose first half is known. *)
Lemma bind_run {A B} (m : Fx S A) (k : A -> Fx S B) s o s' :
  m s = (o, s') ->
  bind m k s = match o with Ok a => k a s' | Failed e => (Failed e, s') end.
Proof. unfold bind. by intros ->. Qed.

Lemma failure_of_Failed {A} (o : Outcome A) e : e ∈ failure_of o <-> o = Failed e.
Proof.
  destruct o; simpl; [by split; [intros ?%elem_of_nil|]|].
  rewrite list_elem_of_singleton. split; congruence.
Qed.

Lemma to_option_expect {A} line (p : option A) : to_option (expect line p) = p.
Proof. by destruct p. Qed.

Lemma to_option_Some {A} (o : Outcome A) a : to_option o = Some a <-> o = Ok a.
Proof. destruct o; naive_solver. Qed.

Lemma assert_ptr_expect {A} line (p : option A) s :
  assert_ptr line p s = (expect line p, s).
Proof. by destruct p. Qed.

Lemma outcome_bind_ok {A B} (o : Outcome A) (k : A -> Outcome B) b :
  outcome_bind o k = Ok b <-> exists a, o = Ok a /\ k a = Ok b.
Proof.
  destruct o as [a|e]; simpl; split.
  - eauto.
  - by intros (? & [= <-] & ?).
  - done.
  - by intros (? & ? & _).
Qed.

End Laws.

Create HintDb fx discriminated.
Create Rewrite HintDb fx.
#[export] Hint Rewrite @bind_ret_l @assert_ptr_Some @assert_ptr_None
  @deref_Some @deref_None : fx.

(** ** Triples

    [triple P m Q E]: started in a state of [P], [m] either returns a value
    and a state in [Q], or fails with a failure and a state in [E]. *)

Section Triples.
Context {S : Type}.
Implicit Types (P : S -> Prop) (E : Failure -> S -> Prop).

Definition triple {A} P (m : Fx S A) (Q : A -> S -> Prop) E : Prop :=
  forall s, P s ->
    match m s with
    | (Ok a, s') => Q a s'
    | (Failed e, s') => E e s'
    end.

Lemma triple_ret {A} P (a : A) (Q : A -> S -> Prop) E :
  (forall s, P s -> Q a s) -> triple P (ret a) Q E.
Proof. intros H s Hs. by apply H. Qed.

Lemma triple_bind {A B} P (m : Fx S A) (k : A -> Fx S B) R Q E :
  triple P m R E ->
  (forall a, triple (R a) (k a) Q E) ->
  triple P (bind m k) Q E.
Proof.
  intros Hm Hk s Hs. specialize (Hm s Hs). unfold bind.
  destruct (m s) as [[a|e] s1]; [by apply Hk | done].
Qed.

Lemma triple_conseq {A} P P' (m : Fx S A) (Q Q' : A -> S -> Prop) E E' :
  triple P' m Q' E' ->
  (forall s, P s -> P' s) ->
  (forall a s, Q' a s -> Q a s) ->
  (forall e s, E' e s -> E e s) ->
  triple P m Q E.
Proof.
  intros Hm HP HQ HE s Hs. specialize (Hm s (HP s Hs)).
  destruct (m s) as [[a|e] s1]; auto.
Qed.

Lemma triple_gets {A} P (f : S -> A) (Q : A -> S -> Prop) E :
  (forall s, P s -> Q (f s) s) -> triple P (gets f) Q E.
Proof. intros H s Hs. by apply H. Qed.

Lemma triple_modify P (f : S -> S) (Q : unit -> S -> Prop) E :
  (forall s, P s -> Q tt (f s)) -> triple P (modify f) Q E.
Proof. intros H s Hs. by apply H. Qed.

Lemma triple_assert_ptr {A} P line (p : option A) (Q : A -> S -> Prop) E :
  (forall a s, p = Some a -> P s -> Q a s) ->
  (forall s, p = None -> P s -> E (AssertionFailed line) s) ->
  triple P (assert_ptr line p) Q E.
Proof. intros H1 H2 s Hs. destruct p; simpl; auto. Qed.

Lemma triple_deref {A} P line (p : option A) (Q : A -> S -> Prop) E :
  (forall a s, p = Some a -> P s -> Q a s) ->
  (forall s, p = None -> P s -> E (NullDereference line) s) ->
  triple P (deref line p) Q E.
Proof. intros H1 H2 s Hs. destruct p; simpl; auto. Qed.

(** What a triple says of one run. *)
Lemma triple_ok {A} P (m : Fx S A) Q E s a s' :
  triple P m Q E -> P s -> m s = (Ok a, s') -> Q a s'.
Proof. intros H Hs Hm. specialize (H s Hs). by rewrite Hm in H. Qed.

Lemma triple_failed {A} P (m : Fx S A) Q E s e s' :
  triple P m Q E -> P s -> m s = (Failed e, s') -> E e s'.
Proof. intros H Hs Hm. specialize (H s Hs). by rewrite Hm in H. Qed.

End Triples.

(** An invariant: a triple with the same predicate everywhere. *)
Definition preserves {S A} (I : S -> Prop) (m : Fx S A) : Prop :=
  triple I m (fun _ => I) (fun _ => I).

(** A failure that is a failed assertion, never a null pointer. *)
Definition assertion_only {S} (e : Failure) (_ : S) : Prop :=
  match e with AssertionFailed _ => True | NullDereference _ => False end.

(** [safe I m]: [m] keeps [I] whether it returns or throws, and when it
    fails an assertion failed: it uses no null pointer. *)
Definition safe {S A} (I : S -> Prop) (m : Fx S A) : Prop :=
  triple I m (fun _ => I) (fun e s => I s /\ assertion_only e s).

Section Safe.
Context {S : Type} (I : S -> Prop).

Lemma safe_ret {A} (a : A) : safe I (ret a).
Proof. by apply triple_ret. Qed.

Lemma safe_gets {A} (g : S -> A) : safe I (gets g).
Proof. by apply triple_gets. Qed.

Lemma safe_modify (f : S -> S) : (forall s, I s -> I (f s)) -> safe I (modify f).
Proof. intros H. by apply triple_modify. Qed.

Lemma safe_assert_ptr {A} line (p : option A) : safe I (assert_ptr line p).
Proof. by apply triple_assert_ptr. Qed.

Lemma safe_bind {A B} (m : Fx S A) (k : A -> Fx S B) :
  safe I m -> (forall a, safe I (k a)) -> safe I (bind m k).
Proof. intros Hm Hk. eapply triple_bind; [apply Hm|apply Hk]. Qed.

(** A pointer member that [I] says is set, read and used at once: the
    dereference cannot fail. *)
Lemma safe_gets_deref {A} (g : S -> option A) line :
  (forall s, I s -> is_Some (g s)) -> safe I (p <- gets g ;; deref line p).
Proof.
  intros H. eapply triple_bind with (R := fun p s => I s /\ p = g s).
  - by apply triple_gets.
  - intros p. apply triple_deref; [by intros a s _ [? _]|].
    intros s -> [Hs Hp]. destruct (H s Hs) as [a Ha]. congruence.
Qed.

Lemma safe_gets_deref_bind {A B} (g : S -> option A) line (k : A -> Fx S B) :
  (forall s, I s -> is_Some (g s)) -> (forall a, safe I (k a)) ->
  safe I (p <- gets g ;; a <- deref line p ;; k a).
Proof.
  intros H Hk s Hs. cbv [bind gets deref]. destruct (H s Hs) as [a ->].
  apply (Hk a s Hs).
Qed.

(** A pointer member assigned a non-null value and used right after. *)
Lemma safe_modify_deref {A} (f : S -> S) (g : S -> option A) line :
  (forall s, I s -> I (f s)) -> (forall s, is_Some (g (f s))) ->
  safe I (modify f ;;; p <- gets g ;; deref line p).
Proof.
  intros Hf Hg s Hs. cbv [bind modify gets deref]. destruct (Hg s) as [a ->].
  by apply Hf.
Qed.

Lemma safe_state {A} (m : Fx S A) s : safe I m -> I s -> I (snd (m s)).
Proof.
  intros H Hs. specialize (H s Hs). destruct (m s) as [[a|e] s']; [done|by destruct H].
Qed.

End Safe.

#[export] Hint Resolve triple_ret triple_gets triple_modify : fx.
#[export] Hint Resolve safe_ret safe_gets safe_assert_ptr : fx.

(** One step of a proof of [safe]: the rule of the statement at the head of
    the goal; [keep] proves that an assignment keeps the invariant and that
    the invariant makes a member non-null. *)
Ltac safe_step keep :=
  first
    [ apply safe_ret
    | apply safe_gets
    | apply safe_assert_ptr
    | apply safe_modify; solve [keep]
    | apply safe_gets_deref; solve [keep]
    | apply safe_gets_deref_bind; [solve [keep]|intros ?]
    | apply safe_modify_deref; [solve [keep]|by eexists]
    | solve [eauto with fx]
    | apply safe_bind; [|intros ?]
    | progress cbv zeta
    | match goal with
      | |- safe _ (match ?p with Some _ => _ | None => _ end) => destruct p
      end ].

Ltac triple_step :=
  first
    [ eapply triple_bind
    | eapply triple_ret
    | eapply triple_gets
    | eapply triple_modify
    | eapply triple_assert_ptr
    | eapply triple_deref ].

(** ** Outcomes that use no null pointer *)

Section NoNull.
Context {A B : Type}.

Definition no_null (o : Outcome A) : Prop := is_null_deref o = false.

Lemma no_null_Ok (a : A) : no_null (Ok a).
Proof. done. Qed.

Lemma no_null_expect line (p : option A) : no_null (expect line p).
Proof. by destruct p. Qed.

Lemma no_null_spec (o : Outcome A) :
  no_null o <-> forall line, o <> Failed (NullDereference line).
Proof.
  unfold no_null. destruct o as [a|[l|l]]; simpl; split; try done.
  intros H. by destruct (H l).
Qed.

End NoNull.

Lemma no_null_bind {A B} (o : Outcome A) (k : A -> Outcome B) :
  no_null o -> (forall a, no_null (k a)) -> no_null (outcome_bind o k).
Proof. destruct o as [a|[l|l]]; simpl; auto. Qed.

Lemma no_null_map {A B} (f : A -> B) (o : Outcome A) :
  no_null o -> no_null (outcome_map f o).
Proof. by destruct o as [a|[l|l]]. Qed.

Lemma safe_no_null {S A} (I : S -> Prop) (m : Fx S A) s :
  safe I m -> I s -> no_null (fst (m s)).
Proof.
  intros H Hs. specialize (H s Hs). destruct (m s) as [[a|[l|l]] s']; try done.
  by destruct H.
Qed.

#[export] Hint Resolve no_null_Ok no_null_expect : fx.

(** Show that a chain of [let*] uses no null pointer. *)
Ltac no_null_tac :=
  repeat first
    [ apply no_null_Ok
    | apply no_null_expect
    | apply no_null_bind; [|intros ?]
    | solve [eauto with fx] ].

(** ** Outcomes that fail at known lines only

    [fails_in ls o]: [o] is a result, or the failure of an assertion at one
    of the lines [ls]. *)

Definition fails_in {A} (ls : list N) (o : Outcome A) : Prop :=
  match o with
  | Ok _ => True
  | Failed (AssertionFailed l) => l ∈ ls
  | Failed (NullDereference _) => False
  end.

(** Membership in a list of literals. *)
Ltac line_in := apply (bool_decide_unpack _); by vm_compute.

Section FailsIn.
Context {A B : Type}.
Implicit Types (ls : list N) (o : Outcome A).

Lemma fails_in_Ok ls (a : A) : fails_in ls (Ok a).
Proof. done. Qed.

Lemma fails_in_expect ls line (p : option A) : line ∈ ls -> fails_in ls (expect line p).
Proof. by destruct p. Qed.

Lemma fails_in_bind ls o (k : A -> Outcome B) :
  fails_in ls o -> (forall a, fails_in ls (k a)) -> fails_in ls (outcome_bind o k).
Proof. destruct o as [a|[l|l]]; simpl; auto. Qed.

Lemma fails_in_map ls (f : A -> B) o : fails_in ls o -> fails_in ls (outcome_map f o).
Proof. by destruct o as [a|[l|l]]. Qed.

Lemma fails_in_mono ls ls' o : ls ⊆ ls' -> fails_in ls o -> fails_in ls' o.
Proof. intros H. destruct o as [a|[l|l]]; simpl; auto. Qed.

Lemma fails_in_no_null ls o : fails_in ls o -> no_null o.
Proof. by destruct o as [a|[l|l]]. Qed.

Lemma fails_in_nil o : fails_in [] o -> is_ok o = true.
Proof. destruct o as [a|[l|l]]; simpl; [done| |done]. by intros ?%elem_of_nil. Qed.

Lemma fails_in_Failed ls o e :
  fails_in ls o -> o = Failed e -> exists l, e = AssertionFailed l /\ l ∈ ls.
Proof. intros H ->. destruct e as [l|l]; [by exists l | done]. Qed.

End FailsIn.

(** Show that a chain of [let*] fails at lines of the list only. *)
Ltac fails_in_tac :=
  repeat first
    [ apply fails_in_Ok
    | apply fails_in_expect; line_in
    | apply fails_in_bind; [|intros ?] ].

(** ** Facts on the integer conversions *)

Lemma to_uInt16_range z : (0 <= to_uInt16 z < 65536)%Z.
Proof. unfold to_uInt16. change (2 ^ 16)%Z with 65536%Z. apply Z.mod_pos_bound. lia. Qed.

Lemma to_uInt32_range z : (0 <= to_uInt32 z < 4294967296)%Z.
Proof.
  unfold to_uInt32. change (2 ^ 32)%Z with 4294967296%Z. apply Z.mod_pos_bound. lia.
Qed.

Lemma to_uInt16_small z : (0 <= z < 65536)%Z -> to_uInt16 z = z.
Proof. intros. unfold to_uInt16. change (2 ^ 16)%Z with 65536%Z. by apply Z.mod_small. Qed.

Lemma to_uInt32_small z : (0 <= z < 4294967296)%Z -> to_uInt32 z = z.
Proof.
  intros. unfold to_uInt32. change (2 ^ 32)%Z with 4294967296%Z. by apply Z.mod_small.
Qed.

Lemma to_uInt32_idemp z : to_uInt32 (to_uInt32 z) = to_uInt32 z.
Proof. apply to_uInt32_small, to_uInt32_range. Qed.

(** A negative [sal_Int32] converts to its two's complement. *)
Lemma to_uInt32_neg z :
  (-4294967296 <= z < 0)%Z -> to_uInt32 z = (z + 4294967296)%Z.
Proof.
  intros. unfold to_uInt32. change (2 ^ 32)%Z with 4294967296%Z.
  symmetry. apply (Z.mod_unique _ _ (-1)); lia.
Qed.

(** ** Facts on lists shared by the components *)

Lemma head_filter_Some {A} (P : A -> bool) (l : list A) x :
  head (List.filter P l) = Some x -> P x = true /\ In x l.
Proof.
  induction l as [|y l IH]; simpl; [done|].
  destruct (P y) eqn:Hy; simpl.
  - intros [= ->]. auto.
  - intros H. destruct (IH H). auto.
Qed.

Lemma head_filter_None {A} (P : A -> bool) (l : list A) :
  head (List.filter P l) = None <-> forall x, In x l -> P x = false.
Proof.
  induction l as [|y l IH]; simpl; [naive_solver|].
  destruct (P y) eqn:Hy; simpl.
  - split; [done | intros H; specialize (H y (or_introl eq_refl)); congruence].
  - rewrite IH. split; [intros H x [<-|Hx]; auto | auto].
Qed.

(** ** The order of strings *)

(** [OString] keys of a [std::map] are ordered byte by byte; [String.leb]
    is that order, and it is transitive and total. *)
Lemma string_leb_trans s1 s2 s3 :
  String.leb s1 s2 = true -> String.leb s2 s3 = true -> String.leb s1 s3 = true.
Proof.
  unfold String.leb. revert s2 s3.
  induction s1 as [|a s1 IH]; intros [|b s2] [|c s3]; simpl; try done.
  unfold Ascii.compare. intros H1 H2.
  destruct (N.compare_spec (Ascii.N_of_ascii a) (Ascii.N_of_ascii b)) as [E1|L1|L1];
    [| |done];
    (destruct (N.compare_spec (Ascii.N_of_ascii b) (Ascii.N_of_ascii c)) as [E2|L2|L2];
     [| |done]).
  - rewrite E1, E2, N.compare_refl. by eapply IH.
  - by rewrite (proj2 (N.compare_lt_iff _ _)) by lia.
  - by rewrite (proj2 (N.compare_lt_iff _ _)) by lia.
  - by rewrite (proj2 (N.compare_lt_iff _ _)) by lia.
Qed.

#[export] Instance string_leb_transitive :
  Transitive (fun s1 s2 : String.string => String.leb s1 s2).
Proof.
  intros s1 s2 s3 H1%Is_true_true H2%Is_true_true. apply Is_true_true.
  by eapply string_leb_trans.
Qed.

#[export] Instance string_leb_total : Total (fun s1 s2 : String.string => String.leb s1 s2).
Proof.
  intros s1 s2. destruct (String.leb_total s1 s2) as [H|H]; [left|right];
    by apply Is_true_true.
Qed.
