(* ===== verification/Protocol.v ===== *)
(** * The protocol of CppUnit

    The order in which CppUnit drives a fixture: the constructor, [setUp],
    the test body and [tearDown].  [SdDialogsTest] overrides [setUp] and
    [tearDown] (lines 79 and 81); the runner calls them through the object.
    This file holds the protocol for any fixture: the interface
    [TestFixture] of the two functions, the run as the step relation [step]
    and as the function [run_test], and what holds of every run whatever
    the fixture does: a state has one next state, a run ends, and it ends
    with [tearDown].

    CppUnit is outside [src/]; the protocol is modelled from what the
    specification says of the harness, and [tearDown] runs whether or not
    [setUp] returned.  A test body is a list of items of work, each run by
    [exec]; a failure of [setUp] or of an item ends the body.

    The lemmas of this file hold of the protocol for any fixture.  They
    are what the theorems on the runs of [SdDialogsTest] use to pass from
    the function to the relation; none of them is a property of that
    fixture. *)

From Stdlib Require Import ZArith Lia.
From stdpp Require Import base tactics option list relations.
From S2P Require Import Prelude.

(** ** The interface and the state of a run *)

(** The member functions of [CppUnit::TestFixture] a fixture with the state
    [S] overrides. *)
Class TestFixture (S : Type) : Type := {
  virtual_setUp : Fx S unit;
  virtual_tearDown : Fx S unit
}.

(** Where a run stands: the object is constructed; [setUp] returned and
    the items [pending] of the body are still to run; the test body
    returned or threw and [tearDown] is due; [tearDown] was called. *)
Inductive Phase (W : Type) : Type :=
| Constructed
| Running (pending : list W)
| Stopped
| TornDown.

Arguments Constructed {W}.
Arguments Running {W} pending.
Arguments Stopped {W}.
Arguments TornDown {W}.

#[export] Instance Phase_eq_dec {W} `{EqDecision W} : EqDecision (Phase W).
Proof. solve_decision. Defined.

(** A run: its phase, the object, and the failures reported so far. *)
Record Config (S W : Type) : Type := {
  phase : Phase W;
  object : S;
  failures : list Failure
}.

Arguments phase {S W} _.
Arguments object {S W} _.
Arguments failures {S W} _.

(** ** The run *)

Section Protocol.
Context {S W : Type} `{TF : TestFixture S}.

(** What the test body does with one item of its work. *)
Variable exec : W -> Fx S unit.

(** The items of a body, in order, up to the first that fails. *)
Fixpoint run_work (work : list W) : Fx S unit :=
  match work with
  | [] => ret tt
  | w :: work => exec w ;;; run_work work
  end.

(** One step of the run of a body with the items [work]. *)
Inductive step (work : list W) : Config S W -> Config S W -> Prop :=
| step_setUp_ok s s' fs :
    virtual_setUp s = (Ok tt, s') ->
    step work {| phase := Constructed; object := s; failures := fs |}
              {| phase := Running work; object := s'; failures := fs |}
| step_setUp_failed s s' e fs :
    virtual_setUp s = (Failed e, s') ->
    step work {| phase := Constructed; object := s; failures := fs |}
              {| phase := Stopped; object := s'; failures := fs ++ [e] |}
| step_line_ok w ws s s' fs :
    exec w s = (Ok tt, s') ->
    step work {| phase := Running (w :: ws); object := s; failures := fs |}
              {| phase := Running ws; object := s'; failures := fs |}
| step_line_failed w ws s s' e fs :
    exec w s = (Failed e, s') ->
    step work {| phase := Running (w :: ws); object := s; failures := fs |}
              {| phase := Stopped; object := s'; failures := fs ++ [e] |}
| step_body_done s fs :
    step work {| phase := Running []; object := s; failures := fs |}
              {| phase := Stopped; object := s; failures := fs |}
| step_tearDown_ok s s' fs :
    virtual_tearDown s = (Ok tt, s') ->
    step work {| phase := Stopped; object := s; failures := fs |}
              {| phase := TornDown; object := s'; failures := fs |}
| step_tearDown_failed s s' e fs :
    virtual_tearDown s = (Failed e, s') ->
    step work {| phase := Stopped; object := s; failures := fs |}
              {| phase := TornDown; object := s'; failures := fs ++ [e] |}.

(** The run of one test as a function: [setUp], the test body when [setUp]
    returned, and [tearDown] in every case. *)
Definition run_test (body : Fx S unit) (s : S) : list Failure * S :=
  let '(o1, s1) := virtual_setUp s in
  let '(o2, s2) :=
    match o1 with
    | Ok _ => body s1
    | Failed _ => (Ok tt, s1)
    end in
  let '(o3, s3) := virtual_tearDown s2 in
  (failure_of o1 ++ failure_of o2 ++ failure_of o3, s3).

(** The steps still to take, at most: the termination measure. *)
Definition remaining (work : list W) (c : Config S W) : nat :=
  match phase c with
  | Constructed => length work + 3
  | Running pending => length pending + 2
  | Stopped => 1
  | TornDown => 0
  end.

End Protocol.

(** ** Facts on every run *)

Section ProtocolFacts.
Context {S W : Type} `{TF : TestFixture S}.
Variables (exec : W -> Fx S unit) (work : list W).
Implicit Types (s : S) (c : Config S W) (fs : list Failure).

(** The items of a body, one step each. *)
Lemma run_work_steps ws s fs :
  rtc (step exec work)
    {| phase := Running ws; object := s; failures := fs |}
    {| phase := Stopped; object := snd (run_work exec ws s);
       failures := fs ++ failure_of (fst (run_work exec ws s)) |}.
Proof.
  revert s. induction ws as [|w ws IH]; intros s; simpl.
  - rewrite app_nil_r. apply rtc_once. constructor.
  - unfold bind. destruct (exec w s) as [[[]|e] s1] eqn:E.
    + eapply rtc_l; [by apply step_line_ok|]. apply IH.
    + apply rtc_once. by apply step_line_failed.
Qed.

(** Each step lowers the measure, and every state before the end of
    [tearDown] has a next step. *)
Lemma step_remaining c c' : step exec work c c' -> remaining work c' < remaining work c.
Proof. intros []; unfold remaining; simpl; lia. Qed.

Lemma phase_TornDown_dec c : {phase c = TornDown} + {phase c <> TornDown}.
Proof. destruct (phase c); by (left + right). Qed.

Lemma step_progress c : phase c <> TornDown -> exists c', step exec work c c'.
Proof.
  destruct c as [[|[|w ws]| |] s fs]; intros H; simpl in H; [| | | |done].
  - destruct (virtual_setUp s) as [[[]|e] s'] eqn:E; eexists;
      [by apply step_setUp_ok|by apply step_setUp_failed].
  - eexists. apply step_body_done.
  - destruct (exec w s) as [[[]|e] s'] eqn:E; eexists;
      [by apply step_line_ok|by apply step_line_failed].
  - destruct (virtual_tearDown s) as [[[]|e] s'] eqn:E; eexists;
      [by apply step_tearDown_ok|by apply step_tearDown_failed].
Qed.

(** A state of a run has at most one next state. *)
Lemma step_det c c1 c2 : step exec work c c1 -> step exec work c c2 -> c1 = c2.
Proof. intros H1 H2. destruct H1; inversion H2; subst; try done; congruence. Qed.

(** The steps of [run_test], for a body that runs the items [work]. *)
Lemma run_test_rtc body s :
  (forall s1, body s1 = run_work exec work s1) ->
  rtc (step exec work)
    {| phase := Constructed; object := s; failures := [] |}
    {| phase := TornDown; object := snd (run_test body s);
       failures := fst (run_test body s) |}.
Proof.
  intros Hbody. unfold run_test. destruct (virtual_setUp s) as [[[]|e] s1] eqn:E1.
  - eapply rtc_l; [by apply step_setUp_ok|]. rewrite Hbody.
    etrans; [apply run_work_steps|]. simpl. apply rtc_once.
    destruct (run_work exec work s1) as [o2 s2]. simpl.
    destruct (virtual_tearDown s2) as [[[]|e3] s3] eqn:E3; simpl.
    + rewrite app_nil_r. by apply step_tearDown_ok.
    + by apply step_tearDown_failed.
  - eapply rtc_l; [by apply step_setUp_failed|]. apply rtc_once.
    destruct (virtual_tearDown s1) as [[[]|e3] s3] eqn:E3; simpl.
    + by apply step_tearDown_ok.
    + by apply (step_tearDown_failed exec work s1 s3 e3 [e]).
Qed.

(** The run depends on what the body does, not on how it is written. *)
Lemma run_test_ext body body' s :
  (forall s1, body s1 = body' s1) -> run_test body s = run_test body' s.
Proof. intros H. unfold run_test. destruct (virtual_setUp s) as [[[]|e] s1]; by rewrite ?H. Qed.

(** Two runs from one state that can both go no further end in the same
    state. *)
Lemma step_confluent c c1 c2 :
  rtc (step exec work) c c1 -> rtc (step exec work) c c2 ->
  nf (step exec work) c1 -> nf (step exec work) c2 -> c1 = c2.
Proof.
  intros H1. revert c2. induction H1 as [c|c c' c1 Hs H1 IH]; intros c2 H2 N1 N2.
  - destruct H2 as [|c c' c2 Hs' _]; [done|]. destruct N1. by exists c'.
  - destruct H2 as [|c c'' c2 Hs' H2]; [destruct N2; by exists c'|].
    rewrite <- (step_det _ _ _ Hs Hs') in H2. by apply IH.
Qed.

Lemma TornDown_nf c : phase c = TornDown -> nf (step exec work) c.
Proof. intros H [c' Hs]. destruct Hs; discriminate H. Qed.

(** No infinite run. *)
Lemma step_sn c : sn (step exec work) c.
Proof.
  remember (remaining work c) as n eqn:E. revert c E.
  induction (lt_wf n) as [n _ IH]. intros c ->. constructor. intros c' Hstep.
  eapply IH; [|done]. by apply step_remaining.
Qed.

(** The end of [tearDown] is reached within [remaining] steps. *)
Lemma step_reaches_TornDown n c :
  remaining work c <= n ->
  exists c', bsteps (step exec work) n c c' /\ phase c' = TornDown.
Proof.
  revert c. induction n as [|n IH]; intros c Hn.
  - exists c. split; [constructor|]. destruct c as [[] s fs]; unfold remaining in Hn;
      simpl in *; [lia..|done].
  - destruct (phase_TornDown_dec c) as [H|H].
    + exists c. split; [constructor|done].
    + destruct (step_progress c H) as [c1 H1].
      destruct (IH c1) as (c' & H2 & H3).
      { pose proof (step_remaining c c1 H1). lia. }
      exists c'. split; [by eapply bsteps_l|done].
Qed.

(** A run that can go no further has ended in the state [run_test]
    computes. *)
Lemma run_test_unique body s c :
  (forall s1, body s1 = run_work exec work s1) ->
  rtc (step exec work) {| phase := Constructed; object := s; failures := [] |} c ->
  nf (step exec work) c ->
  c = {| phase := TornDown; object := snd (run_test body s);
         failures := fst (run_test body s) |}.
Proof.
  intros Hbody Hc Hnf. eapply step_confluent; [exact Hc|by apply run_test_rtc|done|].
  by apply TornDown_nf.
Qed.

End ProtocolFacts.
