(* ===== verification/ItemSet.v ===== *)
(** * Attribute sets

    The attribute sets ([SfxItemSet]) the fixture builds and hands to the
    dialogs, with the names of the which-ids the fixture uses.  The classes
    are library code outside [src/]; the model is the one of the
    specification's glossary: a mapping from attribute ID to typed value,
    scoped to ranges of IDs.  An item put outside the ranges is dropped. *)

From Stdlib Require Import ZArith Lia.
From stdpp Require Import base tactics option list strings gmap.
From S2P Require Import Prelude.

#[local] Open Scope N_scope.

(** ** Names of which-ids *)

(** The macros of [sdattr.hrc] and [xdef.hxx] that the fixture names,
    directly or through the [makeSdAttrLayer...] helpers. *)
Inductive AttrName : Type :=
| XATTR_FILL_FIRST | XATTR_FILLSTYLE | XATTR_FILL_LAST
| ATTR_SNAPLINE_START | ATTR_SNAPLINE_X | ATTR_SNAPLINE_Y | ATTR_SNAPLINE_END
| ATTR_LAYER_START | ATTR_LAYER_NAME | ATTR_LAYER_VISIBLE | ATTR_LAYER_PRINTABLE
| ATTR_LAYER_LOCKED | ATTR_LAYER_THISPAGE | ATTR_LAYER_TITLE | ATTR_LAYER_DESC
| ATTR_LAYER_END
| ATTR_PRESENT_START | ATTR_PRESENT_ALL | ATTR_PRESENT_CUSTOMSHOW
| ATTR_PRESENT_DIANAME | ATTR_PRESENT_ENDLESS | ATTR_PRESENT_MANUEL
| ATTR_PRESENT_MOUSE | ATTR_PRESENT_PEN | ATTR_PRESENT_ANIMATION_ALLOWED
| ATTR_PRESENT_CHANGE_PAGE | ATTR_PRESENT_ALWAYS_ON_TOP | ATTR_PRESENT_FULLSCREEN
| ATTR_PRESENT_PAUSE_TIMEOUT | ATTR_PRESENT_SHOW_PAUSELOGO
| ATTR_PRESENT_INTERACTIVE | ATTR_PRESENT_DISPLAY | ATTR_PRESENT_END
| ATTR_ANIMATION_START | ATTR_ANIMATION_ACTIVE | ATTR_ANIMATION_EFFECT
| ATTR_ANIMATION_TEXTEFFECT | ATTR_ANIMATION_SPEED | ATTR_ANIMATION_FADEOUT
| ATTR_ANIMATION_COLOR | ATTR_ANIMATION_INVISIBLE | ATTR_ANIMATION_SOUNDON
| ATTR_ANIMATION_SOUNDFILE | ATTR_ANIMATION_PLAYFULL
| ATTR_ACTION | ATTR_ACTION_FILENAME | ATTR_ACTION_EFFECT
| ATTR_ACTION_EFFECTSPEED | ATTR_ACTION_SOUNDON | ATTR_ACTION_PLAYFULL
| ATTR_ACTION_END.

#[export] Instance AttrName_eq_dec : EqDecision AttrName.
Proof. solve_decision. Defined.

(** The ranges the fixture passes to [svl::Items<first, last>]. *)
Inductive AttrGroup : Type :=
| FillGroup | SnapLineGroup | LayerGroup | PresentGroup | AnimationActionGroup.

#[export] Instance AttrGroup_eq_dec : EqDecision AttrGroup.
Proof. solve_decision. Defined.

Definition group_first (g : AttrGroup) : AttrName :=
  match g with
  | FillGroup => XATTR_FILL_FIRST
  | SnapLineGroup => ATTR_SNAPLINE_START
  | LayerGroup => ATTR_LAYER_START
  | PresentGroup => ATTR_PRESENT_START
  | AnimationActionGroup => ATTR_ANIMATION_START
  end.

Definition group_last (g : AttrGroup) : AttrName :=
  match g with
  | FillGroup => XATTR_FILL_LAST
  | SnapLineGroup => ATTR_SNAPLINE_END
  | LayerGroup => ATTR_LAYER_END
  | PresentGroup => ATTR_PRESENT_END
  | AnimationActionGroup => ATTR_ACTION_END
  end.

Definition group_of (a : AttrName) : AttrGroup :=
  match a with
  | XATTR_FILL_FIRST | XATTR_FILLSTYLE | XATTR_FILL_LAST => FillGroup
  | ATTR_SNAPLINE_START | ATTR_SNAPLINE_X | ATTR_SNAPLINE_Y | ATTR_SNAPLINE_END =>
      SnapLineGroup
  | ATTR_LAYER_START | ATTR_LAYER_NAME | ATTR_LAYER_VISIBLE | ATTR_LAYER_PRINTABLE
  | ATTR_LAYER_LOCKED | ATTR_LAYER_THISPAGE | ATTR_LAYER_TITLE | ATTR_LAYER_DESC
  | ATTR_LAYER_END => LayerGroup
  | ATTR_PRESENT_START | ATTR_PRESENT_ALL | ATTR_PRESENT_CUSTOMSHOW
  | ATTR_PRESENT_DIANAME | ATTR_PRESENT_ENDLESS | ATTR_PRESENT_MANUEL
  | ATTR_PRESENT_MOUSE | ATTR_PRESENT_PEN | ATTR_PRESENT_ANIMATION_ALLOWED
  | ATTR_PRESENT_CHANGE_PAGE | ATTR_PRESENT_ALWAYS_ON_TOP | ATTR_PRESENT_FULLSCREEN
  | ATTR_PRESENT_PAUSE_TIMEOUT | ATTR_PRESENT_SHOW_PAUSELOGO
  | ATTR_PRESENT_INTERACTIVE | ATTR_PRESENT_DISPLAY | ATTR_PRESENT_END => PresentGroup
  | _ => AnimationActionGroup
  end.

(** The names that denote one item each; the others ([..._START], [..._END],
    [..._FIRST], [..._LAST]) are bounds of a range and may coincide with the
    first or last item. *)
Definition item_names : list AttrName :=
  [ XATTR_FILLSTYLE; ATTR_SNAPLINE_X; ATTR_SNAPLINE_Y;
    ATTR_LAYER_NAME; ATTR_LAYER_VISIBLE; ATTR_LAYER_PRINTABLE; ATTR_LAYER_LOCKED;
    ATTR_LAYER_THISPAGE; ATTR_LAYER_TITLE; ATTR_LAYER_DESC;
    ATTR_PRESENT_ALL; ATTR_PRESENT_CUSTOMSHOW; ATTR_PRESENT_DIANAME;
    ATTR_PRESENT_ENDLESS; ATTR_PRESENT_MANUEL; ATTR_PRESENT_MOUSE; ATTR_PRESENT_PEN;
    ATTR_PRESENT_ANIMATION_ALLOWED; ATTR_PRESENT_CHANGE_PAGE;
    ATTR_PRESENT_ALWAYS_ON_TOP; ATTR_PRESENT_FULLSCREEN; ATTR_PRESENT_PAUSE_TIMEOUT;
    ATTR_PRESENT_SHOW_PAUSELOGO; ATTR_PRESENT_INTERACTIVE; ATTR_PRESENT_DISPLAY;
    ATTR_ANIMATION_ACTIVE; ATTR_ANIMATION_EFFECT; ATTR_ANIMATION_TEXTEFFECT;
    ATTR_ANIMATION_SPEED; ATTR_ANIMATION_FADEOUT; ATTR_ANIMATION_COLOR;
    ATTR_ANIMATION_INVISIBLE; ATTR_ANIMATION_SOUNDON; ATTR_ANIMATION_SOUNDFILE;
    ATTR_ANIMATION_PLAYFULL; ATTR_ACTION; ATTR_ACTION_FILENAME; ATTR_ACTION_EFFECT;
    ATTR_ACTION_EFFECTSPEED; ATTR_ACTION_SOUNDON; ATTR_ACTION_PLAYFULL ].

Definition is_item (a : AttrName) : bool := bool_decide (a ∈ item_names).

(** What the fixture relies on of the numbering of the which-ids: every
    name lies inside the range of its group, distinct items have distinct
    ids, and an id is a [sal_uInt16]. *)
Class SdAttrIds : Type := {
  which : AttrName -> N;
  which_in_group a :
    which (group_first (group_of a)) <= which a <= which (group_last (group_of a));
  which_NoDup : NoDup (which <$> item_names);
  which_uInt16 a : which a < 65536
}.

(** ** Items *)

Inductive FillStyle : Type :=
| FillStyle_NONE | FillStyle_SOLID | FillStyle_GRADIENT | FillStyle_HATCH
| FillStyle_BITMAP.

(** A colour as its RGB number. *)
Definition Color : Type := N.
Definition COL_LIGHTGRAY : Color := 0xC0C0C0.

Inductive ItemValue : Type :=
| VBool (b : bool)
| VInt32 (z : Z)
| VUInt32 (z : Z)
| VUInt16 (z : Z)
| VString (s : string)
| VFillStyle (f : FillStyle)
| VColor (c : Color).

#[export] Instance FillStyle_eq_dec : EqDecision FillStyle.
Proof. solve_decision. Defined.

#[export] Instance ItemValue_eq_dec : EqDecision ItemValue.
Proof. solve_decision. Defined.

(** An item: a value under a which-id. *)
Record SfxPoolItem : Type := { Which : N; Value : ItemValue }.

#[export] Instance SfxPoolItem_eq_dec : EqDecision SfxPoolItem.
Proof. solve_decision. Defined.

Definition SfxBoolItem (w : N) (b : bool) : SfxPoolItem :=
  {| Which := w; Value := VBool b |}.
Definition SfxInt32Item (w : N) (z : Z) : SfxPoolItem :=
  {| Which := w; Value := VInt32 z |}.
Definition SfxUInt32Item (w : N) (z : Z) : SfxPoolItem :=
  {| Which := w; Value := VUInt32 z |}.
Definition SfxUInt16Item (w : N) (z : Z) : SfxPoolItem :=
  {| Which := w; Value := VUInt16 z |}.
Definition SfxStringItem (w : N) (s : string) : SfxPoolItem :=
  {| Which := w; Value := VString s |}.
(** [SvxColorItem] takes the colour first. *)
Definition SvxColorItem (c : Color) (w : N) : SfxPoolItem :=
  {| Which := w; Value := VColor c |}.

(** ** Sets of items *)

(** A slot of a set: an item, or the mark left by [InvalidateItem]. *)
Inductive ItemSlot : Type :=
| SlotSet (v : ItemValue)
| SlotInvalid.

#[export] Instance ItemSlot_eq_dec : EqDecision ItemSlot.
Proof. solve_decision. Defined.

(** The pool of a document, as the ranges of which-ids it knows. *)
Record SfxItemPool : Type := { GetMergedIdRanges : list (N * N) }.

#[export] Instance SfxItemPool_eq_dec : EqDecision SfxItemPool.
Proof. solve_decision. Defined.

Record SfxItemSet : Type := {
  GetPool : SfxItemPool;
  GetRanges : list (N * N);
  GetItems : gmap N ItemSlot
}.

#[export] Instance SfxItemSet_eq_dec : EqDecision SfxItemSet.
Proof. solve_decision. Defined.

Inductive SfxItemState : Type :=
| UNKNOWN | DEFAULT | INVALID | SET.

#[export] Instance SfxItemState_eq_dec : EqDecision SfxItemState.
Proof. solve_decision. Defined.

Definition in_range (w : N) (r : N * N) : bool := (r.1 <=? w) && (w <=? r.2).

Definition in_ranges (w : N) (rs : list (N * N)) : bool := existsb (in_range w) rs.

(** [SfxItemSet(rPool)]: the whole range of the pool, no item. *)
Definition SfxItemSet_of_pool (p : SfxItemPool) : SfxItemSet :=
  {| GetPool := p; GetRanges := GetMergedIdRanges p; GetItems := ∅ |}.

(** [SfxItemSet(rPool, svl::Items<first, last>)]. *)
Definition SfxItemSet_of_range (p : SfxItemPool) (first last : N) : SfxItemSet :=
  {| GetPool := p; GetRanges := [(first, last)]; GetItems := ∅ |}.

Definition set_slot (w : N) (sl : ItemSlot) (s : SfxItemSet) : SfxItemSet :=
  if in_ranges w (GetRanges s)
  then {| GetPool := GetPool s; GetRanges := GetRanges s;
          GetItems := <[w := sl]> (GetItems s) |}
  else s.

Definition Put (it : SfxPoolItem) (s : SfxItemSet) : SfxItemSet :=
  set_slot (Which it) (SlotSet (Value it)) s.

Definition InvalidateItem (w : N) (s : SfxItemSet) : SfxItemSet :=
  set_slot w SlotInvalid s.

(** A sequence of [Put]s and [InvalidateItem]s, by the slot each assigns. *)
Definition set_slots (ops : list (N * ItemSlot)) (s : SfxItemSet) : SfxItemSet :=
  foldl (fun s op => set_slot op.1 op.2 s) s ops.

Definition GetItemState (w : N) (s : SfxItemSet) : SfxItemState :=
  match GetItems s !! w with
  | Some (SlotSet _) => SET
  | Some SlotInvalid => INVALID
  | None => if in_ranges w (GetRanges s) then DEFAULT else UNKNOWN
  end.

Definition GetItem (w : N) (s : SfxItemSet) : option ItemValue :=
  match GetItems s !! w with
  | Some (SlotSet v) => Some v
  | _ => None
  end.

(** The number of slots that are set or invalidated. *)
Definition Count (s : SfxItemSet) : nat := size (GetItems s).

(** Every slot lies inside the ranges. *)
Definition slots_in_ranges (s : SfxItemSet) : Prop :=
  forall w sl, GetItems s !! w = Some sl -> in_ranges w (GetRanges s) = true.

(** ** The sd items with a fixed which-id *)

Section SdItems.
Context `{IDS : SdAttrIds}.

Definition XFillStyleItem (f : FillStyle) : SfxPoolItem :=
  {| Which := which XATTR_FILLSTYLE; Value := VFillStyle f |}.

Definition makeSdAttrLayerName (aStr : string) : SfxPoolItem :=
  SfxStringItem (which ATTR_LAYER_NAME) aStr.
Definition makeSdAttrLayerTitle : SfxPoolItem :=
  SfxStringItem (which ATTR_LAYER_TITLE) "".
Definition makeSdAttrLayerDesc : SfxPoolItem :=
  SfxStringItem (which ATTR_LAYER_DESC) "".
Definition makeSdAttrLayerVisible : SfxPoolItem :=
  SfxBoolItem (which ATTR_LAYER_VISIBLE) true.
Definition makeSdAttrLayerPrintable : SfxPoolItem :=
  SfxBoolItem (which ATTR_LAYER_PRINTABLE) true.
Definition makeSdAttrLayerLocked : SfxPoolItem :=
  SfxBoolItem (which ATTR_LAYER_LOCKED) false.
Definition makeSdAttrLayerThisPage : SfxPoolItem :=
  SfxBoolItem (which ATTR_LAYER_THISPAGE) false.

(** The set over the range of a group. *)
Definition SfxItemSet_of_group (p : SfxItemPool) (g : AttrGroup) : SfxItemSet :=
  SfxItemSet_of_range p (which (group_first g)) (which (group_last g)).

(** Slots given by the name of their which-id. *)
Definition named_slots (l : list (AttrName * ItemSlot)) : list (N * ItemSlot) :=
  prod_map which id <$> l.

End SdItems.

(** ** Facts on [set_slot], [Put] and [InvalidateItem] *)

Section SetFacts.
Implicit Types (s : SfxItemSet) (w : N) (sl : ItemSlot) (it : SfxPoolItem).

Lemma in_range_spec w a b : in_range w (a, b) = true <-> a <= w <= b.
Proof. unfold in_range; simpl. rewrite andb_true_iff, !N.leb_le. done. Qed.

Lemma in_ranges_singleton w a b : in_ranges w [(a, b)] = true <-> a <= w <= b.
Proof. unfold in_ranges; simpl. rewrite orb_false_r. apply in_range_spec. Qed.

Lemma set_slot_inside w sl s :
  in_ranges w (GetRanges s) = true ->
  set_slot w sl s =
    {| GetPool := GetPool s; GetRanges := GetRanges s;
       GetItems := <[w := sl]> (GetItems s) |}.
Proof. unfold set_slot. by intros ->. Qed.

Lemma set_slot_outside w sl s :
  in_ranges w (GetRanges s) = false -> set_slot w sl s = s.
Proof. unfold set_slot. by intros ->. Qed.

Lemma set_slot_ranges w sl s : GetRanges (set_slot w sl s) = GetRanges s.
Proof. unfold set_slot. by destruct (in_ranges _ _). Qed.

Lemma set_slot_pool w sl s : GetPool (set_slot w sl s) = GetPool s.
Proof. unfold set_slot. by destruct (in_ranges _ _). Qed.

Lemma set_slot_lookup_eq w sl s :
  in_ranges w (GetRanges s) = true -> GetItems (set_slot w sl s) !! w = Some sl.
Proof. intros H. rewrite set_slot_inside by done. simpl. apply lookup_insert_eq. Qed.

Lemma set_slot_lookup_ne w w' sl s :
  w <> w' -> GetItems (set_slot w sl s) !! w' = GetItems s !! w'.
Proof.
  intros H. unfold set_slot. destruct (in_ranges _ _); [|done].
  simpl. by apply lookup_insert_ne.
Qed.

Lemma set_slot_lookup w w' sl s :
  GetItems (set_slot w sl s) !! w' =
    if decide (w = w' /\ in_ranges w (GetRanges s) = true)
    then Some sl else GetItems s !! w'.
Proof.
  case_decide as H.
  - destruct H as [<- H]. by apply set_slot_lookup_eq.
  - destruct (decide (w = w')) as [<-|]; [|by apply set_slot_lookup_ne].
    rewrite set_slot_outside; [done|]. destruct (in_ranges _ _); naive_solver.
Qed.

Lemma set_slot_commute w1 w2 sl1 sl2 s :
  w1 <> w2 ->
  set_slot w1 sl1 (set_slot w2 sl2 s) = set_slot w2 sl2 (set_slot w1 sl1 s).
Proof.
  intros H. unfold set_slot.
  destruct (in_ranges w2 (GetRanges s)) eqn:H2,
           (in_ranges w1 (GetRanges s)) eqn:H1; simpl; rewrite ?H1, ?H2; try done.
  f_equal. by apply insert_insert_ne.
Qed.

Lemma set_slot_overwrite w sl1 sl2 s :
  set_slot w sl2 (set_slot w sl1 s) = set_slot w sl2 s.
Proof.
  unfold set_slot. destruct (in_ranges w (GetRanges s)) eqn:H; simpl; rewrite ?H; [|done].
  f_equal. apply insert_insert_eq.
Qed.

Lemma set_slot_in_ranges w sl s :
  slots_in_ranges s -> slots_in_ranges (set_slot w sl s).
Proof.
  intros Hs w' sl'. rewrite set_slot_ranges, set_slot_lookup.
  case_decide as Hd; [|apply Hs]. intros _. by destruct Hd as [<- ?].
Qed.

Lemma set_slot_Count_fresh w sl s :
  in_ranges w (GetRanges s) = true -> GetItems s !! w = None ->
  Count (set_slot w sl s) = S (Count s).
Proof.
  intros H1 H2. rewrite set_slot_inside by done. unfold Count; simpl.
  by apply map_size_insert_None.
Qed.

Lemma of_pool_in_ranges p : slots_in_ranges (SfxItemSet_of_pool p).
Proof. intros w sl. simpl. by rewrite lookup_empty. Qed.

Lemma of_range_in_ranges p a b : slots_in_ranges (SfxItemSet_of_range p a b).
Proof. intros w sl. simpl. by rewrite lookup_empty. Qed.

Lemma Put_in_ranges it s : slots_in_ranges s -> slots_in_ranges (Put it s).
Proof. apply set_slot_in_ranges. Qed.

Lemma InvalidateItem_in_ranges w s :
  slots_in_ranges s -> slots_in_ranges (InvalidateItem w s).
Proof. apply set_slot_in_ranges. Qed.

Lemma GetItem_Put_eq it s :
  in_ranges (Which it) (GetRanges s) = true -> GetItem (Which it) (Put it s) = Some (Value it).
Proof. intros H. unfold GetItem, Put. by rewrite set_slot_lookup_eq. Qed.

Lemma GetItem_Put_ne it w s :
  Which it <> w -> GetItem w (Put it s) = GetItem w s.
Proof. intros H. unfold GetItem, Put. by rewrite set_slot_lookup_ne. Qed.

Lemma GetItem_Put_outside it w s :
  in_ranges (Which it) (GetRanges s) = false -> GetItem w (Put it s) = GetItem w s.
Proof. intros H. unfold Put. by rewrite set_slot_outside. Qed.

Lemma GetItemState_Put_eq it s :
  in_ranges (Which it) (GetRanges s) = true -> GetItemState (Which it) (Put it s) = SET.
Proof. intros H. unfold GetItemState, Put. by rewrite set_slot_lookup_eq. Qed.

Lemma GetItemState_Invalidate_eq w s :
  in_ranges w (GetRanges s) = true -> GetItemState w (InvalidateItem w s) = INVALID.
Proof. intros H. unfold GetItemState, InvalidateItem. by rewrite set_slot_lookup_eq. Qed.

Lemma GetItemState_set_slot_ne w w' sl s :
  w <> w' -> GetItemState w' (set_slot w sl s) = GetItemState w' s.
Proof.
  intros H. unfold GetItemState.
  rewrite set_slot_lookup_ne by done. by rewrite set_slot_ranges.
Qed.

Lemma set_slots_nil s : set_slots [] s = s.
Proof. done. Qed.

Lemma set_slot_set_slots w sl ops s :
  set_slot w sl (set_slots ops s) = set_slots (ops ++ [(w, sl)]) s.
Proof. unfold set_slots. by rewrite foldl_app. Qed.

Lemma Put_set_slots it ops s :
  Put it (set_slots ops s) = set_slots (ops ++ [(Which it, SlotSet (Value it))]) s.
Proof. apply set_slot_set_slots. Qed.

Lemma InvalidateItem_set_slots w ops s :
  InvalidateItem w (set_slots ops s) = set_slots (ops ++ [(w, SlotInvalid)]) s.
Proof. apply set_slot_set_slots. Qed.

Lemma set_slots_ranges ops s : GetRanges (set_slots ops s) = GetRanges s.
Proof.
  revert s. induction ops as [|[w sl] ops IH]; intros s; simpl; [done|].
  by rewrite IH, set_slot_ranges.
Qed.

Lemma set_slots_pool ops s : GetPool (set_slots ops s) = GetPool s.
Proof.
  revert s. induction ops as [|[w sl] ops IH]; intros s; simpl; [done|].
  by rewrite IH, set_slot_pool.
Qed.

(** Assignments to distinct which-ids inside the ranges are all kept. *)
Lemma set_slots_items ops s :
  NoDup ops.*1 ->
  Forall (fun op => in_ranges op.1 (GetRanges s) = true) ops ->
  GetItems (set_slots ops s) = list_to_map ops ∪ GetItems s.
Proof.
  revert s. induction ops as [|[w sl] ops IH]; intros s; simpl.
  - by rewrite (left_id_L ∅ (∪)).
  - intros [Hw Hops]%NoDup_cons [Hin Hall]%Forall_cons. simpl in Hin.
    rewrite IH; [|done|by rewrite set_slot_ranges].
    rewrite set_slot_inside by done. simpl.
    rewrite <- insert_union_l. symmetry. apply insert_union_r.
    by apply not_elem_of_list_to_map_1.
Qed.

Lemma set_slots_in_ranges ops s : slots_in_ranges s -> slots_in_ranges (set_slots ops s).
Proof.
  revert s. induction ops as [|[w sl] ops IH]; intros s Hs; simpl; [done|].
  by apply IH, set_slot_in_ranges.
Qed.

Lemma GetItemState_lookup w s sl :
  GetItems s !! w = Some sl ->
  GetItemState w s = match sl with SlotSet _ => SET | SlotInvalid => INVALID end.
Proof. unfold GetItemState. by intros ->. Qed.

Lemma GetItem_lookup w s v : GetItems s !! w = Some (SlotSet v) -> GetItem w s = Some v.
Proof. unfold GetItem. by intros ->. Qed.

End SetFacts.

(** Read a chain of [Put]s and [InvalidateItem]s on a new set over a range
    as one [set_slots], innermost call first, without unfolding any of
    them. *)
Ltac as_set_slots :=
  cbv zeta;
  match goal with
  | |- context [SfxItemSet_of_range ?p ?a ?b] =>
      rewrite <- (set_slots_nil (SfxItemSet_of_range p a b))
  end;
  repeat match goal with
    | |- context [Put ?it (set_slots ?ops ?s)] => rewrite (Put_set_slots it ops s)
    | |- context [InvalidateItem ?w (set_slots ?ops ?s)] =>
        rewrite (InvalidateItem_set_slots w ops s)
    end.

#[export] Hint Rewrite set_slot_ranges set_slot_pool : fx.
#[export] Hint Resolve of_pool_in_ranges of_range_in_ranges Put_in_ranges
  InvalidateItem_in_ranges : fx.

(** ** Consequences of the numbering *)

Section IdFacts.
Context `{IDS : SdAttrIds}.

Lemma which_inj a b :
  is_item a = true -> is_item b = true -> which a = which b -> a = b.
Proof.
  unfold is_item. rewrite !bool_decide_eq_true.
  intros [i Hi]%list_elem_of_lookup [j Hj]%list_elem_of_lookup Hab.
  assert (i = j) as ->; [|congruence].
  eapply NoDup_lookup; [apply which_NoDup | |]; rewrite list_lookup_fmap.
  - by rewrite Hi.
  - by rewrite Hj, Hab.
Qed.

Lemma which_ne a b :
  is_item a = true -> is_item b = true -> a <> b -> which a <> which b.
Proof. intros Ha Hb Hab Heq. by apply Hab, which_inj. Qed.

(** A name is inside the range of the set built over its group. *)
Lemma which_in_group_ranges p a :
  in_ranges (which a) (GetRanges (SfxItemSet_of_group p (group_of a))) = true.
Proof. simpl. apply in_ranges_singleton, which_in_group. Qed.

(** Items of one group, each named once. *)
Definition items_of (g : AttrGroup) (l : list (AttrName * ItemSlot)) : Prop :=
  NoDup l.*1 /\ Forall (fun a => is_item a = true /\ group_of a = g) l.*1.

#[export] Instance items_of_dec g l : Decision (items_of g l).
Proof. unfold items_of. apply _. Defined.

Lemma named_slots_fst l : (named_slots l).*1 = which <$> l.*1.
Proof. induction l as [|[a sl] l IH]; simpl; [done|]. f_equal. exact IH. Qed.

Lemma named_slots_NoDup g l : items_of g l -> NoDup (named_slots l).*1.
Proof.
  intros [Hnd Hall]. rewrite named_slots_fst. apply NoDup_fmap_2_strong; [|done].
  rewrite Forall_forall in Hall. intros a b Ha Hb.
  apply which_inj; by apply Hall.
Qed.

Lemma named_slots_in_ranges p g l :
  items_of g l ->
  Forall (fun op => in_ranges op.1 (GetRanges (SfxItemSet_of_group p g)) = true)
    (named_slots l).
Proof.
  intros [_ Hall]. unfold named_slots. apply Forall_fmap, Forall_forall.
  intros [a sl] Hin. rewrite Forall_forall in Hall.
  destruct (Hall a) as [_ <-]; [by apply (list_elem_of_fmap_2 fst _ (a, sl))|].
  apply which_in_group_ranges.
Qed.

(** The content of a set over a group after its items were put: every item
    is there, and nothing else. *)
Lemma set_slots_named p g l :
  items_of g l ->
  GetItems (set_slots (named_slots l) (SfxItemSet_of_group p g)) =
    list_to_map (named_slots l).
Proof.
  intros H. rewrite set_slots_items;
    [|by eapply named_slots_NoDup|by apply named_slots_in_ranges].
  simpl. by rewrite (right_id_L ∅ (∪)).
Qed.

Lemma named_slots_lookup g l a sl :
  items_of g l -> (a, sl) ∈ l ->
  list_to_map (M := gmap N ItemSlot) (named_slots l) !! which a = Some sl.
Proof.
  intros H Hin. apply elem_of_list_to_map; [by eapply named_slots_NoDup|].
  unfold named_slots. by apply (list_elem_of_fmap_2 (prod_map which id) _ (a, sl)).
Qed.

Lemma named_slots_size g l :
  items_of g l -> size (list_to_map (M := gmap N ItemSlot) (named_slots l)) = length l.
Proof.
  intros H. rewrite map_size_list_to_map by by eapply named_slots_NoDup.
  unfold named_slots. by rewrite length_fmap.
Qed.

End IdFacts.

(** Decide that a list names items of one group, each once. *)
Ltac items_of_tac := apply (bool_decide_unpack _); by vm_compute.

(** ** A numbering for the witnesses

    One numbering that satisfies [SdAttrIds], laid out in the manner of
    [sdattr.hrc]: the groups follow each other and the items of a group are
    numbered from its start.  The theorems do not depend on it. *)

Definition demo_which (a : AttrName) : N :=
  match a with
  | XATTR_FILL_FIRST => 1014 | XATTR_FILLSTYLE => 1014 | XATTR_FILL_LAST => 1034
  | ATTR_LAYER_START => 28234 | ATTR_LAYER_NAME => 28234
  | ATTR_LAYER_VISIBLE => 28235 | ATTR_LAYER_PRINTABLE => 28236
  | ATTR_LAYER_LOCKED => 28237 | ATTR_LAYER_THISPAGE => 28238
  | ATTR_LAYER_TITLE => 28239 | ATTR_LAYER_DESC => 28240 | ATTR_LAYER_END => 28240
  | ATTR_PRESENT_START => 28241 | ATTR_PRESENT_ALL => 28241
  | ATTR_PRESENT_CUSTOMSHOW => 28242 | ATTR_PRESENT_DIANAME => 28243
  | ATTR_PRESENT_ENDLESS => 28244 | ATTR_PRESENT_MANUEL => 28245
  | ATTR_PRESENT_MOUSE => 28246 | ATTR_PRESENT_PEN => 28247
  | ATTR_PRESENT_CHANGE_PAGE => 28249 | ATTR_PRESENT_ALWAYS_ON_TOP => 28250
  | ATTR_PRESENT_FULLSCREEN => 28251 | ATTR_PRESENT_ANIMATION_ALLOWED => 28253
  | ATTR_PRESENT_PAUSE_TIMEOUT => 28254 | ATTR_PRESENT_SHOW_PAUSELOGO => 28255
  | ATTR_PRESENT_DISPLAY => 28256 | ATTR_PRESENT_INTERACTIVE => 28257
  | ATTR_PRESENT_END => 28257
  | ATTR_ANIMATION_START => 28258 | ATTR_ANIMATION_ACTIVE => 28258
  | ATTR_ANIMATION_EFFECT => 28259 | ATTR_ANIMATION_SPEED => 28260
  | ATTR_ANIMATION_INVISIBLE => 28261 | ATTR_ANIMATION_FADEOUT => 28262
  | ATTR_ANIMATION_COLOR => 28263 | ATTR_ANIMATION_SOUNDON => 28264
  | ATTR_ANIMATION_SOUNDFILE => 28265 | ATTR_ANIMATION_PLAYFULL => 28266
  | ATTR_ANIMATION_TEXTEFFECT => 28268
  | ATTR_ACTION => 28270 | ATTR_ACTION_EFFECT => 28271
  | ATTR_ACTION_EFFECTSPEED => 28272 | ATTR_ACTION_FILENAME => 28273
  | ATTR_ACTION_SOUNDON => 28274 | ATTR_ACTION_PLAYFULL => 28275
  | ATTR_ACTION_END => 28275
  | ATTR_SNAPLINE_START => 28276 | ATTR_SNAPLINE_X => 28277
  | ATTR_SNAPLINE_Y => 28278 | ATTR_SNAPLINE_END => 28278
  end.

Lemma demo_which_in_group a :
  demo_which (group_first (group_of a)) <= demo_which a
    <= demo_which (group_last (group_of a)).
Proof. destruct a; vm_compute; split; discriminate. Qed.

Lemma demo_which_NoDup : NoDup (demo_which <$> item_names).
Proof. apply (bool_decide_unpack _). by vm_compute. Qed.

Lemma demo_which_uInt16 a : demo_which a < 65536.
Proof. by destruct a. Qed.

#[export] Instance demo_ids : SdAttrIds :=
  {| which := demo_which;
     which_in_group := demo_which_in_group;
     which_NoDup := demo_which_NoDup;
     which_uInt16 := demo_which_uInt16 |}.
