(* ===== verification/Host.v ===== *)
(** * The host application

    The objects the fixture borrows from the application: the loaded
    component, the document and its pages, objects and style sheets, the
    document shell, the view shell, the draw view, and the dialog factory.
    None of this code is under [src/]; the file gives each class the
    accessors the fixture calls and nothing more.  An accessor that may
    return a null pointer returns an [option].  The objects are immutable:
    the fixture only reads them. *)

From Stdlib Require Import ZArith.
From stdpp Require Import base tactics option list strings gmap.
From S2P Require Import Prelude ItemSet.

(** ** Windows, bitmaps and the opaque parameters *)

(** A [weld::Window], by a handle. *)
Record Window : Type := { window_handle : N }.

Record Bitmap : Type := { bitmap_pixels : list N }.
(** [Bitmap aEmptyBitmap;] *)
Definition Bitmap_default : Bitmap := {| bitmap_pixels := [] |}.

(** Parameters the fixture only ever passes as [nullptr]. *)
Record SvxFieldData : Type := { field_handle : N }.
Record SfxMedium : Type := { medium_handle : N }.
Record SdCustomShowList : Type := { custom_shows : list string }.

(** ** The document *)

Inductive PageKind : Type :=
| PageKind_Standard | PageKind_Notes | PageKind_Handout.

Inductive PresentationObjects : Type :=
| PresentationObjects_Title | PresentationObjects_Background
| PresentationObjects_BackgroundObjects | PresentationObjects_Outline
| PresentationObjects_Notes | PresentationObjects_Subtitle.

Inductive SfxStyleFamily : Type :=
| SfxStyleFamily_Char | SfxStyleFamily_Para | SfxStyleFamily_Frame
| SfxStyleFamily_Page | SfxStyleFamily_Pseudo | SfxStyleFamily_Table
| SfxStyleFamily_Cell.

Record SdrObject : Type := {
  GetName : string;
  GetMergedItemSet : SfxItemSet
}.

Record SdPage : Type := {
  GetPageKind : PageKind;
  page_objects : list SdrObject
}.

(** [sd::PresentationSettings], the members the fixture reads;
    [mnPauseTimeout] is a [sal_Int32]. *)
Record PresentationSettings : Type := {
  mbAll : bool;
  mbEndless : bool;
  mbCustomShow : bool;
  mbManual : bool;
  mbMouseVisible : bool;
  mbMouseAsPen : bool;
  mbLockedPages : bool;
  mbAlwaysOnTop : bool;
  mbFullScreen : bool;
  mbAnimationAllowed : bool;
  mnPauseTimeout : Z;
  mbShowPauseLogo : bool;
  mbInteractive : bool
}.

Record SdDrawDocument : Type := {
  doc_pages : list SdPage;
  GetItemPool : SfxItemPool;
  getPresentationSettings : PresentationSettings
}.

Record SfxStyleSheetBase : Type := {
  GetFamily : SfxStyleFamily;
  sheet_name : string
}.

Record SfxStyleSheetBasePool : Type := { pool_sheets : list SfxStyleSheetBase }.

#[export] Instance Window_eq_dec : EqDecision Window.
Proof. solve_decision. Defined.
#[export] Instance Bitmap_eq_dec : EqDecision Bitmap.
Proof. solve_decision. Defined.
#[export] Instance SvxFieldData_eq_dec : EqDecision SvxFieldData.
Proof. solve_decision. Defined.
#[export] Instance SfxMedium_eq_dec : EqDecision SfxMedium.
Proof. solve_decision. Defined.
#[export] Instance SdCustomShowList_eq_dec : EqDecision SdCustomShowList.
Proof. solve_decision. Defined.
#[export] Instance PageKind_eq_dec : EqDecision PageKind.
Proof. solve_decision. Defined.
#[export] Instance PresentationObjects_eq_dec : EqDecision PresentationObjects.
Proof. solve_decision. Defined.
#[export] Instance SfxStyleFamily_eq_dec : EqDecision SfxStyleFamily.
Proof. solve_decision. Defined.
#[export] Instance SdrObject_eq_dec : EqDecision SdrObject.
Proof. solve_decision. Defined.
#[export] Instance SdPage_eq_dec : EqDecision SdPage.
Proof. solve_decision. Defined.
#[export] Instance PresentationSettings_eq_dec : EqDecision PresentationSettings.
Proof. solve_decision. Defined.
#[export] Instance SdDrawDocument_eq_dec : EqDecision SdDrawDocument.
Proof. solve_decision. Defined.
#[export] Instance SfxStyleSheetBase_eq_dec : EqDecision SfxStyleSheetBase.
Proof. solve_decision. Defined.
#[export] Instance SfxStyleSheetBasePool_eq_dec : EqDecision SfxStyleSheetBasePool.
Proof. solve_decision. Defined.

(** [SdPage::GetObj(nObjNum)]: null past the end of the object list. *)
Definition GetObj (nObjNum : nat) (pg : SdPage) : option SdrObject :=
  page_objects pg !! nObjNum.

(** [SdDrawDocument::GetSdPage(nPgNum, ePgKind)]: the page number [nPgNum]
    among the pages of that kind, null when there are fewer. *)
Definition GetSdPage (nPgNum : nat) (ePgKind : PageKind) (doc : SdDrawDocument)
    : option SdPage :=
  List.filter (fun pg => bool_decide (GetPageKind pg = ePgKind)) (doc_pages doc)
    !! nPgNum.

(** [SfxStyleSheetBasePool::First(eFamily)]: the first sheet of the family,
    null when it has none. *)
Definition First (eFamily : SfxStyleFamily) (pool : SfxStyleSheetBasePool)
    : option SfxStyleSheetBase :=
  head (List.filter (fun sh => bool_decide (GetFamily sh = eFamily)) (pool_sheets pool)).

(** ** Shells and views *)

Record DrawView : Type := { view_handle : N }.

(** What [ViewShell::GetDrawView] points to, by its dynamic type. *)
Inductive SdrView : Type :=
| IsDrawView (v : DrawView)
| OtherView (handle : N).

Record ViewShell : Type := {
  GetFrameWeld : option Window;
  GetDrawView : option SdrView
}.

Record DrawDocShell : Type := {
  GetViewShell : option ViewShell;
  GetStyleSheetPool : option SfxStyleSheetBasePool
}.

Record SdXImpressDocument : Type := {
  GetDocShell : option DrawDocShell;
  GetDoc : option SdDrawDocument
}.

(** A loaded component, by its dynamic type. *)
Inductive XComponent : Type :=
| ImpressDocument (d : SdXImpressDocument)
| OtherComponent (service : string).

#[export] Instance DrawView_eq_dec : EqDecision DrawView.
Proof. solve_decision. Defined.
#[export] Instance SdrView_eq_dec : EqDecision SdrView.
Proof. solve_decision. Defined.
#[export] Instance ViewShell_eq_dec : EqDecision ViewShell.
Proof. solve_decision. Defined.
#[export] Instance DrawDocShell_eq_dec : EqDecision DrawDocShell.
Proof. solve_decision. Defined.
#[export] Instance SdXImpressDocument_eq_dec : EqDecision SdXImpressDocument.
Proof. solve_decision. Defined.
#[export] Instance XComponent_eq_dec : EqDecision XComponent.
Proof. solve_decision. Defined.

(** [dynamic_cast<SdXImpressDocument*>(p)]: null for a null pointer and for
    an object of another class. *)
Definition dynamic_cast_SdXImpressDocument (p : option XComponent)
    : option SdXImpressDocument :=
  match p with
  | Some (ImpressDocument d) => Some d
  | _ => None
  end.

(** [dynamic_cast<sd::DrawView*>(p)]. *)
Definition dynamic_cast_DrawView (p : option SdrView) : option DrawView :=
  match p with
  | Some (IsDrawView v) => Some v
  | _ => None
  end.

(** ** The dialog factory *)

(** The creation methods of [SdAbstractDialogFactory] the fixture calls,
    each with the parameters of its signature.  A parameter the fixture
    checks before the call is the object; one it may pass as null is an
    [option]. *)
Inductive FactoryCall : Type :=
| CreateBreakDlg (pWindow : option Window) (pDrView : DrawView)
    (pShell : DrawDocShell) (nSumActionCount nObjCount : N)
| CreateCopyDlg (pWindow : option Window) (rInAttrs : SfxItemSet) (pView : DrawView)
| CreateSdCustomShowDlg (pWindow : option Window) (rDrawDoc : SdDrawDocument)
| CreateSdTabCharDialog (pWindow : option Window) (pAttr : SfxItemSet)
    (pDocShell : DrawDocShell)
| CreateSdTabPageDialog (pWindow : option Window) (pAttr : SfxItemSet)
    (pDocShell : DrawDocShell) (bAreaPage bIsImpressDoc : bool)
| CreateSdModifyFieldDlg (pWindow : option Window) (pInField : option SvxFieldData)
    (rSet : SfxItemSet)
| CreateSdSnapLineDlg (pWindow : option Window) (rInAttrs : SfxItemSet)
    (pView : DrawView)
| CreateSdInsertLayerDlg (pWindow : option Window) (rInAttrs : SfxItemSet)
    (bDeletable : bool) (aStr : string)
| CreateSdInsertPagesObjsDlg (pParent : option Window) (rDoc : SdDrawDocument)
    (pSfxMedium : option SfxMedium) (rFileName : string)
| CreateMorphDlg (pParent : option Window) (pObj1 pObj2 : SdrObject)
| CreateSdOutlineBulletTabDlg (pParent : option Window) (pAttr : SfxItemSet)
    (pView : DrawView)
| CreateSdParagraphTabDlg (pParent : option Window) (pAttr : SfxItemSet)
| CreateSdStartPresentationDlg (pWindow : option Window) (rInAttrs : SfxItemSet)
    (rPageNames : list string) (pCSList : option SdCustomShowList)
| CreateRemoteDialog (pWindow : option Window)
| CreateSdPresLayoutTemplateDlg (pDocSh : DrawDocShell) (pParent : option Window)
    (bBackground : bool) (rStyleBase : SfxStyleSheetBase) (ePO : PresentationObjects)
    (pSSPool : SfxStyleSheetBasePool)
| CreateSdPresLayoutDlg (pParent : option Window) (pDocShell : DrawDocShell)
    (rInAttrs : SfxItemSet)
| CreateSdTabTemplateDlg (pParent : option Window) (pDocShell : DrawDocShell)
    (rStyleBase : SfxStyleSheetBase) (pModel : SdDrawDocument) (pView : DrawView)
| CreatSdActionDialog (pParent : option Window) (rAttr : SfxItemSet)
    (pView : DrawView)
| CreateSdVectorizeDlg (pParent : option Window) (rBmp : Bitmap)
    (pDocShell : DrawDocShell)
| CreateSdPhotoAlbumDialog (pParent : option Window) (rDoc : SdDrawDocument)
| CreateMasterLayoutDialog (pParent : option Window) (rDoc : SdDrawDocument)
    (pCurrentPage : SdPage)
| CreateHeaderFooterDialog (rViewShell : ViewShell) (pParent : option Window)
    (rDoc : SdDrawDocument) (pCurrentPage : SdPage).

#[export] Instance FactoryCall_eq_dec : EqDecision FactoryCall.
Proof. solve_decision. Defined.

(** A dialog, by the call that built it. *)
Record VclAbstractDialog : Type := { built_by : FactoryCall }.

#[export] Instance VclAbstractDialog_eq_dec : EqDecision VclAbstractDialog.
Proof. solve_decision. Defined.

(** The factory: a call gives a [VclPtr], which may be empty. *)
Record SdAbstractDialogFactory : Type := {
  create : FactoryCall -> option VclAbstractDialog
}.

(** The UI description each dialog class loads. *)
Definition ui_of_call (c : FactoryCall) : string :=
  match c with
  | CreateBreakDlg _ _ _ _ _ => "modules/sdraw/ui/breakdialog.ui"
  | CreateCopyDlg _ _ _ => "modules/sdraw/ui/copydlg.ui"
  | CreateSdCustomShowDlg _ _ => "modules/simpress/ui/customslideshows.ui"
  | CreateSdTabCharDialog _ _ _ => "modules/sdraw/ui/drawchardialog.ui"
  | CreateSdTabPageDialog _ _ _ _ _ => "modules/sdraw/ui/drawpagedialog.ui"
  | CreateSdModifyFieldDlg _ _ _ => "modules/simpress/ui/dlgfield.ui"
  | CreateSdSnapLineDlg _ _ _ => "modules/sdraw/ui/dlgsnap.ui"
  | CreateSdInsertLayerDlg _ _ _ _ => "modules/sdraw/ui/insertlayer.ui"
  | CreateSdInsertPagesObjsDlg _ _ _ _ => "modules/sdraw/ui/insertslidesdialog.ui"
  | CreateMorphDlg _ _ _ => "modules/sdraw/ui/crossfadedialog.ui"
  | CreateSdOutlineBulletTabDlg _ _ _ => "modules/sdraw/ui/bulletsandnumbering.ui"
  | CreateSdParagraphTabDlg _ _ => "modules/sdraw/ui/drawparadialog.ui"
  | CreateSdStartPresentationDlg _ _ _ _ => "modules/simpress/ui/presentationdialog.ui"
  | CreateRemoteDialog _ => "modules/simpress/ui/remotedialog.ui"
  | CreateSdPresLayoutTemplateDlg _ _ _ _ _ _ => "modules/sdraw/ui/drawprtldialog.ui"
  | CreateSdPresLayoutDlg _ _ _ => "modules/simpress/ui/slidedesigndialog.ui"
  | CreateSdTabTemplateDlg _ _ _ _ _ => "modules/simpress/ui/templatedialog.ui"
  | CreatSdActionDialog _ _ _ => "modules/simpress/ui/interactiondialog.ui"
  | CreateSdVectorizeDlg _ _ _ => "modules/sdraw/ui/vectorize.ui"
  | CreateSdPhotoAlbumDialog _ _ => "modules/simpress/ui/photoalbum.ui"
  | CreateMasterLayoutDialog _ _ _ => "modules/simpress/ui/masterlayoutdlg.ui"
  | CreateHeaderFooterDialog _ _ _ _ => "modules/simpress/ui/headerfooterdialog.ui"
  end.

(** A factory that always builds the dialog it is asked for. *)
Definition factory_total (f : SdAbstractDialogFactory) : Prop :=
  forall c, create f c = Some {| built_by := c |}.

(** ** The free functions *)

(** The enumerators of the UNO enums [presentation::AnimationEffect] and
    [presentation::ClickAction] the fixture names; both are the first of
    their enum. *)
Definition AnimationEffect_NONE : Z := 0.
Definition ClickAction_NONE : Z := 0.

(** The resource strings the fixture looks up. *)
Inductive TranslateId : Type := STR_LAYER | STR_INSERTLAYER.

(** What the fixture calls of the application outside any object it holds. *)
Class HostEnv : Type := {
  (** [SdAbstractDialogFactory::Create()] *)
  SdAbstractDialogFactory_Create : option SdAbstractDialogFactory;
  (** [loadFromDesktop(rURL, rDocService)] *)
  loadFromDesktop : string -> string -> option XComponent;
  (** [Application::GetDefDialogParent()] *)
  GetDefDialogParent : option Window;
  (** [SdResId(id)] *)
  SdResId : TranslateId -> string
}.

(** ** Facts on the accessors *)

Lemma GetSdPage_kind n k doc pg : GetSdPage n k doc = Some pg -> GetPageKind pg = k.
Proof.
  unfold GetSdPage. intros H%list_elem_of_lookup_2%list_elem_of_In.
  apply filter_In in H as [_ H]. by apply bool_decide_eq_true in H.
Qed.

Lemma GetSdPage_In n k doc pg : GetSdPage n k doc = Some pg -> pg ∈ doc_pages doc.
Proof.
  unfold GetSdPage. intros H%list_elem_of_lookup_2%list_elem_of_In.
  apply filter_In in H as [H _]. by apply list_elem_of_In.
Qed.

Lemma First_family f pool sh : First f pool = Some sh -> GetFamily sh = f.
Proof.
  unfold First. intros [H _]%head_filter_Some. by apply bool_decide_eq_true in H.
Qed.

Lemma First_None f pool :
  First f pool = None <-> forall sh, sh ∈ pool_sheets pool -> GetFamily sh <> f.
Proof.
  unfold First. rewrite head_filter_None. split.
  - intros H sh Hsh%list_elem_of_In. specialize (H sh Hsh).
    by apply bool_decide_eq_false in H.
  - intros H sh Hsh%list_elem_of_In. apply bool_decide_eq_false. by apply H.
Qed.

Lemma dynamic_cast_SdXImpressDocument_Some p d :
  dynamic_cast_SdXImpressDocument p = Some d <-> p = Some (ImpressDocument d).
Proof. destruct p as [[]|]; naive_solver. Qed.

Lemma dynamic_cast_DrawView_Some p v :
  dynamic_cast_DrawView p = Some v <-> p = Some (IsDrawView v).
Proof. destruct p as [[]|]; naive_solver. Qed.

(** ** A host for the witnesses: a new presentation document

    One title slide with its two placeholders, a notes and a handout page,
    a draw view, and two style sheets. *)

Definition demo_pool : SfxItemPool := {| GetMergedIdRanges := [(1000%N, 30000%N)] |}.

Definition demo_title : SdrObject :=
  {| GetName := "Title"; GetMergedItemSet := SfxItemSet_of_pool demo_pool |}.
Definition demo_subtitle : SdrObject :=
  {| GetName := "Subtitle"; GetMergedItemSet := SfxItemSet_of_pool demo_pool |}.

Definition demo_settings : PresentationSettings :=
  {| mbAll := true; mbEndless := false; mbCustomShow := false; mbManual := false;
     mbMouseVisible := true; mbMouseAsPen := false; mbLockedPages := false;
     mbAlwaysOnTop := false; mbFullScreen := true; mbAnimationAllowed := true;
     mnPauseTimeout := 0; mbShowPauseLogo := false; mbInteractive := true |}.

Definition demo_doc : SdDrawDocument :=
  {| doc_pages :=
       [ {| GetPageKind := PageKind_Handout; page_objects := [] |};
         {| GetPageKind := PageKind_Standard;
            page_objects := [demo_title; demo_subtitle] |};
         {| GetPageKind := PageKind_Notes; page_objects := [] |} ];
     GetItemPool := demo_pool;
     getPresentationSettings := demo_settings |}.

Definition demo_styles : SfxStyleSheetBasePool :=
  {| pool_sheets :=
       [ {| GetFamily := SfxStyleFamily_Para; sheet_name := "standard" |};
         {| GetFamily := SfxStyleFamily_Page; sheet_name := "Default~LT~Titel" |};
         {| GetFamily := SfxStyleFamily_Pseudo; sheet_name := "title" |} ] |}.

Definition demo_view_shell : ViewShell :=
  {| GetFrameWeld := Some {| window_handle := 2 |};
     GetDrawView := Some (IsDrawView {| view_handle := 1 |}) |}.

Definition demo_doc_shell : DrawDocShell :=
  {| GetViewShell := Some demo_view_shell; GetStyleSheetPool := Some demo_styles |}.

Definition demo_impress : SdXImpressDocument :=
  {| GetDocShell := Some demo_doc_shell; GetDoc := Some demo_doc |}.

Definition demo_factory : SdAbstractDialogFactory :=
  {| create := fun c => Some {| built_by := c |} |}.

Definition demo_resource (id : TranslateId) : string :=
  match id with
  | STR_LAYER => "Layer"
  | STR_INSERTLAYER => "Insert Layer"
  end.

#[export] Instance demo_host : HostEnv :=
  {| SdAbstractDialogFactory_Create := Some demo_factory;
     loadFromDesktop := fun _ _ => Some (ImpressDocument demo_impress);
     GetDefDialogParent := Some {| window_handle := 1 |};
     SdResId := demo_resource |}.

Lemma demo_factory_total : factory_total demo_factory.
Proof. by intros c. Qed.
