(* ===== verification/Screenshot.v ===== *)
(** * The base class of the fixture

    [SdDialogsTest] derives from [ScreenshotTest] (line 39) and overrides
    two of its member functions, [registerKnownDialogsByID] and
    [createDialogByID] (lines 68-74); the base class calls them through the
    object.  This file holds the base class for any fixture: the interface
    [KnownDialogs] of the two functions, the object with the members of the
    base class, and the member functions the test body calls.

    The base class is outside [src/]; it is modelled from what the
    specification and the comments of the source say of it: the known
    dialogs are populated in [setUp] (comment of lines 68-69), the batch
    file is a list of paths, a known dialog is rendered from the instance
    [createDialogByID] builds, an unknown one from its UI description
    alone.  Rendering and disposing are recorded, not performed: a
    screenshot is the dialog or the path it was asked for, and a disposed
    component is an entry of the list [disposed].  What [tearDown] of the
    base class releases is host code; the object records that it was
    called ([torn_down]).

    The comment of lines 72-73 states what the base class asks of a
    fixture: [createDialogByID] has to be implemented for each registered
    known dialog.  [Implemented] is this contract, and the theorem of this
    file is what the base class gives every fixture that meets it.
    [Interchangeable] relates two implementations of the overrides, such
    as two builds of one fixture, and the base class treats them alike. *)

From Stdlib Require Import ZArith Lia.
From stdpp Require Import base tactics option list strings gmap sorting.
From S2P Require Import Prelude Protocol Host.

(** ** The interface and the object *)

Inductive Screenshot : Type :=
| DialogShot (rDialog : VclAbstractDialog)
| FallbackShot (rUIXMLDescription : string).

#[export] Instance Screenshot_eq_dec : EqDecision Screenshot.
Proof. solve_decision. Defined.

(** The member functions a fixture with the members [T] overrides:
    [registerKnownDialogsByID(mapType&)] and [createDialogByID(sal_uInt32)]. *)
Class KnownDialogs (T : Type) : Type := {
  virtual_registerKnownDialogsByID : gmap string N -> gmap string N;
  virtual_createDialogByID : N -> Fx T (option VclAbstractDialog)
}.

(** The fixture with the members of its base class, the map of known
    dialogs, and what the object has done to the application: the
    screenshots written so far and the components disposed so far, oldest
    first, and whether [tearDown] of the base class was called. *)
Record ScreenshotTest (T : Type) : Type := {
  fixture : T;
  maKnownDialogs : gmap string N;
  shots : list Screenshot;
  disposed : list XComponent;
  torn_down : bool
}.

Arguments fixture {T} _.
Arguments maKnownDialogs {T} _.
Arguments shots {T} _.
Arguments disposed {T} _.
Arguments torn_down {T} _.

(** A line of the batch file names a dialog unless it is empty or a
    comment. *)
Definition is_entry (line : string) : bool :=
  negb (bool_decide (line = "")) && negb (String.prefix "#" line).

(** The entries of a map of known dialogs in the order of their paths, the
    order in which a [std::map] is traversed. *)
Definition known_by_path (m : gmap string N) : list (string * N) :=
  merge_sort (fun a b => String.leb a.1 b.1) (map_to_list m).

Definition ids_by_path (m : gmap string N) : list N := (known_by_path m).*2.

Section Object.
Context {T : Type}.

Definition set_fixture (t : T) (s : ScreenshotTest T) : ScreenshotTest T :=
  {| fixture := t; maKnownDialogs := maKnownDialogs s; shots := shots s;
     disposed := disposed s; torn_down := torn_down s |}.

Definition set_maKnownDialogs (m : gmap string N) (s : ScreenshotTest T) : ScreenshotTest T :=
  {| fixture := fixture s; maKnownDialogs := m; shots := shots s;
     disposed := disposed s; torn_down := torn_down s |}.

Definition add_shot (x : Screenshot) (s : ScreenshotTest T) : ScreenshotTest T :=
  {| fixture := fixture s; maKnownDialogs := maKnownDialogs s; shots := shots s ++ [x];
     disposed := disposed s; torn_down := torn_down s |}.

(** [dispose()] on a component. *)
Definition dispose (c : XComponent) (s : ScreenshotTest T) : ScreenshotTest T :=
  {| fixture := fixture s; maKnownDialogs := maKnownDialogs s; shots := shots s;
     disposed := disposed s ++ [c]; torn_down := torn_down s |}.

(** The record of a call of [tearDown] of the base class. *)
Definition set_torn_down (s : ScreenshotTest T) : ScreenshotTest T :=
  {| fixture := fixture s; maKnownDialogs := maKnownDialogs s; shots := shots s;
     disposed := disposed s; torn_down := true |}.

(** A member function of the fixture, run on the whole object. *)
Definition lift {A} (m : Fx T A) : Fx (ScreenshotTest T) A :=
  fun s => let '(o, t) := m (fixture s) in (o, set_fixture t s).

(** The constructor of the base class, around the members [t] the
    constructor of the fixture initialises. *)
Definition ScreenshotTest_ctor (t : T) : ScreenshotTest T :=
  {| fixture := t; maKnownDialogs := ∅; shots := []; disposed := [];
     torn_down := false |}.

End Object.

(** ** The member functions of the base class *)

Section Harness.
Context {T : Type} `{KD : KnownDialogs T}.

(** The lines of a batch file, by its path. *)
Variable getLines : string -> list string.

#[local] Abbreviation Run := (Fx (ScreenshotTest T)).

(** [ScreenshotTest::setUp()]: populates the known dialogs through the
    virtual [registerKnownDialogsByID]. *)
Definition ScreenshotTest_setUp : Run unit :=
  m <- gets maKnownDialogs ;;
  modify (set_maKnownDialogs (virtual_registerKnownDialogsByID m)).

(** [ScreenshotTest::tearDown()]: what it releases belongs to the host;
    the call is recorded. *)
Definition ScreenshotTest_tearDown : Run unit :=
  modify set_torn_down.

(** [dumpDialogToPath(VclAbstractDialog&)] and
    [dumpDialogToPath(std::string_view)]. *)
Definition dumpDialogToPath (rDialog : VclAbstractDialog) : Run unit :=
  modify (add_shot (DialogShot rDialog)).

Definition dumpDialogToPath_fallback (rUIXMLDescription : string) : Run unit :=
  modify (add_shot (FallbackShot rUIXMLDescription)).

(** The dialog registered under a path, built by the virtual
    [createDialogByID]. *)
Definition createDialogByName (rName : string) : Run (option VclAbstractDialog) :=
  m <- gets maKnownDialogs ;;
  match m !! rName with
  | Some nID => lift (virtual_createDialogByID nID)
  | None => ret None
  end.

(** One line of the batch file. *)
Definition process_line (line : string) : Run unit :=
  if is_entry line then
    pDlg <- createDialogByName line ;;
    match pDlg with
    | Some dlg => dumpDialogToPath dlg
    | None => dumpDialogToPath_fallback line
    end
  else ret tt.

Fixpoint process_lines (lines : list string) : Run unit :=
  match lines with
  | [] => ret tt
  | line :: lines => process_line line ;;; process_lines lines
  end.

Definition processDialogBatchFile (rFile : string) : Run unit :=
  process_lines (getLines rFile).

(** One known dialog: an empty result is skipped. *)
Definition process_known (nID : N) : Run unit :=
  pDlg <- lift (virtual_createDialogByID nID) ;;
  match pDlg with
  | Some dlg => dumpDialogToPath dlg
  | None => ret tt
  end.

Fixpoint process_all (ids : list N) : Run unit :=
  match ids with
  | [] => ret tt
  | nID :: ids => process_known nID ;;; process_all ids
  end.

Definition processAllKnownDialogs : Run unit :=
  m <- gets maKnownDialogs ;;
  process_all (ids_by_path m).

End Harness.

(** ** The contract of a fixture *)

(** What the base class asks of a fixture (lines 72-73), on the states
    [good] of its members: [createDialogByID] is implemented for each
    registered known dialog, builds the dialog of the UI description the ID
    is registered for, and leaves the members in such a state. *)
Class Implemented {T : Type} `{KD : KnownDialogs T} (good : T -> Prop) : Prop := {
  implemented_known rName nID t :
    virtual_registerKnownDialogsByID ∅ !! rName = Some nID -> good t ->
    exists dlg t',
      virtual_createDialogByID nID t = (Ok (Some dlg), t') /\ good t' /\
      ui_of_call (built_by dlg) = rName
}.

(** The screenshot [x] answers the line [line] of a batch, for the known
    dialogs [m]: a known dialog is shown as the dialog of that UI
    description, an unknown one is rendered from the line. *)
Definition shows (m : gmap string N) (line : string) (x : Screenshot) : Prop :=
  match x with
  | DialogShot dlg => is_Some (m !! line) /\ ui_of_call (built_by dlg) = line
  | FallbackShot rUIXMLDescription => m !! line = None /\ rUIXMLDescription = line
  end.

(** The screenshot [x] shows the known dialog [kv]. *)
Definition shows_known (kv : string * N) (x : Screenshot) : Prop :=
  exists dlg, x = DialogShot dlg /\ ui_of_call (built_by dlg) = kv.1.

Section ObjectFacts.
Context {T : Type}.
Implicit Types (s : ScreenshotTest T) (t : T).

Lemma lift_run {A} (m : Fx T A) s o t :
  m (fixture s) = (o, t) -> lift m s = (o, set_fixture t s).
Proof. unfold lift. by intros ->. Qed.

Lemma set_fixture_same s : set_fixture (fixture s) s = s.
Proof. by destruct s. Qed.

End ObjectFacts.

(** ** The order of the known dialogs *)

Section KnownByPath.
Implicit Types (m : gmap string N) (kv : string * N).

#[local] Instance by_path_transitive :
  Transitive (fun a b : string * N => String.leb a.1 b.1).
Proof. intros a b c. apply string_leb_transitive. Qed.

#[local] Instance by_path_total : Total (fun a b : string * N => String.leb a.1 b.1).
Proof. intros a b. apply string_leb_total. Qed.

(** Every known dialog is visited once, and only known dialogs are. *)
Lemma known_by_path_Permutation m : known_by_path m ≡ₚ map_to_list m.
Proof. apply merge_sort_Permutation. Qed.

Lemma elem_of_known_by_path m kv : kv ∈ known_by_path m <-> m !! kv.1 = Some kv.2.
Proof. rewrite known_by_path_Permutation. destruct kv. apply elem_of_map_to_list. Qed.

(** The dialogs are visited in the order of their paths. *)
Lemma known_by_path_sorted m :
  StronglySorted (fun a b => String.leb a.1 b.1) (known_by_path m).
Proof. apply (StronglySorted_merge_sort _). Qed.

End KnownByPath.

(** ** What the base class gives a fixture that meets the contract *)

Section Served.
Context {T : Type} `{KD : KnownDialogs T} (good : T -> Prop) `{!Implemented good}.
Implicit Types (s : ScreenshotTest T) (t : T).

(** An object whose members are in a good state and whose known dialogs
    are registered. *)
Definition prepared s : Prop :=
  good (fixture s) /\ maKnownDialogs s = virtual_registerKnownDialogsByID ∅.

(** What a member function of the base class leaves of an object it
    returned on: it is still prepared, has the screenshots [new] more, and
    has disposed nothing. *)
Definition served s (new : list Screenshot) s' : Prop :=
  prepared s' /\ shots s' = shots s ++ new /\ disposed s' = disposed s.

Lemma served_nil s : prepared s -> served s [] s.
Proof. intros R. split; [done|]. by rewrite app_nil_r. Qed.

Lemma served_trans s1 s2 s3 l1 l2 :
  served s1 l1 s2 -> served s2 l2 s3 -> served s1 (l1 ++ l2) s3.
Proof.
  intros (_ & E1 & D1) (R & E2 & D2). split; [done|].
  by rewrite E2, E1, D2, D1, (assoc_L (++)).
Qed.

Lemma served_add_shot s t x :
  prepared s -> good t -> served s [x] (add_shot x (set_fixture t s)).
Proof. by intros [G M] G'. Qed.

(** A known dialog is built. *)
Lemma lift_createDialogByID_known rName nID s :
  prepared s -> virtual_registerKnownDialogsByID ∅ !! rName = Some nID ->
  exists dlg t,
    lift (virtual_createDialogByID nID) s = (Ok (Some dlg), set_fixture t s) /\
    good t /\ ui_of_call (built_by dlg) = rName.
Proof.
  intros [G M] L. destruct (implemented_known rName nID (fixture s) L G)
    as (dlg & t & H & G' & U).
  exists dlg, t. by rewrite (lift_run _ _ _ _ H).
Qed.

Lemma process_line_served line s :
  prepared s ->
  exists s' new,
    process_line line s = (Ok tt, s') /\ served s new s' /\
    Forall2 (shows (maKnownDialogs s)) (filter is_entry [line]) new.
Proof.
  intros R. unfold process_line. rewrite filter_cons, filter_nil.
  destruct (is_entry line) eqn:E; simpl.
  2:{ exists s, []. eauto using served_nil. }
  unfold createDialogByName, bind at 1 2, gets. pose proof R as [G M]. rewrite M.
  destruct (virtual_registerKnownDialogsByID ∅ !! line) as [nID|] eqn:L.
  - destruct (lift_createDialogByID_known line nID s R L) as (dlg & t & -> & G' & U).
    eexists _, [DialogShot dlg]. split; [done|]. split; [by apply served_add_shot|].
    repeat constructor; [by rewrite L|done].
  - eexists _, [FallbackShot line]. split; [done|].
    split; [by rewrite <- (set_fixture_same s) at 2; apply served_add_shot|].
    by repeat constructor.
Qed.

(** A batch: every entry is answered, in the order of the lines. *)
Lemma process_lines_served lines s :
  prepared s ->
  exists s' new,
    process_lines lines s = (Ok tt, s') /\ served s new s' /\
    Forall2 (shows (maKnownDialogs s)) (filter is_entry lines) new.
Proof.
  revert s. induction lines as [|line lines IH]; intros s R.
  - exists s, []. split; [done|]. split; [by apply served_nil|constructor].
  - destruct (process_line_served line s R) as (s1 & l1 & H1 & S1 & F1).
    destruct (IH s1 (proj1 S1)) as (s2 & l2 & H2 & S2 & F2).
    exists s2, (l1 ++ l2). simpl. rewrite (bind_run _ _ _ _ _ H1). simpl.
    split; [done|]. split; [by eapply served_trans|].
    change (line :: lines) with ([line] ++ lines). rewrite filter_app.
    apply Forall2_app; [done|]. by rewrite (proj2 R), <- (proj2 (proj1 S1)).
Qed.

(** A known dialog gives its screenshot. *)
Lemma process_known_served kv s :
  prepared s -> virtual_registerKnownDialogsByID ∅ !! kv.1 = Some kv.2 ->
  exists s' x,
    process_known kv.2 s = (Ok tt, s') /\ served s [x] s' /\ shows_known kv x.
Proof.
  intros R L.
  destruct (lift_createDialogByID_known kv.1 kv.2 s R L) as (dlg & t & H & G' & U).
  unfold process_known. rewrite (bind_run _ _ _ _ _ H).
  eexists _, (DialogShot dlg). split; [done|].
  split; [by apply served_add_shot|by exists dlg].
Qed.

(** The known dialogs [kvs], one after the other. *)
Lemma process_all_served kvs s :
  prepared s ->
  Forall (fun kv => virtual_registerKnownDialogsByID ∅ !! kv.1 = Some kv.2) kvs ->
  exists s' new,
    process_all (kvs.*2) s = (Ok tt, s') /\ served s new s' /\
    Forall2 shows_known kvs new.
Proof.
  intros R Hkvs. revert s R. induction Hkvs as [|kv kvs L _ IH]; intros s R.
  - exists s, []. split; [done|]. split; [by apply served_nil|constructor].
  - destruct (process_known_served kv s R L) as (s1 & x & H1 & S1 & F1).
    destruct (IH s1 (proj1 S1)) as (s2 & l2 & H2 & S2 & F2).
    exists s2, (x :: l2). simpl. rewrite (bind_run _ _ _ _ _ H1).
    split; [done|]. split; [by apply (served_trans s s1 s2 [x] l2)|by constructor].
Qed.

(** C28: what the base class gives every fixture that meets the contract of
    lines 72-73.  On an object whose members are in a good state and whose
    known dialogs are registered, a batch file is processed to its end
    without a failure: every line that is not empty and not a comment is
    answered by one screenshot, in the order of the lines, a registered
    path by the dialog of that UI description and any other by the
    rendering of the line itself.  All known dialogs are processed without
    a failure, one dialog screenshot each, in the order of their paths.
    Nothing is disposed and the object stays as it was found. *)
Theorem harness_serves (getLines : string -> list string) rFile s :
  prepared s ->
  (exists s' new,
     processDialogBatchFile getLines rFile s = (Ok tt, s') /\ served s new s' /\
     Forall2 (shows (maKnownDialogs s)) (filter is_entry (getLines rFile)) new) /\
  (exists s' new,
     processAllKnownDialogs s = (Ok tt, s') /\ served s new s' /\
     Forall2 shows_known (known_by_path (maKnownDialogs s)) new /\
     known_by_path (maKnownDialogs s) ≡ₚ map_to_list (maKnownDialogs s) /\
     StronglySorted (fun a b => String.leb a.1 b.1) (known_by_path (maKnownDialogs s))).
Proof.
  intros R. split; [by apply process_lines_served|].
  destruct (process_all_served (known_by_path (maKnownDialogs s)) s R)
    as (s' & new & H & S & F).
  { apply Forall_forall. intros kv Hkv%elem_of_known_by_path. by rewrite <- (proj2 R). }
  exists s', new.
  split_and!; [done..|apply known_by_path_Permutation|apply known_by_path_sorted].
Qed.

End Served.

(** ** A whole run of a fixture that meets the contract *)

(** What the protocol needs of [setUp] and [tearDown] of a fixture whose
    constructor gives the members [t0]: [setUp] returns on the new object
    and prepares it, and [tearDown] returns on a prepared object and writes
    no screenshot. *)
Class Orderly {T : Type} `{KD : KnownDialogs T} `{TF : TestFixture (ScreenshotTest T)}
    (good : T -> Prop) (t0 : T) : Prop := {
  orderly_setUp :
    exists s,
      virtual_setUp (ScreenshotTest_ctor t0) = (Ok tt, s) /\ prepared good s /\
      shots s = [];
  orderly_tearDown s :
    prepared good s ->
    exists s', virtual_tearDown s = (Ok tt, s') /\ shots s' = shots s
}.

Section WholeRun.
Context {T : Type} `{KD : KnownDialogs T} `{TF : TestFixture (ScreenshotTest T)}.
Context (good : T -> Prop) (t0 : T) `{!Implemented good} `{!Orderly good t0}.
Variable getLines : string -> list string.

(** The run of a batch by the protocol reports no failure and leaves the
    screenshots that answer the entries of the file. *)
Lemma run_test_served rFile :
  exists s',
    run_test (processDialogBatchFile getLines rFile) (ScreenshotTest_ctor t0) = ([], s') /\
    Forall2 (shows (virtual_registerKnownDialogsByID ∅))
      (filter is_entry (getLines rFile)) (shots s').
Proof.
  destruct orderly_setUp as (s0 & H0 & R0 & E0).
  destruct (process_lines_served good (getLines rFile) s0 R0)
    as (s1 & new & H1 & (R1 & E1 & _) & F1).
  destruct (orderly_tearDown s1 R1) as (s2 & H2 & E2).
  exists s2. unfold run_test, processDialogBatchFile. rewrite H0, H1, H2.
  split; [done|]. rewrite E2, E1, E0, <- (proj2 R0). exact F1.
Qed.

End WholeRun.

(** ** Two builds of a fixture *)

(** Two outcomes are alike: the same result, or two failures that are akin. *)
Definition alike_outcome {A} (akin : relation Failure) (o1 o2 : Outcome A) : Prop :=
  match o1, o2 with
  | Ok a1, Ok a2 => a1 = a2
  | Failed e1, Failed e2 => akin e1 e2
  | _, _ => False
  end.

Lemma alike_outcome_mono {A} (R R' : relation Failure) (o1 o2 : Outcome A) :
  (forall e1 e2, R e1 e2 -> R' e1 e2) -> alike_outcome R o1 o2 -> alike_outcome R' o1 o2.
Proof. intros H. destruct o1, o2; simpl; auto. Qed.

Section TwoBuilds.
Context {T : Type} (KD1 KD2 : KnownDialogs T).
Context (good : T -> Prop) (akin : N -> relation Failure).
Implicit Types (s : ScreenshotTest T) (t : T) (m : gmap string N).

(** Two implementations of [createDialogByID] are interchangeable on the
    states [good]: both keep the state good, they return on the same states
    with the same dialog and the same state, and where they fail on an ID
    their failures are akin for that ID. *)
Class Interchangeable : Prop := {
  interchangeable nID t :
    good t ->
    good (virtual_createDialogByID (KnownDialogs := KD1) nID t).2 /\
    good (virtual_createDialogByID (KnownDialogs := KD2) nID t).2 /\
    alike_outcome (akin nID) (virtual_createDialogByID (KnownDialogs := KD1) nID t).1
      (virtual_createDialogByID (KnownDialogs := KD2) nID t).1 /\
    (is_ok (virtual_createDialogByID (KnownDialogs := KD1) nID t).1 = true ->
     (virtual_createDialogByID (KnownDialogs := KD1) nID t).2 =
       (virtual_createDialogByID (KnownDialogs := KD2) nID t).2)
}.

(** Two failures are akin for a known dialog that one of the lines names. *)
Definition akin_in m (lines : list string) : relation Failure :=
  fun e1 e2 =>
    exists line nID,
      line ∈ lines /\ is_entry line = true /\ m !! line = Some nID /\ akin nID e1 e2.

(** Two results of a member function of the base class on the object [s]
    and the lines [lines] are alike: alike outcomes, the known dialogs of
    [s], the same screenshots and disposed components, members in a good
    state, and the same object when they returned. *)
Definition alike s (lines : list string)
    (r1 r2 : Outcome unit * ScreenshotTest T) : Prop :=
  good (fixture r1.2) /\ good (fixture r2.2) /\
  alike_outcome (akin_in (maKnownDialogs s) lines) r1.1 r2.1 /\
  maKnownDialogs r1.2 = maKnownDialogs s /\ maKnownDialogs r2.2 = maKnownDialogs s /\
  shots r1.2 = shots r2.2 /\ disposed r1.2 = disposed r2.2 /\
  torn_down r1.2 = torn_down r2.2 /\
  (is_ok r1.1 = true -> r1.2 = r2.2).

Lemma alike_refl s lines : good (fixture s) -> alike s lines (Ok tt, s) (Ok tt, s).
Proof. by repeat split. Qed.

Context `{!Interchangeable}.

Lemma process_line_alike line s :
  good (fixture s) ->
  alike s [line] (process_line (KD := KD1) line s) (process_line (KD := KD2) line s).
Proof.
  intros G. unfold process_line. destruct (is_entry line) eqn:E; [|by apply alike_refl].
  unfold createDialogByName, bind, gets, lift.
  destruct (maKnownDialogs s !! line) as [nID|] eqn:L; [|by repeat split].
  destruct (interchangeable nID (fixture s) G) as (G1 & G2 & Ho & Hs).
  destruct (virtual_createDialogByID (KnownDialogs := KD1) nID (fixture s)) as [[o1|e1] t1],
    (virtual_createDialogByID (KnownDialogs := KD2) nID (fixture s)) as [[o2|e2] t2];
    simpl in *; try done.
  - subst o2. rewrite <- (Hs eq_refl). by destruct o1; repeat split.
  - repeat split; try done. exists line, nID. by rewrite list_elem_of_singleton.
Qed.

Lemma process_lines_alike lines s :
  good (fixture s) ->
  alike s lines (process_lines (KD := KD1) lines s) (process_lines (KD := KD2) lines s).
Proof.
  revert s. induction lines as [|line lines IH]; intros s G; [by apply alike_refl|].
  simpl. unfold bind.
  destruct (process_line_alike line s G) as (G1 & G2 & Ho & M1 & M2 & Hr).
  destruct (process_line (KD := KD1) line s) as [[[]|e1] s1],
    (process_line (KD := KD2) line s) as [[[]|e2] s2]; simpl in *; try done.
  - destruct Hr as (_ & _ & _ & Hs). rewrite <- (Hs eq_refl).
    destruct (IH s1 G1) as (G1' & G2' & Ho' & M1' & M2' & Hr').
    rewrite M1 in *. repeat split; try done; try apply Hr'.
    eapply alike_outcome_mono; [|exact Ho'].
    intros e1 e2 (l & nID & Hl & ?). exists l, nID. split; [by right|done].
  - repeat split; try done; try apply Hr.
    destruct Ho as (l & nID & ->%list_elem_of_singleton & ?).
    exists line, nID. split; [by left|done].
Qed.

End TwoBuilds.

(** ** Witness: a fixture with one known dialog *)

(** A fixture without members that registers and builds the remote
    dialog. *)
Definition remote_only : KnownDialogs unit :=
  {| virtual_registerKnownDialogsByID :=
       fun m => <["modules/simpress/ui/remotedialog.ui" := 0%N]> m;
     virtual_createDialogByID :=
       fun nID =>
         if decide (nID = 0%N) then ret (Some {| built_by := CreateRemoteDialog None |})
         else ret None |}.

#[local] Instance remote_only_implemented : Implemented (KD := remote_only) (fun _ => True).
Proof.
  constructor. intros rName nID [] L _. simpl in L.
  apply lookup_insert_Some in L as [[<- <-]|[_ L]]; [|by rewrite lookup_empty in L].
  by exists {| built_by := CreateRemoteDialog None |}, tt.
Qed.

(** A batch file with a comment, the known dialog and an unknown one. *)
Definition remote_lines (rFile : string) : list string :=
  [ "# remote control"; "modules/simpress/ui/remotedialog.ui"; "modules/sdraw/ui/unknown.ui" ].

(** The object after [setUp] of the base class. *)
Definition remote_object : ScreenshotTest unit :=
  snd (ScreenshotTest_setUp (KD := remote_only) (ScreenshotTest_ctor tt)).

Lemma harness_serves_witness :
  prepared (KD := remote_only) (fun _ => True) remote_object /\
  exists s' new,
    processDialogBatchFile (KD := remote_only) remote_lines "batch" remote_object =
      (Ok tt, s') /\
    served (KD := remote_only) (fun _ => True) remote_object new s' /\
    Forall2 (shows (maKnownDialogs remote_object))
      (filter is_entry (remote_lines "batch")) new.
Proof.
  split; [by split|].
  exact (proj1 (harness_serves (KD := remote_only) (fun _ => True) remote_lines "batch"
                  remote_object (conj I eq_refl))).
Defined.
