(* ===== verification/Fixture.v ===== *)
(** * The fixture object

    The class [SdDialogsTest] of [dialogs-test.cxx]: its members, the
    constructor, [setUp], [tearDown] and the private getters that create
    the shells and the attribute sets on demand.

    A getter returns the object its member points to: each ends by an
    assertion that the member is not null, so the pointer it returns is
    never null. *)

From Stdlib Require Import ZArith.
From stdpp Require Import base tactics option list strings gmap.
From S2P Require Import Prelude ItemSet Host.

(** ** Members *)

Record SdDialogsTest : Type := {
  (** Document and ComponentContext *)
  mxComponent : option XComponent;
  (** initially created SdAbstractDialogFactory and pointer to document *)
  mpFact : option SdAbstractDialogFactory;
  mpImpressDocument : option SdXImpressDocument;
  (** on-demand created instances required for various dialogs to open *)
  mpDocShell : option DrawDocShell;
  mpViewShell : option ViewShell;
  mpDrawView : option DrawView;
  mpSfxItemSetFromSdrObject : option SfxItemSet;
  mpEmptySfxItemSet : option SfxItemSet;
  mpEmptyFillStyleSfxItemSet : option SfxItemSet
}.

(** Assignments to one member. *)
Definition set_mxComponent (v : option XComponent) (t : SdDialogsTest) :=
  {| mxComponent := v; mpFact := mpFact t;
     mpImpressDocument := mpImpressDocument t; mpDocShell := mpDocShell t;
     mpViewShell := mpViewShell t; mpDrawView := mpDrawView t;
     mpSfxItemSetFromSdrObject := mpSfxItemSetFromSdrObject t;
     mpEmptySfxItemSet := mpEmptySfxItemSet t;
     mpEmptyFillStyleSfxItemSet := mpEmptyFillStyleSfxItemSet t |}.

Definition set_mpFact (v : option SdAbstractDialogFactory) (t : SdDialogsTest) :=
  {| mxComponent := mxComponent t; mpFact := v;
     mpImpressDocument := mpImpressDocument t; mpDocShell := mpDocShell t;
     mpViewShell := mpViewShell t; mpDrawView := mpDrawView t;
     mpSfxItemSetFromSdrObject := mpSfxItemSetFromSdrObject t;
     mpEmptySfxItemSet := mpEmptySfxItemSet t;
     mpEmptyFillStyleSfxItemSet := mpEmptyFillStyleSfxItemSet t |}.

Definition set_mpImpressDocument (v : option SdXImpressDocument) (t : SdDialogsTest) :=
  {| mxComponent := mxComponent t; mpFact := mpFact t;
     mpImpressDocument := v; mpDocShell := mpDocShell t;
     mpViewShell := mpViewShell t; mpDrawView := mpDrawView t;
     mpSfxItemSetFromSdrObject := mpSfxItemSetFromSdrObject t;
     mpEmptySfxItemSet := mpEmptySfxItemSet t;
     mpEmptyFillStyleSfxItemSet := mpEmptyFillStyleSfxItemSet t |}.

Definition set_mpDocShell (v : option DrawDocShell) (t : SdDialogsTest) :=
  {| mxComponent := mxComponent t; mpFact := mpFact t;
     mpImpressDocument := mpImpressDocument t; mpDocShell := v;
     mpViewShell := mpViewShell t; mpDrawView := mpDrawView t;
     mpSfxItemSetFromSdrObject := mpSfxItemSetFromSdrObject t;
     mpEmptySfxItemSet := mpEmptySfxItemSet t;
     mpEmptyFillStyleSfxItemSet := mpEmptyFillStyleSfxItemSet t |}.

Definition set_mpViewShell (v : option ViewShell) (t : SdDialogsTest) :=
  {| mxComponent := mxComponent t; mpFact := mpFact t;
     mpImpressDocument := mpImpressDocument t; mpDocShell := mpDocShell t;
     mpViewShell := v; mpDrawView := mpDrawView t;
     mpSfxItemSetFromSdrObject := mpSfxItemSetFromSdrObject t;
     mpEmptySfxItemSet := mpEmptySfxItemSet t;
     mpEmptyFillStyleSfxItemSet := mpEmptyFillStyleSfxItemSet t |}.

Definition set_mpDrawView (v : option DrawView) (t : SdDialogsTest) :=
  {| mxComponent := mxComponent t; mpFact := mpFact t;
     mpImpressDocument := mpImpressDocument t; mpDocShell := mpDocShell t;
     mpViewShell := mpViewShell t; mpDrawView := v;
     mpSfxItemSetFromSdrObject := mpSfxItemSetFromSdrObject t;
     mpEmptySfxItemSet := mpEmptySfxItemSet t;
     mpEmptyFillStyleSfxItemSet := mpEmptyFillStyleSfxItemSet t |}.

Definition set_mpSfxItemSetFromSdrObject (v : option SfxItemSet) (t : SdDialogsTest) :=
  {| mxComponent := mxComponent t; mpFact := mpFact t;
     mpImpressDocument := mpImpressDocument t; mpDocShell := mpDocShell t;
     mpViewShell := mpViewShell t; mpDrawView := mpDrawView t;
     mpSfxItemSetFromSdrObject := v;
     mpEmptySfxItemSet := mpEmptySfxItemSet t;
     mpEmptyFillStyleSfxItemSet := mpEmptyFillStyleSfxItemSet t |}.

Definition set_mpEmptySfxItemSet (v : option SfxItemSet) (t : SdDialogsTest) :=
  {| mxComponent := mxComponent t; mpFact := mpFact t;
     mpImpressDocument := mpImpressDocument t; mpDocShell := mpDocShell t;
     mpViewShell := mpViewShell t; mpDrawView := mpDrawView t;
     mpSfxItemSetFromSdrObject := mpSfxItemSetFromSdrObject t;
     mpEmptySfxItemSet := v;
     mpEmptyFillStyleSfxItemSet := mpEmptyFillStyleSfxItemSet t |}.

Definition set_mpEmptyFillStyleSfxItemSet (v : option SfxItemSet) (t : SdDialogsTest) :=
  {| mxComponent := mxComponent t; mpFact := mpFact t;
     mpImpressDocument := mpImpressDocument t; mpDocShell := mpDocShell t;
     mpViewShell := mpViewShell t; mpDrawView := mpDrawView t;
     mpSfxItemSetFromSdrObject := mpSfxItemSetFromSdrObject t;
     mpEmptySfxItemSet := mpEmptySfxItemSet t;
     mpEmptyFillStyleSfxItemSet := v |}.

(** ** Member functions *)

Section Members.
Context `{IDS : SdAttrIds} `{HOST : HostEnv}.

#[local] Abbreviation Test := (Fx SdDialogsTest).

(** [SdDialogsTest::SdDialogsTest()] *)
Definition SdDialogsTest_ctor : SdDialogsTest :=
  {| mxComponent := None; mpFact := None; mpImpressDocument := None;
     mpDocShell := None; mpViewShell := None; mpDrawView := None;
     mpSfxItemSetFromSdrObject := None; mpEmptySfxItemSet := None;
     mpEmptyFillStyleSfxItemSet := None |}.

(** [setUp()].  The call of the base class touches no member of this
    class. *)
Definition setUp : Test unit :=
  modify (set_mpFact SdAbstractDialogFactory_Create) ;;;
  modify (set_mxComponent
            (loadFromDesktop "private:factory/simpress"
               "com.sun.star.presentation.PresentationDocument")) ;;;
  c <- gets mxComponent ;;
  modify (set_mpImpressDocument (dynamic_cast_SdXImpressDocument c)) ;;;
  p <- gets mpImpressDocument ;;
  assert_ptr 109 p ;;;
  ret tt.

(** [tearDown()] on the members: the three resets and the use of the
    reference [mxComponent].  What [dispose()] does to the component is no
    change of a member; [full_tearDown] of [Lifecycle] records it. *)
Definition tearDown : Test unit :=
  modify (set_mpSfxItemSetFromSdrObject None) ;;;
  modify (set_mpEmptySfxItemSet None) ;;;
  modify (set_mpEmptyFillStyleSfxItemSet None) ;;;
  c <- gets mxComponent ;;
  deref 117 c ;;;
  ret tt.

Definition getSdAbstractDialogFactory : Test (option SdAbstractDialogFactory) :=
  gets mpFact.

Definition getSdXImpressDocument : Test (option SdXImpressDocument) :=
  gets mpImpressDocument.

Definition getDocShell : Test DrawDocShell :=
  p <- gets mpDocShell ;;
  match p with
  | Some sh => ret sh
  | None =>
      d <- getSdXImpressDocument ;;
      d <- deref 135 d ;;
      modify (set_mpDocShell (GetDocShell d)) ;;;
      p <- gets mpDocShell ;;
      assert_ptr 136 p
  end.

Definition getViewShell : Test ViewShell :=
  p <- gets mpViewShell ;;
  match p with
  | Some v => ret v
  | None =>
      sh <- getDocShell ;;
      modify (set_mpViewShell (GetViewShell sh)) ;;;
      p <- gets mpViewShell ;;
      assert_ptr 147 p
  end.

Definition getDrawView : Test DrawView :=
  p <- gets mpDrawView ;;
  match p with
  | Some dv => ret dv
  | None =>
      v <- getViewShell ;;
      modify (set_mpDrawView (dynamic_cast_DrawView (GetDrawView v))) ;;;
      p <- gets mpDrawView ;;
      assert_ptr 158 p
  end.

Definition getSfxItemSetFromSdrObject : Test SfxItemSet :=
  p <- gets mpSfxItemSetFromSdrObject ;;
  match p with
  | Some s => ret s
  | None =>
      d <- getSdXImpressDocument ;;
      d <- deref 168 d ;;
      pDrawDoc <- assert_ptr 169 (GetDoc d) ;;
      pSdPage <- assert_ptr 171 (GetSdPage 0 PageKind_Standard pDrawDoc) ;;
      pSdrObj <- assert_ptr 173 (GetObj 0 pSdPage) ;;
      modify (set_mpSfxItemSetFromSdrObject (Some (GetMergedItemSet pSdrObj))) ;;;
      p <- gets mpSfxItemSetFromSdrObject ;;
      assert_ptr 175 p
  end.

Definition getEmptySfxItemSet : Test SfxItemSet :=
  p <- gets mpEmptySfxItemSet ;;
  match p with
  | Some s => ret s
  | None =>
      d <- getSdXImpressDocument ;;
      d <- deref 186 d ;;
      pDrawDoc <- assert_ptr 187 (GetDoc d) ;;
      modify (set_mpEmptySfxItemSet
                (Some (SfxItemSet_of_pool (GetItemPool pDrawDoc)))) ;;;
      p <- gets mpEmptySfxItemSet ;;
      assert_ptr 189 p
  end.

Definition getEmptyFillStyleSfxItemSet : Test SfxItemSet :=
  p <- gets mpEmptyFillStyleSfxItemSet ;;
  match p with
  | Some s => ret s
  | None =>
      d <- getSdXImpressDocument ;;
      d <- deref 199 d ;;
      pDrawDoc <- assert_ptr 200 (GetDoc d) ;;
      modify (set_mpEmptyFillStyleSfxItemSet
                (Some (SfxItemSet_of_range (GetItemPool pDrawDoc)
                         (which XATTR_FILL_FIRST) (which XATTR_FILL_LAST)))) ;;;
      p <- gets mpEmptyFillStyleSfxItemSet ;;
      s <- assert_ptr 202 p ;;
      modify (set_mpEmptyFillStyleSfxItemSet
                (Some (Put (XFillStyleItem FillStyle_NONE) s))) ;;;
      p <- gets mpEmptyFillStyleSfxItemSet ;;
      deref 206 p
  end.

End Members.

(** ** What the getters compute

    The result of each getter as a function of the document alone: the
    object on success, the line of the assertion that fails otherwise. *)

Section Specification.
Context `{IDS : SdAttrIds}.
Implicit Types d : SdXImpressDocument.

Definition spec_getDocShell d : Outcome DrawDocShell :=
  expect 136 (GetDocShell d).

Definition spec_getViewShell d : Outcome ViewShell :=
  let* sh := spec_getDocShell d in
  expect 147 (GetViewShell sh).

Definition spec_getDrawView d : Outcome DrawView :=
  let* v := spec_getViewShell d in
  expect 158 (dynamic_cast_DrawView (GetDrawView v)).

Definition spec_getDoc (line : N) d : Outcome SdDrawDocument :=
  expect line (GetDoc d).

Definition spec_getSfxItemSetFromSdrObject d : Outcome SfxItemSet :=
  let* pDrawDoc := spec_getDoc 169 d in
  let* pSdPage := expect 171 (GetSdPage 0 PageKind_Standard pDrawDoc) in
  let* pSdrObj := expect 173 (GetObj 0 pSdPage) in
  Ok (GetMergedItemSet pSdrObj).

Definition spec_getEmptySfxItemSet d : Outcome SfxItemSet :=
  let* pDrawDoc := spec_getDoc 187 d in
  Ok (SfxItemSet_of_pool (GetItemPool pDrawDoc)).

Definition spec_getEmptyFillStyleSfxItemSet d : Outcome SfxItemSet :=
  let* pDrawDoc := spec_getDoc 200 d in
  Ok (Put (XFillStyleItem FillStyle_NONE)
        (SfxItemSet_of_group (GetItemPool pDrawDoc) FillGroup)).

(** The members created on demand. *)
Inductive Member : Type :=
| MDocShell | MViewShell | MDrawView
| MSfxItemSetFromSdrObject | MEmptySfxItemSet | MEmptyFillStyleSfxItemSet.

#[export] Instance Member_eq_dec : EqDecision Member.
Proof. solve_decision. Defined.

(** The fixture after the getter of [m] has run on a document [d]: the
    member, and the members its getter goes through, hold what the
    document gives. *)
Definition fill (m : Member) d (t : SdDialogsTest) : SdDialogsTest :=
  match m with
  | MDocShell =>
      set_mpDocShell (to_option (spec_getDocShell d)) t
  | MViewShell =>
      set_mpViewShell (to_option (spec_getViewShell d))
        (set_mpDocShell (to_option (spec_getDocShell d)) t)
  | MDrawView =>
      set_mpDrawView (to_option (spec_getDrawView d))
        (set_mpViewShell (to_option (spec_getViewShell d))
           (set_mpDocShell (to_option (spec_getDocShell d)) t))
  | MSfxItemSetFromSdrObject =>
      set_mpSfxItemSetFromSdrObject (to_option (spec_getSfxItemSetFromSdrObject d)) t
  | MEmptySfxItemSet =>
      set_mpEmptySfxItemSet (to_option (spec_getEmptySfxItemSet d)) t
  | MEmptyFillStyleSfxItemSet =>
      set_mpEmptyFillStyleSfxItemSet (to_option (spec_getEmptyFillStyleSfxItemSet d)) t
  end.

Definition fill_all (ms : list Member) d (t : SdDialogsTest) : SdDialogsTest :=
  foldl (fun t m => fill m d t) t ms.

(** A member is empty or holds the expected object. *)
Definition cache_ok {A} (c e : option A) : Prop :=
  match c with Some x => e = Some x | None => True end.

(** The invariant of a fixture that was set up on the document [d]. *)
Record coherent d (t : SdDialogsTest) : Prop := {
  coh_component : mxComponent t = Some (ImpressDocument d);
  coh_document : mpImpressDocument t = Some d;
  coh_doc_shell : cache_ok (mpDocShell t) (to_option (spec_getDocShell d));
  coh_view_shell : cache_ok (mpViewShell t) (to_option (spec_getViewShell d));
  coh_draw_view : cache_ok (mpDrawView t) (to_option (spec_getDrawView d));
  coh_obj_set :
    cache_ok (mpSfxItemSetFromSdrObject t)
      (to_option (spec_getSfxItemSetFromSdrObject d));
  coh_empty_set :
    cache_ok (mpEmptySfxItemSet t) (to_option (spec_getEmptySfxItemSet d));
  coh_fill_set :
    cache_ok (mpEmptyFillStyleSfxItemSet t)
      (to_option (spec_getEmptyFillStyleSfxItemSet d));
  coh_view_closed : is_Some (mpViewShell t) -> is_Some (mpDocShell t);
  coh_draw_closed : is_Some (mpDrawView t) -> is_Some (mpViewShell t)
}.

(** No member created on demand is filled. *)
Definition caches_empty (t : SdDialogsTest) : Prop :=
  mpDocShell t = None /\ mpViewShell t = None /\ mpDrawView t = None /\
  mpSfxItemSetFromSdrObject t = None /\ mpEmptySfxItemSet t = None /\
  mpEmptyFillStyleSfxItemSet t = None.

(** The three owning pointers are empty. *)
Definition released (t : SdDialogsTest) : Prop :=
  mpSfxItemSetFromSdrObject t = None /\ mpEmptySfxItemSet t = None /\
  mpEmptyFillStyleSfxItemSet t = None.

(** [t'] is [t] with more members filled. *)
Definition opt_le {A} (a b : option A) : Prop := a = None \/ a = b.

Record extends (t t' : SdDialogsTest) : Prop := {
  ext_component : mxComponent t' = mxComponent t;
  ext_fact : mpFact t' = mpFact t;
  ext_document : mpImpressDocument t' = mpImpressDocument t;
  ext_doc_shell : opt_le (mpDocShell t) (mpDocShell t');
  ext_view_shell : opt_le (mpViewShell t) (mpViewShell t');
  ext_draw_view : opt_le (mpDrawView t) (mpDrawView t');
  ext_obj_set : opt_le (mpSfxItemSetFromSdrObject t) (mpSfxItemSetFromSdrObject t');
  ext_empty_set : opt_le (mpEmptySfxItemSet t) (mpEmptySfxItemSet t');
  ext_fill_set :
    opt_le (mpEmptyFillStyleSfxItemSet t) (mpEmptyFillStyleSfxItemSet t')
}.

End Specification.

(** ** Facts on the members *)

Section SetterFacts.
Implicit Types t : SdDialogsTest.

Lemma set_mpDocShell_same t v : mpDocShell t = v -> set_mpDocShell v t = t.
Proof. intros <-. by destruct t. Qed.
Lemma set_mpViewShell_same t v : mpViewShell t = v -> set_mpViewShell v t = t.
Proof. intros <-. by destruct t. Qed.
Lemma set_mpDrawView_same t v : mpDrawView t = v -> set_mpDrawView v t = t.
Proof. intros <-. by destruct t. Qed.
Lemma set_mpSfxItemSetFromSdrObject_same t v :
  mpSfxItemSetFromSdrObject t = v -> set_mpSfxItemSetFromSdrObject v t = t.
Proof. intros <-. by destruct t. Qed.
Lemma set_mpEmptySfxItemSet_same t v :
  mpEmptySfxItemSet t = v -> set_mpEmptySfxItemSet v t = t.
Proof. intros <-. by destruct t. Qed.
Lemma set_mpEmptyFillStyleSfxItemSet_same t v :
  mpEmptyFillStyleSfxItemSet t = v -> set_mpEmptyFillStyleSfxItemSet v t = t.
Proof. intros <-. by destruct t. Qed.

End SetterFacts.

Section CacheFacts.
Context {A : Type}.
Implicit Types (c e : option A) (o : Outcome A).

Lemma cache_ok_None e : cache_ok None e.
Proof. done. Qed.

Lemma cache_ok_refl e : cache_ok e e.
Proof. by destruct e. Qed.

Lemma cache_ok_hit c o x : cache_ok c (to_option o) -> c = Some x -> o = Ok x.
Proof. intros H ->. by apply to_option_Some. Qed.

Lemma opt_le_refl c : opt_le c c.
Proof. by right. Qed.

Lemma opt_le_trans c1 c2 c3 : opt_le c1 c2 -> opt_le c2 c3 -> opt_le c1 c3.
Proof. intros [->| ->]; [by left | done]. Qed.

Lemma opt_le_cache_ok c e : cache_ok c e -> opt_le c e.
Proof. destruct c; [by right | by left]. Qed.

(** The shape of every getter: return the member when it is filled, create
    it otherwise. *)
Lemma on_demand_run {S} (get : S -> option A) (init : Fx S A) o (F t : S) :
  cache_ok (get t) (to_option o) ->
  (forall x, get t = Some x -> F = t) ->
  (get t = None -> init t = (o, F)) ->
  (p <- gets get ;; match p with Some a => ret a | None => init end) t = (o, F).
Proof.
  intros Hc Hhit Hmiss. unfold bind at 1, gets at 1.
  destruct (get t) as [x|] eqn:E; [|by apply Hmiss].
  rewrite (cache_ok_hit _ _ _ Hc eq_refl), (Hhit x eq_refl). reflexivity.
Qed.

End CacheFacts.

(** ** The getters against their specification *)

Section GetterFacts.
Context `{IDS : SdAttrIds} `{HOST : HostEnv}.
Implicit Types (d : SdXImpressDocument) (t : SdDialogsTest).

Lemma spec_view_shell d v :
  spec_getViewShell d = Ok v -> exists sh, spec_getDocShell d = Ok sh.
Proof. unfold spec_getViewShell. intros (sh & ? & _)%outcome_bind_ok. eauto. Qed.

Lemma spec_draw_view d dv :
  spec_getDrawView d = Ok dv -> exists v, spec_getViewShell d = Ok v.
Proof. unfold spec_getDrawView. intros (v & ? & _)%outcome_bind_ok. eauto. Qed.

Lemma coherent_view_hit d t v :
  coherent d t -> mpViewShell t = Some v ->
  spec_getViewShell d = Ok v /\ mpDocShell t = to_option (spec_getDocShell d).
Proof.
  intros C E. split; [by eapply cache_ok_hit, E; apply C|].
  destruct (coh_view_closed _ _ C) as [sh Hsh]; [by rewrite E|].
  by rewrite Hsh, (cache_ok_hit _ _ _ (coh_doc_shell _ _ C) Hsh).
Qed.

Lemma coherent_draw_hit d t dv :
  coherent d t -> mpDrawView t = Some dv ->
  mpViewShell t = to_option (spec_getViewShell d) /\
  mpDocShell t = to_option (spec_getDocShell d).
Proof.
  intros C E. destruct (coh_draw_closed _ _ C) as [v Hv]; [by rewrite E|].
  destruct (coherent_view_hit d t v C Hv) as [-> ?]. done.
Qed.

Lemma getDocShell_run d t :
  coherent d t -> getDocShell t = (spec_getDocShell d, fill MDocShell d t).
Proof.
  intros C. apply on_demand_run; [apply C | |].
  - intros sh E. apply set_mpDocShell_same.
    by rewrite E, (cache_ok_hit _ _ _ (coh_doc_shell _ _ C) E).
  - intros _. unfold getSdXImpressDocument, bind, gets, deref, modify.
    rewrite (coh_document _ _ C). simpl. rewrite assert_ptr_expect.
    unfold spec_getDocShell. by rewrite to_option_expect.
Qed.

Lemma getViewShell_run d t :
  coherent d t -> getViewShell t = (spec_getViewShell d, fill MViewShell d t).
Proof.
  intros C. apply on_demand_run; [apply C | |].
  - intros v E. destruct (coherent_view_hit d t v C E) as [Hv Hsh]. simpl.
    rewrite (set_mpDocShell_same t) by done. apply set_mpViewShell_same. by rewrite E, Hv.
  - intros E. rewrite (bind_run _ _ _ _ _ (getDocShell_run d t C)).
    unfold fill, spec_getViewShell. destruct (spec_getDocShell d) as [sh|e]; simpl.
    + unfold bind, modify, gets; simpl. by rewrite assert_ptr_expect, to_option_expect.
    + by rewrite set_mpViewShell_same.
Qed.


Lemma getDrawView_run d t :
  coherent d t -> getDrawView t = (spec_getDrawView d, fill MDrawView d t).
Proof.
  intros C. apply on_demand_run; [apply C | |].
  - intros dv E. destruct (coherent_draw_hit d t dv C E) as [Hv Hsh]. simpl.
    rewrite (set_mpDocShell_same t), (set_mpViewShell_same t) by done.
    apply set_mpDrawView_same. by rewrite E, (cache_ok_hit _ _ _ (coh_draw_view _ _ C) E).
  - intros E. rewrite (bind_run _ _ _ _ _ (getViewShell_run d t C)).
    unfold fill, spec_getDrawView. destruct (spec_getViewShell d) as [v|e]; simpl.
    + unfold bind, modify, gets; simpl. by rewrite assert_ptr_expect, to_option_expect.
    + by rewrite set_mpDrawView_same.
Qed.

Lemma getSfxItemSetFromSdrObject_run d t :
  coherent d t ->
  getSfxItemSetFromSdrObject t =
    (spec_getSfxItemSetFromSdrObject d, fill MSfxItemSetFromSdrObject d t).
Proof.
  intros C. apply on_demand_run; [apply C | |].
  - intros s E. apply set_mpSfxItemSetFromSdrObject_same.
    by rewrite E, (cache_ok_hit _ _ _ (coh_obj_set _ _ C) E).
  - intros E. unfold getSdXImpressDocument, bind, gets, deref, modify, fill.
    rewrite (coh_document _ _ C). unfold spec_getSfxItemSetFromSdrObject, spec_getDoc.
    rewrite !assert_ptr_expect.
    destruct (GetDoc d) as [doc|]; simpl; [|by rewrite set_mpSfxItemSetFromSdrObject_same].
    rewrite !assert_ptr_expect.
    destruct (GetSdPage 0 _ doc) as [pg|]; simpl;
      [|by rewrite set_mpSfxItemSetFromSdrObject_same].
    rewrite !assert_ptr_expect.
    destruct (GetObj 0 pg) as [o|]; simpl; [done|by rewrite set_mpSfxItemSetFromSdrObject_same].
Qed.

Lemma getEmptySfxItemSet_run d t :
  coherent d t ->
  getEmptySfxItemSet t = (spec_getEmptySfxItemSet d, fill MEmptySfxItemSet d t).
Proof.
  intros C. apply on_demand_run; [apply C | |].
  - intros s E. apply set_mpEmptySfxItemSet_same.
    by rewrite E, (cache_ok_hit _ _ _ (coh_empty_set _ _ C) E).
  - intros E. unfold getSdXImpressDocument, bind, gets, deref, modify, fill.
    rewrite (coh_document _ _ C). unfold spec_getEmptySfxItemSet, spec_getDoc.
    rewrite !assert_ptr_expect.
    destruct (GetDoc d) as [doc|]; simpl; [done|by rewrite set_mpEmptySfxItemSet_same].
Qed.

Lemma getEmptyFillStyleSfxItemSet_run d t :
  coherent d t ->
  getEmptyFillStyleSfxItemSet t =
    (spec_getEmptyFillStyleSfxItemSet d, fill MEmptyFillStyleSfxItemSet d t).
Proof.
  intros C. apply on_demand_run; [apply C | |].
  - intros s E. apply set_mpEmptyFillStyleSfxItemSet_same.
    by rewrite E, (cache_ok_hit _ _ _ (coh_fill_set _ _ C) E).
  - intros E. unfold getSdXImpressDocument, bind, gets, deref, modify, fill.
    rewrite (coh_document _ _ C). unfold spec_getEmptyFillStyleSfxItemSet, spec_getDoc.
    rewrite !assert_ptr_expect.
    destruct (GetDoc d) as [doc|]; simpl; [done|by rewrite set_mpEmptyFillStyleSfxItemSet_same].
Qed.

Lemma spec_view_is_Some d :
  is_Some (to_option (spec_getViewShell d)) -> is_Some (to_option (spec_getDocShell d)).
Proof. intros [v Hv%to_option_Some]. destruct (spec_view_shell d v Hv) as [sh ->]. by eexists. Qed.

Lemma spec_draw_is_Some d :
  is_Some (to_option (spec_getDrawView d)) -> is_Some (to_option (spec_getViewShell d)).
Proof. intros [v Hv%to_option_Some]. destruct (spec_draw_view d v Hv) as [sh ->]. by eexists. Qed.

Lemma coherent_view_spec d t :
  coherent d t -> is_Some (mpViewShell t) -> is_Some (to_option (spec_getDocShell d)).
Proof.
  intros C [v Hv]. apply spec_view_is_Some.
  destruct (coherent_view_hit d t v C Hv) as [-> _]. by eexists.
Qed.

Lemma coherent_draw_spec d t :
  coherent d t -> is_Some (mpDrawView t) -> is_Some (to_option (spec_getViewShell d)).
Proof.
  intros C [dv Hdv]. apply spec_draw_is_Some.
  rewrite (cache_ok_hit _ _ _ (coh_draw_view _ _ C) Hdv). by eexists.
Qed.

Lemma fill_coherent m d t : coherent d t -> coherent d (fill m d t).
Proof.
  intros C. destruct m; constructor; simpl; try apply C; try apply cache_ok_refl;
    eauto using coherent_view_spec, coherent_draw_spec, spec_view_is_Some, spec_draw_is_Some.
Qed.

Lemma fill_all_coherent ms d t : coherent d t -> coherent d (fill_all ms d t).
Proof.
  revert t. induction ms as [|m ms IH]; intros t C; [done|].
  apply IH. by apply fill_coherent.
Qed.

Lemma fill_extends m d t : coherent d t -> extends t (fill m d t).
Proof.
  intros C. destruct m; constructor; simpl; try done; try apply opt_le_refl;
    apply opt_le_cache_ok, C.
Qed.

#[export] Instance extends_preorder : PreOrder extends.
Proof.
  split.
  - intros t. constructor; by try apply opt_le_refl.
  - intros t1 t2 t3 [] []. constructor; try congruence; eauto using opt_le_trans.
Qed.

Lemma fill_comm m1 m2 d t : fill m1 d (fill m2 d t) = fill m2 d (fill m1 d t).
Proof. by destruct m1, m2. Qed.

Lemma fill_idemp m d t : fill m d (fill m d t) = fill m d t.
Proof. by destruct m. Qed.

Lemma mpFact_fill m d t : mpFact (fill m d t) = mpFact t.
Proof. by destruct m. Qed.

Lemma fill_all_app ms1 ms2 d t :
  fill_all (ms1 ++ ms2) d t = fill_all ms2 d (fill_all ms1 d t).
Proof. apply foldl_app. Qed.

(** The states a sequence of getters leads to. *)
Inductive Filled d t : SdDialogsTest -> Prop :=
| Filled_refl : Filled d t t
| Filled_step m t' : Filled d t t' -> Filled d t (fill m d t').

Lemma Filled_coherent d t t' : coherent d t -> Filled d t t' -> coherent d t'.
Proof. induction 2; auto using fill_coherent. Qed.

Lemma Filled_extends d t t' : coherent d t -> Filled d t t' -> extends t t'.
Proof.
  intros C. induction 1 as [|m t' H IH]; [reflexivity|].
  etrans; [exact IH|]. apply fill_extends. by eapply Filled_coherent.
Qed.

Lemma Filled_fill_all ms d t : Filled d t (fill_all ms d t).
Proof.
  induction ms as [|m ms IH] using rev_ind; [constructor|].
  rewrite fill_all_app. simpl. by constructor.
Qed.

Lemma mpFact_Filled d t t' : Filled d t t' -> mpFact t' = mpFact t.
Proof. induction 1; [done|]. by rewrite mpFact_fill. Qed.

Lemma fill_fill_all m ms d t : fill m d (fill_all ms d t) = fill_all ms d (fill m d t).
Proof.
  revert t. induction ms as [|m' ms IH]; intros t; simpl; [done|].
  by rewrite IH, fill_comm.
Qed.

Lemma fill_all_idemp ms d t : fill_all ms d (fill_all ms d t) = fill_all ms d t.
Proof.
  revert t. induction ms as [|m ms IH]; intros t; simpl; [done|].
  by rewrite fill_fill_all, fill_idemp, IH.
Qed.

(** The order in which getters run does not matter for the state they
    leave. *)
Lemma fill_all_Permutation ms1 ms2 d t :
  ms1 ≡ₚ ms2 -> fill_all ms1 d t = fill_all ms2 d t.
Proof.
  intros H. revert t. induction H as [|m ms1 ms2 _ IH|m1 m2 ms|ms1 ms2 ms3 _ IH1 _ IH2];
    intros t; simpl.
  - done.
  - apply IH.
  - by rewrite fill_comm.
  - by rewrite IH1.
Qed.

#[export] Instance fill_all_proper :
  Proper ((≡ₚ) ==> (=) ==> (=) ==> (=)) fill_all.
Proof. intros ms1 ms2 H d ? <- t ? <-. by apply fill_all_Permutation. Qed.

(** ** Running a getter in front of a continuation *)

Section Binds.
Context {B : Type}.
Implicit Types k : SfxItemSet -> Fx SdDialogsTest B.

Lemma bind_getDocShell d t (k : DrawDocShell -> Fx SdDialogsTest B) :
  coherent d t ->
  bind getDocShell k t =
    match spec_getDocShell d with
    | Ok a => k a (fill MDocShell d t)
    | Failed e => (Failed e, fill MDocShell d t)
    end.
Proof. intros C. by apply bind_run, getDocShell_run. Qed.

Lemma bind_getViewShell d t (k : ViewShell -> Fx SdDialogsTest B) :
  coherent d t ->
  bind getViewShell k t =
    match spec_getViewShell d with
    | Ok a => k a (fill MViewShell d t)
    | Failed e => (Failed e, fill MViewShell d t)
    end.
Proof. intros C. by apply bind_run, getViewShell_run. Qed.

Lemma bind_getDrawView d t (k : DrawView -> Fx SdDialogsTest B) :
  coherent d t ->
  bind getDrawView k t =
    match spec_getDrawView d with
    | Ok a => k a (fill MDrawView d t)
    | Failed e => (Failed e, fill MDrawView d t)
    end.
Proof. intros C. by apply bind_run, getDrawView_run. Qed.

Lemma bind_getSfxItemSetFromSdrObject d t k :
  coherent d t ->
  bind getSfxItemSetFromSdrObject k t =
    match spec_getSfxItemSetFromSdrObject d with
    | Ok a => k a (fill MSfxItemSetFromSdrObject d t)
    | Failed e => (Failed e, fill MSfxItemSetFromSdrObject d t)
    end.
Proof. intros C. by apply bind_run, getSfxItemSetFromSdrObject_run. Qed.

Lemma bind_getEmptySfxItemSet d t k :
  coherent d t ->
  bind getEmptySfxItemSet k t =
    match spec_getEmptySfxItemSet d with
    | Ok a => k a (fill MEmptySfxItemSet d t)
    | Failed e => (Failed e, fill MEmptySfxItemSet d t)
    end.
Proof. intros C. by apply bind_run, getEmptySfxItemSet_run. Qed.

Lemma bind_getEmptyFillStyleSfxItemSet d t k :
  coherent d t ->
  bind getEmptyFillStyleSfxItemSet k t =
    match spec_getEmptyFillStyleSfxItemSet d with
    | Ok a => k a (fill MEmptyFillStyleSfxItemSet d t)
    | Failed e => (Failed e, fill MEmptyFillStyleSfxItemSet d t)
    end.
Proof. intros C. by apply bind_run, getEmptyFillStyleSfxItemSet_run. Qed.

End Binds.

End GetterFacts.

(** ** The specifications use no null pointer *)

Section SpecFacts.
Context `{IDS : SdAttrIds}.
Implicit Types d : SdXImpressDocument.

Lemma spec_getDocShell_no_null d : no_null (spec_getDocShell d).
Proof. unfold spec_getDocShell. no_null_tac. Qed.

Lemma spec_getViewShell_no_null d : no_null (spec_getViewShell d).
Proof. unfold spec_getViewShell, spec_getDocShell. no_null_tac. Qed.

Lemma spec_getDrawView_no_null d : no_null (spec_getDrawView d).
Proof. unfold spec_getDrawView, spec_getViewShell, spec_getDocShell. no_null_tac. Qed.

Lemma spec_getDoc_no_null line d : no_null (spec_getDoc line d).
Proof. unfold spec_getDoc. no_null_tac. Qed.

Lemma spec_getSfxItemSetFromSdrObject_no_null d :
  no_null (spec_getSfxItemSetFromSdrObject d).
Proof. unfold spec_getSfxItemSetFromSdrObject, spec_getDoc. no_null_tac. Qed.

Lemma spec_getEmptySfxItemSet_no_null d : no_null (spec_getEmptySfxItemSet d).
Proof. unfold spec_getEmptySfxItemSet, spec_getDoc. no_null_tac. Qed.

Lemma spec_getEmptyFillStyleSfxItemSet_no_null d :
  no_null (spec_getEmptyFillStyleSfxItemSet d).
Proof. unfold spec_getEmptyFillStyleSfxItemSet, spec_getDoc. no_null_tac. Qed.

End SpecFacts.

#[export] Hint Resolve spec_getDocShell_no_null spec_getViewShell_no_null
  spec_getDrawView_no_null spec_getDoc_no_null spec_getSfxItemSetFromSdrObject_no_null
  spec_getEmptySfxItemSet_no_null spec_getEmptyFillStyleSfxItemSet_no_null : fx.

(** ** [setUp] and [tearDown] *)

Section SetUpTearDown.
Context `{IDS : SdAttrIds} `{HOST : HostEnv}.
Implicit Types (d : SdXImpressDocument) (t : SdDialogsTest).

(** The component [setUp] loads. *)
Definition loaded_component : option XComponent :=
  loadFromDesktop "private:factory/simpress"
    "com.sun.star.presentation.PresentationDocument".

Definition after_setUp t : SdDialogsTest :=
  set_mpImpressDocument (dynamic_cast_SdXImpressDocument loaded_component)
    (set_mxComponent loaded_component (set_mpFact SdAbstractDialogFactory_Create t)).

Definition after_tearDown t : SdDialogsTest :=
  set_mpEmptyFillStyleSfxItemSet None
    (set_mpEmptySfxItemSet None (set_mpSfxItemSetFromSdrObject None t)).

Lemma setUp_run t :
  setUp t =
    (outcome_map (fun _ => tt)
       (expect 109 (dynamic_cast_SdXImpressDocument loaded_component)),
     after_setUp t).
Proof.
  unfold setUp, after_setUp, loaded_component, bind, modify, gets. simpl.
  by destruct (dynamic_cast_SdXImpressDocument _).
Qed.

Lemma tearDown_run t :
  tearDown t =
    (match mxComponent t with
     | Some _ => Ok tt
     | None => Failed (NullDereference 117)
     end, after_tearDown t).
Proof. unfold tearDown, bind, modify, gets, deref. simpl. by destruct (mxComponent t). Qed.

Lemma caches_empty_coherent d t :
  caches_empty t -> mxComponent t = Some (ImpressDocument d) ->
  mpImpressDocument t = Some d -> coherent d t.
Proof.
  intros (H1 & H2 & H3 & H4 & H5 & H6) Hc Hd.
  constructor; rewrite ?H1, ?H2, ?H3, ?H4, ?H5, ?H6; try done; by intros [? [=]].
Qed.

Lemma after_tearDown_coherent d t : coherent d t -> coherent d (after_tearDown t).
Proof. intros C. constructor; simpl; try apply C; done. Qed.

Lemma ctor_caches_empty : caches_empty SdDialogsTest_ctor.
Proof. by repeat split. Qed.

End SetUpTearDown.

#[export] Hint Resolve fill_coherent fill_all_coherent Filled_coherent : fx.
#[export] Hint Constructors Filled : fx.
#[export] Hint Rewrite @mpFact_fill : fx.

(** ** Safety of the getters on any fixture that has its document

    No coherence of the members is needed for this: a getter uses no null
    pointer as soon as the factory and the document pointer are set, which
    no getter changes. *)

Definition usable (t : SdDialogsTest) : Prop :=
  is_Some (mpFact t) /\ is_Some (mpImpressDocument t).

Ltac usable_tac := by intros ? [].

Ltac safe_tac := repeat safe_step usable_tac.

Section Safety.
Context `{IDS : SdAttrIds} `{HOST : HostEnv}.

Lemma getDocShell_safe : safe usable getDocShell.
Proof. unfold getDocShell, getSdXImpressDocument. safe_tac. Qed.

Lemma getViewShell_safe : safe usable getViewShell.
Proof. pose proof getDocShell_safe. unfold getViewShell. safe_tac. Qed.

Lemma getDrawView_safe : safe usable getDrawView.
Proof. pose proof getViewShell_safe. unfold getDrawView. safe_tac. Qed.

Lemma getSfxItemSetFromSdrObject_safe : safe usable getSfxItemSetFromSdrObject.
Proof. unfold getSfxItemSetFromSdrObject, getSdXImpressDocument. safe_tac. Qed.

Lemma getEmptySfxItemSet_safe : safe usable getEmptySfxItemSet.
Proof. unfold getEmptySfxItemSet, getSdXImpressDocument. safe_tac. Qed.

Lemma getEmptyFillStyleSfxItemSet_safe : safe usable getEmptyFillStyleSfxItemSet.
Proof. unfold getEmptyFillStyleSfxItemSet, getSdXImpressDocument. safe_tac. Qed.

End Safety.

#[export] Hint Resolve getDocShell_safe getViewShell_safe getDrawView_safe
  getSfxItemSetFromSdrObject_safe getEmptySfxItemSet_safe
  getEmptyFillStyleSfxItemSet_safe : fx.

(** ** Theorems on the fixture *)

Section FixtureTheorems.
Context `{IDS : SdAttrIds} `{HOST : HostEnv}.
Implicit Types (d : SdXImpressDocument) (t : SdDialogsTest).

(** C5: each of the six getters that create their member on demand
    computes the same result as its specification, a function of the
    document alone, whether the member was filled before or not; the
    fixture it leaves is the one with the member, and the members its getter
    goes through, filled from the document. *)
Theorem getters_refine d t :
  coherent d t ->
  getDocShell t = (spec_getDocShell d, fill MDocShell d t) /\
  getViewShell t = (spec_getViewShell d, fill MViewShell d t) /\
  getDrawView t = (spec_getDrawView d, fill MDrawView d t) /\
  getSfxItemSetFromSdrObject t =
    (spec_getSfxItemSetFromSdrObject d, fill MSfxItemSetFromSdrObject d t) /\
  getEmptySfxItemSet t = (spec_getEmptySfxItemSet d, fill MEmptySfxItemSet d t) /\
  getEmptyFillStyleSfxItemSet t =
    (spec_getEmptyFillStyleSfxItemSet d, fill MEmptyFillStyleSfxItemSet d t).
Proof.
  intros C. split_and!;
    auto using getDocShell_run, getViewShell_run, getDrawView_run,
      getSfxItemSetFromSdrObject_run, getEmptySfxItemSet_run,
      getEmptyFillStyleSfxItemSet_run.
Qed.

(** C22: [getDrawView] keeps the invariant and returns the pointer it
    stores: after a return the draw view, the view shell and the document
    shell are all filled and the result is the draw view of the document's
    view shell; after a failed assertion the draw view member is still
    empty, and the invariant holds. *)
Theorem getDrawView_contract d :
  triple (coherent d) getDrawView
    (fun dv t =>
       coherent d t /\ spec_getDrawView d = Ok dv /\ mpDrawView t = Some dv /\
       is_Some (mpViewShell t) /\ is_Some (mpDocShell t))
    (fun e t => coherent d t /\ spec_getDrawView d = Failed e /\ mpDrawView t = None).
Proof.
  intros t C. rewrite (getDrawView_run d t C).
  pose proof (fill_coherent MDrawView d t C) as C'.
  destruct (spec_getDrawView d) as [dv|e] eqn:E.
  - assert (mpDrawView (fill MDrawView d t) = Some dv) as Hdv by (simpl; by rewrite E).
    assert (is_Some (mpViewShell (fill MDrawView d t))) as Hv.
    { apply (coh_draw_closed _ _ C'). by rewrite Hdv. }
    split_and!; try done. by apply (coh_view_closed _ _ C').
  - split_and!; try done. simpl. by rewrite E.
Qed.

(** C23: the set [getEmptyFillStyleSfxItemSet] returns spans the fill
    attributes of the document's pool and holds exactly one item, the fill
    style [NONE]. *)
Theorem getEmptyFillStyleSfxItemSet_content d t s t' :
  coherent d t -> getEmptyFillStyleSfxItemSet t = (Ok s, t') ->
  GetItem (which XATTR_FILLSTYLE) s = Some (VFillStyle FillStyle_NONE) /\
  Count s = 1%nat /\
  GetRanges s = [(which XATTR_FILL_FIRST, which XATTR_FILL_LAST)] /\
  mpEmptyFillStyleSfxItemSet t' = Some s.
Proof.
  intros C. rewrite (getEmptyFillStyleSfxItemSet_run d t C). intros [= Hs <-].
  split; [|split; [|split]]; [| | |simpl; by rewrite Hs].
  all: unfold spec_getEmptyFillStyleSfxItemSet, outcome_bind in Hs.
  all: destruct (spec_getDoc 200 d) as [doc|]; [injection Hs as <-|done].
  - apply (GetItem_Put_eq (XFillStyleItem FillStyle_NONE)).
    apply (which_in_group_ranges _ XATTR_FILLSTYLE).
  - unfold Put. rewrite set_slot_Count_fresh; [done| |done].
    apply (which_in_group_ranges _ XATTR_FILLSTYLE).
  - unfold Put. by rewrite set_slot_ranges.
Qed.

(** C24: [setUp] in every case.  The factory and the component are
    assigned whatever is loaded, and the other members are not touched.
    When the desktop loads an Impress document, [setUp] returns with the
    pointer to that document, and on a new fixture it establishes the
    invariant; when nothing is loaded or the component is no Impress
    document, the assertion of line 109 fails and the document pointer is
    empty. *)
Theorem setUp_contract t :
  mpFact (snd (setUp t)) = SdAbstractDialogFactory_Create /\
  mxComponent (snd (setUp t)) = loaded_component /\
  (caches_empty t -> caches_empty (snd (setUp t))) /\
  match loaded_component with
  | Some (ImpressDocument d) =>
      fst (setUp t) = Ok tt /\ mpImpressDocument (snd (setUp t)) = Some d /\
      (caches_empty t -> coherent d (snd (setUp t)))
  | _ =>
      fst (setUp t) = Failed (AssertionFailed 109) /\
      mpImpressDocument (snd (setUp t)) = None
  end.
Proof.
  rewrite setUp_run. unfold after_setUp. simpl. split_and!; [done..|].
  destruct loaded_component as [[d|svc]|] eqn:Hl; simpl; [|done..].
  split_and!; [done..|]. intros He. by apply caches_empty_coherent.
Qed.

(** C26: [tearDown] in every case.  The three attribute sets are released
    first, so also when the use of the component fails; the component, the
    factory, the document and the shell and view pointers stay as they
    were, and so does the invariant.  The component is used without a
    check: [tearDown] returns when there is one and uses a null reference
    at line 117 when there is none. *)
Theorem tearDown_contract t :
  released (snd (tearDown t)) /\
  fst (tearDown t) =
    match mxComponent t with
    | Some _ => Ok tt
    | None => Failed (NullDereference 117)
    end /\
  (mxComponent (snd (tearDown t)), mpFact (snd (tearDown t)),
   mpImpressDocument (snd (tearDown t))) =
    (mxComponent t, mpFact t, mpImpressDocument t) /\
  (mpDocShell (snd (tearDown t)), mpViewShell (snd (tearDown t)),
   mpDrawView (snd (tearDown t))) = (mpDocShell t, mpViewShell t, mpDrawView t) /\
  forall d, coherent d t -> coherent d (snd (tearDown t)).
Proof.
  rewrite tearDown_run. simpl. split_and!; [done..|].
  intros d C. by apply after_tearDown_coherent.
Qed.

End FixtureTheorems.

(** ** The fixture of the witnesses

    The fixture after the constructor and [setUp] on the host [demo_host],
    and the same fixture before [setUp]. *)

Definition demo_fixture : SdDialogsTest := snd (setUp SdDialogsTest_ctor).

Lemma demo_fixture_coherent : coherent demo_impress demo_fixture.
Proof. apply caches_empty_coherent; [apply ctor_caches_empty|done..]. Qed.

Lemma demo_fixture_fact : mpFact demo_fixture = Some demo_factory.
Proof. reflexivity. Qed.

(** A host on which no document can be loaded. *)
Definition offline_host : HostEnv :=
  {| SdAbstractDialogFactory_Create := Some demo_factory;
     loadFromDesktop := fun _ _ => None;
     GetDefDialogParent := None;
     SdResId := demo_resource |}.

(** The set of fill attributes with the fill style [NONE]. *)
Definition demo_fill_set : SfxItemSet :=
  Put (XFillStyleItem FillStyle_NONE) (SfxItemSet_of_group demo_pool FillGroup).

Lemma getters_refine_witness :
  coherent demo_impress demo_fixture /\
  getDrawView demo_fixture =
    (Ok {| view_handle := 1 |}, fill MDrawView demo_impress demo_fixture).
Proof.
  split; [exact demo_fixture_coherent|].
  exact (proj1 (proj2 (proj2
    (getters_refine demo_impress demo_fixture demo_fixture_coherent)))).
Defined.

Lemma getDrawView_contract_witness :
  coherent demo_impress demo_fixture /\
  coherent demo_impress (snd (getDrawView demo_fixture)) /\
  spec_getDrawView demo_impress = Ok {| view_handle := 1 |} /\
  mpDrawView (snd (getDrawView demo_fixture)) = Some {| view_handle := 1 |} /\
  is_Some (mpViewShell (snd (getDrawView demo_fixture))) /\
  is_Some (mpDocShell (snd (getDrawView demo_fixture))).
Proof.
  split; [exact demo_fixture_coherent|].
  exact (getDrawView_contract demo_impress demo_fixture demo_fixture_coherent).
Defined.

Lemma getEmptyFillStyleSfxItemSet_content_witness :
  coherent demo_impress demo_fixture /\
  GetItem (which XATTR_FILLSTYLE) demo_fill_set = Some (VFillStyle FillStyle_NONE) /\
  Count demo_fill_set = 1%nat /\
  GetRanges demo_fill_set = [(which XATTR_FILL_FIRST, which XATTR_FILL_LAST)] /\
  mpEmptyFillStyleSfxItemSet
    (fill MEmptyFillStyleSfxItemSet demo_impress demo_fixture) = Some demo_fill_set.
Proof.
  split; [exact demo_fixture_coherent|].
  apply (getEmptyFillStyleSfxItemSet_content demo_impress demo_fixture);
    [exact demo_fixture_coherent|].
  by vm_compute.
Defined.
