(* ===== verification/Registry.v ===== *)
(** * The registry of known dialogs

    [SdDialogsTest::registerKnownDialogsByID] (lines 209-234): the map from
    the path of a dialog's UI description to the ID under which
    [createDialogByID] builds it.  [mapType] is a [std::map] from [OString]
    to [sal_uInt32]; [rKnownDialogs[path] = id] inserts or overwrites. *)

From Stdlib Require Import ZArith Lia.
From stdpp Require Import base tactics option list strings gmap.
From S2P Require Import Prelude.

#[local] Open Scope N_scope.

(** The assignments of the function body, in the order of the source. *)
Definition known_dialogs : list (string * N) :=
  [ ("modules/sdraw/ui/breakdialog.ui", 0);
    ("modules/sdraw/ui/copydlg.ui", 1);
    ("modules/simpress/ui/customslideshows.ui", 2);
    ("modules/sdraw/ui/drawchardialog.ui", 3);
    ("modules/sdraw/ui/drawpagedialog.ui", 4);
    ("modules/simpress/ui/dlgfield.ui", 5);
    ("modules/sdraw/ui/dlgsnap.ui", 6);
    ("modules/sdraw/ui/insertlayer.ui", 7);
    ("modules/sdraw/ui/insertslidesdialog.ui", 8);
    ("modules/sdraw/ui/crossfadedialog.ui", 9);
    ("modules/sdraw/ui/bulletsandnumbering.ui", 10);
    ("modules/sdraw/ui/drawparadialog.ui", 11);
    ("modules/simpress/ui/presentationdialog.ui", 12);
    ("modules/simpress/ui/remotedialog.ui", 13);
    ("modules/sdraw/ui/drawprtldialog.ui", 14);
    ("modules/simpress/ui/slidedesigndialog.ui", 15);
    ("modules/simpress/ui/templatedialog.ui", 16);
    ("modules/simpress/ui/interactiondialog.ui", 17);
    ("modules/sdraw/ui/vectorize.ui", 18);
    ("modules/simpress/ui/photoalbum.ui", 19);
    ("modules/simpress/ui/masterlayoutdlg.ui", 20);
    ("modules/simpress/ui/headerfooterdialog.ui", 21) ].

(** [rKnownDialogs[path] = id] *)
Definition assign (m : gmap string N) (kv : string * N) : gmap string N :=
  <[kv.1 := kv.2]> m.

Definition registerKnownDialogsByID (rKnownDialogs : gmap string N) : gmap string N :=
  foldl assign rKnownDialogs known_dialogs.

(** The number of registered dialogs. *)
Definition known_count : N := 22.

(** The path registered under an ID. *)
Definition path_of_id (nID : N) : option string :=
  fst <$> List.find (fun kv => kv.2 =? nID) known_dialogs.

(** ** Assignments in sequence

    A sequence of assignments to distinct keys is the union of the assigned
    pairs with the map it starts from, the assigned pairs first. *)

Section Assignments.
Implicit Types (m : gmap string N) (l : list (string * N)).

Lemma foldl_assign_union l m :
  NoDup l.*1 -> foldl assign m l = list_to_map l ∪ m.
Proof.
  revert m. induction l as [|[k v] l IH]; intros m; simpl.
  - by rewrite (left_id_L ∅ (∪)).
  - intros [Hk Hl]%NoDup_cons. rewrite IH by done. unfold assign; simpl.
    rewrite <- insert_union_l. symmetry. apply insert_union_r.
    by apply not_elem_of_list_to_map_1.
Qed.

Lemma foldl_assign_lookup l m k :
  NoDup l.*1 ->
  foldl assign m l !! k = from_option Some (m !! k) (list_to_map (M := gmap string N) l !! k).
Proof.
  intros Hl. rewrite foldl_assign_union by done. rewrite lookup_union.
  destruct (list_to_map l !! k), (m !! k); done.
Qed.

End Assignments.

(** ** Facts on the table *)

Lemma known_dialogs_NoDup_paths : NoDup known_dialogs.*1.
Proof. apply (bool_decide_unpack _). by vm_compute. Qed.

Lemma known_dialogs_NoDup_ids : NoDup known_dialogs.*2.
Proof. apply (bool_decide_unpack _). by vm_compute. Qed.

(** The ID of the entry number [i] is [i]. *)
Lemma known_dialogs_ids : known_dialogs.*2 = N.of_nat <$> seq 0 22.
Proof. reflexivity. Qed.

Lemma known_dialogs_length : length known_dialogs = 22%nat.
Proof. reflexivity. Qed.

Lemma known_dialogs_id_lt p id : (p, id) ∈ known_dialogs -> id < known_count.
Proof.
  intros H. assert (id ∈ known_dialogs.*2) as Hid.
  { apply list_elem_of_fmap. by exists (p, id). }
  rewrite known_dialogs_ids in Hid.
  apply list_elem_of_fmap in Hid as (n & -> & Hn%elem_of_seq). unfold known_count. lia.
Qed.

Lemma known_dialogs_lt_id id : id < known_count -> exists p, (p, id) ∈ known_dialogs.
Proof.
  intros H. assert (id ∈ known_dialogs.*2) as Hid.
  { rewrite known_dialogs_ids. apply list_elem_of_fmap. exists (N.to_nat id).
    split; [lia|]. apply elem_of_seq. unfold known_count in H. lia. }
  apply list_elem_of_fmap in Hid as ([p id'] & -> & Hp). by exists p.
Qed.

(** The IDs below [known_count], one by one. *)
Lemma id_lt_known_count (n : N) :
  n < known_count ->
  n ∈ [0; 1; 2; 3; 4; 5; 6; 7; 8; 9; 10; 11; 12; 13; 14; 15; 16; 17; 18; 19; 20; 21].
Proof.
  unfold known_count. intros H. change (n ∈ N.of_nat <$> seq 0 22).
  apply list_elem_of_fmap. exists (N.to_nat n). split; [lia|]. apply elem_of_seq. lia.
Qed.

(** Split a goal on an ID below [known_count] into the 22 IDs. *)
Ltac id_cases H :=
  apply id_lt_known_count in H;
  repeat (apply elem_of_cons in H as [->|H]); [..|by apply elem_of_nil in H].

(** Close a goal on an ID of at least [known_count], whose [switch] takes the
    default branch: no ID of five bits or more is a [case]. *)
Ltac id_default n :=
  let p := fresh "p" in
  destruct n as [|p]; [unfold known_count in *; lia|];
  do 5 (destruct p as [p|p|]; try (unfold known_count in *; lia));
  try reflexivity.

Lemma registry_lookup m p :
  registerKnownDialogsByID m !! p =
    from_option Some (m !! p) (list_to_map (M := gmap string N) known_dialogs !! p).
Proof. apply foldl_assign_lookup, known_dialogs_NoDup_paths. Qed.

Lemma registry_lookup_empty p id :
  registerKnownDialogsByID ∅ !! p = Some id <-> (p, id) ∈ known_dialogs.
Proof.
  rewrite registry_lookup, lookup_empty.
  rewrite (elem_of_list_to_map (M := gmap string) _ p id known_dialogs_NoDup_paths).
  by destruct (list_to_map known_dialogs !! p).
Qed.

Lemma path_of_id_spec id p : path_of_id id = Some p <-> (p, id) ∈ known_dialogs.
Proof.
  unfold path_of_id. split.
  - destruct (List.find _ _) as [[p' id']|] eqn:E; [|done]. simpl. intros [= <-].
    apply find_some in E as [Hin Heq%N.eqb_eq]. simpl in Heq. subst id'.
    by apply list_elem_of_In.
  - intros Hin. destruct (List.find _ _) as [[p' id']|] eqn:E.
    + apply find_some in E as [Hin' Heq%N.eqb_eq]. simpl in Heq. subst id'.
      simpl. f_equal.
      apply list_elem_of_In in Hin'.
      apply list_elem_of_lookup in Hin as [i Hi], Hin' as [j Hj].
      assert (i = j) as ->; [|congruence].
      eapply NoDup_lookup; [apply known_dialogs_NoDup_ids | |];
        rewrite list_lookup_fmap; [by rewrite Hi | by rewrite Hj].
    + apply list_elem_of_In in Hin. eapply find_none in E; [|done].
      simpl in E. by rewrite N.eqb_refl in E.
Qed.

(** ** Theorems on the registry *)

(** C8: looking a path up in the registry and looking an ID up in the
    table are inverse: a path is registered under an ID exactly when it is
    the path of that ID.  In particular no two paths share an ID.  The
    registered IDs are exactly the numbers below 22: every ID from 0 to 21
    has a path and no other number has one. *)
Theorem registry_roundtrip p id :
  (registerKnownDialogsByID ∅ !! p = Some id <-> path_of_id id = Some p) /\
  ((exists p', registerKnownDialogsByID ∅ !! p' = Some id) <-> id < known_count).
Proof.
  split; [by rewrite registry_lookup_empty, path_of_id_spec|]. split.
  - intros [p' H%registry_lookup_empty]. by eapply known_dialogs_id_lt.
  - intros [p' H]%known_dialogs_lt_id. exists p'. by apply registry_lookup_empty.
Qed.

(** C29: registering into a map that has entries overwrites the 22 paths
    and keeps every other entry, so registering twice is registering once;
    the registry of an empty map has 22 entries. *)
Theorem registry_overwrites m :
  registerKnownDialogsByID m = list_to_map known_dialogs ∪ m /\
  registerKnownDialogsByID (registerKnownDialogsByID m) = registerKnownDialogsByID m /\
  size (registerKnownDialogsByID ∅) = 22%nat.
Proof.
  unfold registerKnownDialogsByID.
  rewrite !foldl_assign_union by apply known_dialogs_NoDup_paths.
  split; [done|]. split.
  - by rewrite (assoc_L (∪)), (idemp_L (∪)).
  - rewrite (right_id_L ∅ (∪)), map_size_list_to_map by apply known_dialogs_NoDup_paths.
    apply known_dialogs_length.
Qed.
