(* ===== verification/Bundles.v ===== *)
(** * The attribute bundles

    The attribute sets [SdDialogsTest::createDialogByID] builds by hand for
    the dialogs of cases 6, 7, 12 and 17 (lines 315-317, 329-337, 395-413
    and 479-495): every [Put] and [InvalidateItem] in the order of the
    source, and what each set holds when it is handed to the factory. *)

From Stdlib Require Import ZArith Lia.
From stdpp Require Import base tactics option list strings gmap.
From S2P Require Import Prelude ItemSet Host.

Section Bundles.
Context `{IDS : SdAttrIds} `{HOST : HostEnv}.

(** The attribute set of [case 6] (lines 315-317). *)
Definition snapline_attrs (pDrawDoc : SdDrawDocument) : SfxItemSet :=
  let aNewAttr :=
    SfxItemSet_of_range (GetItemPool pDrawDoc)
      (which ATTR_SNAPLINE_START) (which ATTR_SNAPLINE_END) in
  let aNewAttr := Put (SfxInt32Item (which ATTR_SNAPLINE_X) 0) aNewAttr in
  let aNewAttr := Put (SfxInt32Item (which ATTR_SNAPLINE_Y) 0) aNewAttr in
  aNewAttr.

(** The attribute set of [case 7] (lines 329-337). *)
Definition layer_attrs (pDrawDoc : SdDrawDocument) : SfxItemSet :=
  let aNewAttr :=
    SfxItemSet_of_range (GetItemPool pDrawDoc)
      (which ATTR_LAYER_START) (which ATTR_LAYER_END) in
  let aLayerName := SdResId STR_LAYER in
  let aNewAttr := Put (makeSdAttrLayerName aLayerName) aNewAttr in
  let aNewAttr := Put makeSdAttrLayerTitle aNewAttr in
  let aNewAttr := Put makeSdAttrLayerDesc aNewAttr in
  let aNewAttr := Put makeSdAttrLayerVisible aNewAttr in
  let aNewAttr := Put makeSdAttrLayerPrintable aNewAttr in
  let aNewAttr := Put makeSdAttrLayerLocked aNewAttr in
  let aNewAttr := Put makeSdAttrLayerThisPage aNewAttr in
  aNewAttr.

(** The attribute set of [case 12] (lines 395-413).  [mnPauseTimeout] is a
    [sal_Int32] and [SfxUInt32Item] takes a [sal_uInt32]. *)
Definition present_attrs (pDrawDoc : SdDrawDocument) : SfxItemSet :=
  let aDlgSet :=
    SfxItemSet_of_range (GetItemPool pDrawDoc)
      (which ATTR_PRESENT_START) (which ATTR_PRESENT_END) in
  let rPresentationSettings := getPresentationSettings pDrawDoc in
  let aDlgSet :=
    Put (SfxBoolItem (which ATTR_PRESENT_ALL) (mbAll rPresentationSettings)) aDlgSet in
  let aDlgSet :=
    Put (SfxBoolItem (which ATTR_PRESENT_CUSTOMSHOW)
           (mbCustomShow rPresentationSettings)) aDlgSet in
  let aDlgSet := Put (SfxStringItem (which ATTR_PRESENT_DIANAME) "") aDlgSet in
  let aDlgSet :=
    Put (SfxBoolItem (which ATTR_PRESENT_ENDLESS)
           (mbEndless rPresentationSettings)) aDlgSet in
  let aDlgSet :=
    Put (SfxBoolItem (which ATTR_PRESENT_MANUEL)
           (mbManual rPresentationSettings)) aDlgSet in
  let aDlgSet :=
    Put (SfxBoolItem (which ATTR_PRESENT_MOUSE)
           (mbMouseVisible rPresentationSettings)) aDlgSet in
  let aDlgSet :=
    Put (SfxBoolItem (which ATTR_PRESENT_PEN)
           (mbMouseAsPen rPresentationSettings)) aDlgSet in
  let aDlgSet :=
    Put (SfxBoolItem (which ATTR_PRESENT_ANIMATION_ALLOWED)
           (mbAnimationAllowed rPresentationSettings)) aDlgSet in
  let aDlgSet :=
    Put (SfxBoolItem (which ATTR_PRESENT_CHANGE_PAGE)
           (negb (mbLockedPages rPresentationSettings))) aDlgSet in
  let aDlgSet :=
    Put (SfxBoolItem (which ATTR_PRESENT_ALWAYS_ON_TOP)
           (mbAlwaysOnTop rPresentationSettings)) aDlgSet in
  let aDlgSet :=
    Put (SfxBoolItem (which ATTR_PRESENT_FULLSCREEN)
           (mbFullScreen rPresentationSettings)) aDlgSet in
  let aDlgSet :=
    Put (SfxUInt32Item (which ATTR_PRESENT_PAUSE_TIMEOUT)
           (to_uInt32 (mnPauseTimeout rPresentationSettings))) aDlgSet in
  let aDlgSet :=
    Put (SfxBoolItem (which ATTR_PRESENT_SHOW_PAUSELOGO)
           (mbShowPauseLogo rPresentationSettings)) aDlgSet in
  let aDlgSet :=
    Put (SfxBoolItem (which ATTR_PRESENT_INTERACTIVE)
           (mbInteractive rPresentationSettings)) aDlgSet in
  let aDlgSet := Put (SfxInt32Item (which ATTR_PRESENT_DISPLAY) 0) aDlgSet in
  aDlgSet.

(** The attribute set of [case 17] (lines 479-495). *)
Definition action_attrs (pDrawDoc : SdDrawDocument) : SfxItemSet :=
  let aSet :=
    SfxItemSet_of_range (GetItemPool pDrawDoc)
      (which ATTR_ANIMATION_START) (which ATTR_ACTION_END) in
  let aSet := Put (SfxBoolItem (which ATTR_ANIMATION_ACTIVE) false) aSet in
  let aSet :=
    Put (SfxUInt16Item (which ATTR_ANIMATION_EFFECT)
           (to_uInt16 AnimationEffect_NONE)) aSet in
  let aSet :=
    Put (SfxUInt16Item (which ATTR_ANIMATION_TEXTEFFECT)
           (to_uInt16 AnimationEffect_NONE)) aSet in
  let aSet := InvalidateItem (which ATTR_ANIMATION_SPEED) aSet in
  let aSet := Put (SfxBoolItem (which ATTR_ANIMATION_FADEOUT) false) aSet in
  let aSet := Put (SvxColorItem COL_LIGHTGRAY (which ATTR_ANIMATION_COLOR)) aSet in
  let aSet := Put (SfxBoolItem (which ATTR_ANIMATION_INVISIBLE) false) aSet in
  let aSet := Put (SfxBoolItem (which ATTR_ANIMATION_SOUNDON) false) aSet in
  let aSet := InvalidateItem (which ATTR_ANIMATION_SOUNDFILE) aSet in
  let aSet := Put (SfxBoolItem (which ATTR_ANIMATION_PLAYFULL) false) aSet in
  let aSet :=
    Put (SfxUInt16Item (which ATTR_ACTION) (to_uInt16 ClickAction_NONE)) aSet in
  let aSet := InvalidateItem (which ATTR_ACTION_FILENAME) aSet in
  let aSet :=
    Put (SfxUInt16Item (which ATTR_ACTION_EFFECT)
           (to_uInt16 AnimationEffect_NONE)) aSet in
  let aSet := InvalidateItem (which ATTR_ACTION_EFFECTSPEED) aSet in
  let aSet := Put (SfxBoolItem (which ATTR_ACTION_SOUNDON) false) aSet in
  let aSet := Put (SfxBoolItem (which ATTR_ACTION_PLAYFULL) false) aSet in
  aSet.

End Bundles.

(** ** What the sets hold *)

Section Content.
Context `{IDS : SdAttrIds} `{HOST : HostEnv}.

(** The content of the four attribute sets, by the names of the which-ids:
    what the dialog of cases 6, 7, 12 and 17 finds in the set it is given. *)
Definition snapline_slots : list (AttrName * ItemSlot) :=
  [ (ATTR_SNAPLINE_X, SlotSet (VInt32 0)); (ATTR_SNAPLINE_Y, SlotSet (VInt32 0)) ].

Definition layer_slots : list (AttrName * ItemSlot) :=
  [ (ATTR_LAYER_NAME, SlotSet (VString (SdResId STR_LAYER)));
    (ATTR_LAYER_TITLE, SlotSet (VString ""));
    (ATTR_LAYER_DESC, SlotSet (VString ""));
    (ATTR_LAYER_VISIBLE, SlotSet (VBool true));
    (ATTR_LAYER_PRINTABLE, SlotSet (VBool true));
    (ATTR_LAYER_LOCKED, SlotSet (VBool false));
    (ATTR_LAYER_THISPAGE, SlotSet (VBool false)) ].

Definition present_slots (ps : PresentationSettings) : list (AttrName * ItemSlot) :=
  [ (ATTR_PRESENT_ALL, SlotSet (VBool (mbAll ps)));
    (ATTR_PRESENT_CUSTOMSHOW, SlotSet (VBool (mbCustomShow ps)));
    (ATTR_PRESENT_DIANAME, SlotSet (VString ""));
    (ATTR_PRESENT_ENDLESS, SlotSet (VBool (mbEndless ps)));
    (ATTR_PRESENT_MANUEL, SlotSet (VBool (mbManual ps)));
    (ATTR_PRESENT_MOUSE, SlotSet (VBool (mbMouseVisible ps)));
    (ATTR_PRESENT_PEN, SlotSet (VBool (mbMouseAsPen ps)));
    (ATTR_PRESENT_ANIMATION_ALLOWED, SlotSet (VBool (mbAnimationAllowed ps)));
    (ATTR_PRESENT_CHANGE_PAGE, SlotSet (VBool (negb (mbLockedPages ps))));
    (ATTR_PRESENT_ALWAYS_ON_TOP, SlotSet (VBool (mbAlwaysOnTop ps)));
    (ATTR_PRESENT_FULLSCREEN, SlotSet (VBool (mbFullScreen ps)));
    (ATTR_PRESENT_PAUSE_TIMEOUT, SlotSet (VUInt32 (to_uInt32 (mnPauseTimeout ps))));
    (ATTR_PRESENT_SHOW_PAUSELOGO, SlotSet (VBool (mbShowPauseLogo ps)));
    (ATTR_PRESENT_INTERACTIVE, SlotSet (VBool (mbInteractive ps)));
    (ATTR_PRESENT_DISPLAY, SlotSet (VInt32 0)) ].

Definition action_slots : list (AttrName * ItemSlot) :=
  [ (ATTR_ANIMATION_ACTIVE, SlotSet (VBool false));
    (ATTR_ANIMATION_EFFECT, SlotSet (VUInt16 0));
    (ATTR_ANIMATION_TEXTEFFECT, SlotSet (VUInt16 0));
    (ATTR_ANIMATION_SPEED, SlotInvalid);
    (ATTR_ANIMATION_FADEOUT, SlotSet (VBool false));
    (ATTR_ANIMATION_COLOR, SlotSet (VColor COL_LIGHTGRAY));
    (ATTR_ANIMATION_INVISIBLE, SlotSet (VBool false));
    (ATTR_ANIMATION_SOUNDON, SlotSet (VBool false));
    (ATTR_ANIMATION_SOUNDFILE, SlotInvalid);
    (ATTR_ANIMATION_PLAYFULL, SlotSet (VBool false));
    (ATTR_ACTION, SlotSet (VUInt16 0));
    (ATTR_ACTION_FILENAME, SlotInvalid);
    (ATTR_ACTION_EFFECT, SlotSet (VUInt16 0));
    (ATTR_ACTION_EFFECTSPEED, SlotInvalid);
    (ATTR_ACTION_SOUNDON, SlotSet (VBool false));
    (ATTR_ACTION_PLAYFULL, SlotSet (VBool false)) ].

End Content.

(** ** The sets as lists of slots *)

Section AttrFacts.
Context `{IDS : SdAttrIds} `{HOST : HostEnv}.
Implicit Types doc : SdDrawDocument.

Lemma snapline_attrs_set_slots doc :
  snapline_attrs doc =
    set_slots (named_slots snapline_slots)
      (SfxItemSet_of_group (GetItemPool doc) SnapLineGroup).
Proof. unfold snapline_attrs. as_set_slots. reflexivity. Qed.

Lemma layer_attrs_set_slots doc :
  layer_attrs doc =
    set_slots (named_slots layer_slots) (SfxItemSet_of_group (GetItemPool doc) LayerGroup).
Proof. unfold layer_attrs. as_set_slots. reflexivity. Qed.

Lemma present_attrs_set_slots doc :
  present_attrs doc =
    set_slots (named_slots (present_slots (getPresentationSettings doc)))
      (SfxItemSet_of_group (GetItemPool doc) PresentGroup).
Proof. unfold present_attrs. as_set_slots. reflexivity. Qed.

Lemma action_attrs_set_slots doc :
  action_attrs doc =
    set_slots (named_slots action_slots)
      (SfxItemSet_of_group (GetItemPool doc) AnimationActionGroup).
Proof. unfold action_attrs. as_set_slots. reflexivity. Qed.

Lemma snapline_slots_items : items_of SnapLineGroup snapline_slots.
Proof. items_of_tac. Qed.

Lemma layer_slots_items : items_of LayerGroup layer_slots.
Proof. items_of_tac. Qed.

Lemma present_slots_items ps : items_of PresentGroup (present_slots ps).
Proof. items_of_tac. Qed.

Lemma action_slots_items : items_of AnimationActionGroup action_slots.
Proof. items_of_tac. Qed.

(** What a set holds that is a chain of assignments of the items [l] of a
    group on a new set over the group. *)
Lemma attrs_content p g l s a sl :
  s = set_slots (named_slots l) (SfxItemSet_of_group p g) -> items_of g l ->
  (a, sl) ∈ l ->
  GetItems s !! which a = Some sl /\ Count s = length l /\ GetPool s = p.
Proof.
  intros -> Hl Hin. unfold Count. rewrite set_slots_named, set_slots_pool by done.
  split; [by eapply named_slots_lookup|]. split; [by eapply named_slots_size|done].
Qed.

End AttrFacts.

(** ** Theorems on the attribute sets *)

Section AttrTheorems.
Context `{IDS : SdAttrIds} `{HOST : HostEnv}.
Implicit Types doc : SdDrawDocument.

(** C10: the set case 17 hands to the action dialog holds each of the 16
    slots assigned in lines 480-495 (12 items, and 4 which-ids invalidated)
    and nothing else: no assignment falls outside the range given at line
    479 and none overwrites another, for every numbering of the which-ids
    that keeps each name inside its group. *)
Theorem action_attrs_content doc a sl :
  (a, sl) ∈ action_slots ->
  GetItems (action_attrs doc) !! which a = Some sl /\
  Count (action_attrs doc) = 16%nat /\
  GetPool (action_attrs doc) = GetItemPool doc.
Proof.
  intros H. apply (attrs_content _ AnimationActionGroup action_slots);
    [apply action_attrs_set_slots|apply action_slots_items|done].
Qed.

(** C11: the set case 12 hands to the presentation dialog holds the 15 items
    of lines 397-413 with the values of the document's presentation
    settings: [ATTR_PRESENT_CHANGE_PAGE] is the negation of [mbLockedPages],
    the pause timeout is converted to [sal_uInt32], and nothing else is in
    the set. *)
Theorem present_attrs_content doc a sl :
  (a, sl) ∈ present_slots (getPresentationSettings doc) ->
  GetItems (present_attrs doc) !! which a = Some sl /\
  Count (present_attrs doc) = 15%nat /\
  GetPool (present_attrs doc) = GetItemPool doc.
Proof.
  intros H.
  apply (attrs_content _ PresentGroup (present_slots (getPresentationSettings doc)));
    [apply present_attrs_set_slots|apply present_slots_items|done].
Qed.

(** C20: the pause timeout, a [sal_Int32] in the settings, reaches the
    dialog as a [sal_uInt32]: unchanged when it is not negative, and 2^32
    more when it is negative. *)
Theorem present_attrs_pause_timeout doc (n := mnPauseTimeout (getPresentationSettings doc)) :
  (- 2 ^ 31 <= n < 2 ^ 31)%Z ->
  GetItem (which ATTR_PRESENT_PAUSE_TIMEOUT) (present_attrs doc) =
    Some (VUInt32 (if decide (n < 0)%Z then n + 2 ^ 32 else n)%Z).
Proof.
  intros Hn. apply GetItem_lookup.
  destruct (attrs_content (GetItemPool doc) PresentGroup
              (present_slots (getPresentationSettings doc)) (present_attrs doc)
              ATTR_PRESENT_PAUSE_TIMEOUT (SlotSet (VUInt32 (to_uInt32 n)))
              (present_attrs_set_slots doc) (present_slots_items _)) as [-> _];
    [by repeat constructor|].
  do 3 f_equal. case_decide; [apply to_uInt32_neg | apply to_uInt32_small]; lia.
Qed.

(** C21: the sets of cases 6 and 7 hold the two snap-line coordinates and
    the seven layer items of lines 316-317 and 331-337, the layer name being
    the resource string [STR_LAYER]. *)
Theorem layer_snapline_attrs_content doc a sl :
  ((a, sl) ∈ layer_slots ->
   GetItems (layer_attrs doc) !! which a = Some sl /\
   Count (layer_attrs doc) = 7%nat /\ GetPool (layer_attrs doc) = GetItemPool doc) /\
  ((a, sl) ∈ snapline_slots ->
   GetItems (snapline_attrs doc) !! which a = Some sl /\
   Count (snapline_attrs doc) = 2%nat /\ GetPool (snapline_attrs doc) = GetItemPool doc).
Proof.
  split; intros H.
  - apply (attrs_content _ LayerGroup layer_slots);
      [apply layer_attrs_set_slots|apply layer_slots_items|done].
  - apply (attrs_content _ SnapLineGroup snapline_slots);
      [apply snapline_attrs_set_slots|apply snapline_slots_items|done].
Qed.

End AttrTheorems.

(** ** Witnesses on the demonstration host *)

(** A draw document whose pause timeout is negative. *)
Definition late_doc : SdDrawDocument :=
  {| doc_pages := []; GetItemPool := demo_pool;
     getPresentationSettings :=
       {| mbAll := true; mbEndless := true; mbCustomShow := false; mbManual := false;
          mbMouseVisible := true; mbMouseAsPen := false; mbLockedPages := true;
          mbAlwaysOnTop := false; mbFullScreen := true; mbAnimationAllowed := true;
          mnPauseTimeout := -1; mbShowPauseLogo := false; mbInteractive := true |} |}.

Lemma action_attrs_content_witness :
  (ATTR_ANIMATION_SPEED, SlotInvalid) ∈ action_slots /\
  GetItems (action_attrs demo_doc) !! which ATTR_ANIMATION_SPEED = Some SlotInvalid /\
  Count (action_attrs demo_doc) = 16%nat /\
  GetPool (action_attrs demo_doc) = demo_pool.
Proof.
  assert ((ATTR_ANIMATION_SPEED, SlotInvalid) ∈ action_slots) as H
    by (by repeat constructor).
  split; [exact H|]. exact (action_attrs_content demo_doc _ _ H).
Defined.

Lemma present_attrs_content_witness :
  (ATTR_PRESENT_CHANGE_PAGE, SlotSet (VBool false))
    ∈ present_slots (getPresentationSettings late_doc) /\
  GetItems (present_attrs late_doc) !! which ATTR_PRESENT_CHANGE_PAGE =
    Some (SlotSet (VBool false)) /\
  Count (present_attrs late_doc) = 15%nat /\
  GetPool (present_attrs late_doc) = demo_pool.
Proof.
  assert ((ATTR_PRESENT_CHANGE_PAGE, SlotSet (VBool false))
            ∈ present_slots (getPresentationSettings late_doc)) as H
    by (by repeat constructor).
  split; [exact H|]. exact (present_attrs_content late_doc _ _ H).
Defined.

Lemma present_attrs_pause_timeout_witness :
  GetItem (which ATTR_PRESENT_PAUSE_TIMEOUT) (present_attrs late_doc) =
    Some (VUInt32 4294967295).
Proof.
  apply (present_attrs_pause_timeout late_doc). by vm_compute.
Defined.

Lemma layer_snapline_attrs_content_witness :
  (ATTR_LAYER_NAME, SlotSet (VString "Layer")) ∈ layer_slots /\
  GetItems (layer_attrs demo_doc) !! which ATTR_LAYER_NAME =
    Some (SlotSet (VString "Layer")) /\
  Count (layer_attrs demo_doc) = 7%nat /\
  GetPool (layer_attrs demo_doc) = demo_pool.
Proof.
  assert ((ATTR_LAYER_NAME, SlotSet (VString "Layer")) ∈ layer_slots) as H
    by (by repeat constructor).
  split; [exact H|]. exact (proj1 (layer_snapline_attrs_content demo_doc _ _) H).
Defined.
