(* ===== verification/Dispatch.v ===== *)
(** * Dialog creation by ID

    [SdDialogsTest::createDialogByID] (lines 236-562): the guard on the
    factory, the [switch] on the ID, and one definition per [case]; the
    attribute sets of cases 6, 7, 12 and 17 are in [Bundles].  Each
    case evaluates the object expression [getSdAbstractDialogFactory()]
    first, then the statements of its block, then the arguments of the
    factory call from left to right. *)

From Stdlib Require Import ZArith Lia.
From stdpp Require Import base tactics option list strings gmap.
From S2P Require Import Prelude ItemSet Host Fixture Registry Bundles.

Section Cases.
Context `{IDS : SdAttrIds} `{HOST : HostEnv}.

#[local] Abbreviation Test := (Fx SdDialogsTest).

(** [getSdAbstractDialogFactory()->] at [line]. *)
Definition factory_at (line : N) : Test SdAbstractDialogFactory :=
  p <- getSdAbstractDialogFactory ;;
  deref line p.

(** [SdDrawDocument* pDrawDoc = getSdXImpressDocument()->GetDoc();
    CPPUNIT_ASSERT(pDrawDoc);] at [line] and the line after it. *)
Definition GetDoc_checked (line : N) : Test SdDrawDocument :=
  d <- getSdXImpressDocument ;;
  d <- deref line d ;;
  assert_ptr (line + 1) (GetDoc d).

(** [case 0]: CreateBreakDlg *)
Definition case_0 : Test (option VclAbstractDialog) :=
  f <- factory_at 251 ;;
  dv <- getDrawView ;;
  sh <- getDocShell ;;
  ret (create f (CreateBreakDlg GetDefDialogParent dv sh 0 0)).

(** [case 1]: CreateCopyDlg *)
Definition case_1 : Test (option VclAbstractDialog) :=
  f <- factory_at 262 ;;
  v <- getViewShell ;;
  s <- getSfxItemSetFromSdrObject ;;
  dv <- getDrawView ;;
  ret (create f (CreateCopyDlg (GetFrameWeld v) s dv)).

(** [case 2]: CreateSdCustomShowDlg *)
Definition case_2 : Test (option VclAbstractDialog) :=
  pDrawDoc <- GetDoc_checked 271 ;;
  f <- factory_at 274 ;;
  v <- getViewShell ;;
  ret (create f (CreateSdCustomShowDlg (GetFrameWeld v) pDrawDoc)).

(** [case 3]: CreateSdTabCharDialog *)
Definition case_3 : Test (option VclAbstractDialog) :=
  f <- factory_at 283 ;;
  v <- getViewShell ;;
  s <- getEmptySfxItemSet ;;
  sh <- getDocShell ;;
  ret (create f (CreateSdTabCharDialog (GetFrameWeld v) s sh)).

(** [case 4]: CreateSdTabPageDialog *)
Definition case_4 : Test (option VclAbstractDialog) :=
  f <- factory_at 294 ;;
  v <- getViewShell ;;
  s <- getEmptyFillStyleSfxItemSet ;;
  sh <- getDocShell ;;
  ret (create f (CreateSdTabPageDialog (GetFrameWeld v) s sh true false)).

(** [case 5]: CreateSdModifyFieldDlg *)
Definition case_5 : Test (option VclAbstractDialog) :=
  f <- factory_at 304 ;;
  v <- getViewShell ;;
  s <- getEmptySfxItemSet ;;
  ret (create f (CreateSdModifyFieldDlg (GetFrameWeld v) None s)).

(** [case 6]: CreateSdSnapLineDlg *)
Definition case_6 : Test (option VclAbstractDialog) :=
  pDrawDoc <- GetDoc_checked 313 ;;
  let aNewAttr := snapline_attrs pDrawDoc in
  f <- factory_at 318 ;;
  v <- getViewShell ;;
  dv <- getDrawView ;;
  ret (create f (CreateSdSnapLineDlg (GetFrameWeld v) aNewAttr dv)).

(** [case 7]: CreateSdInsertLayerDlg *)
Definition case_7 : Test (option VclAbstractDialog) :=
  pDrawDoc <- GetDoc_checked 327 ;;
  let aNewAttr := layer_attrs pDrawDoc in
  f <- factory_at 338 ;;
  v <- getViewShell ;;
  ret (create f (CreateSdInsertLayerDlg (GetFrameWeld v) aNewAttr true
                   (SdResId STR_INSERTLAYER))).

(** [case 8]: CreateSdInsertPagesObjsDlg *)
Definition case_8 : Test (option VclAbstractDialog) :=
  pDrawDoc <- GetDoc_checked 348 ;;
  f <- factory_at 350 ;;
  v <- getViewShell ;;
  ret (create f (CreateSdInsertPagesObjsDlg (GetFrameWeld v) pDrawDoc None "foo")).

(** [case 9]: CreateMorphDlg *)
Definition case_9 : Test (option VclAbstractDialog) :=
  pDrawDoc <- GetDoc_checked 360 ;;
  pSdPage <- assert_ptr 363 (GetSdPage 0 PageKind_Standard pDrawDoc) ;;
  pSdrObj <- assert_ptr 366 (GetObj 0 pSdPage) ;;
  f <- factory_at 367 ;;
  ret (create f (CreateMorphDlg GetDefDialogParent pSdrObj pSdrObj)).

(** [case 10]: CreateSdOutlineBulletTabDlg *)
Definition case_10 : Test (option VclAbstractDialog) :=
  f <- factory_at 376 ;;
  s <- getEmptySfxItemSet ;;
  dv <- getDrawView ;;
  ret (create f (CreateSdOutlineBulletTabDlg GetDefDialogParent s dv)).

(** [case 11]: CreateSdParagraphTabDlg *)
Definition case_11 : Test (option VclAbstractDialog) :=
  f <- factory_at 385 ;;
  v <- getViewShell ;;
  s <- getEmptySfxItemSet ;;
  ret (create f (CreateSdParagraphTabDlg (GetFrameWeld v) s)).

(** [case 12]: CreateSdStartPresentationDlg *)
Definition case_12 : Test (option VclAbstractDialog) :=
  pDrawDoc <- GetDoc_checked 393 ;;
  let aDlgSet := present_attrs pDrawDoc in
  f <- factory_at 414 ;;
  ret (create f (CreateSdStartPresentationDlg GetDefDialogParent aDlgSet [] None)).

(** [case 13]: CreateRemoteDialog *)
Definition case_13 : Test (option VclAbstractDialog) :=
  f <- factory_at 424 ;;
  ret (create f (CreateRemoteDialog GetDefDialogParent)).

(** [case 14]: CreateSdPresLayoutTemplateDlg *)
Definition case_14 : Test (option VclAbstractDialog) :=
  sh <- getDocShell ;;
  pStyleSheetPool <- assert_ptr 434 (GetStyleSheetPool sh) ;;
  pStyleSheet <- assert_ptr 436 (First SfxStyleFamily_Page pStyleSheetPool) ;;
  f <- factory_at 437 ;;
  sh <- getDocShell ;;
  ret (create f (CreateSdPresLayoutTemplateDlg sh GetDefDialogParent false
                   pStyleSheet PresentationObjects_Title pStyleSheetPool)).

(** [case 15]: CreateSdPresLayoutDlg *)
Definition case_15 : Test (option VclAbstractDialog) :=
  f <- factory_at 449 ;;
  sh <- getDocShell ;;
  s <- getEmptySfxItemSet ;;
  ret (create f (CreateSdPresLayoutDlg GetDefDialogParent sh s)).

(** [case 16]: CreateSdTabTemplateDlg *)
Definition case_16 : Test (option VclAbstractDialog) :=
  sh <- getDocShell ;;
  pStyleSheetPool <- assert_ptr 461 (GetStyleSheetPool sh) ;;
  pStyleSheet <- assert_ptr 463 (First SfxStyleFamily_Pseudo pStyleSheetPool) ;;
  pDrawDoc <- GetDoc_checked 464 ;;
  f <- factory_at 466 ;;
  v <- getViewShell ;;
  sh <- getDocShell ;;
  dv <- getDrawView ;;
  ret (create f (CreateSdTabTemplateDlg (GetFrameWeld v) sh pStyleSheet pDrawDoc dv)).

(** [case 17]: CreatSdActionDialog *)
Definition case_17 : Test (option VclAbstractDialog) :=
  pDrawDoc <- GetDoc_checked 477 ;;
  let aSet := action_attrs pDrawDoc in
  f <- factory_at 496 ;;
  v <- getViewShell ;;
  dv <- getDrawView ;;
  ret (create f (CreatSdActionDialog (GetFrameWeld v) aSet dv)).

(** [case 18]: CreateSdVectorizeDlg *)
Definition case_18 : Test (option VclAbstractDialog) :=
  let aEmptyBitmap := Bitmap_default in
  f <- factory_at 507 ;;
  sh <- getDocShell ;;
  ret (create f (CreateSdVectorizeDlg GetDefDialogParent aEmptyBitmap sh)).

(** [case 19]: CreateSdPhotoAlbumDialog *)
Definition case_19 : Test (option VclAbstractDialog) :=
  pDrawDoc <- GetDoc_checked 516 ;;
  f <- factory_at 518 ;;
  ret (create f (CreateSdPhotoAlbumDialog GetDefDialogParent pDrawDoc)).

(** [case 20]: CreateMasterLayoutDialog *)
Definition case_20 : Test (option VclAbstractDialog) :=
  pDrawDoc <- GetDoc_checked 526 ;;
  pSdPage <- assert_ptr 529 (GetSdPage 0 PageKind_Standard pDrawDoc) ;;
  f <- factory_at 530 ;;
  ret (create f (CreateMasterLayoutDialog GetDefDialogParent pDrawDoc pSdPage)).

(** [case 21]: CreateHeaderFooterDialog *)
Definition case_21 : Test (option VclAbstractDialog) :=
  pDrawDoc <- GetDoc_checked 545 ;;
  pSdPage <- assert_ptr 548 (GetSdPage 0 PageKind_Standard pDrawDoc) ;;
  f <- factory_at 549 ;;
  v <- getViewShell ;;
  ret (create f (CreateHeaderFooterDialog v GetDefDialogParent pDrawDoc pSdPage)).

(** [switch (nID)]: the block of the ID, and [default: break] with
    [pRetval] still empty. *)
Definition switch_nID (nID : N) : Test (option VclAbstractDialog) :=
  match nID with
  | 0 => case_0 | 1 => case_1 | 2 => case_2 | 3 => case_3
  | 4 => case_4 | 5 => case_5 | 6 => case_6 | 7 => case_7
  | 8 => case_8 | 9 => case_9 | 10 => case_10 | 11 => case_11
  | 12 => case_12 | 13 => case_13 | 14 => case_14 | 15 => case_15
  | 16 => case_16 | 17 => case_17 | 18 => case_18 | 19 => case_19
  | 20 => case_20 | 21 => case_21
  | _ => ret None
  end%N.

(** [createDialogByID(nID)]: [pRetval] stays empty when there is no factory
    and for an ID outside the [switch]. *)
Definition createDialogByID (nID : N) : Test (option VclAbstractDialog) :=
  pFact <- getSdAbstractDialogFactory ;;
  match pFact with
  | None => ret None
  | Some _ => switch_nID nID
  end.

End Cases.

(** ** What each ID asks of the factory

    The factory call of an ID as a function of the document alone, with no
    fixture and no member: [Ok (Some c)] for the call [c] of a registered ID,
    [Ok None] for an ID outside the [switch], and the assertion that fails
    when the document lacks an object. *)

Section Specification.
Context `{IDS : SdAttrIds} `{HOST : HostEnv}.
Implicit Types d : SdXImpressDocument.
#[local] Open Scope N_scope.

Definition spec_page0 (line : N) (doc : SdDrawDocument) : Outcome SdPage :=
  expect line (GetSdPage 0 PageKind_Standard doc).

Definition spec_sheet (line1 line2 : N) (f : SfxStyleFamily) (sh : DrawDocShell)
    : Outcome (SfxStyleSheetBasePool * SfxStyleSheetBase) :=
  let* pool := expect line1 (GetStyleSheetPool sh) in
  let* sheet := expect line2 (First f pool) in
  Ok (pool, sheet).

Definition spec_call (nID : N) d : Outcome (option FactoryCall) :=
  match nID with
  | 0 =>
      let* dv := spec_getDrawView d in
      let* sh := spec_getDocShell d in
      Ok (Some (CreateBreakDlg GetDefDialogParent dv sh 0 0))
  | 1 =>
      let* v := spec_getViewShell d in
      let* s := spec_getSfxItemSetFromSdrObject d in
      let* dv := spec_getDrawView d in
      Ok (Some (CreateCopyDlg (GetFrameWeld v) s dv))
  | 2 =>
      let* doc := spec_getDoc 272 d in
      let* v := spec_getViewShell d in
      Ok (Some (CreateSdCustomShowDlg (GetFrameWeld v) doc))
  | 3 =>
      let* v := spec_getViewShell d in
      let* s := spec_getEmptySfxItemSet d in
      let* sh := spec_getDocShell d in
      Ok (Some (CreateSdTabCharDialog (GetFrameWeld v) s sh))
  | 4 =>
      let* v := spec_getViewShell d in
      let* s := spec_getEmptyFillStyleSfxItemSet d in
      let* sh := spec_getDocShell d in
      Ok (Some (CreateSdTabPageDialog (GetFrameWeld v) s sh true false))
  | 5 =>
      let* v := spec_getViewShell d in
      let* s := spec_getEmptySfxItemSet d in
      Ok (Some (CreateSdModifyFieldDlg (GetFrameWeld v) None s))
  | 6 =>
      let* doc := spec_getDoc 314 d in
      let* v := spec_getViewShell d in
      let* dv := spec_getDrawView d in
      Ok (Some (CreateSdSnapLineDlg (GetFrameWeld v) (snapline_attrs doc) dv))
  | 7 =>
      let* doc := spec_getDoc 328 d in
      let* v := spec_getViewShell d in
      Ok (Some (CreateSdInsertLayerDlg (GetFrameWeld v) (layer_attrs doc) true
                  (SdResId STR_INSERTLAYER)))
  | 8 =>
      let* doc := spec_getDoc 349 d in
      let* v := spec_getViewShell d in
      Ok (Some (CreateSdInsertPagesObjsDlg (GetFrameWeld v) doc None "foo"))
  | 9 =>
      let* doc := spec_getDoc 361 d in
      let* pg := spec_page0 363 doc in
      let* o := expect 366 (GetObj 0 pg) in
      Ok (Some (CreateMorphDlg GetDefDialogParent o o))
  | 10 =>
      let* s := spec_getEmptySfxItemSet d in
      let* dv := spec_getDrawView d in
      Ok (Some (CreateSdOutlineBulletTabDlg GetDefDialogParent s dv))
  | 11 =>
      let* v := spec_getViewShell d in
      let* s := spec_getEmptySfxItemSet d in
      Ok (Some (CreateSdParagraphTabDlg (GetFrameWeld v) s))
  | 12 =>
      let* doc := spec_getDoc 394 d in
      Ok (Some (CreateSdStartPresentationDlg GetDefDialogParent
                  (present_attrs doc) [] None))
  | 13 => Ok (Some (CreateRemoteDialog GetDefDialogParent))
  | 14 =>
      let* sh := spec_getDocShell d in
      let* ps := spec_sheet 434 436 SfxStyleFamily_Page sh in
      Ok (Some (CreateSdPresLayoutTemplateDlg sh GetDefDialogParent false ps.2
                  PresentationObjects_Title ps.1))
  | 15 =>
      let* sh := spec_getDocShell d in
      let* s := spec_getEmptySfxItemSet d in
      Ok (Some (CreateSdPresLayoutDlg GetDefDialogParent sh s))
  | 16 =>
      let* sh := spec_getDocShell d in
      let* ps := spec_sheet 461 463 SfxStyleFamily_Pseudo sh in
      let* doc := spec_getDoc 465 d in
      let* v := spec_getViewShell d in
      let* dv := spec_getDrawView d in
      Ok (Some (CreateSdTabTemplateDlg (GetFrameWeld v) sh ps.2 doc dv))
  | 17 =>
      let* doc := spec_getDoc 478 d in
      let* v := spec_getViewShell d in
      let* dv := spec_getDrawView d in
      Ok (Some (CreatSdActionDialog (GetFrameWeld v) (action_attrs doc) dv))
  | 18 =>
      let* sh := spec_getDocShell d in
      Ok (Some (CreateSdVectorizeDlg GetDefDialogParent Bitmap_default sh))
  | 19 =>
      let* doc := spec_getDoc 517 d in
      Ok (Some (CreateSdPhotoAlbumDialog GetDefDialogParent doc))
  | 20 =>
      let* doc := spec_getDoc 527 d in
      let* pg := spec_page0 529 doc in
      Ok (Some (CreateMasterLayoutDialog GetDefDialogParent doc pg))
  | 21 =>
      let* doc := spec_getDoc 546 d in
      let* pg := spec_page0 548 doc in
      let* v := spec_getViewShell d in
      Ok (Some (CreateHeaderFooterDialog v GetDefDialogParent doc pg))
  | _ => Ok None
  end.

(** The getters each ID calls, in the order of the calls. *)
Definition needs (nID : N) : list Member :=
  match nID with
  | 0 => [MDrawView; MDocShell]
  | 1 => [MViewShell; MSfxItemSetFromSdrObject; MDrawView]
  | 3 => [MViewShell; MEmptySfxItemSet; MDocShell]
  | 4 => [MViewShell; MEmptyFillStyleSfxItemSet; MDocShell]
  | 5 | 11 => [MViewShell; MEmptySfxItemSet]
  | 6 | 17 => [MViewShell; MDrawView]
  | 2 | 7 | 8 | 21 => [MViewShell]
  | 10 => [MEmptySfxItemSet; MDrawView]
  | 14 | 18 => [MDocShell]
  | 15 => [MDocShell; MEmptySfxItemSet]
  | 16 => [MDocShell; MViewShell; MDrawView]
  | _ => []
  end.

(** What the factory returns for the call of a specification. *)
Definition built (f : SdAbstractDialogFactory) (o : Outcome (option FactoryCall))
    : Outcome (option VclAbstractDialog) :=
  outcome_map (fun c => c ≫= create f) o.

(** The result of [createDialogByID] on a fixture whose factory pointer is
    [fact], and the members it fills. *)
Definition spec_createDialogByID (nID : N) d (fact : option SdAbstractDialogFactory)
    : Outcome (option VclAbstractDialog) :=
  match fact with
  | Some f => built f (spec_call nID d)
  | None => Ok None
  end.

Definition spec_needs (nID : N) (fact : option SdAbstractDialogFactory) : list Member :=
  match fact with
  | Some _ => needs nID
  | None => []
  end.

(** A document that has every object a dialog asks for: the shells, a draw
    view, the draw document with a first standard page and a first object
    on it, and a style sheet of the page and of the pseudo family. *)
Inductive Complete d : Prop :=
| Complete_intro sh v dv doc pg o pool s1 s2 :
    GetDocShell d = Some sh ->
    GetViewShell sh = Some v ->
    GetDrawView v = Some (IsDrawView dv) ->
    GetDoc d = Some doc ->
    GetSdPage 0 PageKind_Standard doc = Some pg ->
    GetObj 0 pg = Some o ->
    GetStyleSheetPool sh = Some pool ->
    First SfxStyleFamily_Page pool = Some s1 ->
    First SfxStyleFamily_Pseudo pool = Some s2 ->
    Complete d.

(** The lines of the assertions each ID runs through, those of the getters
    it calls included: the only places where [createDialogByID] can fail
    on a fixture that was set up. *)
Definition failure_lines (nID : N) : list N :=
  match nID with
  | 0 => [136; 147; 158]
  | 1 => [136; 147; 169; 171; 173; 158]
  | 2 => [272; 136; 147]
  | 3 | 5 | 11 => [136; 147; 187]
  | 4 => [136; 147; 200]
  | 6 => [314; 136; 147; 158]
  | 7 => [328; 136; 147]
  | 8 => [349; 136; 147]
  | 9 => [361; 363; 366]
  | 10 => [187; 136; 147; 158]
  | 12 => [394]
  | 14 => [136; 434; 436]
  | 15 => [136; 187]
  | 16 => [136; 461; 463; 465; 147; 158]
  | 17 => [478; 136; 147; 158]
  | 18 => [136]
  | 19 => [517]
  | 20 => [527; 529]
  | 21 => [546; 548; 136; 147]
  | _ => []
  end.

End Specification.

(** ** Each case against its specification *)

Section Binds.
Context `{IDS : SdAttrIds} `{HOST : HostEnv} {B : Type}.
Implicit Types (d : SdXImpressDocument) (t : SdDialogsTest).

Lemma bind_factory_at line f t (k : SdAbstractDialogFactory -> Fx SdDialogsTest B) :
  mpFact t = Some f -> bind (factory_at line) k t = k f t.
Proof.
  intros H. unfold factory_at, getSdAbstractDialogFactory, bind, gets. by rewrite H.
Qed.

Lemma bind_factory_at_None line t (k : SdAbstractDialogFactory -> Fx SdDialogsTest B) :
  mpFact t = None ->
  bind (factory_at line) k t = (Failed (NullDereference line), t).
Proof.
  intros H. unfold factory_at, getSdAbstractDialogFactory, bind, gets. by rewrite H.
Qed.

Lemma bind_GetDoc_checked line d t (k : SdDrawDocument -> Fx SdDialogsTest B) :
  coherent d t ->
  bind (GetDoc_checked line) k t =
    match spec_getDoc (line + 1) d with
    | Ok a => k a t
    | Failed e => (Failed e, t)
    end.
Proof.
  intros C. unfold GetDoc_checked, getSdXImpressDocument, bind, gets, deref.
  rewrite (coh_document _ _ C). unfold spec_getDoc. by destruct (GetDoc d).
Qed.

Lemma bind_assert_ptr {A S} line (p : option A) (s : S) (k : A -> Fx S B) :
  bind (assert_ptr line p) k s =
    match expect line p with
    | Ok a => k a s
    | Failed e => (Failed e, s)
    end.
Proof. by destruct p. Qed.

End Binds.

(** One step of a case: run the getter, the assertion or the factory access
    at the head of the goal against its specification, or split on the
    outcome the goal waits for. *)
Ltac case_step d :=
  first
    [ rewrite (bind_getDocShell d) by eauto with fx
    | rewrite (bind_getViewShell d) by eauto with fx
    | rewrite (bind_getDrawView d) by eauto with fx
    | rewrite (bind_getSfxItemSetFromSdrObject d) by eauto with fx
    | rewrite (bind_getEmptySfxItemSet d) by eauto with fx
    | rewrite (bind_getEmptyFillStyleSfxItemSet d) by eauto with fx
    | rewrite (bind_GetDoc_checked _ d) by eauto with fx;
      match goal with
      | |- context [spec_getDoc (?a + 1)%N d] =>
          let n := eval vm_compute in (a + 1)%N in change (a + 1)%N with n
      end
    | erewrite bind_factory_at by (autorewrite with fx; eassumption)
    | rewrite bind_assert_ptr
    | match goal with
      | H : ?o = _ |- context [match ?o with Ok _ => _ | Failed _ => _ end] =>
          rewrite H; cbv beta iota
      | |- context [match ?o with Ok _ => _ | Failed _ => _ end] =>
          destruct o eqn:?; cbv beta iota
      end ].

(** The statement of a case: its outcome is the built specification, the
    state it leaves is reached by getters, and on success it is the state
    with the members of [needs] filled. *)
Definition case_refines `{IDS : SdAttrIds} `{HOST : HostEnv}
    (nID : N) (c : Fx SdDialogsTest (option VclAbstractDialog)) : Prop :=
  forall d f t,
    coherent d t -> mpFact t = Some f ->
    exists t',
      c t = (built f (spec_call nID d), t') /\
      Filled d t t' /\
      (is_ok (spec_call nID d) = true -> t' = fill_all (needs nID) d t).

Tactic Notation "case_run" reference(c) :=
  let d := fresh "d" in
  intros d ? ? ? ?;
  unfold c, built, spec_call, spec_sheet, spec_page0, outcome_bind;
  repeat case_step d;
  eexists; (split; [reflexivity|]); (split; [eauto 10 with fx|]); done.

Section CaseRuns.
Context `{IDS : SdAttrIds} `{HOST : HostEnv}.

Lemma case_0_run : case_refines 0 case_0.
Proof. case_run case_0. Qed.
Lemma case_1_run : case_refines 1 case_1.
Proof. case_run case_1. Qed.
Lemma case_2_run : case_refines 2 case_2.
Proof. case_run case_2. Qed.
Lemma case_3_run : case_refines 3 case_3.
Proof. case_run case_3. Qed.
Lemma case_4_run : case_refines 4 case_4.
Proof. case_run case_4. Qed.
Lemma case_5_run : case_refines 5 case_5.
Proof. case_run case_5. Qed.
Lemma case_6_run : case_refines 6 case_6.
Proof. case_run case_6. Qed.
Lemma case_7_run : case_refines 7 case_7.
Proof. case_run case_7. Qed.
Lemma case_8_run : case_refines 8 case_8.
Proof. case_run case_8. Qed.
Lemma case_9_run : case_refines 9 case_9.
Proof. case_run case_9. Qed.
Lemma case_10_run : case_refines 10 case_10.
Proof. case_run case_10. Qed.
Lemma case_11_run : case_refines 11 case_11.
Proof. case_run case_11. Qed.
Lemma case_12_run : case_refines 12 case_12.
Proof. case_run case_12. Qed.
Lemma case_13_run : case_refines 13 case_13.
Proof. case_run case_13. Qed.
Lemma case_14_run : case_refines 14 case_14.
Proof. case_run case_14. Qed.
Lemma case_15_run : case_refines 15 case_15.
Proof. case_run case_15. Qed.
Lemma case_16_run : case_refines 16 case_16.
Proof. case_run case_16. Qed.
Lemma case_17_run : case_refines 17 case_17.
Proof. case_run case_17. Qed.
Lemma case_18_run : case_refines 18 case_18.
Proof. case_run case_18. Qed.
Lemma case_19_run : case_refines 19 case_19.
Proof. case_run case_19. Qed.
Lemma case_20_run : case_refines 20 case_20.
Proof. case_run case_20. Qed.
Lemma case_21_run : case_refines 21 case_21.
Proof. case_run case_21. Qed.

End CaseRuns.

(** The case of the ID in the goal against its specification. *)
Ltac apply_case_run :=
  first
    [ eapply case_0_run | eapply case_1_run | eapply case_2_run | eapply case_3_run
    | eapply case_4_run | eapply case_5_run | eapply case_6_run | eapply case_7_run
    | eapply case_8_run | eapply case_9_run | eapply case_10_run | eapply case_11_run
    | eapply case_12_run | eapply case_13_run | eapply case_14_run | eapply case_15_run
    | eapply case_16_run | eapply case_17_run | eapply case_18_run | eapply case_19_run
    | eapply case_20_run | eapply case_21_run ].

(** Split on every outcome a specification waits for. *)
Ltac spec_cases :=
  unfold spec_call, spec_sheet, spec_page0, outcome_bind in *;
  repeat match goal with
    | H : ?o = _ |- context [match ?o with Ok _ => _ | Failed _ => _ end] =>
        rewrite H; cbv beta iota
    | |- context [match ?o with Ok _ => _ | Failed _ => _ end] =>
        destruct o eqn:?; cbv beta iota
    end.

(** Unfold the specifications down to the accessors of the document. *)
Ltac spec_unfold :=
  unfold spec_call, spec_sheet, spec_page0, spec_getDrawView, spec_getViewShell,
    spec_getDocShell, spec_getSfxItemSetFromSdrObject, spec_getEmptySfxItemSet,
    spec_getEmptyFillStyleSfxItemSet, spec_getDoc.

(** Evaluate a specification on a complete document. *)
Ltac complete_run H :=
  destruct H as [sh v dv doc pg o pool s1 s2 H1 H2 H3 H4 H5 H6 H7 H8 H9];
  spec_unfold;
  rewrite ?H1; simpl; rewrite ?H2; simpl; rewrite ?H3; simpl; rewrite ?H4; simpl;
  rewrite ?H5; simpl; rewrite ?H6; simpl; rewrite ?H7; simpl; rewrite ?H8, ?H9; simpl.

(** ** The dispatcher *)

Section DispatchFacts.
Context `{IDS : SdAttrIds} `{HOST : HostEnv}.
Implicit Types (d : SdXImpressDocument) (t : SdDialogsTest) (f : SdAbstractDialogFactory).
#[local] Open Scope N_scope.

Lemma spec_call_default nID d : known_count <= nID -> spec_call nID d = Ok None.
Proof. intros H. id_default nID. Qed.

Lemma needs_default nID : known_count <= nID -> needs nID = [].
Proof. intros H. id_default nID. Qed.

Lemma switch_nID_default nID : known_count <= nID -> switch_nID nID = ret None.
Proof. intros H. id_default nID. Qed.

Lemma createDialogByID_no_factory nID t :
  mpFact t = None -> createDialogByID nID t = (Ok None, t).
Proof.
  intros H. unfold createDialogByID, getSdAbstractDialogFactory, bind, gets. by rewrite H.
Qed.

Lemma createDialogByID_switch nID f t :
  mpFact t = Some f -> createDialogByID nID t = switch_nID nID t.
Proof.
  intros F. unfold createDialogByID, getSdAbstractDialogFactory, bind, gets. by rewrite F.
Qed.

Lemma switch_nID_run nID : case_refines nID (switch_nID nID).
Proof.
  destruct (decide (nID < known_count)) as [H|H].
  - id_cases H; apply_case_run.
  - intros d f t _ _.
    rewrite switch_nID_default, spec_call_default, needs_default by lia.
    exists t. split; [done|]. split; [constructor|done].
Qed.

(** With a factory, on every ID. *)
Lemma createDialogByID_run nID d f t :
  coherent d t -> mpFact t = Some f ->
  exists t',
    createDialogByID nID t = (built f (spec_call nID d), t') /\
    Filled d t t' /\
    (is_ok (spec_call nID d) = true -> t' = fill_all (needs nID) d t).
Proof.
  intros C F. rewrite (createDialogByID_switch nID f t F). by apply switch_nID_run.
Qed.

Lemma spec_call_ui nID d c :
  spec_call nID d = Ok (Some c) -> path_of_id nID = Some (ui_of_call c).
Proof.
  destruct (decide (nID < known_count)) as [H|H].
  - id_cases H; spec_cases; intros [= <-] || discriminate; reflexivity.
  - rewrite spec_call_default by lia. done.
Qed.

Lemma spec_call_Some nID d c :
  nID < known_count -> spec_call nID d = Ok c -> is_Some c.
Proof. intros H. id_cases H; spec_cases; intros [= <-] || discriminate; by eexists. Qed.

Lemma spec_call_fails_in nID d : fails_in (failure_lines nID) (spec_call nID d).
Proof.
  destruct (decide (nID < known_count)) as [H|H].
  - id_cases H; spec_unfold; fails_in_tac.
  - by rewrite spec_call_default by lia.
Qed.

Lemma spec_call_complete nID d :
  Complete d -> nID < known_count -> is_ok (spec_call nID d) = true.
Proof. intros Hd H. id_cases H; complete_run Hd; reflexivity. Qed.

(** IDs 9, 14 and 16 between them use every object of a complete document. *)
Lemma spec_call_ok_Complete d :
  is_ok (spec_call 9 d) = true -> is_ok (spec_call 14 d) = true ->
  is_ok (spec_call 16 d) = true -> Complete d.
Proof.
  spec_unfold. unfold outcome_bind, expect.
  destruct (GetDoc d) as [doc|] eqn:?; [|done].
  destruct (GetSdPage 0 PageKind_Standard doc) as [pg|] eqn:?; [|done].
  destruct (GetObj 0 pg) as [o|] eqn:?; [|done]. intros _.
  destruct (GetDocShell d) as [sh|] eqn:?; [|done].
  destruct (GetStyleSheetPool sh) as [pool|] eqn:?; [|done].
  destruct (First SfxStyleFamily_Page pool) as [s1|] eqn:?; [|done]. intros _.
  destruct (First SfxStyleFamily_Pseudo pool) as [s2|] eqn:?; [|done].
  destruct (GetViewShell sh) as [v|] eqn:?; [|done].
  destruct (dynamic_cast_DrawView (GetDrawView v)) as [dv|] eqn:Hdv; [|done].
  apply dynamic_cast_DrawView_Some in Hdv. intros _. by econstructor.
Qed.

Lemma is_ok_built f o : is_ok (built f o) = is_ok o.
Proof. by destruct o. Qed.

Lemma built_Failed f o e : built f o = Failed e <-> o = Failed e.
Proof. destruct o; simpl; split; discriminate || by intros [= ->]. Qed.

Lemma built_total f c : factory_total f -> built f (Ok (Some c)) = Ok (Some {| built_by := c |}).
Proof. intros H. unfold built. simpl. by rewrite H. Qed.

Lemma spec_createDialogByID_fails_in nID d fact :
  fails_in (failure_lines nID) (spec_createDialogByID nID d fact).
Proof. destruct fact; [apply fails_in_map, spec_call_fails_in | done]. Qed.

(** The outcome and the final state on every fixture that was set up. *)
Lemma createDialogByID_outcome nID d t :
  coherent d t -> fst (createDialogByID nID t) = spec_createDialogByID nID d (mpFact t).
Proof.
  intros C. destruct (mpFact t) as [f|] eqn:F.
  - by destruct (createDialogByID_run nID d f t C F) as (t' & -> & _).
  - by rewrite createDialogByID_no_factory.
Qed.

Lemma createDialogByID_Filled nID d t :
  coherent d t -> Filled d t (snd (createDialogByID nID t)).
Proof.
  intros C. destruct (mpFact t) as [f|] eqn:F.
  - by destruct (createDialogByID_run nID d f t C F) as (t' & -> & ? & _).
  - rewrite createDialogByID_no_factory by done. constructor.
Qed.

Lemma createDialogByID_state nID d t :
  coherent d t -> is_ok (fst (createDialogByID nID t)) = true ->
  snd (createDialogByID nID t) = fill_all (spec_needs nID (mpFact t)) d t.
Proof.
  intros C. destruct (mpFact t) as [f|] eqn:F.
  - destruct (createDialogByID_run nID d f t C F) as (t' & -> & _ & Hs). simpl.
    rewrite is_ok_built. apply Hs.
  - by rewrite createDialogByID_no_factory.
Qed.

End DispatchFacts.

(** ** Null pointers

    The cases dereference the factory and the document without a check.
    On a fixture that is [usable] (a factory and a document, any caches)
    every such dereference finds a pointer, by the rules of [safe]: each
    getter keeps [usable], so each dereference runs on a usable fixture. *)

Section CaseSafety.
Context `{IDS : SdAttrIds} `{HOST : HostEnv}.
#[local] Open Scope N_scope.

Lemma factory_at_safe line : safe usable (factory_at line).
Proof. unfold factory_at, getSdAbstractDialogFactory. safe_tac. Qed.

Lemma GetDoc_checked_safe line : safe usable (GetDoc_checked line).
Proof. unfold GetDoc_checked, getSdXImpressDocument. safe_tac. Qed.

#[local] Hint Resolve factory_at_safe GetDoc_checked_safe : fx.

Lemma switch_nID_safe nID : safe usable (switch_nID nID).
Proof.
  destruct (decide (nID < known_count)) as [H|H].
  - id_cases H;
      cbv [switch_nID case_0 case_1 case_2 case_3 case_4 case_5 case_6 case_7
             case_8 case_9 case_10 case_11 case_12 case_13 case_14 case_15
             case_16 case_17 case_18 case_19 case_20 case_21];
      safe_tac.
  - rewrite switch_nID_default by lia. apply safe_ret.
Qed.

End CaseSafety.

(** ** Theorems on [createDialogByID] *)

Section DispatchTheorems.
Context `{IDS : SdAttrIds} `{HOST : HostEnv}.
Implicit Types (d : SdXImpressDocument) (t : SdDialogsTest) (f : SdAbstractDialogFactory).
#[local] Open Scope N_scope.

(** C1: on a fixture that was set up on a document [d], [createDialogByID]
    returns what the specification [spec_createDialogByID] computes from the
    document and the factory alone (the dialog the factory builds for the
    call of the ID, an empty pointer, or the assertion that fails); the
    fixture it leaves is reached by running getters, and after a return it
    is the fixture with exactly the members of [spec_needs] filled. *)
Theorem createDialogByID_refines nID d t :
  coherent d t ->
  fst (createDialogByID nID t) = spec_createDialogByID nID d (mpFact t) /\
  Filled d t (snd (createDialogByID nID t)) /\
  (is_ok (fst (createDialogByID nID t)) = true ->
   snd (createDialogByID nID t) = fill_all (spec_needs nID (mpFact t)) d t).
Proof.
  intros C. split; [by apply createDialogByID_outcome|].
  split; [by apply createDialogByID_Filled|]. by apply createDialogByID_state.
Qed.

(** C2: on a complete document and with a factory that builds every dialog
    it is asked for, every registered ID (0 to 21) returns a dialog, and the
    UI description of that dialog is the path [registerKnownDialogsByID]
    registers under the ID. *)
Theorem createDialogByID_registered nID d f t :
  Complete d -> factory_total f -> coherent d t -> mpFact t = Some f ->
  nID < known_count ->
  exists c,
    createDialogByID nID t = (Ok (Some {| built_by := c |}), fill_all (needs nID) d t) /\
    path_of_id nID = Some (ui_of_call c).
Proof.
  intros Hd Hf C F H.
  destruct (createDialogByID_run nID d f t C F) as (t' & Hrun & _ & Hs).
  pose proof (spec_call_complete nID d Hd H) as Hok.
  destruct (spec_call nID d) as [c|e] eqn:E; [|done].
  destruct (spec_call_Some nID d c H E) as [c' ->].
  exists c'. rewrite Hrun, (Hs Hok), built_total by done. split; [done|].
  by eapply spec_call_ui.
Qed.

(** C3: an ID that is not registered (22 or more) yields an empty result and
    leaves the fixture as it was, whatever the state of the fixture. *)
Theorem createDialogByID_unregistered nID t :
  known_count <= nID -> createDialogByID nID t = (Ok None, t).
Proof.
  intros H. unfold createDialogByID, getSdAbstractDialogFactory, bind, gets.
  destruct (mpFact t); [|done]. id_default nID.
Qed.

(** C4: on a fixture that holds a document, [createDialogByID] never uses
    a null pointer, whatever the other members hold and with or without a
    factory: the guard of line 240 covers the factory, the document is the
    only pointer the cases dereference without a check, and every other
    pointer is asserted before its use. *)
Theorem createDialogByID_no_null_deref nID t :
  is_Some (mpImpressDocument t) -> no_null (fst (createDialogByID nID t)).
Proof.
  intros Hd. unfold createDialogByID, getSdAbstractDialogFactory, bind, gets.
  destruct (mpFact t) as [f|] eqn:F; [|done].
  apply (safe_no_null usable); [apply switch_nID_safe|].
  split; [by rewrite F|done].
Qed.

(** C9: the cache invariant [coherent] is preserved by [createDialogByID],
    on every ID, when it returns and when an assertion throws in the middle
    of a case. *)
Theorem createDialogByID_preserves nID d : preserves (coherent d) (createDialogByID nID).
Proof.
  intros t C. pose proof (createDialogByID_Filled nID d t C) as HF.
  destruct (createDialogByID nID t) as [[o|e] t']; by eapply Filled_coherent.
Qed.

(** C17: a dialog can be asked for again: the second call on the fixture the
    first call left returns the same result and changes nothing, because
    every member the case needs is filled by then. *)
Theorem createDialogByID_idempotent nID d t o t' :
  coherent d t -> createDialogByID nID t = (Ok o, t') ->
  createDialogByID nID t' = (Ok o, t').
Proof.
  intros C H. pose proof (createDialogByID_Filled nID d t C) as HF.
  pose proof (createDialogByID_state nID d t C) as Hs.
  pose proof (createDialogByID_outcome nID d t C) as Ho.
  rewrite H in HF, Hs, Ho. simpl in HF, Hs, Ho. specialize (Hs eq_refl).
  pose proof (Filled_coherent d t t' C HF) as C'.
  pose proof (mpFact_Filled d t t' HF) as F.
  rewrite (surjective_pairing (createDialogByID nID t')).
  rewrite (createDialogByID_outcome nID d t' C'), F, <- Ho.
  rewrite (createDialogByID_state nID d t' C'), F.
  - by rewrite Hs at 1 2; rewrite fill_all_idemp.
  - by rewrite (createDialogByID_outcome nID d t' C'), F, <- Ho.
Qed.

(** C18: the result does not depend on which members are already filled: two
    fixtures set up on the same document with the same factory get the same
    dialog, or fail at the same assertion. *)
Theorem createDialogByID_cache_independent nID d t1 t2 :
  coherent d t1 -> coherent d t2 -> mpFact t1 = mpFact t2 ->
  fst (createDialogByID nID t1) = fst (createDialogByID nID t2).
Proof.
  intros C1 C2 F. by rewrite (createDialogByID_outcome nID d t1 C1),
    (createDialogByID_outcome nID d t2 C2), F.
Qed.

(** C19: [createDialogByID] only fills members: the component, the factory
    and the document stay, and a member that was filled keeps its value. *)
Theorem createDialogByID_extends nID d t :
  coherent d t -> extends t (snd (createDialogByID nID t)).
Proof. intros C. eapply Filled_extends; [done|]. by apply createDialogByID_Filled. Qed.

(** C13: when [createDialogByID] fails on a fixture that was set up, an
    assertion failed, at one of the lines [failure_lines] lists for the ID:
    its own assertions and those of the getters it calls. *)
Theorem createDialogByID_failure_lines nID d t e t' :
  coherent d t -> createDialogByID nID t = (Failed e, t') ->
  exists line, e = AssertionFailed line /\ line ∈ failure_lines nID.
Proof.
  intros C H. pose proof (createDialogByID_outcome nID d t C) as Ho.
  rewrite H in Ho. eapply fails_in_Failed; [|by symmetry; apply Ho].
  apply spec_createDialogByID_fails_in.
Qed.

(** C33: with a factory, every registered ID returns exactly on the
    complete documents: a document that lacks one of the nine objects of
    [Complete] makes the assertion of some ID fail, and IDs 9, 14 and 16
    are enough to find out. *)
Theorem createDialogByID_all_return d t :
  coherent d t -> is_Some (mpFact t) ->
  (forall nID, nID < known_count -> is_ok (fst (createDialogByID nID t)) = true) <->
  Complete d.
Proof.
  intros C [f F].
  assert (forall nID, is_ok (fst (createDialogByID nID t)) = is_ok (spec_call nID d)) as E.
  { intros nID. rewrite (createDialogByID_outcome nID d t C), F. apply is_ok_built. }
  split.
  - intros H. apply spec_call_ok_Complete; rewrite <- E; by apply H.
  - intros Hd nID H. rewrite E. by apply spec_call_complete.
Qed.

End DispatchTheorems.

(** ** Witnesses on the demonstration host *)

Lemma demo_complete : Complete demo_impress.
Proof. by econstructor. Qed.

Lemma createDialogByID_refines_witness :
  coherent demo_impress demo_fixture /\
  fst (createDialogByID 12 demo_fixture) =
    spec_createDialogByID 12 demo_impress (mpFact demo_fixture) /\
  Filled demo_impress demo_fixture (snd (createDialogByID 12 demo_fixture)) /\
  (is_ok (fst (createDialogByID 12 demo_fixture)) = true ->
   snd (createDialogByID 12 demo_fixture) =
     fill_all (spec_needs 12 (mpFact demo_fixture)) demo_impress demo_fixture).
Proof.
  split; [exact demo_fixture_coherent|].
  exact (createDialogByID_refines 12 demo_impress demo_fixture demo_fixture_coherent).
Defined.

Lemma createDialogByID_registered_witness :
  (4 < known_count)%N /\
  exists c,
    createDialogByID 4 demo_fixture =
      (Ok (Some {| built_by := c |}), fill_all (needs 4) demo_impress demo_fixture) /\
    path_of_id 4 = Some (ui_of_call c).
Proof.
  split; [reflexivity|].
  exact (createDialogByID_registered 4 demo_impress demo_factory demo_fixture
           demo_complete demo_factory_total demo_fixture_coherent demo_fixture_fact
           eq_refl).
Defined.

Lemma createDialogByID_unregistered_witness :
  (known_count <= 22)%N /\ createDialogByID 22 demo_fixture = (Ok None, demo_fixture).
Proof.
  assert (known_count <= 22)%N as H by (by vm_compute).
  split; [exact H|]. exact (createDialogByID_unregistered 22 demo_fixture H).
Defined.

Lemma createDialogByID_no_null_deref_witness :
  is_Some (mpImpressDocument demo_fixture) /\
  no_null (fst (createDialogByID 16 demo_fixture)).
Proof.
  assert (is_Some (mpImpressDocument demo_fixture)) as H by (by eexists).
  split; [exact H|]. exact (createDialogByID_no_null_deref 16 demo_fixture H).
Defined.

Lemma createDialogByID_all_return_witness :
  coherent demo_impress demo_fixture /\ is_Some (mpFact demo_fixture) /\
  ((forall nID, (nID < known_count)%N ->
      is_ok (fst (createDialogByID nID demo_fixture)) = true) <->
   Complete demo_impress).
Proof.
  assert (is_Some (mpFact demo_fixture)) as H by (by eexists).
  split; [exact demo_fixture_coherent|]. split; [exact H|].
  exact (createDialogByID_all_return demo_impress demo_fixture demo_fixture_coherent H).
Defined.

Lemma createDialogByID_preserves_witness :
  coherent demo_impress demo_fixture /\
  coherent demo_impress (snd (createDialogByID 16 demo_fixture)).
Proof.
  split; [exact demo_fixture_coherent|].
  exact (createDialogByID_preserves 16 demo_impress demo_fixture demo_fixture_coherent).
Defined.

Lemma createDialogByID_idempotent_witness :
  coherent demo_impress demo_fixture /\
  createDialogByID 3 (snd (createDialogByID 3 demo_fixture)) =
    createDialogByID 3 demo_fixture.
Proof.
  split; [exact demo_fixture_coherent|].
  destruct (createDialogByID 3 demo_fixture) as [[o|e] t'] eqn:E.
  - exact (createDialogByID_idempotent 3 demo_impress demo_fixture o t'
             demo_fixture_coherent E).
  - by vm_compute in E.
Defined.

Lemma createDialogByID_cache_independent_witness :
  coherent demo_impress (fill MDrawView demo_impress demo_fixture) /\
  fst (createDialogByID 0 demo_fixture) =
    fst (createDialogByID 0 (fill MDrawView demo_impress demo_fixture)).
Proof.
  assert (coherent demo_impress (fill MDrawView demo_impress demo_fixture)) as C
    by apply fill_coherent, demo_fixture_coherent.
  split; [exact C|].
  exact (createDialogByID_cache_independent 0 demo_impress demo_fixture _
           demo_fixture_coherent C eq_refl).
Defined.

Lemma createDialogByID_extends_witness :
  coherent demo_impress demo_fixture /\
  extends demo_fixture (snd (createDialogByID 1 demo_fixture)).
Proof.
  split; [exact demo_fixture_coherent|].
  exact (createDialogByID_extends 1 demo_impress demo_fixture demo_fixture_coherent).
Defined.

(** A document with no shell and no draw document, and the fixture set up
    on it. *)
Definition empty_impress : SdXImpressDocument := {| GetDocShell := None; GetDoc := None |}.

Definition empty_host : HostEnv :=
  {| SdAbstractDialogFactory_Create := Some demo_factory;
     loadFromDesktop := fun _ _ => Some (ImpressDocument empty_impress);
     GetDefDialogParent := None;
     SdResId := demo_resource |}.

Definition empty_fixture : SdDialogsTest := snd (setUp (HOST := empty_host) SdDialogsTest_ctor).

Lemma empty_fixture_coherent : coherent empty_impress empty_fixture.
Proof. apply caches_empty_coherent; [apply ctor_caches_empty|done..]. Qed.

Lemma createDialogByID_failure_lines_witness :
  createDialogByID (HOST := empty_host) 16 empty_fixture =
    (Failed (AssertionFailed 136), empty_fixture) /\
  exists line, AssertionFailed 136 = AssertionFailed line /\ line ∈ failure_lines 16.
Proof.
  assert (createDialogByID (HOST := empty_host) 16 empty_fixture =
            (Failed (AssertionFailed 136), empty_fixture)) as H by (by vm_compute).
  split; [exact H|].
  exact (createDialogByID_failure_lines (HOST := empty_host) 16 empty_impress
           empty_fixture _ _ empty_fixture_coherent H).
Defined.
