(* ===== verification/Causes.v ===== *)
(** * What a dialog requires of the document

    The assertions of [SdDialogsTest::createDialogByID] (lines 236-562) and
    of the getters it calls (lines 131-207) each check one object of the
    document.  This file names these objects ([Requirement]), lists for
    every dialog ID the objects its case checks ([requires]) and for every
    assertion the object it guards ([guarded]), and proves that
    [createDialogByID] returns exactly when the document has every object
    the ID requires, and that a failed assertion always names a required
    object that is missing. *)

From Stdlib Require Import ZArith Lia.
From stdpp Require Import base tactics option list strings gmap.
From S2P Require Import Prelude ItemSet Host Fixture Registry Dispatch.

#[local] Open Scope N_scope.

(** ** The objects a dialog can ask for *)

Inductive Requirement : Type :=
| RShell                      (* the document shell *)
| RView                       (* the view shell of the document shell *)
| RDrawView                   (* the draw view of the view shell *)
| RDoc                        (* the draw document *)
| RPage                       (* the first standard page of the draw document *)
| RObj                        (* the first object of that page *)
| RPool                       (* the style sheet pool of the document shell *)
| RSheet (f : SfxStyleFamily) (* the first style sheet of a family *).

#[export] Instance Requirement_eq_dec : EqDecision Requirement.
Proof. solve_decision. Defined.

Definition on_shell (d : SdXImpressDocument) (k : DrawDocShell -> bool) : bool :=
  match GetDocShell d with Some sh => k sh | None => false end.

Definition on_view (d : SdXImpressDocument) (k : ViewShell -> bool) : bool :=
  on_shell d (fun sh => match GetViewShell sh with Some v => k v | None => false end).

Definition on_doc (d : SdXImpressDocument) (k : SdDrawDocument -> bool) : bool :=
  match GetDoc d with Some doc => k doc | None => false end.

Definition on_page (d : SdXImpressDocument) (k : SdPage -> bool) : bool :=
  on_doc d (fun doc =>
    match GetSdPage 0 PageKind_Standard doc with Some pg => k pg | None => false end).

Definition on_pool (d : SdXImpressDocument) (k : SfxStyleSheetBasePool -> bool) : bool :=
  on_shell d (fun sh =>
    match GetStyleSheetPool sh with Some pool => k pool | None => false end).

Definition present {A} (p : option A) : bool :=
  match p with Some _ => true | None => false end.

(** The document has the object. *)
Definition holds (d : SdXImpressDocument) (r : Requirement) : bool :=
  match r with
  | RShell => on_shell d (fun _ => true)
  | RView => on_view d (fun _ => true)
  | RDrawView => on_view d (fun v => present (dynamic_cast_DrawView (GetDrawView v)))
  | RDoc => on_doc d (fun _ => true)
  | RPage => on_page d (fun _ => true)
  | RObj => on_page d (fun pg => present (GetObj 0 pg))
  | RPool => on_pool d (fun _ => true)
  | RSheet f => on_pool d (fun pool => present (First f pool))
  end.

(** The objects the case of each ID checks, in the order of its
    assertions. *)
Definition requires (nID : N) : list Requirement :=
  match nID with
  | 0 => [RShell; RView; RDrawView]
  | 1 => [RShell; RView; RDoc; RPage; RObj; RDrawView]
  | 2 | 7 | 8 => [RDoc; RShell; RView]
  | 3 | 4 | 5 | 11 => [RShell; RView; RDoc]
  | 6 | 17 => [RDoc; RShell; RView; RDrawView]
  | 9 => [RDoc; RPage; RObj]
  | 10 => [RDoc; RShell; RView; RDrawView]
  | 12 | 19 => [RDoc]
  | 14 => [RShell; RPool; RSheet SfxStyleFamily_Page]
  | 15 => [RShell; RDoc]
  | 16 => [RShell; RPool; RSheet SfxStyleFamily_Pseudo; RDoc; RView; RDrawView]
  | 18 => [RShell]
  | 20 => [RDoc; RPage]
  | 21 => [RDoc; RPage; RShell; RView]
  | _ => []
  end.

(** The object each assertion guards, by the line of the assertion. *)
Definition guarded (line : N) : option Requirement :=
  match line with
  | 136 => Some RShell
  | 147 => Some RView
  | 158 => Some RDrawView
  | 169 | 187 | 200 | 272 | 314 | 328 | 349 | 361 | 394 | 465 | 478 | 517 | 527
  | 546 => Some RDoc
  | 171 | 363 | 529 | 548 => Some RPage
  | 173 | 366 => Some RObj
  | 434 | 461 => Some RPool
  | 436 => Some (RSheet SfxStyleFamily_Page)
  | 463 => Some (RSheet SfxStyleFamily_Pseudo)
  | _ => None
  end.

(** The document has every object the ID requires. *)
Definition meets (d : SdXImpressDocument) (nID : N) : bool :=
  forallb (holds d) (requires nID).

(** The assertion at [line] guards an object that the ID requires and the
    document lacks. *)
Definition unmet (d : SdXImpressDocument) (nID : N) (line : N) : bool :=
  match guarded line with
  | Some r => bool_decide (r ∈ requires nID) && negb (holds d r)
  | None => false
  end.

(** An outcome is explained by the document: a return means that every
    requirement is met, a failure is an assertion whose object is missing. *)
Definition explained {A} (d : SdXImpressDocument) (nID : N) (o : Outcome A) : Prop :=
  match o with
  | Ok _ => meets d nID = true
  | Failed (AssertionFailed line) => meets d nID = false /\ unmet d nID line = true
  | Failed (NullDereference _) => False
  end.

(** Split on the accessors of the document a goal examines, innermost
    first, reusing what is known of an accessor already examined. *)
Ltac destruct_accessors :=
  repeat match goal with
    | H : ?x = _ |- context [match ?x with Some _ => _ | None => _ end] =>
        rewrite H; cbv beta iota
    | |- context [match ?x with Some _ => _ | None => _ end] =>
        lazymatch x with
        | context [match _ with Some _ => _ | None => _ end] => fail
        | _ => destruct x eqn:?; cbv beta iota
        end
    end.

Section CauseFacts.
Context `{IDS : SdAttrIds} `{HOST : HostEnv}.
Implicit Types (d : SdXImpressDocument).

Lemma requires_default nID : known_count <= nID -> requires nID = [].
Proof. intros H. id_default nID. Qed.

Lemma spec_call_explained nID d : explained d nID (spec_call nID d).
Proof.
  destruct (decide (nID < known_count)) as [H|H].
  - id_cases H; spec_unfold;
      cbv [explained meets unmet requires guarded holds forallb on_shell on_view on_doc
             on_page on_pool present outcome_bind expect];
      destruct_accessors; first [reflexivity | split; reflexivity].
  - rewrite spec_call_default by lia. unfold explained, meets.
    by rewrite requires_default by lia.
Qed.

Lemma explained_is_ok {A} d nID (o : Outcome A) : explained d nID o -> is_ok o = meets d nID.
Proof. destruct o as [a|[l|l]]; simpl; [done|by intros [-> _]|done]. Qed.

Lemma explained_map {A B} (f : A -> B) d nID (o : Outcome A) :
  explained d nID o -> explained d nID (outcome_map f o).
Proof. by destruct o as [a|[l|l]]. Qed.

Lemma unmet_spec d nID line :
  unmet d nID line = true ->
  exists r, guarded line = Some r /\ r ∈ requires nID /\ holds d r = false.
Proof.
  unfold unmet. destruct (guarded line) as [r|]; [|done].
  intros [H1 H2]%andb_true_iff. exists r.
  split_and!; [done|by apply bool_decide_eq_true in H1|by apply negb_true_iff].
Qed.

(** A failure that the document explains is the assertion on an object
    that the ID requires and the document lacks. *)
Lemma explained_failed {A} d nID (o : Outcome A) e :
  explained d nID o -> o = Failed e ->
  exists line r,
    e = AssertionFailed line /\ guarded line = Some r /\ r ∈ requires nID /\
    holds d r = false.
Proof.
  intros He ->. destruct e as [line|line]; [|done]. destruct He as [_ Hu].
  destruct (unmet_spec _ _ _ Hu) as (r & ?). by exists line, r.
Qed.

(** A complete document meets the requirements of every ID. *)
Lemma Complete_meets d nID : Complete d -> meets d nID = true.
Proof.
  intros Hd. destruct (decide (nID < known_count)) as [H|H].
  - rewrite <- (explained_is_ok d nID (spec_call nID d)) by apply spec_call_explained.
    by apply spec_call_complete.
  - unfold meets. by rewrite requires_default by lia.
Qed.

End CauseFacts.

(** ** Theorems on the requirements *)

Section CauseTheorems.
Context `{IDS : SdAttrIds} `{HOST : HostEnv}.
Implicit Types (d : SdXImpressDocument) (t : SdDialogsTest).

(** C39: with a factory, [createDialogByID] returns exactly when the
    document has every object the ID requires, and when it fails the
    assertion that failed guards an object that the ID requires and the
    document lacks: no assertion fails on a document that has what the
    dialog needs, and none reports an object that is there. *)
Theorem createDialogByID_requirements nID d t :
  coherent d t -> is_Some (mpFact t) ->
  is_ok (fst (createDialogByID nID t)) = meets d nID /\
  forall e, fst (createDialogByID nID t) = Failed e ->
    exists line r,
      e = AssertionFailed line /\ guarded line = Some r /\ r ∈ requires nID /\
      holds d r = false.
Proof.
  intros C [f F]. pose proof (spec_call_explained nID d) as He.
  apply (explained_map (fun c => c ≫= create f)) in He.
  rewrite (createDialogByID_outcome nID d t C), F. simpl.
  split; [by apply explained_is_ok|]. intros e Hf. by eapply explained_failed.
Qed.

End CauseTheorems.

(** ** Witness: the document without shell and draw document *)

Lemma createDialogByID_requirements_witness :
  coherent empty_impress empty_fixture /\ is_Some (mpFact empty_fixture) /\
  is_ok (fst (createDialogByID (HOST := empty_host) 16 empty_fixture)) =
    meets empty_impress 16 /\
  forall e, fst (createDialogByID (HOST := empty_host) 16 empty_fixture) = Failed e ->
    exists line r,
      e = AssertionFailed line /\ guarded line = Some r /\ r ∈ requires 16 /\
      holds empty_impress r = false.
Proof.
  assert (is_Some (mpFact empty_fixture)) as H by (by eexists).
  split; [exact empty_fixture_coherent|]. split; [exact H|].
  exact (createDialogByID_requirements (HOST := empty_host) 16 empty_impress empty_fixture
           empty_fixture_coherent H).
Defined.
