(* ===== verification/Typing.v ===== *)
(** * Typing of the attribute sets

    An attribute set maps attribute IDs to typed values.  The type of the
    value under a which-id is fixed by its declaration in [sdattr.hrc]
    ([TypedWhichId<SfxBoolItem>] and the like), which is outside [src/];
    [attr_type] is that table.  This file checks the item classes the
    fixture names (lines 201-203, 315-337, 395-413, 479-495) against it:
    every set the fixture builds and hands to a dialog holds, under each
    which-id, a value of the declared class that fits the width of its C++
    type. *)

From Stdlib Require Import ZArith Lia.
From stdpp Require Import base tactics option list strings gmap.
From S2P Require Import Prelude ItemSet Host Fixture Registry Bundles Dispatch.

(** ** Types of items *)

(** The item classes the fixture uses. *)
Inductive ItemType : Type :=
| TBool | TInt32 | TUInt32 | TUInt16 | TString | TFillStyle | TColor.

#[export] Instance ItemType_eq_dec : EqDecision ItemType.
Proof. solve_decision. Defined.

Definition type_of (v : ItemValue) : ItemType :=
  match v with
  | VBool _ => TBool
  | VInt32 _ => TInt32
  | VUInt32 _ => TUInt32
  | VUInt16 _ => TUInt16
  | VString _ => TString
  | VFillStyle _ => TFillStyle
  | VColor _ => TColor
  end.

(** The value fits the C++ type of its class. *)
Definition in_width (v : ItemValue) : bool :=
  match v with
  | VInt32 z => bool_decide (-2147483648 <= z < 2147483648)%Z
  | VUInt32 z => bool_decide (0 <= z < 4294967296)%Z
  | VUInt16 z => bool_decide (0 <= z < 65536)%Z
  | VColor c => bool_decide (c < 4294967296)%N
  | VBool _ | VString _ | VFillStyle _ => true
  end.

(** The class each which-id is declared with; the bounds of the ranges
    are not items. *)
Definition attr_type (a : AttrName) : option ItemType :=
  match a with
  | XATTR_FILLSTYLE => Some TFillStyle
  | ATTR_SNAPLINE_X | ATTR_SNAPLINE_Y | ATTR_PRESENT_DISPLAY => Some TInt32
  | ATTR_PRESENT_PAUSE_TIMEOUT => Some TUInt32
  | ATTR_ANIMATION_EFFECT | ATTR_ANIMATION_TEXTEFFECT | ATTR_ANIMATION_SPEED
  | ATTR_ACTION | ATTR_ACTION_EFFECT | ATTR_ACTION_EFFECTSPEED => Some TUInt16
  | ATTR_LAYER_NAME | ATTR_LAYER_TITLE | ATTR_LAYER_DESC | ATTR_PRESENT_DIANAME
  | ATTR_ANIMATION_SOUNDFILE | ATTR_ACTION_FILENAME => Some TString
  | ATTR_ANIMATION_COLOR => Some TColor
  | ATTR_LAYER_VISIBLE | ATTR_LAYER_PRINTABLE | ATTR_LAYER_LOCKED
  | ATTR_LAYER_THISPAGE
  | ATTR_PRESENT_ALL | ATTR_PRESENT_CUSTOMSHOW | ATTR_PRESENT_ENDLESS
  | ATTR_PRESENT_MANUEL | ATTR_PRESENT_MOUSE | ATTR_PRESENT_PEN
  | ATTR_PRESENT_ANIMATION_ALLOWED | ATTR_PRESENT_CHANGE_PAGE
  | ATTR_PRESENT_ALWAYS_ON_TOP | ATTR_PRESENT_FULLSCREEN
  | ATTR_PRESENT_SHOW_PAUSELOGO | ATTR_PRESENT_INTERACTIVE
  | ATTR_ANIMATION_ACTIVE | ATTR_ANIMATION_FADEOUT | ATTR_ANIMATION_INVISIBLE
  | ATTR_ANIMATION_SOUNDON | ATTR_ANIMATION_PLAYFULL
  | ATTR_ACTION_SOUNDON | ATTR_ACTION_PLAYFULL => Some TBool
  | _ => None
  end.

(** A slot under the which-id [a] is well typed: it is invalidated, or it
    holds a value of the class of [a] that fits its width. *)
Definition slot_typed (a : AttrName) (sl : ItemSlot) : bool :=
  match sl with
  | SlotInvalid => true
  | SlotSet v => bool_decide (attr_type a = Some (type_of v)) && in_width v
  end.

(** The attribute sets among the parameters of a factory call. *)
Definition call_sets (c : FactoryCall) : list SfxItemSet :=
  match c with
  | CreateCopyDlg _ s _ | CreateSdTabCharDialog _ s _
  | CreateSdTabPageDialog _ s _ _ _ | CreateSdModifyFieldDlg _ _ s
  | CreateSdSnapLineDlg _ s _ | CreateSdInsertLayerDlg _ s _ _
  | CreateSdOutlineBulletTabDlg _ s _ | CreateSdParagraphTabDlg _ s
  | CreateSdStartPresentationDlg _ s _ _ | CreateSdPresLayoutDlg _ _ s
  | CreatSdActionDialog _ s _ => [s]
  | _ => []
  end.

Section Typing.
Context `{IDS : SdAttrIds}.

(** A set is well typed: its slots lie inside its ranges, and the slot of
    every which-id the fixture names is well typed. *)
Definition well_typed (s : SfxItemSet) : Prop :=
  slots_in_ranges s /\
  forall a sl, is_item a = true -> GetItems s !! which a = Some sl -> slot_typed a sl = true.

(** The sets the fixture borrows from the document are well typed: the
    merged set of the first object of the first standard page. *)
Definition host_typed (d : SdXImpressDocument) : Prop :=
  forall doc pg o,
    GetDoc d = Some doc -> GetSdPage 0 PageKind_Standard doc = Some pg ->
    GetObj 0 pg = Some o -> well_typed (GetMergedItemSet o).

(** The three sets the fixture caches are well typed when they are there. *)
Definition typed_members (t : SdDialogsTest) : Prop :=
  forall s,
    mpSfxItemSetFromSdrObject t = Some s \/ mpEmptySfxItemSet t = Some s \/
    mpEmptyFillStyleSfxItemSet t = Some s ->
    well_typed s.

End Typing.

(** ** Operations keep sets well typed *)

Section TypingFacts.
Context `{IDS : SdAttrIds}.
Implicit Types (s : SfxItemSet) (a : AttrName) (sl : ItemSlot).

Lemma well_typed_empty s : slots_in_ranges s -> GetItems s = ∅ -> well_typed s.
Proof. intros H E. split; [done|]. intros a sl _. by rewrite E, lookup_empty. Qed.

Lemma set_slot_well_typed a sl s :
  is_item a = true -> slot_typed a sl = true ->
  well_typed s -> well_typed (set_slot (which a) sl s).
Proof.
  intros Ha Hsl [Hr Ht]. split; [by apply set_slot_in_ranges|].
  intros a' sl' Ha'. rewrite set_slot_lookup. case_decide as Hd; [|by apply Ht].
  destruct Hd as [Heq _]. intros [= <-]. by rewrite <- (which_inj a a' Ha Ha' Heq).
Qed.

(** [Put] of an item of the class of its which-id. *)
Lemma Put_well_typed a it s :
  Which it = which a -> is_item a = true -> slot_typed a (SlotSet (Value it)) = true ->
  well_typed s -> well_typed (Put it s).
Proof. unfold Put. intros ->. apply set_slot_well_typed. Qed.

Lemma InvalidateItem_well_typed a s :
  is_item a = true -> well_typed s -> well_typed (InvalidateItem (which a) s).
Proof. intros Ha. by apply set_slot_well_typed. Qed.

(** A chain of assignments of well-typed slots. *)
Definition slots_typed (l : list (AttrName * ItemSlot)) : Prop :=
  Forall (fun x => is_item x.1 = true /\ slot_typed x.1 x.2 = true) l.

Lemma set_slots_well_typed l s :
  slots_typed l -> well_typed s -> well_typed (set_slots (named_slots l) s).
Proof.
  intros Hl. revert s. induction Hl as [|[a sl] l [Ha Hsl] _ IH]; intros s Hs; [done|].
  simpl. apply IH. by apply set_slot_well_typed.
Qed.

Lemma of_group_well_typed p g : well_typed (SfxItemSet_of_group p g).
Proof. apply well_typed_empty; [apply of_range_in_ranges|done]. Qed.

Lemma of_pool_well_typed p : well_typed (SfxItemSet_of_pool p).
Proof. apply well_typed_empty; [apply of_pool_in_ranges|done]. Qed.

(** The conversions give values of their width. *)
Lemma in_width_to_uInt32 z : in_width (VUInt32 (to_uInt32 z)) = true.
Proof. apply bool_decide_eq_true, to_uInt32_range. Qed.

Lemma in_width_to_uInt16 z : in_width (VUInt16 (to_uInt16 z)) = true.
Proof. apply bool_decide_eq_true, to_uInt16_range. Qed.

End TypingFacts.

(** ** The sets of the fixture *)

(** Decide that the slots of a list are well typed. *)
Ltac slots_typed_tac :=
  unfold slots_typed;
  repeat first
    [ apply Forall_nil_2
    | apply Forall_cons; split;
        [split; [reflexivity|first [reflexivity|apply in_width_to_uInt32]]|] ].

Section FixtureSets.
Context `{IDS : SdAttrIds} `{HOST : HostEnv}.
Implicit Types (d : SdXImpressDocument) (doc : SdDrawDocument) (t : SdDialogsTest).

Lemma snapline_slots_typed : slots_typed snapline_slots.
Proof. slots_typed_tac. Qed.

Lemma layer_slots_typed : slots_typed layer_slots.
Proof. slots_typed_tac. Qed.

Lemma present_slots_typed ps : slots_typed (present_slots ps).
Proof. slots_typed_tac. Qed.

Lemma action_slots_typed : slots_typed action_slots.
Proof. slots_typed_tac. Qed.

Lemma snapline_attrs_well_typed doc : well_typed (snapline_attrs doc).
Proof.
  rewrite snapline_attrs_set_slots.
  apply set_slots_well_typed; [apply snapline_slots_typed|apply of_group_well_typed].
Qed.

Lemma layer_attrs_well_typed doc : well_typed (layer_attrs doc).
Proof.
  rewrite layer_attrs_set_slots.
  apply set_slots_well_typed; [apply layer_slots_typed|apply of_group_well_typed].
Qed.

Lemma present_attrs_well_typed doc : well_typed (present_attrs doc).
Proof.
  rewrite present_attrs_set_slots.
  apply set_slots_well_typed; [apply present_slots_typed|apply of_group_well_typed].
Qed.

Lemma action_attrs_well_typed doc : well_typed (action_attrs doc).
Proof.
  rewrite action_attrs_set_slots.
  apply set_slots_well_typed; [apply action_slots_typed|apply of_group_well_typed].
Qed.

(** The sets of the three getters. *)
Lemma spec_getEmptySfxItemSet_well_typed d s :
  spec_getEmptySfxItemSet d = Ok s -> well_typed s.
Proof.
  unfold spec_getEmptySfxItemSet. intros (doc & _ & [= <-])%outcome_bind_ok.
  apply of_pool_well_typed.
Qed.

Lemma spec_getEmptyFillStyleSfxItemSet_well_typed d s :
  spec_getEmptyFillStyleSfxItemSet d = Ok s -> well_typed s.
Proof.
  unfold spec_getEmptyFillStyleSfxItemSet. intros (doc & _ & [= <-])%outcome_bind_ok.
  by apply (Put_well_typed XATTR_FILLSTYLE), of_group_well_typed.
Qed.

Lemma spec_getSfxItemSetFromSdrObject_well_typed d s :
  host_typed d -> spec_getSfxItemSetFromSdrObject d = Ok s -> well_typed s.
Proof.
  unfold spec_getSfxItemSetFromSdrObject, spec_getDoc, expect. intros Hd.
  destruct (GetDoc d) as [doc|] eqn:E1; [|done]. simpl.
  destruct (GetSdPage 0 PageKind_Standard doc) as [pg|] eqn:E2; [|done]. simpl.
  destruct (GetObj 0 pg) as [o|] eqn:E3; [|done]. intros [= <-]. by eapply Hd.
Qed.

(** On a fixture that was set up, the cached sets are well typed. *)
Lemma coherent_typed_members d t : host_typed d -> coherent d t -> typed_members t.
Proof.
  intros Hd C s [H|[H|H]].
  - eapply spec_getSfxItemSetFromSdrObject_well_typed; [done|].
    by eapply cache_ok_hit, H; apply C.
  - eapply spec_getEmptySfxItemSet_well_typed. by eapply cache_ok_hit, H; apply C.
  - eapply spec_getEmptyFillStyleSfxItemSet_well_typed. by eapply cache_ok_hit, H; apply C.
Qed.

#[local] Hint Resolve snapline_attrs_well_typed layer_attrs_well_typed
  present_attrs_well_typed action_attrs_well_typed spec_getEmptySfxItemSet_well_typed
  spec_getEmptyFillStyleSfxItemSet_well_typed spec_getSfxItemSetFromSdrObject_well_typed
  : core.

(** The sets among the arguments of the call of every ID. *)
Lemma spec_call_well_typed nID d c :
  host_typed d -> spec_call nID d = Ok (Some c) -> Forall well_typed (call_sets c).
Proof.
  intros Hd. destruct (decide (nID < known_count)%N) as [H|H].
  - id_cases H; spec_cases; intros [= <-] || discriminate; simpl;
      first [apply Forall_nil_2 | apply Forall_singleton; eauto].
  - by rewrite spec_call_default by lia.
Qed.

End FixtureSets.

(** ** Theorems on typing *)

Section TypingTheorems.
Context `{IDS : SdAttrIds} `{HOST : HostEnv}.
Implicit Types (d : SdXImpressDocument) (t : SdDialogsTest) (f : SdAbstractDialogFactory).

(** C37: the attribute sets are well typed.  On a fixture that was set up
    on a document whose own sets are well typed, every attribute set among
    the arguments of the factory call of a dialog holds, under each
    which-id, a value of the class the which-id is declared with and
    inside the width of its C++ type (the pause timeout included, after
    its conversion to [sal_uInt32]), and nothing outside the ranges of the
    set; and the sets the fixture has cached after the call are well typed
    too. *)
Theorem createDialogByID_well_typed nID d f t :
  coherent d t -> mpFact t = Some f -> factory_total f -> host_typed d ->
  typed_members (snd (createDialogByID nID t)) /\
  forall dlg,
    fst (createDialogByID nID t) = Ok (Some dlg) ->
    Forall well_typed (call_sets (built_by dlg)).
Proof.
  intros C F Hf Hd. split.
  - eapply coherent_typed_members; [done|].
    eapply Filled_coherent; [done|]. by apply createDialogByID_Filled.
  - intros dlg. rewrite (createDialogByID_outcome nID d t C), F. simpl.
    destruct (spec_call nID d) as [[c|]|e] eqn:E; simpl; [|done..].
    rewrite Hf. intros [= <-]. by eapply spec_call_well_typed.
Qed.

End TypingTheorems.

(** ** Witness on the demonstration host *)

Lemma demo_host_typed : host_typed demo_impress.
Proof.
  intros doc pg o [= <-] [= <-] [= <-]. apply of_pool_well_typed.
Qed.

Lemma createDialogByID_well_typed_witness :
  coherent demo_impress demo_fixture /\
  typed_members (snd (createDialogByID 12 demo_fixture)) /\
  forall dlg,
    fst (createDialogByID 12 demo_fixture) = Ok (Some dlg) ->
    Forall well_typed (call_sets (built_by dlg)).
Proof.
  split; [exact demo_fixture_coherent|].
  exact (createDialogByID_well_typed 12 demo_impress demo_factory demo_fixture
           demo_fixture_coherent demo_fixture_fact demo_factory_total demo_host_typed).
Defined.
