(* ===== verification/Harness.v ===== *)
(** * The test body and the harness on this fixture

    [SdDialogsTest] as a fixture of the base class of [Screenshot]: its two
    overrides as the instance of the interface [KnownDialogs] (lines 68-74),
    the test body [SdDialogsTest::openAnyDialog] (lines 564-612), and what
    the member functions of the base class do on this fixture: the
    screenshots a batch file gives, as functions of the document and the
    factory.  The fixture meets the contract [Implemented] of the base
    class on a complete document and with a factory that builds every
    dialog. *)

From Stdlib Require Import ZArith Lia.
From stdpp Require Import base tactics option list strings gmap sorting.
From S2P Require Import Prelude ItemSet Host Fixture Registry Dispatch Screenshot.

(** ** The fixture as an implementation of the interface *)

(** The overrides of lines 70 and 74. *)
#[export] Instance SdDialogsTest_overrides `{IDS : SdAttrIds} `{HOST : HostEnv} :
  KnownDialogs SdDialogsTest :=
  {| virtual_registerKnownDialogsByID := registerKnownDialogsByID;
     virtual_createDialogByID := createDialogByID |}.

(** A new object of the class: the constructor of the base class around
    the members the constructor of lines 91-99 initialises. *)
Definition SdDialogsTest_new : ScreenshotTest SdDialogsTest :=
  ScreenshotTest_ctor SdDialogsTest_ctor.

(** The path of the batch file (line 570). *)
Definition batch_file : string := "sd/qa/unit/data/dialogs-test.txt".

Section TestBody.
(** The overrides the test body calls through the object: those of
    [SdDialogsTest_overrides], or the same functions as another compiler
    builds them. *)
Context {KD : KnownDialogs SdDialogsTest}.

(** The lines of a batch file, by its path. *)
Variable getLines : string -> list string.

#[local] Abbreviation Run := (Fx (ScreenshotTest SdDialogsTest)).

(** [openAnyDialog()]: four blocks, of which the first is switched on. *)
Definition openAnyDialog : Run unit :=
  (if true then processDialogBatchFile getLines batch_file else ret tt) ;;;
  (if false then processAllKnownDialogs else ret tt) ;;;
  (if false then
     pDlg <- lift (virtual_createDialogByID 5) ;;
     match pDlg with
     | Some dlg => dumpDialogToPath dlg
     | None => ret tt
     end
   else ret tt) ;;;
  (if false then dumpDialogToPath_fallback "modules/sdraw/ui/breakdialog.ui"
   else ret tt).

End TestBody.

(** The test body is the processing of the batch file: the other three
    blocks are switched off. *)
Lemma openAnyDialog_batch {KD : KnownDialogs SdDialogsTest}
    (getLines : string -> list string) s :
  openAnyDialog getLines s = process_lines (getLines batch_file) s.
Proof.
  unfold openAnyDialog, processDialogBatchFile, bind.
  by destruct (process_lines _ s) as [[[]|e] s'].
Qed.

(** ** What a batch is expected to write *)

Section Specification.
Context `{IDS : SdAttrIds} `{HOST : HostEnv}.
Implicit Types (d : SdXImpressDocument) (f : SdAbstractDialogFactory).
Implicit Types (s : ScreenshotTest SdDialogsTest).

(** An object whose fixture was set up on [d] with the factory [f], and
    whose known dialogs are registered. *)
Definition ready d f s : Prop :=
  coherent d (fixture s) /\ mpFact (fixture s) = Some f /\
  maKnownDialogs s = registerKnownDialogsByID ∅.

(** The screenshot a line of the batch file asks for, on a factory that
    builds every dialog. *)
Definition shot_of_line d (line : string) : list Screenshot :=
  if is_entry line then
    match registerKnownDialogsByID ∅ !! line with
    | Some nID =>
        match spec_call nID d with
        | Ok (Some c) => [DialogShot {| built_by := c |}]
        | _ => []
        end
    | None => [FallbackShot line]
    end
  else [].

Definition shots_of_lines d (lines : list string) : list Screenshot :=
  concat (shot_of_line d <$> lines).

(** What a line of the batch file does on any factory: the screenshots it
    writes, or the assertion that fails.  A known dialog the factory does
    not build is rendered from its UI description like an unknown one. *)
Definition line_result d f (line : string) : Outcome (list Screenshot) :=
  if is_entry line then
    match registerKnownDialogsByID ∅ !! line with
    | Some nID =>
        outcome_map
          (fun o => match o with
                    | Some dlg => [DialogShot dlg]
                    | None => [FallbackShot line]
                    end)
          (built f (spec_call nID d))
    | None => Ok [FallbackShot line]
    end
  else Ok [].

Definition written {A} (o : Outcome (list A)) : list A :=
  match o with Ok l => l | Failed _ => [] end.

(** What a batch does on any document and factory: the lines are taken in
    order, the first assertion that fails ends the batch, and the
    screenshots written before it stay. *)
Fixpoint batch_result d f (lines : list string) : Outcome unit * list Screenshot :=
  match lines with
  | [] => (Ok tt, [])
  | line :: lines =>
      match line_result d f line with
      | Ok l => let '(o, ls) := batch_result d f lines in (o, l ++ ls)
      | Failed e => (Failed e, [])
      end
  end.

(** The screenshot of a known dialog. *)
Definition shot_of_id d (nID : N) : list Screenshot :=
  match spec_call nID d with
  | Ok (Some c) => [DialogShot {| built_by := c |}]
  | _ => []
  end.

End Specification.

(** ** Facts on the harness *)

Section HarnessFacts.
Context `{IDS : SdAttrIds} `{HOST : HostEnv}.
Variable getLines : string -> list string.
Implicit Types (d : SdXImpressDocument) (f : SdAbstractDialogFactory).
Implicit Types (s : ScreenshotTest SdDialogsTest) (t : SdDialogsTest) (fs : list Failure).

(** A call through the interface is a call of the override. *)
Lemma override_createDialogByID nID :
  virtual_createDialogByID nID = createDialogByID nID.
Proof. reflexivity. Qed.

Lemma ready_add_shot d f s x : ready d f s -> ready d f (add_shot x s).
Proof. by intros (? & ? & ?). Qed.

Lemma lift_createDialogByID nID d f s :
  ready d f s ->
  exists t,
    lift (createDialogByID nID) s = (built f (spec_call nID d), set_fixture t s) /\
    ready d f (set_fixture t s).
Proof.
  intros (C & F & M).
  destruct (createDialogByID_run nID d f (fixture s) C F) as (t & Hrun & HF & _).
  exists t. split; [by apply lift_run|].
  split_and!; [by eapply Filled_coherent| |done].
  simpl. by rewrite (mpFact_Filled d _ _ HF).
Qed.

(** A line on a ready object: its outcome and screenshots are those of
    [line_result], and the object stays ready. *)
Lemma process_line_run line d f s :
  ready d f s ->
  exists s',
    process_line line s = (outcome_map (fun _ => tt) (line_result d f line), s') /\
    ready d f s' /\
    shots s' = shots s ++ written (line_result d f line).
Proof.
  intros R. unfold process_line, line_result. destruct (is_entry line).
  2:{ exists s. simpl. by rewrite app_nil_r. }
  unfold createDialogByName, bind at 1 2, gets. destruct R as (C & F & M). rewrite M.
  destruct (registerKnownDialogsByID ∅ !! line) as [nID|].
  - rewrite override_createDialogByID.
    destruct (lift_createDialogByID nID d f s) as (t & -> & R'); [done|].
    destruct (built f (spec_call nID d)) as [[dlg|]|e]; simpl.
    + eexists. split; [done|]. split; [by apply ready_add_shot|done].
    + eexists. split; [done|]. split; [by apply ready_add_shot|done].
    + eexists. split; [done|]. split; [done|]. simpl. by rewrite app_nil_r.
  - eexists. split; [done|]. split; [by apply ready_add_shot|done].
Qed.

Lemma line_result_fails_in d f line :
  exists ls, fails_in ls (line_result d f line).
Proof.
  unfold line_result. destruct (is_entry line); [|by exists []].
  destruct (_ !! line) as [nID|]; [|by exists []].
  exists (failure_lines nID). apply fails_in_map, fails_in_map, spec_call_fails_in.
Qed.

Lemma line_result_length d f line : length (written (line_result d f line)) <= 1.
Proof.
  unfold line_result. destruct (is_entry line); [|simpl; lia].
  destruct (_ !! line) as [nID|]; [|simpl; lia].
  destruct (built f (spec_call nID d)) as [[dlg|]|e]; simpl; lia.
Qed.

(** On a complete document and a factory that builds every dialog, a line
    gives the screenshot [shot_of_line] names. *)
Lemma line_result_complete d f line :
  Complete d -> factory_total f -> line_result d f line = Ok (shot_of_line d line).
Proof.
  intros Hd Hf. unfold line_result, shot_of_line. destruct (is_entry line); [|done].
  destruct (_ !! line) as [nID|] eqn:E; [|done].
  assert (nID < known_count)%N as H.
  { apply registry_lookup_empty in E. by eapply known_dialogs_id_lt. }
  pose proof (spec_call_complete nID d Hd H) as Hok.
  destruct (spec_call nID d) as [o|e] eqn:Ec; [|done].
  destruct (spec_call_Some nID d o H Ec) as [c ->]. by rewrite built_total.
Qed.

(** A dialog screenshot shows the dialog whose UI description is the line
    that asked for it. *)
Lemma shot_of_line_ui d line dlg :
  DialogShot dlg ∈ shot_of_line d line -> ui_of_call (built_by dlg) = line.
Proof.
  unfold shot_of_line. destruct (is_entry line); [|by intros []%elem_of_nil].
  destruct (_ !! line) as [nID|] eqn:E.
  - destruct (spec_call nID d) as [[c|]|e] eqn:Ec; 
      [|intros H; destruct (proj1 (elem_of_nil _) H)..].
    intros [= ->]%list_elem_of_singleton. simpl.
    apply registry_lookup_empty, path_of_id_spec in E.
    apply spec_call_ui in Ec. congruence.
  - by intros [=]%list_elem_of_singleton.
Qed.

Lemma process_lines_complete lines d f s :
  Complete d -> factory_total f -> ready d f s ->
  exists s',
    process_lines lines s = (Ok tt, s') /\ ready d f s' /\
    shots s' = shots s ++ shots_of_lines d lines.
Proof.
  intros Hd Hf. revert s. induction lines as [|line lines IH]; intros s R.
  - exists s. split; [done|]. split; [done|]. unfold shots_of_lines. simpl.
    by rewrite app_nil_r.
  - destruct (process_line_run line d f s R) as (s1 & H1 & R1 & E1).
    rewrite line_result_complete in H1, E1 by done.
    destruct (IH s1 R1) as (s2 & H2 & R2 & E2).
    exists s2. simpl. rewrite (bind_run _ _ _ _ _ H1). simpl.
    split; [done|]. split; [done|]. rewrite E2, E1. unfold shots_of_lines. simpl.
    by rewrite (assoc_L (++)).
Qed.

(** A batch on a ready object, on any document and factory. *)
Lemma process_lines_run lines d f s :
  ready d f s ->
  exists s',
    process_lines lines s = ((batch_result d f lines).1, s') /\ ready d f s' /\
    shots s' = shots s ++ (batch_result d f lines).2.
Proof.
  revert s. induction lines as [|line lines IH]; intros s R; simpl.
  - exists s. by rewrite app_nil_r.
  - destruct (process_line_run line d f s R) as (s1 & H1 & R1 & E1).
    rewrite (bind_run _ _ _ _ _ H1).
    destruct (line_result d f line) as [l|e]; simpl in *.
    + destruct (IH s1 R1) as (s2 & H2 & R2 & E2). exists s2.
      destruct (batch_result d f lines) as [o ls]. simpl in *.
      by rewrite H2, E2, E1, (assoc_L (++)).
    + exists s1. by rewrite E1.
Qed.

(** The batch up to the first line that fails. *)
Lemma batch_result_failed d f l1 line l2 e :
  Forall (fun l => is_ok (line_result d f l) = true) l1 ->
  line_result d f line = Failed e ->
  batch_result d f (l1 ++ line :: l2) =
    (Failed e, concat ((fun l => written (line_result d f l)) <$> l1)).
Proof.
  intros Hl He. induction Hl as [|l l1 Hok _ IH]; simpl; [by rewrite He|].
  rewrite IH. by destruct (line_result d f l).
Qed.

(** A failure of a line is a failed assertion. *)
Lemma process_line_failed line d f s e s' :
  ready d f s -> process_line line s = (Failed e, s') ->
  (exists l, e = AssertionFailed l) /\ coherent d (fixture s') /\
  length (shots s') <= length (shots s) + 1.
Proof.
  intros R H. destruct (process_line_run line d f s R) as (s1 & H1 & R1 & E1).
  rewrite H in H1. injection H1 as Ho <-.
  destruct (line_result_fails_in d f line) as [ls Hls].
  pose proof (line_result_length d f line) as Hlen.
  split; [|split; [apply R1|rewrite E1, length_app; lia]].
  destruct (line_result d f line) as [x|e'] eqn:E; [done|].
  injection Ho as ->. destruct (fails_in_Failed _ _ e' Hls eq_refl) as (l & -> & _).
  by exists l.
Qed.

Lemma process_line_returned line d f s s' :
  ready d f s -> process_line line s = (Ok tt, s') ->
  ready d f s' /\ length (shots s') <= length (shots s) + 1.
Proof.
  intros R H. destruct (process_line_run line d f s R) as (s1 & H1 & R1 & E1).
  rewrite H in H1. injection H1 as Ho <-.
  pose proof (line_result_length d f line) as Hlen.
  split; [done|]. rewrite E1, length_app. lia.
Qed.

(** On a complete document every entry of the batch gives one screenshot. *)
Lemma shot_of_line_length d line :
  Complete d ->
  length (shot_of_line d line) = if is_entry line then 1 else 0.
Proof.
  intros Hd. unfold shot_of_line. destruct (is_entry line); [|done].
  destruct (_ !! line) as [nID|] eqn:E; [|done].
  assert (nID < known_count)%N as H.
  { apply registry_lookup_empty in E. by eapply known_dialogs_id_lt. }
  pose proof (spec_call_complete nID d Hd H) as Hok.
  destruct (spec_call nID d) as [o|e] eqn:Ec; [|discriminate Hok].
  by destruct (spec_call_Some nID d o H Ec) as [c ->].
Qed.

Lemma shots_of_lines_length d lines :
  Complete d -> length (shots_of_lines d lines) = length (filter is_entry lines).
Proof.
  intros Hd. unfold shots_of_lines. induction lines as [|line lines IH]; [done|].
  rewrite fmap_cons, concat_cons, length_app, IH, shot_of_line_length, filter_cons by done.
  by destruct (is_entry line).
Qed.

Lemma process_known_complete nID d f s :
  Complete d -> factory_total f -> ready d f s -> (nID < known_count)%N ->
  exists s',
    process_known nID s = (Ok tt, s') /\ ready d f s' /\
    shots s' = shots s ++ shot_of_id d nID /\ length (shot_of_id d nID) = 1.
Proof.
  intros Hd Hf R H. unfold process_known, shot_of_id.
  destruct (lift_createDialogByID nID d f s R) as (t & Hrun & R').
  rewrite (bind_run _ _ _ _ _ Hrun).
  pose proof (spec_call_complete nID d Hd H) as Hok.
  destruct (spec_call nID d) as [o|e] eqn:Ec; [|discriminate Hok].
  destruct (spec_call_Some nID d o H Ec) as [c ->]. rewrite built_total by done.
  eexists. split; [done|]. split; [by apply ready_add_shot|done].
Qed.

Lemma process_all_complete ids d f s :
  Complete d -> factory_total f -> ready d f s ->
  Forall (fun nID => (nID < known_count)%N) ids ->
  exists s',
    process_all ids s = (Ok tt, s') /\ ready d f s' /\
    shots s' = shots s ++ concat (shot_of_id d <$> ids) /\
    length (concat (shot_of_id d <$> ids)) = length ids.
Proof.
  intros Hd Hf. revert s. induction ids as [|nID ids IH]; intros s R Hids.
  - exists s. simpl. by rewrite app_nil_r.
  - apply Forall_cons in Hids as [H Hids].
    destruct (process_known_complete nID d f s Hd Hf R H) as (s1 & H1 & R1 & E1 & L1).
    destruct (IH s1 R1 Hids) as (s2 & H2 & R2 & E2 & L2).
    exists s2. split; [simpl; by rewrite (bind_run _ _ _ _ _ H1)|]. split; [done|].
    rewrite fmap_cons, concat_cons, length_app, L1, L2, E2, E1.
    split; [by rewrite (assoc_L (++))|done].
Qed.

(** The fixture meets the contract of the base class on a complete document
    and with a factory that builds every dialog: [createDialogByID] is
    implemented for each registered known dialog. *)
Lemma SdDialogsTest_implemented d f :
  Complete d -> factory_total f ->
  Implemented (fun t => coherent d t /\ mpFact t = Some f).
Proof.
  intros Hd Hf. constructor. intros rName nID t L%registry_lookup_empty [C F].
  destruct (createDialogByID_run nID d f t C F) as (t' & Hrun & HF & _).
  pose proof (known_dialogs_id_lt _ _ L) as H.
  pose proof (spec_call_complete nID d Hd H) as Hok.
  destruct (spec_call nID d) as [o|e] eqn:Ec; [|discriminate Hok].
  destruct (spec_call_Some nID d o H Ec) as [c ->]. rewrite built_total in Hrun by done.
  exists {| built_by := c |}, t'. split; [done|].
  split; [split; [by eapply Filled_coherent|by rewrite (mpFact_Filled d _ _ HF)]|].
  apply path_of_id_spec in L. apply spec_call_ui in Ec. simpl. congruence.
Qed.

(** The known dialogs in the order of their paths. *)
Lemma ids_by_path_registry :
  ids_by_path (registerKnownDialogsByID ∅) =
    [0; 10; 1; 9; 6; 3; 4; 11; 14; 7; 8; 18; 2; 5; 21; 17; 20; 19; 12; 13; 15; 16]%N.
Proof. by vm_compute. Qed.

End HarnessFacts.

(** ** Theorems on the test body *)

Section HarnessTheorems.
Context `{IDS : SdAttrIds} `{HOST : HostEnv}.
Variable getLines : string -> list string.
Variables (d : SdXImpressDocument) (f : SdAbstractDialogFactory).
Implicit Types (s : ScreenshotTest SdDialogsTest).

(** C7: on a complete document and with a factory that builds every
    dialog, the test body returns and writes the screenshots the batch file
    asks for, in the order of its lines: one per line that is not empty and
    not a comment, and a dialog screenshot always shows the dialog whose UI
    description is the line that asked for it. *)
Theorem batch_complete s :
  Complete d -> factory_total f -> ready d f s ->
  exists s',
    openAnyDialog getLines s = (Ok tt, s') /\ ready d f s' /\
    shots s' = shots s ++ shots_of_lines d (getLines batch_file) /\
    length (shots_of_lines d (getLines batch_file)) =
      length (filter is_entry (getLines batch_file)) /\
    forall line dlg,
      DialogShot dlg ∈ shot_of_line d line -> ui_of_call (built_by dlg) = line.
Proof.
  intros Hd Hf R.
  destruct (process_lines_complete (getLines batch_file) d f s Hd Hf R)
    as (s' & Hrun & R' & E).
  exists s'. rewrite openAnyDialog_batch.
  split_and!; [done..|by apply shots_of_lines_length|apply shot_of_line_ui].
Qed.

(** C34: on any document and any factory, the test body on an object that
    was set up does what [batch_result] computes from the lines of the
    batch file: it returns, or fails with the first assertion that fails,
    and has written the screenshots of the lines before it; in particular
    a batch whose line [line] is the first to fail stops there with the
    screenshots of the lines [l1] before it.  The object stays set up. *)
Theorem openAnyDialog_refines s :
  ready d f s ->
  exists s',
    openAnyDialog getLines s = ((batch_result d f (getLines batch_file)).1, s') /\
    ready d f s' /\
    shots s' = shots s ++ (batch_result d f (getLines batch_file)).2 /\
    forall l1 line l2 e,
      getLines batch_file = l1 ++ line :: l2 ->
      Forall (fun l => is_ok (line_result d f l) = true) l1 ->
      line_result d f line = Failed e ->
      openAnyDialog getLines s = (Failed e, s') /\
      shots s' = shots s ++ concat ((fun l => written (line_result d f l)) <$> l1).
Proof.
  intros R. destruct (process_lines_run (getLines batch_file) d f s R) as (s' & H & R' & E).
  exists s'. rewrite openAnyDialog_batch. split_and!; [done..|].
  intros l1 line l2 e Hl Hok He. rewrite H, E, Hl.
  by rewrite (batch_result_failed d f l1 line l2 e Hok He).
Qed.

(** C30: on a complete document and with a factory that builds every
    dialog, the fixture meets the contract of the base class (lines 72-73):
    [createDialogByID] is implemented for each registered known dialog.  So
    [processAllKnownDialogs] returns and writes 22 dialog screenshots, one
    per registered ID, in the order of the paths, each of the dialog whose
    UI description is that path. *)
Theorem processAllKnownDialogs_complete s :
  Complete d -> factory_total f -> ready d f s ->
  Implemented (fun t => coherent d t /\ mpFact t = Some f) /\
  exists s',
    processAllKnownDialogs s = (Ok tt, s') /\ ready d f s' /\
    shots s' =
      shots s ++ concat (shot_of_id d <$> ids_by_path (registerKnownDialogsByID ∅)) /\
    length (shots s') = length (shots s) + 22 /\
    Forall2 shows_known (known_by_path (registerKnownDialogsByID ∅))
      (concat (shot_of_id d <$> ids_by_path (registerKnownDialogsByID ∅))).
Proof.
  intros Hd Hf R. pose proof (SdDialogsTest_implemented d f Hd Hf) as I.
  split; [done|]. unfold processAllKnownDialogs, bind at 1, gets.
  pose proof R as (C & F & M). rewrite M.
  destruct (process_all_complete (ids_by_path (registerKnownDialogsByID ∅)) d f s Hd Hf)
    as (s' & Hrun & R' & E & L); [done| |].
  { rewrite ids_by_path_registry. apply (bool_decide_unpack _). by vm_compute. }
  exists s'. split_and!; [done..|by rewrite E, length_app, L, ids_by_path_registry|].
  destruct (process_all_served _ (known_by_path (registerKnownDialogsByID ∅)) s)
    as (s2 & new & H2 & (_ & E2 & _) & F2).
  { exact (conj (conj C F) M). }
  { apply Forall_forall. intros kv Hkv. apply elem_of_known_by_path in Hkv. exact Hkv. }
  unfold ids_by_path in Hrun. rewrite Hrun in H2. injection H2 as <-.
  rewrite E in E2. apply app_inv_head in E2 as <-. exact F2.
Qed.

End HarnessTheorems.

(** ** Witnesses on the demonstration host *)

(** A batch file with a comment, an empty line, two known dialogs and an
    unknown one. *)
Definition demo_lines (rFile : string) : list string :=
  [ "# dialogs of sd"; ""; "modules/sdraw/ui/breakdialog.ui";
    "modules/sdraw/ui/unknown.ui"; "modules/simpress/ui/remotedialog.ui" ].

(** The object after [setUp]. *)
Definition demo_object : ScreenshotTest SdDialogsTest :=
  {| fixture := demo_fixture; maKnownDialogs := registerKnownDialogsByID ∅;
     shots := []; disposed := []; torn_down := false |}.

Lemma demo_ready : ready demo_impress demo_factory demo_object.
Proof. split; [exact demo_fixture_coherent|]. by split. Qed.

Lemma batch_complete_witness :
  ready demo_impress demo_factory demo_object /\
  exists s',
    openAnyDialog demo_lines demo_object = (Ok tt, s') /\
    ready demo_impress demo_factory s' /\
    shots s' = shots demo_object ++ shots_of_lines demo_impress (demo_lines batch_file) /\
    length (shots_of_lines demo_impress (demo_lines batch_file)) =
      length (filter is_entry (demo_lines batch_file)) /\
    forall line dlg,
      DialogShot dlg ∈ shot_of_line demo_impress line ->
      ui_of_call (built_by dlg) = line.
Proof.
  split; [exact demo_ready|].
  exact (batch_complete demo_lines demo_impress demo_factory demo_object demo_complete
           demo_factory_total demo_ready).
Defined.

Lemma openAnyDialog_refines_witness :
  ready demo_impress demo_factory demo_object /\
  exists s',
    openAnyDialog demo_lines demo_object =
      ((batch_result demo_impress demo_factory (demo_lines batch_file)).1, s') /\
    ready demo_impress demo_factory s' /\
    shots s' =
      shots demo_object ++ (batch_result demo_impress demo_factory (demo_lines batch_file)).2 /\
    forall l1 line l2 e,
      demo_lines batch_file = l1 ++ line :: l2 ->
      Forall (fun l => is_ok (line_result demo_impress demo_factory l) = true) l1 ->
      line_result demo_impress demo_factory line = Failed e ->
      openAnyDialog demo_lines demo_object = (Failed e, s') /\
      shots s' =
        shots demo_object ++
        concat ((fun l => written (line_result demo_impress demo_factory l)) <$> l1).
Proof.
  split; [exact demo_ready|].
  exact (openAnyDialog_refines demo_lines demo_impress demo_factory demo_object demo_ready).
Defined.

Lemma processAllKnownDialogs_complete_witness :
  ready demo_impress demo_factory demo_object /\
  exists s',
    processAllKnownDialogs demo_object = (Ok tt, s') /\
    ready demo_impress demo_factory s' /\
    shots s' =
      shots demo_object ++
      concat (shot_of_id demo_impress <$> ids_by_path (registerKnownDialogsByID ∅)) /\
    length (shots s') = length (shots demo_object) + 22 /\
    Forall2 shows_known (known_by_path (registerKnownDialogsByID ∅))
      (concat (shot_of_id demo_impress <$> ids_by_path (registerKnownDialogsByID ∅))).
Proof.
  split; [exact demo_ready|]. apply proj2 with
    (A := Implemented (fun t => coherent demo_impress t /\ mpFact t = Some demo_factory)).
  exact (processAllKnownDialogs_complete demo_impress demo_factory demo_object
           demo_complete demo_factory_total demo_ready).
Defined.
