(* ===== verification/Lifecycle.v ===== *)
(** * The test run

    [SdDialogsTest] as a fixture of CppUnit: [setUp] and [tearDown] on the
    whole object, with the calls of the base class and
    [mxComponent->dispose()] (line 117) recorded in the state of the run, as
    the instance of the interface [TestFixture] of [Protocol]; and the run
    of the test [openAnyDialog] by the protocol, one step for each line of
    the batch file. *)

From Stdlib Require Import ZArith Lia.
From stdpp Require Import base tactics option list strings gmap relations.
From S2P Require Import Prelude ItemSet Host Protocol Fixture Registry Dispatch.
From S2P Require Import Screenshot Harness.

Section Protocol.
Context `{IDS : SdAttrIds} `{HOST : HostEnv}.

(** The lines of a batch file, by its path. *)
Variable getLines : string -> list string.

#[local] Abbreviation Run := (Fx (ScreenshotTest SdDialogsTest)).

(** [setUp()] with the call of the base class (line 103) in its place. *)
Definition full_setUp : Run unit :=
  ScreenshotTest_setUp ;;;
  lift setUp.

(** [tearDown()] on the whole object.  [tearDown] of [Fixture] is what it
    does to the members, with the use of the reference [mxComponent] at
    line 117; when that returned, [dispose()] was called on the component
    the reference holds, and the call of the base class follows (line
    118).  With an empty reference [tearDown] has failed at line 117 and
    neither is reached. *)
Definition full_tearDown : Run unit :=
  lift tearDown ;;;
  c <- gets (fun s => mxComponent (fixture s)) ;;
  match c with
  | Some c => modify (dispose c)
  | None => ret tt
  end ;;;
  ScreenshotTest_tearDown.

End Protocol.

(** The overrides of lines 79 and 81. *)
#[export] Instance SdDialogsTest_fixture `{IDS : SdAttrIds} `{HOST : HostEnv} :
  TestFixture (ScreenshotTest SdDialogsTest) :=
  {| virtual_setUp := full_setUp; virtual_tearDown := full_tearDown |}.

(** A state of a run of the test: the items of work are the lines of the
    batch file. *)
#[global] Abbreviation RunConfig := (Config (ScreenshotTest SdDialogsTest) string).

Section Run.
Context `{IDS : SdAttrIds} `{HOST : HostEnv}.
Variable getLines : string -> list string.

(** One step of a run of the test: [setUp], a line of the batch file, or
    [tearDown]. *)
Definition test_step : relation RunConfig :=
  step process_line (getLines batch_file).

(** The run of the test [openAnyDialog] on the object [s]. *)
Definition runTest (s : ScreenshotTest SdDialogsTest) :
  list Failure * ScreenshotTest SdDialogsTest :=
  run_test (openAnyDialog getLines) s.

End Run.

(** ** The invariant of a run *)

Section Invariant.
Context `{IDS : SdAttrIds} `{HOST : HostEnv}.
Implicit Types (d : SdXImpressDocument) (f : SdAbstractDialogFactory).
Implicit Types (s : ScreenshotTest SdDialogsTest).

(** The invariant of a run on a host that loads the document [d] and has
    the factory [f]: what holds in each phase. *)
Definition run_inv d f (getLines : string -> list string) (c : RunConfig) : Prop :=
  Forall (fun e => exists line, e = AssertionFailed line) (failures c) /\
  length (failures c) <= 1 /\
  match phase c with
  | Constructed => object c = SdDialogsTest_new /\ failures c = []
  | Running pending =>
      ready d f (object c) /\ failures c = [] /\
      length (shots (object c)) + length pending <= length (getLines batch_file)
  | Stopped | TornDown =>
      coherent d (fixture (object c)) /\
      length (shots (object c)) <= length (getLines batch_file)
  end.

End Invariant.

(** ** Facts on the protocol *)

Section ProtocolFacts.
Context `{IDS : SdAttrIds} `{HOST : HostEnv}.
Variable getLines : string -> list string.
Implicit Types (d : SdXImpressDocument) (f : SdAbstractDialogFactory).
Implicit Types (s : ScreenshotTest SdDialogsTest) (t : SdDialogsTest) (fs : list Failure).

Lemma full_setUp_run d f :
  loaded_component = Some (ImpressDocument d) ->
  SdAbstractDialogFactory_Create = Some f ->
  exists s,
    full_setUp SdDialogsTest_new = (Ok tt, s) /\ ready d f s /\ shots s = [].
Proof.
  intros Hl Hf. unfold full_setUp, ScreenshotTest_setUp, bind, gets, modify, lift. simpl.
  rewrite setUp_run. unfold after_setUp. rewrite Hl. simpl.
  eexists. split; [done|]. split; [|done]. split; [|by rewrite Hf].
  by apply caches_empty_coherent.
Qed.

(** [tearDown] on the whole object, with and without a component. *)
Lemma full_tearDown_any s :
  full_tearDown s =
    match mxComponent (fixture s) with
    | Some c =>
        (Ok tt, set_torn_down (dispose c (set_fixture (after_tearDown (fixture s)) s)))
    | None => (Failed (NullDereference 117), set_fixture (after_tearDown (fixture s)) s)
    end.
Proof.
  unfold full_tearDown, ScreenshotTest_tearDown, bind, gets, modify, lift.
  rewrite tearDown_run. simpl. by destruct (mxComponent (fixture s)).
Qed.

Lemma full_tearDown_run d s :
  coherent d (fixture s) ->
  full_tearDown s =
    (Ok tt,
     set_torn_down
       (dispose (ImpressDocument d) (set_fixture (after_tearDown (fixture s)) s))).
Proof. intros C. by rewrite full_tearDown_any, (coh_component _ _ C). Qed.

(** On a host that loads the document [d] and has the factory [f], [setUp]
    and [tearDown] are what the protocol needs of a fixture of the base
    class. *)
Lemma SdDialogsTest_orderly d f :
  loaded_component = Some (ImpressDocument d) ->
  SdAbstractDialogFactory_Create = Some f ->
  Orderly (fun t => coherent d t /\ mpFact t = Some f) SdDialogsTest_ctor.
Proof.
  intros Hl Hf. split.
  - destruct (full_setUp_run d f Hl Hf) as (s & H & (C & F & M) & E).
    exists s. split; [exact H|]. split; [exact (conj (conj C F) M)|exact E].
  - intros s [[C F] M]. eexists. split; [exact (full_tearDown_run d s C)|done].
Qed.

(** The test body runs the lines of the batch file, one item each. *)
Lemma openAnyDialog_run_work s :
  openAnyDialog getLines s = run_work process_line (getLines batch_file) s.
Proof.
  rewrite openAnyDialog_batch. generalize (getLines batch_file). intros lines.
  revert s. induction lines as [|line lines IH]; intros s; [done|].
  simpl. unfold bind. destruct (process_line line s) as [[[]|e] s1]; [apply IH|done].
Qed.

(** [runTest] in terms of the overrides. *)
Lemma runTest_unfold s :
  runTest getLines s =
    let '(o1, s1) := full_setUp s in
    let '(o2, s2) :=
      match o1 with
      | Ok _ => openAnyDialog getLines s1
      | Failed _ => (Ok tt, s1)
      end in
    let '(o3, s3) := full_tearDown s2 in
    (failure_of o1 ++ failure_of o2 ++ failure_of o3, s3).
Proof. reflexivity. Qed.

(** The steps of [runTest]. *)
Lemma runTest_rtc s :
  rtc (test_step getLines)
    {| phase := Constructed; object := s; failures := [] |}
    {| phase := TornDown; object := snd (runTest getLines s);
       failures := fst (runTest getLines s) |}.
Proof. apply run_test_rtc, openAnyDialog_run_work. Qed.

End ProtocolFacts.

(** ** Theorems on the run *)

Section RunTheorems.
Context `{IDS : SdAttrIds} `{HOST : HostEnv}.
Variable getLines : string -> list string.
Variables (d : SdXImpressDocument) (f : SdAbstractDialogFactory).
Implicit Types (s : ScreenshotTest SdDialogsTest) (c : RunConfig).

(** The first state of a run. *)
Definition initial : RunConfig :=
  {| phase := Constructed; object := SdDialogsTest_new; failures := [] |}.

Section Loaded.
(** The host loads the Impress document [d] and has the factory [f]. *)
Hypothesis Hloaded : loaded_component = Some (ImpressDocument d).
Hypothesis Hfact : SdAbstractDialogFactory_Create = Some f.

Lemma step_run_inv c c' :
  run_inv d f getLines c -> test_step getLines c c' -> run_inv d f getLines c'.
Proof.
  unfold run_inv. intros (Hfs & Hlen & Hph) Hstep.
  destruct (full_setUp_run d f Hloaded Hfact) as (s0 & Hs0 & R0 & E0).
  destruct Hstep as [s s' fs H|s s' e fs H|line lines s s' fs H|line lines s s' e fs H
                    |s fs|s s' fs H|s s' e fs H]; simpl in *.
  - destruct Hph as [-> ->]. rewrite Hs0 in H. injection H as <-.
    split_and!; try done. rewrite E0. simpl. lia.
  - destruct Hph as [-> ->]. by rewrite Hs0 in H.
  - destruct Hph as (R & -> & Hb).
    destruct (process_line_returned line d f s s' R H) as [R' Hs'].
    split_and!; try done. lia.
  - destruct Hph as (R & -> & Hb).
    destruct (process_line_failed line d f s e s' R H) as ([l ->] & C' & Hs').
    split_and!; [by repeat constructor; eexists|simpl; lia|done|lia].
  - destruct Hph as (R & -> & Hb). split_and!; [done..|apply R|lia].
  - destruct Hph as [C Hb]. rewrite (full_tearDown_run d s C) in H. injection H as <-.
    split_and!; [done..|by apply after_tearDown_coherent|done].
  - destruct Hph as [C Hb]. by rewrite (full_tearDown_run d s C) in H.
Qed.

(** C6: on a host that loads an Impress document, every state a run
    reaches satisfies [run_inv]: while lines are processed the fixture is
    coherent with the document and the known dialogs are registered; at
    most one failure is ever reported and it is a failed assertion, never a
    null pointer; and there are never more screenshots than lines
    processed. *)
Theorem reachable_invariant c :
  rtc (test_step getLines) initial c -> run_inv d f getLines c.
Proof.
  revert c. apply (rtc_ind_r (R := test_step getLines) (run_inv d f getLines) initial).
  - unfold run_inv. simpl. split_and!; by try constructor.
  - intros c c' _ Hstep IH. by eapply step_run_inv.
Qed.

End Loaded.

(** C15: when no Impress document can be loaded the run reports the failed
    assertion of [setUp] (line 109), skips the test body, and still calls
    [tearDown]; if nothing at all was loaded, [tearDown] then uses the empty
    component reference at line 117.  No screenshot is written. *)
Theorem runTest_load_failed :
  dynamic_cast_SdXImpressDocument loaded_component = None ->
  fst (runTest getLines SdDialogsTest_new) =
    AssertionFailed 109 ::
      match loaded_component with
      | Some _ => []
      | None => [NullDereference 117]
      end /\
  shots (snd (runTest getLines SdDialogsTest_new)) = [].
Proof.
  intros H. rewrite runTest_unfold.
  unfold full_setUp, full_tearDown, ScreenshotTest_setUp, bind, gets, modify, lift. simpl.
  rewrite setUp_run, H. simpl. rewrite tearDown_run. unfold after_setUp. simpl.
  fold loaded_component. by destruct loaded_component.
Qed.

(** C31: the whole run on a host that loads a complete document and has a
    factory that builds every dialog: no failure is reported, the
    screenshots are those the batch file asks for, and [tearDown] leaves the
    three attribute sets released.  The fixture is then one that meets the
    contracts of the base class and of the protocol, so every entry of the
    batch file is answered by one screenshot, in the order of the lines, a
    registered path by its dialog and any other by the rendering of the
    line. *)
Theorem runTest_complete :
  loaded_component = Some (ImpressDocument d) ->
  SdAbstractDialogFactory_Create = Some f ->
  Complete d -> factory_total f ->
  exists s',
    runTest getLines SdDialogsTest_new = ([], s') /\
    shots s' = shots_of_lines d (getLines batch_file) /\
    mpSfxItemSetFromSdrObject (fixture s') = None /\
    mpEmptySfxItemSet (fixture s') = None /\
    mpEmptyFillStyleSfxItemSet (fixture s') = None /\
    Forall2 (shows (registerKnownDialogsByID ∅))
      (filter is_entry (getLines batch_file)) (shots s').
Proof.
  intros Hl Hc Hd Hf.
  pose proof (SdDialogsTest_implemented d f Hd Hf) as HI.
  pose proof (SdDialogsTest_orderly d f Hl Hc) as HO.
  destruct (run_test_served _ SdDialogsTest_ctor getLines batch_file) as (s2 & H2 & F2).
  rewrite (run_test_ext _ (openAnyDialog getLines)) in H2
    by (by intros; rewrite openAnyDialog_batch).
  fold SdDialogsTest_new in H2. fold (runTest getLines SdDialogsTest_new) in H2.
  exists s2. split; [exact H2|]. revert H2. rewrite runTest_unfold.
  destruct (full_setUp_run d f Hl Hc) as (s0 & -> & R0 & E0).
  rewrite openAnyDialog_batch.
  destruct (process_lines_complete (getLines batch_file) d f s0 Hd Hf R0)
    as (s1 & -> & R1 & E1).
  rewrite (full_tearDown_run d s1) by apply R1. intros [= <-].
  simpl. rewrite E1, E0. split_and!; [done..|]. revert F2. simpl. by rewrite E1, E0.
Qed.

End RunTheorems.

(** ** Witnesses on the demonstration host *)

Lemma demo_setUp_step :
  test_step demo_lines initial
    {| phase := Running (demo_lines batch_file); object := demo_object; failures := [] |}.
Proof. by apply step_setUp_ok. Qed.

Lemma reachable_invariant_witness :
  loaded_component = Some (ImpressDocument demo_impress) /\
  run_inv demo_impress demo_factory demo_lines
    {| phase := Running (demo_lines batch_file); object := demo_object; failures := [] |}.
Proof.
  split; [reflexivity|].
  exact (reachable_invariant demo_lines demo_impress demo_factory eq_refl eq_refl _
           (rtc_once _ _ demo_setUp_step)).
Defined.

Lemma runTest_load_failed_witness :
  fst (runTest (HOST := offline_host) demo_lines SdDialogsTest_new) =
    [AssertionFailed 109; NullDereference 117] /\
  shots (snd (runTest (HOST := offline_host) demo_lines SdDialogsTest_new)) = [].
Proof. exact (runTest_load_failed (HOST := offline_host) demo_lines eq_refl). Defined.

Lemma runTest_complete_witness :
  Complete demo_impress /\
  exists s',
    runTest demo_lines SdDialogsTest_new = ([], s') /\
    shots s' = shots_of_lines demo_impress (demo_lines batch_file) /\
    mpSfxItemSetFromSdrObject (fixture s') = None /\
    mpEmptySfxItemSet (fixture s') = None /\
    mpEmptyFillStyleSfxItemSet (fixture s') = None /\
    Forall2 (shows (registerKnownDialogsByID ∅))
      (filter is_entry (demo_lines batch_file)) (shots s').
Proof.
  split; [exact demo_complete|].
  exact (runTest_complete demo_lines demo_impress demo_factory eq_refl eq_refl
           demo_complete demo_factory_total).
Defined.

