(* ===== verification/Resources.v ===== *)
(** * Resources of a run

    What the fixture holds of the application and when it gives it back:
    the component [setUp] loads (line 106) and [tearDown] disposes (line
    117), and the three attribute sets the getters create (lines 175, 189
    and 201) and [tearDown] resets (lines 114-116).  The pointers to the
    document, its shell, the view shell and the draw view are borrowed from
    the component; [tearDown] leaves them as they are.

    The theorems are about the protocol of [Lifecycle]: on every host,
    nothing is disposed while [setUp] or the test body runs, the component
    that was loaded is disposed once, by [tearDown], and the attribute sets
    are released whatever failed before.  What [tearDown] leaves is an
    object whose pointers lead into the disposed component, and whose
    getters hand them out.  The base class is torn down after the
    component is disposed (line 118), so not at all when the reference at
    line 117 is empty. *)

From Stdlib Require Import ZArith Lia.
From stdpp Require Import base tactics option list strings gmap relations.
From S2P Require Import Prelude ItemSet Host Fixture Registry Dispatch.
From S2P Require Import Protocol Screenshot Harness Lifecycle.

Section Resources.
Context `{IDS : SdAttrIds} `{HOST : HostEnv}.
Variable getLines : string -> list string.
Implicit Types (d : SdXImpressDocument) (f : SdAbstractDialogFactory).
Implicit Types (s : ScreenshotTest SdDialogsTest) (t : SdDialogsTest) (c : RunConfig).

(** The fixture points into a disposed document. *)
Definition stale s : Prop :=
  exists d, mpImpressDocument (fixture s) = Some d /\ ImpressDocument d ∈ disposed s.

(** What holds of the resources in each phase of a run. *)
Definition resources_inv c : Prop :=
  match phase c with
  | Constructed => object c = SdDialogsTest_new
  | Running _ =>
      (exists d, coherent d (fixture (object c))) /\
      mxComponent (fixture (object c)) = loaded_component /\
      disposed (object c) = []
  | Stopped =>
      mxComponent (fixture (object c)) = loaded_component /\
      disposed (object c) = []
  | TornDown =>
      mxComponent (fixture (object c)) = loaded_component /\
      disposed (object c) = option_list loaded_component /\
      released (fixture (object c))
  end.

(** The base class and the failures of a run in each phase: the base class
    is torn down by [tearDown] only, and only when there was a component
    to dispose; otherwise the run has reported the use of the empty
    reference at line 117. *)
Definition base_inv c : Prop :=
  match phase c with
  | TornDown =>
      torn_down (object c) = bool_decide (is_Some loaded_component) /\
      (NullDereference 117 ∈ failures c <-> loaded_component = None)
  | _ => torn_down (object c) = false /\ NullDereference 117 ∉ failures c
  end.

(** ** The operations and the resources *)

(** A line of the batch disposes nothing and keeps the fixture set up, with
    or without a factory and whether or not an assertion fails. *)
Lemma process_line_resources line d s o s' :
  coherent d (fixture s) -> process_line line s = (o, s') ->
  coherent d (fixture s') /\ mxComponent (fixture s') = mxComponent (fixture s) /\
  disposed s' = disposed s.
Proof.
  intros C H.
  enough (coherent d (fixture s') /\ disposed s' = disposed s) as [C' Hd].
  { by rewrite (coh_component _ _ C'), (coh_component _ _ C). }
  revert H. unfold process_line. destruct (is_entry line); [|by intros [= <- <-]].
  unfold createDialogByName, bind, gets.
  destruct (maKnownDialogs s !! line) as [nID|]; [|by intros [= <- <-]].
  pose proof (createDialogByID_Filled nID d (fixture s) C) as HF.
  unfold lift. rewrite override_createDialogByID.
  destruct (createDialogByID nID (fixture s)) as [[[dlg|]|e] t'];
    intros [= <- <-]; simpl in *; eauto using Filled_coherent.
Qed.

(** [setUp] on a new object: the component is the one the host loads,
    nothing is disposed, and a return means that the fixture is set up on
    an Impress document. *)
Lemma full_setUp_resources o s :
  full_setUp SdDialogsTest_new = (o, s) ->
  mxComponent (fixture s) = loaded_component /\ disposed s = [] /\
  (is_ok o = true -> exists d, coherent d (fixture s)).
Proof.
  unfold full_setUp, ScreenshotTest_setUp, bind, gets, modify, lift. simpl.
  rewrite setUp_run. intros [= <- <-]. simpl. split_and!; [done..|].
  destruct loaded_component as [[d|svc]|] eqn:Hl; simpl; [|done..].
  intros _. exists d. apply caches_empty_coherent; [apply ctor_caches_empty|done|].
  simpl. by rewrite Hl.
Qed.

(** [tearDown] releases the attribute sets in every case, and disposes the
    component when there is one. *)
Lemma full_tearDown_resources s o s' :
  full_tearDown s = (o, s') ->
  mxComponent (fixture s') = mxComponent (fixture s) /\
  disposed s' = disposed s ++ option_list (mxComponent (fixture s)) /\
  released (fixture s').
Proof.
  rewrite full_tearDown_any.
  destruct (mxComponent (fixture s)) as [x|] eqn:E; intros [= <- <-]; simpl;
    by rewrite ?app_nil_r, E.
Qed.

Lemma step_resources_inv c c' :
  resources_inv c -> test_step getLines c c' -> resources_inv c'.
Proof.
  unfold resources_inv. intros Hinv Hstep.
  destruct Hstep as [s s' fs H|s s' e fs H|line lines s s' fs H|line lines s s' e fs H
                    |s fs|s s' fs H|s s' e fs H]; simpl in *.
  - subst s. destruct (full_setUp_resources _ _ H) as (Hc & Hd & Hok).
    split_and!; [by apply Hok|done..].
  - subst s. by destruct (full_setUp_resources _ _ H) as (Hc & Hd & _).
  - destruct Hinv as ([d C] & Hc & Hd).
    destruct (process_line_resources line d s _ s' C H) as (C' & -> & ->). eauto.
  - destruct Hinv as ([d C] & Hc & Hd).
    by destruct (process_line_resources line d s _ s' C H) as (C' & -> & ->).
  - by destruct Hinv as (_ & Hc & Hd).
  - destruct Hinv as [Hc Hd]. destruct (full_tearDown_resources _ _ _ H) as (-> & -> & Hr).
    by rewrite Hc, Hd.
  - destruct Hinv as [Hc Hd]. destruct (full_tearDown_resources _ _ _ H) as (-> & -> & Hr).
    by rewrite Hc, Hd.
Qed.

Lemma reachable_resources_inv c : rtc (test_step getLines) initial c -> resources_inv c.
Proof.
  revert c. apply (rtc_ind_r (R := test_step getLines) resources_inv initial); [done|].
  intros c c' _ Hstep IH. by eapply step_resources_inv.
Qed.

(** A line of the batch leaves the base class as it is, and fails by an
    assertion only. *)
Lemma process_line_base line d s o s' :
  coherent d (fixture s) -> process_line line s = (o, s') ->
  torn_down s' = torn_down s /\ forall l, o <> Failed (NullDereference l).
Proof.
  intros C. unfold process_line. destruct (is_entry line); [|by intros [= <- <-]].
  unfold createDialogByName, bind, gets.
  destruct (maKnownDialogs s !! line) as [nID|]; [|by intros [= <- <-]].
  pose proof (createDialogByID_outcome nID d (fixture s) C) as Ho.
  pose proof (spec_createDialogByID_fails_in nID d (mpFact (fixture s))) as Hf.
  unfold lift. rewrite override_createDialogByID.
  destruct (createDialogByID nID (fixture s)) as [[[dlg|]|e] t'];
    intros [= <- <-]; simpl in *; split; try done.
  intros l [= ->]. by rewrite <- Ho in Hf.
Qed.

Lemma full_setUp_base s o s' :
  full_setUp s = (o, s') ->
  torn_down s' = torn_down s /\ forall l, o <> Failed (NullDereference l).
Proof.
  unfold full_setUp, ScreenshotTest_setUp, bind, gets, modify, lift. simpl.
  rewrite setUp_run. intros [= <- <-]. split; [done|].
  by destruct (dynamic_cast_SdXImpressDocument loaded_component).
Qed.

(** A failure that is no null pointer adds none to the failures of a run. *)
Lemma not_null_snoc (fs : list Failure) e :
  NullDereference 117 ∉ fs -> (forall l, Failed e <> Failed (A := unit) (NullDereference l)) ->
  NullDereference 117 ∉ fs ++ [e].
Proof.
  intros Hfs He [?|E%list_elem_of_singleton]%elem_of_app; [done|].
  subst e. by eapply He.
Qed.

(** The invariant of the base class, step by step. *)
Lemma step_base_inv c c' :
  resources_inv c -> base_inv c -> test_step getLines c c' -> base_inv c'.
Proof.
  unfold resources_inv, base_inv. intros Hr Hb Hstep.
  destruct Hstep as [s s' fs H|s s' e fs H|line lines s s' fs H|line lines s s' e fs H
                    |s fs|s s' fs H|s s' e fs H]; simpl in *.
  - destruct (full_setUp_base _ _ _ H) as [-> _]. done.
  - destruct (full_setUp_base _ _ _ H) as [-> He]. split; [apply Hb|].
    apply not_null_snoc; [apply Hb|exact He].
  - destruct Hr as ([d C] & _). by destruct (process_line_base line d s _ s' C H) as [-> _].
  - destruct Hr as ([d C] & _). destruct (process_line_base line d s _ s' C H) as [-> He].
    split; [apply Hb|].
    apply not_null_snoc; [apply Hb|exact He].
  - done.
  - destruct Hr as [Hc _]. rewrite full_tearDown_any, Hc in H.
    destruct loaded_component as [x|]; [|done]. injection H as <-. simpl.
    split; [done|]. split; [by intros ?%(proj2 Hb)|done].
  - destruct Hr as [Hc _]. rewrite full_tearDown_any, Hc in H.
    destruct loaded_component as [x|]; [done|]. injection H as <- <-. simpl.
    split; [apply Hb|]. split; [done|]. intros _. apply elem_of_app. right.
    by apply list_elem_of_singleton.
Qed.

Lemma reachable_base_inv c : rtc (test_step getLines) initial c -> base_inv c.
Proof.
  revert c. apply (rtc_ind_r (R := test_step getLines) base_inv initial).
  - split; [done|]. by intros ?%elem_of_nil.
  - intros c c' Hc Hstep IH. eapply step_base_inv; [|done..].
    by apply reachable_resources_inv.
Qed.

(** A getter whose member is filled hands the member out and looks at
    nothing else. *)
Lemma getDocShell_hit t sh : mpDocShell t = Some sh -> getDocShell t = (Ok sh, t).
Proof. intros E. unfold getDocShell, bind, gets. by rewrite E. Qed.

Lemma getViewShell_hit t v : mpViewShell t = Some v -> getViewShell t = (Ok v, t).
Proof. intros E. unfold getViewShell, bind, gets. by rewrite E. Qed.

Lemma getDrawView_hit t dv : mpDrawView t = Some dv -> getDrawView t = (Ok dv, t).
Proof. intros E. unfold getDrawView, bind, gets. by rewrite E. Qed.

(** ** Theorems on the resources *)

(** C25: the resources of a run, on every host and whatever fails.  While
    [setUp] and the test body run nothing is disposed, so no getter and no
    dialog sees a disposed document.  When [tearDown] was called, the
    component the host loaded is disposed, once, and nothing else is; the
    three attribute sets are released.  From [setUp] on the fixture refers
    to the component that was loaded, also after it was disposed. *)
Theorem run_releases c :
  rtc (test_step getLines) initial c ->
  resources_inv c /\
  (phase c <> TornDown -> disposed (object c) = [] /\ ~ stale (object c)) /\
  (phase c = TornDown ->
   disposed (object c) = option_list loaded_component /\
   released (fixture (object c))) /\
  (phase c <> Constructed -> mxComponent (fixture (object c)) = loaded_component).
Proof.
  intros H%reachable_resources_inv. split; [done|]. unfold resources_inv in H.
  assert (disposed (object c) = [] -> ~ stale (object c)) as Hs.
  { intros E (d & _ & Hd). rewrite E in Hd. by apply elem_of_nil in Hd. }
  destruct (phase c); [rewrite H in *|..]; split_and!; intros Hp; try done;
    try (split; [|apply Hs]); first [done | apply H].
Qed.

(** C27: what [tearDown] leaves behind on a fixture that was set up.  The
    component is disposed, and the pointers to the document, its shell, the
    view shell and the draw view still lead into it.  The getters test
    their member against null only: a member that was filled is handed out
    after [tearDown] as before, and with the draw view and the shell filled
    the dialog of ID 0 is built from them without any assertion failing.
    Nothing but the protocol, which ends a run with [tearDown] and gives
    every test an object of its own, keeps a disposed document from being
    used. *)
Theorem tearDown_leaves_dangling d f s :
  ready d f s ->
  fst (full_tearDown s) = Ok tt /\
  stale (snd (full_tearDown s)) /\
  (forall sh, mpDocShell (fixture s) = Some sh ->
     getDocShell (fixture (snd (full_tearDown s))) =
       (Ok sh, fixture (snd (full_tearDown s)))) /\
  (forall v, mpViewShell (fixture s) = Some v ->
     getViewShell (fixture (snd (full_tearDown s))) =
       (Ok v, fixture (snd (full_tearDown s)))) /\
  (forall dv sh, mpDrawView (fixture s) = Some dv -> mpDocShell (fixture s) = Some sh ->
     createDialogByID 0 (fixture (snd (full_tearDown s))) =
       (Ok (create f (CreateBreakDlg GetDefDialogParent dv sh 0 0)),
        fixture (snd (full_tearDown s)))).
Proof.
  intros (C & F & _). rewrite (full_tearDown_run d s C). simpl.
  split_and!; [done|exists d; split; [apply C|set_solver]|..].
  - intros sh E. by apply getDocShell_hit.
  - intros v E. by apply getViewShell_hit.
  - intros dv sh Edv Esh.
    rewrite (createDialogByID_switch 0 f) by done.
    unfold switch_nID, case_0, factory_at, getSdAbstractDialogFactory, deref, bind, gets.
    simpl. by rewrite F, (getDrawView_hit _ dv), (getDocShell_hit _ sh).
Qed.

(** C38: the base class and a failed load, on every host.  [tearDown]
    calls [ScreenshotTest::tearDown()] (line 118) after the use of the
    component reference (line 117), so the base class is torn down exactly
    in the runs that loaded a component: in every state a run reaches, the
    base class is torn down if and only if [tearDown] was called and the
    host had loaded a component, and the use of the empty reference at
    line 117 is among the failures if and only if [tearDown] was called
    and nothing was loaded.  A run that could not load anything ends
    without the base class torn down. *)
Theorem base_tearDown_skipped c :
  rtc (test_step getLines) initial c ->
  base_inv c /\
  (torn_down (object c) = true <-> phase c = TornDown /\ is_Some loaded_component) /\
  (NullDereference 117 ∈ failures c <-> phase c = TornDown /\ loaded_component = None).
Proof.
  intros H%reachable_base_inv. split; [done|]. unfold base_inv in H.
  destruct (phase c); destruct H as [H1 H2]; rewrite H1;
    try (split; split; [done|by intros [[=] _]|done|by intros [[=] _]]).
  rewrite bool_decide_eq_true, H2. by split; split; [| intros [_ ?] | | intros [_ ?]].
Qed.

End Resources.

(** ** Witnesses on the demonstration host *)

Lemma run_releases_witness :
  rtc (test_step demo_lines) initial
    {| phase := Running (demo_lines batch_file); object := demo_object; failures := [] |} /\
  disposed demo_object = [] /\
  mxComponent (fixture demo_object) = Some (ImpressDocument demo_impress).
Proof.
  pose proof (rtc_once _ _ demo_setUp_step) as H.
  split; [exact H|].
  destruct (run_releases demo_lines _ H) as (_ & H1 & _ & H3).
  split; [by apply H1|by apply H3].
Defined.

(** The object after the dialog of ID 0 was built. *)
Definition used_object : ScreenshotTest SdDialogsTest := snd (lift (createDialogByID 0) demo_object).

Lemma used_object_ready : ready demo_impress demo_factory used_object.
Proof.
  destruct (lift_createDialogByID 0 demo_impress demo_factory demo_object demo_ready)
    as (t & H & R).
  unfold used_object. by rewrite H.
Qed.

Lemma tearDown_leaves_dangling_witness :
  ready demo_impress demo_factory used_object /\
  stale (snd (full_tearDown used_object)) /\
  fst (createDialogByID 0 (fixture (snd (full_tearDown used_object)))) =
    Ok (Some {| built_by :=
                  CreateBreakDlg GetDefDialogParent {| view_handle := 1 |}
                    demo_doc_shell 0 0 |}).
Proof.
  split; [exact used_object_ready|].
  destruct (tearDown_leaves_dangling demo_impress demo_factory used_object
              used_object_ready) as (_ & H2 & _ & _ & H6).
  split; [exact H2|].
  by rewrite (H6 {| view_handle := 1 |} demo_doc_shell eq_refl eq_refl).
Defined.

Lemma base_tearDown_skipped_witness :
  rtc (test_step (HOST := offline_host) demo_lines) initial
    {| phase := TornDown;
       object := snd (runTest (HOST := offline_host) demo_lines SdDialogsTest_new);
       failures := fst (runTest (HOST := offline_host) demo_lines SdDialogsTest_new) |} /\
  torn_down (snd (runTest (HOST := offline_host) demo_lines SdDialogsTest_new)) = false /\
  NullDereference 117 ∈ fst (runTest (HOST := offline_host) demo_lines SdDialogsTest_new).
Proof.
  pose proof (runTest_rtc (HOST := offline_host) demo_lines SdDialogsTest_new) as H.
  split; [exact H|].
  destruct (base_tearDown_skipped (HOST := offline_host) demo_lines _ H) as (_ & H1 & H2).
  split; [|by apply H2].
  apply not_true_is_false. intros [_ [x Hx]]%H1. discriminate Hx.
Defined.
