(* ===== verification/Order.v ===== *)
(** * Order of evaluation of the arguments

    The factory calls of [SdDialogsTest::createDialogByID] (lines 236-562)
    take calls of the getters as arguments, and the getters have effects:
    they fill members and their assertions throw.  C++ sequences the
    object expression [getSdAbstractDialogFactory()->] before the
    arguments and leaves the order of the arguments among themselves to
    the compiler.  [Dispatch] evaluates them from left to right.  This
    file has the same cases with the order of the arguments as a
    parameter ([case_k_in]), states what the getters promise as the
    interface [OnDemand], proves against it that the arguments of a call
    can be evaluated in any order, and compares [createDialogByID] with
    every choice a compiler can make ([createDialogByID_in]): the result
    for each order ([spec_createDialogByID_in]) and the failures a call
    can report over all orders ([reports]). *)

From Stdlib Require Import ZArith Lia.
From stdpp Require Import base tactics option list strings gmap.
From S2P Require Import Prelude ItemSet Host Fixture Registry Bundles Dispatch.

(** Two member functions agree on a state: both return or both fail, and
    when they return they return the same and leave the same state. *)
Definition agree {S A} (m1 m2 : Fx S A) (s : S) : Prop :=
  is_ok (fst (m1 s)) = is_ok (fst (m2 s)) /\
  (is_ok (fst (m1 s)) = true -> m1 s = m2 s).

(** ** The orders a compiler can choose *)

(** The orders of two and of three arguments: [O231] evaluates the second
    argument first, then the third, then the first. *)
Inductive Order2 : Type := O12 | O21.

Inductive Order3 : Type := O123 | O132 | O213 | O231 | O312 | O321.

#[export] Instance Order2_eq_dec : EqDecision Order2.
Proof. solve_decision. Defined.

#[export] Instance Order3_eq_dec : EqDecision Order3.
Proof. solve_decision. Defined.

Section Args.
Context {S A B C D : Type}.

(** [k(g1(), g2())] and [k(g1(), g2(), g3())] with the arguments evaluated
    in the order [o]; the call gets them by position. *)
Definition args2 (o : Order2) (g1 : Fx S A) (g2 : Fx S B)
    (k : A -> B -> Fx S D) : Fx S D :=
  match o with
  | O12 => a <- g1 ;; b <- g2 ;; k a b
  | O21 => b <- g2 ;; a <- g1 ;; k a b
  end.

Definition args3 (o : Order3) (g1 : Fx S A) (g2 : Fx S B) (g3 : Fx S C)
    (k : A -> B -> C -> Fx S D) : Fx S D :=
  match o with
  | O123 => a <- g1 ;; b <- g2 ;; c <- g3 ;; k a b c
  | O132 => a <- g1 ;; c <- g3 ;; b <- g2 ;; k a b c
  | O213 => b <- g2 ;; a <- g1 ;; c <- g3 ;; k a b c
  | O231 => b <- g2 ;; c <- g3 ;; a <- g1 ;; k a b c
  | O312 => c <- g3 ;; a <- g1 ;; b <- g2 ;; k a b c
  | O321 => c <- g3 ;; b <- g2 ;; a <- g1 ;; k a b c
  end.

End Args.

(** The arguments [l] of a call, listed by position, in the order in which
    [o] evaluates them. *)
Definition in_order2 {X} (o : Order2) (l : list X) : list X :=
  match o, l with
  | O21, [x1; x2] => [x2; x1]
  | _, _ => l
  end.

Definition in_order3 {X} (o : Order3) (l : list X) : list X :=
  match o, l with
  | O132, [x1; x2; x3] => [x1; x3; x2]
  | O213, [x1; x2; x3] => [x2; x1; x3]
  | O231, [x1; x2; x3] => [x2; x3; x1]
  | O312, [x1; x2; x3] => [x3; x1; x2]
  | O321, [x1; x2; x3] => [x3; x2; x1]
  | _, _ => l
  end.

(** The order chosen for the call of each case, by the ID of the case. *)
Record Sequencing : Type := {
  of_two : N -> Order2;
  of_three : N -> Order3
}.

Definition left_to_right : Sequencing :=
  {| of_two := fun _ => O12; of_three := fun _ => O123 |}.

Definition right_to_left : Sequencing :=
  {| of_two := fun _ => O21; of_three := fun _ => O321 |}.

(** One order for the calls of every case. *)
Definition uniform (o2 : Order2) (o3 : Order3) : Sequencing :=
  {| of_two := fun _ => o2; of_three := fun _ => o3 |}.

(** The arguments [l] of the call of the case [nID] in the order in which
    [c] evaluates them. *)
Definition evaluated {X} (c : Sequencing) (nID : N) (l : list X) : list X :=
  match l with
  | [_; _] => in_order2 (of_two c nID) l
  | [_; _; _] => in_order3 (of_three c nID) l
  | _ => l
  end.

(** ** The interface of a getter *)

Section Interface.
Context `{IDS : SdAttrIds} `{HOST : HostEnv}.

(** A getter that creates its member on first use: on a fixture that was
    set up on [d] it computes [spec d] and fills [member]. *)
Class OnDemand {A} (get : Fx SdDialogsTest A) : Type := {
  member : Member;
  spec : SdXImpressDocument -> Outcome A;
  on_demand d t : coherent d t -> get t = (spec d, fill member d t)
}.

#[export] Instance getDocShell_on_demand : OnDemand getDocShell :=
  {| member := MDocShell; spec := spec_getDocShell; on_demand := getDocShell_run |}.

#[export] Instance getViewShell_on_demand : OnDemand getViewShell :=
  {| member := MViewShell; spec := spec_getViewShell; on_demand := getViewShell_run |}.

#[export] Instance getDrawView_on_demand : OnDemand getDrawView :=
  {| member := MDrawView; spec := spec_getDrawView; on_demand := getDrawView_run |}.

#[export] Instance getSfxItemSetFromSdrObject_on_demand :
  OnDemand getSfxItemSetFromSdrObject :=
  {| member := MSfxItemSetFromSdrObject; spec := spec_getSfxItemSetFromSdrObject;
     on_demand := getSfxItemSetFromSdrObject_run |}.

#[export] Instance getEmptySfxItemSet_on_demand : OnDemand getEmptySfxItemSet :=
  {| member := MEmptySfxItemSet; spec := spec_getEmptySfxItemSet;
     on_demand := getEmptySfxItemSet_run |}.

#[export] Instance getEmptyFillStyleSfxItemSet_on_demand :
  OnDemand getEmptyFillStyleSfxItemSet :=
  {| member := MEmptyFillStyleSfxItemSet; spec := spec_getEmptyFillStyleSfxItemSet;
     on_demand := getEmptyFillStyleSfxItemSet_run |}.

End Interface.

(** ** [createDialogByID] with the arguments in a given order

    The cases whose factory call has more than one getter among its
    arguments, with the order of these getters as a parameter.  The
    statements before the call and the object expression stay where the
    source sequences them. *)

Section AnyOrder.
Context `{IDS : SdAttrIds} `{HOST : HostEnv}.

#[local] Abbreviation Test := (Fx SdDialogsTest).

Definition case_0_in (o : Order2) : Test (option VclAbstractDialog) :=
  f <- factory_at 251 ;;
  args2 o getDrawView getDocShell (fun dv sh =>
    ret (create f (CreateBreakDlg GetDefDialogParent dv sh 0 0))).

Definition case_1_in (o : Order3) : Test (option VclAbstractDialog) :=
  f <- factory_at 262 ;;
  args3 o getViewShell getSfxItemSetFromSdrObject getDrawView (fun v s dv =>
    ret (create f (CreateCopyDlg (GetFrameWeld v) s dv))).

Definition case_3_in (o : Order3) : Test (option VclAbstractDialog) :=
  f <- factory_at 283 ;;
  args3 o getViewShell getEmptySfxItemSet getDocShell (fun v s sh =>
    ret (create f (CreateSdTabCharDialog (GetFrameWeld v) s sh))).

Definition case_4_in (o : Order3) : Test (option VclAbstractDialog) :=
  f <- factory_at 294 ;;
  args3 o getViewShell getEmptyFillStyleSfxItemSet getDocShell (fun v s sh =>
    ret (create f (CreateSdTabPageDialog (GetFrameWeld v) s sh true false))).

Definition case_5_in (o : Order2) : Test (option VclAbstractDialog) :=
  f <- factory_at 304 ;;
  args2 o getViewShell getEmptySfxItemSet (fun v s =>
    ret (create f (CreateSdModifyFieldDlg (GetFrameWeld v) None s))).

Definition case_6_in (o : Order2) : Test (option VclAbstractDialog) :=
  pDrawDoc <- GetDoc_checked 313 ;;
  let aNewAttr := snapline_attrs pDrawDoc in
  f <- factory_at 318 ;;
  args2 o getViewShell getDrawView (fun v dv =>
    ret (create f (CreateSdSnapLineDlg (GetFrameWeld v) aNewAttr dv))).

Definition case_10_in (o : Order2) : Test (option VclAbstractDialog) :=
  f <- factory_at 376 ;;
  args2 o getEmptySfxItemSet getDrawView (fun s dv =>
    ret (create f (CreateSdOutlineBulletTabDlg GetDefDialogParent s dv))).

Definition case_11_in (o : Order2) : Test (option VclAbstractDialog) :=
  f <- factory_at 385 ;;
  args2 o getViewShell getEmptySfxItemSet (fun v s =>
    ret (create f (CreateSdParagraphTabDlg (GetFrameWeld v) s))).

Definition case_15_in (o : Order2) : Test (option VclAbstractDialog) :=
  f <- factory_at 449 ;;
  args2 o getDocShell getEmptySfxItemSet (fun sh s =>
    ret (create f (CreateSdPresLayoutDlg GetDefDialogParent sh s))).

Definition case_16_in (o : Order3) : Test (option VclAbstractDialog) :=
  sh <- getDocShell ;;
  pStyleSheetPool <- assert_ptr 461 (GetStyleSheetPool sh) ;;
  pStyleSheet <- assert_ptr 463 (First SfxStyleFamily_Pseudo pStyleSheetPool) ;;
  pDrawDoc <- GetDoc_checked 464 ;;
  f <- factory_at 466 ;;
  args3 o getViewShell getDocShell getDrawView (fun v sh dv =>
    ret (create f (CreateSdTabTemplateDlg (GetFrameWeld v) sh pStyleSheet pDrawDoc dv))).

Definition case_17_in (o : Order2) : Test (option VclAbstractDialog) :=
  pDrawDoc <- GetDoc_checked 477 ;;
  let aSet := action_attrs pDrawDoc in
  f <- factory_at 496 ;;
  args2 o getViewShell getDrawView (fun v dv =>
    ret (create f (CreatSdActionDialog (GetFrameWeld v) aSet dv))).

(** The [switch] with these cases; the other cases have at most one getter
    among their arguments. *)
Definition switch_nID_in (c : Sequencing) (nID : N) : Test (option VclAbstractDialog) :=
  match nID with
  | 0 => case_0_in (of_two c 0) | 1 => case_1_in (of_three c 1)
  | 3 => case_3_in (of_three c 3) | 4 => case_4_in (of_three c 4)
  | 5 => case_5_in (of_two c 5) | 6 => case_6_in (of_two c 6)
  | 10 => case_10_in (of_two c 10) | 11 => case_11_in (of_two c 11)
  | 15 => case_15_in (of_two c 15) | 16 => case_16_in (of_three c 16)
  | 17 => case_17_in (of_two c 17)
  | _ => switch_nID nID
  end%N.

Definition createDialogByID_in (c : Sequencing) (nID : N) :
    Test (option VclAbstractDialog) :=
  pFact <- getSdAbstractDialogFactory ;;
  match pFact with
  | None => ret None
  | Some _ => switch_nID_in c nID
  end.

End AnyOrder.

(** ** What a call reports in a given order

    Which assertion reports a failure, as a function of the document and of
    the order of the arguments, and the reports a failing call can give over
    all orders.  The statements of a case are sequenced; only the getters
    among the arguments of its factory call are not. *)

Section Reports.
Context `{IDS : SdAttrIds} `{HOST : HostEnv}.
Implicit Types d : SdXImpressDocument.
#[local] Open Scope N_scope.

(** The getters among the arguments of the factory call of each case, by
    position, for the calls that have more than one (lines 251, 262, 283,
    294, 304, 318, 376, 385, 449, 466 and 496). *)
Definition arguments (nID : N) : list Member :=
  match nID with
  | 0 => [MDrawView; MDocShell]
  | 1 => [MViewShell; MSfxItemSetFromSdrObject; MDrawView]
  | 3 => [MViewShell; MEmptySfxItemSet; MDocShell]
  | 4 => [MViewShell; MEmptyFillStyleSfxItemSet; MDocShell]
  | 5 | 11 => [MViewShell; MEmptySfxItemSet]
  | 6 | 17 => [MViewShell; MDrawView]
  | 10 => [MEmptySfxItemSet; MDrawView]
  | 15 => [MDocShell; MEmptySfxItemSet]
  | 16 => [MViewShell; MDocShell; MDrawView]
  | _ => []
  end.

(** The statements of these cases before the factory call: cases 6, 16 and
    17 assert on the draw document, case 16 on the shell and the style
    sheet before that. *)
Definition spec_before (nID : N) d : Outcome unit :=
  match nID with
  | 6 => let* _ := spec_getDoc 314 d in Ok tt
  | 16 =>
      let* sh := spec_getDocShell d in
      let* _ := spec_sheet 461 463 SfxStyleFamily_Pseudo sh in
      let* _ := spec_getDoc 465 d in
      Ok tt
  | 17 => let* _ := spec_getDoc 478 d in Ok tt
  | _ => Ok tt
  end.

(** What the getter of a member reports on [d] when it fails. *)
Definition member_report d (m : Member) : list Failure :=
  match m with
  | MDocShell => failure_of (spec_getDocShell d)
  | MViewShell => failure_of (spec_getViewShell d)
  | MDrawView => failure_of (spec_getDrawView d)
  | MSfxItemSetFromSdrObject => failure_of (spec_getSfxItemSetFromSdrObject d)
  | MEmptySfxItemSet => failure_of (spec_getEmptySfxItemSet d)
  | MEmptyFillStyleSfxItemSet => failure_of (spec_getEmptyFillStyleSfxItemSet d)
  end.

(** The failure a case reports before its call returns, for the order [c]:
    that of a statement before the call, or that of the first argument, in
    the order of evaluation, whose getter fails. *)
Definition first_report (c : Sequencing) (nID : N) d : option Failure :=
  match spec_before nID d with
  | Failed e => Some e
  | Ok _ => head (evaluated c nID (arguments nID) ≫= member_report d)
  end.

(** The result of [createDialogByID] built with the order [c], on a fixture
    whose factory pointer is [fact]. *)
Definition spec_createDialogByID_in (c : Sequencing) (nID : N) d
    (fact : option SdAbstractDialogFactory) : Outcome (option VclAbstractDialog) :=
  match fact, first_report c nID d with
  | Some _, Some e => Failed e
  | _, _ => spec_createDialogByID nID d fact
  end.

(** The failures a call of [createDialogByID] can report on [d], over all
    orders: that of a statement before the call, or that of any argument
    whose getter fails. *)
Definition reports (nID : N) d : list Failure :=
  match arguments nID with
  | [] => failure_of (spec_call nID d)
  | ms =>
      match spec_before nID d with
      | Failed e => [e]
      | Ok _ => ms ≫= member_report d
      end
  end.

End Reports.

(** ** Agreement *)

Section Agree.
Context {S A : Type}.
Implicit Types (m : Fx S A) (s : S).

Lemma agree_refl m s : agree m m s.
Proof. by split. Qed.

Lemma agree_sym m1 m2 s : agree m1 m2 s -> agree m2 m1 s.
Proof. intros [H1 H2]. split; [done|]. intros H. symmetry. apply H2. by rewrite H1. Qed.

Lemma agree_trans m1 m2 m3 s : agree m1 m2 s -> agree m2 m3 s -> agree m1 m3 s.
Proof.
  intros [H1 H2] [H3 H4]. split; [by rewrite H1|].
  intros H. rewrite (H2 H). apply H4. by rewrite <- H1.
Qed.

(** At each state, agreement is an equivalence of member functions. *)
#[export] Instance agree_equivalence s : Equivalence (fun m1 m2 => agree m1 m2 s).
Proof.
  split; [intros m; apply agree_refl|intros m1 m2; apply agree_sym|].
  intros m1 m2 m3. apply agree_trans.
Qed.

End Agree.

(** ** The arguments of a call in any order *)

(** The members three getters have filled, as the members of a list. *)
Ltac fill_order :=
  lazymatch goal with
  | |- _ (fill ?x ?d (fill ?y ?d (fill ?z ?d ?t))) = _ =>
      f_equal; apply (fill_all_Permutation [z; y; x]); solve_Permutation
  | |- _ (fill ?x ?d (fill ?y ?d ?t)) = _ =>
      f_equal; apply (fill_all_Permutation [y; x]); solve_Permutation
  end.

Section ArgsFacts.
Context `{IDS : SdAttrIds} `{HOST : HostEnv} {A B C D : Type}.
Context (g1 : Fx SdDialogsTest A) (g2 : Fx SdDialogsTest B) (g3 : Fx SdDialogsTest C).
Context `{!OnDemand g1} `{!OnDemand g2} `{!OnDemand g3}.
Implicit Types (d : SdXImpressDocument) (t : SdDialogsTest).

(** Running a getter of the interface in front of a continuation. *)
Lemma bind_on_demand {A' B'} (g : Fx SdDialogsTest A') `{!OnDemand g}
    (k : A' -> Fx SdDialogsTest B') d t :
  coherent d t ->
  bind g k t =
    match spec d with
    | Ok a => k a (fill member d t)
    | Failed e => (Failed e, fill member d t)
    end.
Proof. intros Ct. by apply bind_run, on_demand. Qed.

(** One getter of the three at the head of the goal. *)
Ltac on_demand_step d :=
  first [ rewrite (bind_on_demand g1 _ d) by eauto with fx
        | rewrite (bind_on_demand g2 _ d) by eauto with fx
        | rewrite (bind_on_demand g3 _ d) by eauto with fx ];
  repeat match goal with
         | H : spec d = _ |- _ => rewrite H
         end;
  cbv beta iota.

(** Two arguments in the order [o]: when both getters return, the call
    gets what they return and both members are filled; otherwise the call
    is not made. *)
Lemma args2_run o (k : A -> B -> Fx SdDialogsTest D) d t :
  coherent d t ->
  match spec (get := g1) d, spec (get := g2) d with
  | Ok a, Ok b =>
      args2 o g1 g2 k t = k a b (fill_all [member (get := g1); member (get := g2)] d t)
  | _, _ => is_ok (fst (args2 o g1 g2 k t)) = false
  end.
Proof.
  intros Ct.
  destruct (spec (get := g1) d) as [a|e1] eqn:E1, (spec (get := g2) d) as [b|e2] eqn:E2;
    destruct o; unfold args2; repeat on_demand_step d; try done; fill_order.
Qed.

Lemma args3_run o (k : A -> B -> C -> Fx SdDialogsTest D) d t :
  coherent d t ->
  match spec (get := g1) d, spec (get := g2) d, spec (get := g3) d with
  | Ok a, Ok b, Ok c =>
      args3 o g1 g2 g3 k t =
        k a b c
          (fill_all [member (get := g1); member (get := g2); member (get := g3)] d t)
  | _, _, _ => is_ok (fst (args3 o g1 g2 g3 k t)) = false
  end.
Proof.
  intros Ct.
  destruct (spec (get := g1) d) as [a|e1] eqn:E1, (spec (get := g2) d) as [b|e2] eqn:E2,
    (spec (get := g3) d) as [c|e3] eqn:E3;
    destruct o; unfold args3; repeat on_demand_step d; try done; fill_order.
Qed.

(** Any two orders agree. *)
Lemma args2_agree o o' (k : A -> B -> Fx SdDialogsTest D) d t :
  coherent d t -> agree (args2 o g1 g2 k) (args2 o' g1 g2 k) t.
Proof.
  intros Ct. pose proof (args2_run o k d t Ct) as H1.
  pose proof (args2_run o' k d t Ct) as H2. unfold agree.
  destruct (spec (get := g1) d), (spec (get := g2) d); by rewrite H1, H2.
Qed.

Lemma args3_agree o o' (k : A -> B -> C -> Fx SdDialogsTest D) d t :
  coherent d t -> agree (args3 o g1 g2 g3 k) (args3 o' g1 g2 g3 k) t.
Proof.
  intros Ct. pose proof (args3_run o k d t Ct) as H1.
  pose proof (args3_run o' k d t Ct) as H2. unfold agree.
  destruct (spec (get := g1) d), (spec (get := g2) d), (spec (get := g3) d);
    by rewrite H1, H2.
Qed.

End ArgsFacts.

(** ** The cases in any order *)

(** A case in a given order against the case of [Dispatch]: the statements
    before the call are run on both sides, and the arguments are compared
    through the interface. *)
Ltac order_run :=
  let d := fresh "d" in
  intros d ? ? ? ?; unfold agree; repeat case_step d; try done;
  first [ apply (args2_agree _ _ _ _ _ d) | apply (args3_agree _ _ _ _ _ _ d) ];
  eauto with fx.

Section OrderFacts.
Context `{IDS : SdAttrIds} `{HOST : HostEnv}.
Implicit Types (d : SdXImpressDocument) (t : SdDialogsTest) (f : SdAbstractDialogFactory).
Implicit Types (c : Sequencing).
#[local] Open Scope N_scope.

Definition case_agrees (m m' : Fx SdDialogsTest (option VclAbstractDialog)) : Prop :=
  forall d f t, coherent d t -> mpFact t = Some f -> agree m m' t.

(** The cases of [Dispatch] are the cases from left to right. *)
Lemma switch_nID_ltr nID : switch_nID_in left_to_right nID = switch_nID nID.
Proof.
  destruct (decide (nID < known_count)) as [H|H]; [by id_cases H|].
  unfold switch_nID_in. id_default nID.
Qed.

Lemma case_0_order o : case_agrees case_0 (case_0_in o).
Proof. change case_0 with (case_0_in O12). unfold case_0_in. order_run. Qed.

Lemma case_1_order o : case_agrees case_1 (case_1_in o).
Proof. change case_1 with (case_1_in O123). unfold case_1_in. order_run. Qed.

Lemma case_3_order o : case_agrees case_3 (case_3_in o).
Proof. change case_3 with (case_3_in O123). unfold case_3_in. order_run. Qed.

Lemma case_4_order o : case_agrees case_4 (case_4_in o).
Proof. change case_4 with (case_4_in O123). unfold case_4_in. order_run. Qed.

Lemma case_5_order o : case_agrees case_5 (case_5_in o).
Proof. change case_5 with (case_5_in O12). unfold case_5_in. order_run. Qed.

Lemma case_6_order o : case_agrees case_6 (case_6_in o).
Proof. change case_6 with (case_6_in O12). unfold case_6_in. order_run. Qed.

Lemma case_10_order o : case_agrees case_10 (case_10_in o).
Proof. change case_10 with (case_10_in O12). unfold case_10_in. order_run. Qed.

Lemma case_11_order o : case_agrees case_11 (case_11_in o).
Proof. change case_11 with (case_11_in O12). unfold case_11_in. order_run. Qed.

Lemma case_15_order o : case_agrees case_15 (case_15_in o).
Proof. change case_15 with (case_15_in O12). unfold case_15_in. order_run. Qed.

Lemma case_16_order o : case_agrees case_16 (case_16_in o).
Proof. change case_16 with (case_16_in O123). unfold case_16_in. order_run. Qed.

Lemma case_17_order o : case_agrees case_17 (case_17_in o).
Proof. change case_17 with (case_17_in O12). unfold case_17_in. order_run. Qed.

End OrderFacts.

(** ** The dispatcher in any order *)

Section DispatchOrder.
Context `{IDS : SdAttrIds} `{HOST : HostEnv}.
Implicit Types (d : SdXImpressDocument) (t : SdDialogsTest) (f : SdAbstractDialogFactory).
Implicit Types (c : Sequencing).
#[local] Open Scope N_scope.

Lemma switch_nID_in_default c nID :
  known_count <= nID -> switch_nID_in c nID = switch_nID nID.
Proof. intros H. id_default nID. Qed.

Lemma switch_nID_order c nID : case_agrees (switch_nID nID) (switch_nID_in c nID).
Proof.
  destruct (decide (nID < known_count)) as [H|H].
  - id_cases H;
      first [ apply case_0_order | apply case_1_order | apply case_3_order
            | apply case_4_order | apply case_5_order | apply case_6_order
            | apply case_10_order | apply case_11_order | apply case_15_order
            | apply case_16_order | apply case_17_order
            | intros ? ? ? ? ?; apply agree_refl ].
  - rewrite switch_nID_in_default by lia. intros ? ? ? ? ?. apply agree_refl.
Qed.

Lemma createDialogByID_in_switch c nID f t :
  mpFact t = Some f -> createDialogByID_in c nID t = switch_nID_in c nID t.
Proof.
  intros F. unfold createDialogByID_in, getSdAbstractDialogFactory, bind, gets.
  by rewrite F.
Qed.

Lemma createDialogByID_in_no_factory c nID t :
  mpFact t = None -> createDialogByID_in c nID t = (Ok None, t).
Proof.
  intros F. unfold createDialogByID_in, getSdAbstractDialogFactory, bind, gets.
  by rewrite F.
Qed.

Lemma createDialogByID_agree c nID d t :
  coherent d t -> agree (createDialogByID nID) (createDialogByID_in c nID) t.
Proof.
  intros C. unfold agree. destruct (mpFact t) as [f|] eqn:F.
  - rewrite (createDialogByID_switch nID f t F), (createDialogByID_in_switch c nID f t F).
    by apply (switch_nID_order c nID d f).
  - by rewrite createDialogByID_no_factory, createDialogByID_in_no_factory.
Qed.

(** From left to right the cases are those of [Dispatch]. *)
Lemma createDialogByID_ltr nID : createDialogByID_in left_to_right nID = createDialogByID nID.
Proof. unfold createDialogByID_in, createDialogByID. by rewrite switch_nID_ltr. Qed.

(** ID 10 on a document with neither a document shell nor a draw document:
    the first argument fails at line 187, the second at line 136. *)
Lemma case_10_first_failure d f t :
  coherent d t -> mpFact t = Some f -> GetDocShell d = None -> GetDoc d = None ->
  fst (case_10 t) = Failed (AssertionFailed 187) /\
  fst (case_10_in O21 t) = Failed (AssertionFailed 136).
Proof.
  intros C F H1 H2. unfold case_10, case_10_in, args2.
  erewrite !bind_factory_at by eassumption.
  rewrite (bind_getEmptySfxItemSet d), (bind_getDrawView d) by done.
  unfold spec_getEmptySfxItemSet, spec_getDrawView, spec_getViewShell, spec_getDocShell,
    spec_getDoc.
  by rewrite H1, H2.
Qed.

End DispatchOrder.

(** ** The cases against what they report *)

(** A case built with the order [c]: its outcome is the specification for
    that order, and the state it leaves is reached by getters. *)
Definition case_refines_in `{IDS : SdAttrIds} `{HOST : HostEnv} (c : Sequencing)
    (nID : N) (m : Fx SdDialogsTest (option VclAbstractDialog)) : Prop :=
  forall d f t,
    coherent d t -> mpFact t = Some f ->
    exists t', m t = (spec_createDialogByID_in c nID d (Some f), t') /\ Filled d t t'.

(** Run a case in each order it can be given. *)
Ltac report_cbn :=
  cbn [mbind list_bind app head member_report failure_of outcome_map].

Tactic Notation "order_case_run" reference(m) :=
  let d := fresh "d" in
  intros d ? ? ? ?;
  unfold spec_createDialogByID_in, first_report, spec_before, evaluated, arguments,
    spec_createDialogByID, built, spec_call, spec_sheet, spec_page0, outcome_bind;
  match goal with
  | |- context [of_two ?c ?n] => destruct (of_two c n)
  | |- context [of_three ?c ?n] => destruct (of_three c n)
  end;
  unfold m, args2, args3, in_order2, in_order3; report_cbn;
  repeat case_step d; report_cbn;
  eexists; (split; [reflexivity|]); eauto 10 with fx.

Section OrderLists.
Context {X : Type}.
Implicit Types (l : list X) (r : X -> list Failure).

Lemma in_order2_Permutation o l : in_order2 o l ≡ₚ l.
Proof. destruct o, l as [|x1 [|x2 [|x3 l]]]; simpl; try done. apply Permutation_swap. Qed.

Lemma in_order3_Permutation o l : in_order3 o l ≡ₚ l.
Proof.
  destruct o, l as [|x1 [|x2 [|x3 [|x4 l]]]]; simpl; try done; solve_Permutation.
Qed.

Lemma evaluated_Permutation c nID l : evaluated c nID l ≡ₚ l.
Proof.
  destruct l as [|x1 [|x2 [|x3 [|x4 l]]]]; try done;
    [apply in_order2_Permutation|apply in_order3_Permutation].
Qed.

(** Whichever argument fails can be the one evaluated first. *)
Lemma evaluated_first c nID l r e :
  head (evaluated c nID l ≫= r) = Some e -> e ∈ l ≫= r.
Proof. intros H%head_Some_elem_of. by rewrite evaluated_Permutation in H. Qed.

Lemma evaluated_any nID l r e :
  (forall x e', e' ∈ r x -> r x = [e']) -> 2 <= length l <= 3 ->
  e ∈ l ≫= r -> exists c, head (evaluated c nID l ≫= r) = Some e.
Proof.
  intros Hr Hl (x & He & Hx)%list_elem_of_bind. apply Hr in He.
  destruct l as [|x1 [|x2 [|x3 [|x4 l]]]]; simpl in Hl; try lia.
  - apply elem_of_cons in Hx as [->|Hx%list_elem_of_singleton].
    + exists (uniform O12 O123). simpl. by rewrite He.
    + subst x. exists (uniform O21 O123). simpl. by rewrite He.
  - apply elem_of_cons in Hx as [->|[->|Hx%list_elem_of_singleton]%elem_of_cons].
    + exists (uniform O12 O123). simpl. by rewrite He.
    + exists (uniform O12 O213). simpl. by rewrite He.
    + subst x. exists (uniform O12 O312). simpl. by rewrite He.
Qed.

End OrderLists.

Section ReportFacts.
Context `{IDS : SdAttrIds} `{HOST : HostEnv}.
Implicit Types (d : SdXImpressDocument) (t : SdDialogsTest) (f : SdAbstractDialogFactory).
Implicit Types (c : Sequencing).
#[local] Open Scope N_scope.

Lemma case_0_in_run c : case_refines_in c 0 (case_0_in (of_two c 0)).
Proof. order_case_run case_0_in. Qed.
Lemma case_1_in_run c : case_refines_in c 1 (case_1_in (of_three c 1)).
Proof. order_case_run case_1_in. Qed.
Lemma case_3_in_run c : case_refines_in c 3 (case_3_in (of_three c 3)).
Proof. order_case_run case_3_in. Qed.
Lemma case_4_in_run c : case_refines_in c 4 (case_4_in (of_three c 4)).
Proof. order_case_run case_4_in. Qed.
Lemma case_5_in_run c : case_refines_in c 5 (case_5_in (of_two c 5)).
Proof. order_case_run case_5_in. Qed.
Lemma case_6_in_run c : case_refines_in c 6 (case_6_in (of_two c 6)).
Proof. order_case_run case_6_in. Qed.
Lemma case_10_in_run c : case_refines_in c 10 (case_10_in (of_two c 10)).
Proof. order_case_run case_10_in. Qed.
Lemma case_11_in_run c : case_refines_in c 11 (case_11_in (of_two c 11)).
Proof. order_case_run case_11_in. Qed.
Lemma case_15_in_run c : case_refines_in c 15 (case_15_in (of_two c 15)).
Proof. order_case_run case_15_in. Qed.
Lemma case_16_in_run c : case_refines_in c 16 (case_16_in (of_three c 16)).
Proof. order_case_run case_16_in. Qed.
Lemma case_17_in_run c : case_refines_in c 17 (case_17_in (of_two c 17)).
Proof. order_case_run case_17_in. Qed.

(** The cases with at most one getter among the arguments of their call
    report what they report from left to right. *)
Lemma first_report_sequenced c nID d :
  arguments nID = [] -> first_report c nID d = None.
Proof.
  intros H. unfold first_report, evaluated. rewrite H.
  destruct (decide (nID < known_count)) as [Hn|Hn]; [by id_cases Hn|by id_default nID].
Qed.

Lemma switch_nID_in_run c nID : case_refines_in c nID (switch_nID_in c nID).
Proof.
  destruct (arguments nID) as [|m ms] eqn:E.
  - intros d f t C F. destruct (switch_nID_run nID d f t C F) as (t' & Ht & HF & _).
    exists t'. unfold spec_createDialogByID_in. rewrite first_report_sequenced by done.
    cbv beta iota. unfold spec_createDialogByID. split; [|done]. rewrite <- Ht.
    destruct (decide (nID < known_count)) as [Hn|Hn]; [by id_cases Hn|].
    by rewrite switch_nID_in_default by lia.
  - destruct (decide (nID < known_count)) as [Hn|Hn]; [|by id_default nID].
    id_cases Hn; try discriminate E;
      first [ apply case_0_in_run | apply case_1_in_run | apply case_3_in_run
            | apply case_4_in_run | apply case_5_in_run | apply case_6_in_run
            | apply case_10_in_run | apply case_11_in_run | apply case_15_in_run
            | apply case_16_in_run | apply case_17_in_run ].
Qed.

Lemma createDialogByID_in_run c nID d f t :
  coherent d t -> mpFact t = Some f ->
  exists t',
    createDialogByID_in c nID t = (spec_createDialogByID_in c nID d (Some f), t') /\
    Filled d t t'.
Proof.
  intros C F. rewrite (createDialogByID_in_switch c nID f t F). by apply switch_nID_in_run.
Qed.

(** The outcome and the state on every fixture that was set up. *)
Lemma createDialogByID_in_outcome c nID d t :
  coherent d t ->
  fst (createDialogByID_in c nID t) = spec_createDialogByID_in c nID d (mpFact t).
Proof.
  intros C. destruct (mpFact t) as [f|] eqn:F.
  - by destruct (createDialogByID_in_run c nID d f t C F) as (t' & -> & _).
  - by rewrite createDialogByID_in_no_factory.
Qed.

Lemma createDialogByID_in_Filled c nID d t :
  coherent d t -> Filled d t (snd (createDialogByID_in c nID t)).
Proof.
  intros C. destruct (mpFact t) as [f|] eqn:F.
  - by destruct (createDialogByID_in_run c nID d f t C F) as (t' & -> & ?).
  - rewrite createDialogByID_in_no_factory by done. constructor.
Qed.


(** A getter reports one failure at most. *)
Lemma member_report_singleton d m e : e ∈ member_report d m -> member_report d m = [e].
Proof. destruct m; simpl; by intros ->%failure_of_Failed. Qed.

(** A failure of the call from left to right is one of its reports. *)
Lemma spec_call_reports nID d e : spec_call nID d = Failed e -> e ∈ reports nID d.
Proof.
  unfold reports. destruct (arguments nID) as [|m ms] eqn:E.
  { by intros ?%failure_of_Failed. }
  destruct (decide (nID < known_count)) as [Hn|Hn]; [|by id_default nID].
  id_cases Hn; try discriminate E; injection E as <- <-;
    unfold spec_before, spec_sheet; report_cbn; spec_cases;
    intros [= <-] || discriminate; set_solver.
Qed.

(** What a fixture with a factory reports, over all orders. *)
Lemma spec_createDialogByID_in_reports nID d f e :
  (exists c, spec_createDialogByID_in c nID d (Some f) = Failed e) <-> e ∈ reports nID d.
Proof.
  unfold spec_createDialogByID_in, first_report, spec_createDialogByID. split.
  - intros [c H]. destruct (spec_before nID d) as [[]|e'] eqn:Eb.
    + destruct (head _) as [e'|] eqn:Eh.
      * injection H as ->. apply evaluated_first in Eh. unfold reports. rewrite Eb.
        destruct (arguments nID); [by apply elem_of_nil in Eh|done].
      * by apply spec_call_reports, (built_Failed f).
    + injection H as ->. unfold reports. rewrite Eb.
      destruct (arguments nID) eqn:E; [|by apply list_elem_of_singleton].
      pose proof (first_report_sequenced left_to_right nID d E) as Hn.
      unfold first_report in Hn. by rewrite Eb in Hn.
  - unfold reports. destruct (arguments nID) as [|m ms] eqn:E.
    + intros He. exists left_to_right.
      pose proof (first_report_sequenced left_to_right nID d E) as Hn.
      unfold first_report in Hn. rewrite E in *. rewrite Hn.
      by apply built_Failed, failure_of_Failed.
    + destruct (spec_before nID d) as [[]|e'].
      * intros He. destruct (evaluated_any nID (m :: ms) (member_report d) e) as [c Hc];
          [apply member_report_singleton| |done|].
        { destruct (decide (nID < known_count)) as [Hn|Hn]; [|by id_default nID].
          id_cases Hn; try discriminate E; injection E as <- <-; simpl; lia. }
        exists c. by rewrite Hc.
      * intros ->%list_elem_of_singleton. by exists left_to_right.
Qed.

End ReportFacts.

(** ** Theorems on the order of evaluation *)

Section OrderTheorems.
Context `{IDS : SdAttrIds} `{HOST : HostEnv}.
Implicit Types (d : SdXImpressDocument) (t : SdDialogsTest) (c : Sequencing).
#[local] Open Scope N_scope.

(** C35: the getters that are arguments of one call can be evaluated in
    any order.  On a fixture that was set up, two or three getters in any
    two orders both return or both fail, and when they return the call
    gets the same arguments and the fixture is left the same.  Proved for
    all getters of the interface [OnDemand], that is for all six of the
    fixture. *)
Theorem on_demand_any_order {A B C D} (g1 : Fx SdDialogsTest A) (g2 : Fx SdDialogsTest B)
    (g3 : Fx SdDialogsTest C) `{!OnDemand g1} `{!OnDemand g2} `{!OnDemand g3} d t :
  coherent d t ->
  (forall o o' (k : A -> B -> Fx SdDialogsTest D),
     agree (args2 o g1 g2 k) (args2 o' g1 g2 k) t) /\
  (forall o o' (k : A -> B -> C -> Fx SdDialogsTest D),
     agree (args3 o g1 g2 g3 k) (args3 o' g1 g2 g3 k) t).
Proof.
  intros Ct. split; intros o o' k.
  - by apply (args2_agree g1 g2 o o' k d).
  - by apply (args3_agree g1 g2 g3 o o' k d).
Qed.

(** C36: [createDialogByID] does not depend on the order in which the
    compiler evaluates the arguments of the factory calls, as long as it
    returns: whatever order is chosen for each call, it returns on the
    same fixtures, with the same dialog and the same members filled, and
    from left to right it is the function of [Dispatch].  Which assertion
    reports a failure does depend on the order: on a document with neither
    a document shell nor a draw document, ID 10 fails at line 187 from
    left to right and at line 136 from right to left. *)
Theorem createDialogByID_order c nID d t :
  coherent d t ->
  agree (createDialogByID nID) (createDialogByID_in c nID) t /\
  createDialogByID_in left_to_right nID = createDialogByID nID /\
  (is_Some (mpFact t) -> GetDocShell d = None -> GetDoc d = None ->
   fst (createDialogByID 10 t) = Failed (AssertionFailed 187) /\
   fst (createDialogByID_in right_to_left 10 t) = Failed (AssertionFailed 136)).
Proof.
  intros C. split_and!; [by apply (createDialogByID_agree c nID d)
                        |apply createDialogByID_ltr|].
  intros [f F] H1 H2.
  rewrite (createDialogByID_switch 10 f t F),
    (createDialogByID_in_switch right_to_left 10 f t F).
  by apply (case_10_first_failure d f).
Qed.

(** C12: what a failing call reports, whatever the compiler.  On a fixture
    that was set up, with a factory, a failure is reported by
    [createDialogByID] built with some order of the arguments exactly when
    it is one of [reports]: the failure of a statement before the factory
    call, or the failure of any getter among the arguments of the call, in
    no particular order.  The failure reported from left to right is one of
    them, and the call returns exactly when there is none. *)
Theorem createDialogByID_reports nID d t :
  coherent d t -> is_Some (mpFact t) ->
  (forall e,
     (exists c, fst (createDialogByID_in c nID t) = Failed e) <-> e ∈ reports nID d) /\
  (forall e, fst (createDialogByID nID t) = Failed e -> e ∈ reports nID d) /\
  (is_ok (fst (createDialogByID nID t)) = true <-> reports nID d = []).
Proof.
  intros C [f F].
  assert (forall e, (exists c, fst (createDialogByID_in c nID t) = Failed e) <->
                    e ∈ reports nID d) as H.
  { intros e. rewrite <- (spec_createDialogByID_in_reports nID d f e).
    by setoid_rewrite (createDialogByID_in_outcome _ nID d t C); rewrite F. }
  split; [exact H|]. split.
  - intros e He. apply H. exists left_to_right. by rewrite createDialogByID_ltr.
  - split.
    + intros Hok. apply elem_of_nil_inv. intros e [c He]%H.
      destruct (createDialogByID_agree c nID d t C) as [Ha _].
      by rewrite Ha, He in Hok.
    + intros Hr. destruct (fst (createDialogByID nID t)) as [o|e] eqn:E; [done|].
      assert (e ∈ reports nID d) as He by (apply H; exists left_to_right;
        by rewrite createDialogByID_ltr).
      rewrite Hr in He. by apply elem_of_nil in He.
Qed.

(** C14: [createDialogByID] as every compiler builds it.  On a fixture that
    was set up, whatever order [c] is chosen for the arguments of each
    factory call, the result is [spec_createDialogByID_in c], a function of
    the order, the document and the factory pointer alone: the failure of a
    statement before the call, or of the first getter in the order of
    evaluation that fails, or else the dialog.  The state left is reached
    by getters; when the call returns, the result and the members filled
    are those of [Dispatch], which is the build from left to right. *)
Theorem createDialogByID_in_refines c nID d t :
  coherent d t ->
  fst (createDialogByID_in c nID t) = spec_createDialogByID_in c nID d (mpFact t) /\
  Filled d t (snd (createDialogByID_in c nID t)) /\
  (is_ok (fst (createDialogByID_in c nID t)) = true ->
   fst (createDialogByID_in c nID t) = spec_createDialogByID nID d (mpFact t) /\
   snd (createDialogByID_in c nID t) = fill_all (spec_needs nID (mpFact t)) d t) /\
  spec_createDialogByID_in left_to_right nID d (mpFact t) =
    spec_createDialogByID nID d (mpFact t).
Proof.
  intros C. split_and!.
  - by apply createDialogByID_in_outcome.
  - by apply createDialogByID_in_Filled.
  - intros Hok. destruct (createDialogByID_agree c nID d t C) as [Ha He].
    rewrite <- Ha in Hok. rewrite <- (He Hok).
    split; [by apply createDialogByID_outcome|by apply createDialogByID_state].
  - rewrite <- (createDialogByID_in_outcome left_to_right nID d t C), createDialogByID_ltr.
    by apply createDialogByID_outcome.
Qed.

End OrderTheorems.

(** ** Witnesses *)

Lemma on_demand_any_order_witness :
  coherent demo_impress demo_fixture /\
  agree (args3 O123 getViewShell getDocShell getDrawView (fun v sh dv => ret (v, sh, dv)))
        (args3 O312 getViewShell getDocShell getDrawView (fun v sh dv => ret (v, sh, dv)))
        demo_fixture.
Proof.
  split; [exact demo_fixture_coherent|].
  exact (proj2 (on_demand_any_order getViewShell getDocShell getDrawView
                  demo_impress demo_fixture demo_fixture_coherent) O123 O312 _).
Defined.

Lemma createDialogByID_order_witness :
  coherent empty_impress empty_fixture /\
  agree (createDialogByID (HOST := empty_host) 10)
        (createDialogByID_in (HOST := empty_host) right_to_left 10) empty_fixture /\
  fst (createDialogByID (HOST := empty_host) 10 empty_fixture) =
    Failed (AssertionFailed 187) /\
  fst (createDialogByID_in (HOST := empty_host) right_to_left 10 empty_fixture) =
    Failed (AssertionFailed 136).
Proof.
  split; [exact empty_fixture_coherent|].
  destruct (createDialogByID_order (HOST := empty_host) right_to_left 10 empty_impress
              empty_fixture empty_fixture_coherent) as (H1 & _ & H3).
  split; [exact H1|]. apply H3; [by eexists|done..].
Defined.

Lemma createDialogByID_reports_witness :
  coherent empty_impress empty_fixture /\
  reports 10 empty_impress = [AssertionFailed 187; AssertionFailed 136] /\
  exists c,
    fst (createDialogByID_in (HOST := empty_host) c 10 empty_fixture) =
      Failed (AssertionFailed 136).
Proof.
  split; [exact empty_fixture_coherent|]. split; [reflexivity|].
  apply (proj1 (createDialogByID_reports (HOST := empty_host) 10 empty_impress
                  empty_fixture empty_fixture_coherent (ex_intro _ demo_factory eq_refl))).
  apply elem_of_cons. right. apply elem_of_cons. by left.
Defined.

Lemma createDialogByID_in_refines_witness :
  coherent empty_impress empty_fixture /\
  fst (createDialogByID_in (HOST := empty_host) right_to_left 10 empty_fixture) =
    Failed (AssertionFailed 136) /\
  fst (createDialogByID_in (HOST := empty_host) left_to_right 10 empty_fixture) =
    Failed (AssertionFailed 187).
Proof.
  split; [exact empty_fixture_coherent|].
  split.
  - exact (proj1 (createDialogByID_in_refines (HOST := empty_host) right_to_left 10
                    empty_impress empty_fixture empty_fixture_coherent)).
  - exact (proj1 (createDialogByID_in_refines (HOST := empty_host) left_to_right 10
                    empty_impress empty_fixture empty_fixture_coherent)).
Defined.
