(* ===== verification/Run.v ===== *)
(** * Whole runs of the test

    The registration of the test with CppUnit (lines 86-88, 614 and 616 of
    [dialogs-test.cxx]) and what a whole run does on any host: which
    failures it reports and which screenshots it writes, as a function of
    what the host loads, and why it fails when it fails; and the same run
    of the class as any compiler builds it ([runTest_in]), with the order
    of evaluation of [Order].

    CppUnit is outside [src/]; the macros are read as the specification
    describes the harness: a suite is the list of the tests of the class,
    the registration adds the suite to the registry the runner walks, and
    the runner gives every test an object of its own. *)

From Stdlib Require Import ZArith Lia.
From stdpp Require Import base tactics option list strings gmap relations.
From S2P Require Import Prelude ItemSet Host Fixture Registry Dispatch Causes Order.
From S2P Require Import Protocol Screenshot Harness Lifecycle Resources.

(** ** The suite and its registration *)

Section Suite.
Context `{IDS : SdAttrIds} `{HOST : HostEnv}.
Variable getLines : string -> list string.

#[local] Abbreviation Run := (Fx (ScreenshotTest SdDialogsTest)).

(** A test: its name and its body. *)
Definition Test : Type := string * Run unit.

(** [CPPUNIT_TEST_SUITE(SdDialogsTest); CPPUNIT_TEST(openAnyDialog);
    CPPUNIT_TEST_SUITE_END();] *)
Definition SdDialogsTest_suite : string * list Test :=
  ("SdDialogsTest", [("openAnyDialog", openAnyDialog getLines)]).

(** [CPPUNIT_TEST_SUITE_REGISTRATION(SdDialogsTest);]: the suites the
    runner finds in the registry. *)
Definition registered_suites : list (string * list Test) :=
  [SdDialogsTest_suite].

(** The tests of a suite, each run by the protocol on an object of its
    own. *)
Definition run_suite (suite : string * list Test) : string * list (string * list Failure) :=
  (suite.1, (fun t : Test => (t.1, fst (run_test t.2 SdDialogsTest_new))) <$> suite.2).

(** [CPPUNIT_PLUGIN_IMPLEMENT();]: the entry point through which the
    runner runs every registered suite; the result is the list of
    failures of each test, by suite and by name. *)
Definition run_registered : list (string * list (string * list Failure)) :=
  run_suite <$> registered_suites.

(** What a whole run reports and writes, from what the host gives:
    nothing loaded, a component that is no Impress document, an Impress
    document without a factory, or an Impress document and a factory. *)
Definition run_spec : list Failure * list Screenshot :=
  match loaded_component with
  | None => ([AssertionFailed 109; NullDereference 117], [])
  | Some (OtherComponent _) => ([AssertionFailed 109], [])
  | Some (ImpressDocument d) =>
      match SdAbstractDialogFactory_Create with
      | Some f =>
          let r := batch_result d f (getLines batch_file) in (failure_of r.1, r.2)
      | None => ([], FallbackShot <$> filter is_entry (getLines batch_file))
      end
  end.

End Suite.

(** ** What a batch asks of the document *)

(** The dialog a line of the batch file asks for, when it is a registered
    one. *)
Definition asked (line : string) : option N :=
  if is_entry line then registerKnownDialogsByID ∅ !! line else None.

(** The document has every object the dialog of the line requires. *)
Definition line_meets (d : SdXImpressDocument) (line : string) : bool :=
  match asked line with
  | Some nID => meets d nID
  | None => true
  end.

(** The failure [e] is the assertion on an object that the dialog of
    [line] requires and the document lacks. *)
Definition cause (d : SdXImpressDocument) (line : string) (e : Failure) : Prop :=
  exists nID l r,
    asked line = Some nID /\ e = AssertionFailed l /\ guarded l = Some r /\
    r ∈ requires nID /\ holds d r = false.

(** ** Facts on whole runs *)

Section RunFacts.
Context `{IDS : SdAttrIds} `{HOST : HostEnv}.
Variable getLines : string -> list string.
Implicit Types (d : SdXImpressDocument) (f : SdAbstractDialogFactory).
Implicit Types (s : ScreenshotTest SdDialogsTest) (c : RunConfig).

(** Without a factory every entry is rendered from its UI description. *)
Lemma process_line_no_factory line s :
  mpFact (fixture s) = None ->
  process_line line s =
    (Ok tt, if is_entry line then add_shot (FallbackShot line) s else s).
Proof.
  intros F. unfold process_line. destruct (is_entry line); [|done].
  unfold createDialogByName, bind at 1 2, gets.
  destruct (maKnownDialogs s !! line) as [nID|]; [|done].
  unfold lift. by rewrite override_createDialogByID, createDialogByID_no_factory, set_fixture_same.
Qed.

Lemma process_lines_no_factory lines s :
  mpFact (fixture s) = None ->
  exists s',
    process_lines lines s = (Ok tt, s') /\ fixture s' = fixture s /\
    shots s' = shots s ++ (FallbackShot <$> filter is_entry lines).
Proof.
  revert s. induction lines as [|line lines IH]; intros s F; simpl.
  - exists s. by rewrite app_nil_r.
  - rewrite (bind_run _ _ _ _ _ (process_line_no_factory line s F)).
    rewrite filter_cons. destruct (is_entry line).
    + destruct (IH (add_shot (FallbackShot line) s) F) as (s' & -> & E1 & E2).
      exists s'. split_and!; [done..|]. rewrite E2. simpl. by rewrite <- (assoc_L (++)).
    + by apply IH.
Qed.

(** [setUp] on a new object when an Impress document is loaded. *)
Lemma full_setUp_loaded d :
  loaded_component = Some (ImpressDocument d) ->
  exists s,
    full_setUp SdDialogsTest_new = (Ok tt, s) /\ coherent d (fixture s) /\
    mpFact (fixture s) = SdAbstractDialogFactory_Create /\
    maKnownDialogs s = registerKnownDialogsByID ∅ /\ shots s = [].
Proof.
  intros Hl. unfold full_setUp, ScreenshotTest_setUp, bind, gets, modify, lift. simpl.
  rewrite setUp_run. unfold after_setUp. rewrite Hl. simpl.
  eexists. split_and!; [done| |done..]. by apply caches_empty_coherent.
Qed.

(** A batch never uses a null pointer. *)
Lemma batch_result_no_null d f lines e :
  (batch_result d f lines).1 = Failed e -> exists line, e = AssertionFailed line.
Proof.
  induction lines as [|line lines IH]; simpl; [done|].
  destruct (line_result_fails_in d f line) as [ls Hls].
  destruct (line_result d f line) as [l|e'] eqn:E.
  - destruct (batch_result d f lines) as [o sh]. apply IH.
  - simpl. intros [= <-]. destruct (fails_in_Failed _ _ e' Hls eq_refl) as (l & -> & _).
    by exists l.
Qed.


(** The run on a new object against [run_spec]. *)
Lemma runTest_run_spec :
  (fst (runTest getLines SdDialogsTest_new),
   shots (snd (runTest getLines SdDialogsTest_new))) = run_spec getLines.
Proof.
  unfold run_spec. destruct loaded_component as [[d|svc]|] eqn:Hl.
  - destruct (full_setUp_loaded d Hl) as (s0 & H0 & C0 & F0 & M0 & E0).
    rewrite runTest_unfold, H0, openAnyDialog_batch.
    destruct SdAbstractDialogFactory_Create as [f|] eqn:Hf.
    + destruct (process_lines_run (getLines batch_file) d f s0) as (s1 & -> & R1 & E1);
        [done|].
      rewrite (full_tearDown_run d s1) by apply R1. simpl.
      by rewrite app_nil_r, E1, E0.
    + destruct (process_lines_no_factory (getLines batch_file) s0 F0)
        as (s1 & -> & F1 & E1).
      rewrite (full_tearDown_run d s1) by (by rewrite F1). simpl. by rewrite E1, E0.
  - rewrite !runTest_unfold.
    unfold full_setUp, full_tearDown, ScreenshotTest_setUp, bind, gets, modify, lift. simpl.
    rewrite setUp_run, Hl. simpl. rewrite tearDown_run. unfold after_setUp. simpl.
    by rewrite Hl.
  - rewrite !runTest_unfold.
    unfold full_setUp, full_tearDown, ScreenshotTest_setUp, bind, gets, modify, lift. simpl.
    rewrite setUp_run, Hl. simpl. rewrite tearDown_run. unfold after_setUp. simpl.
    by rewrite Hl.
Qed.

(** The only null pointer a run can use is the component in [tearDown],
    and it does when nothing was loaded. *)
Lemma run_spec_null l :
  NullDereference l ∈ (run_spec getLines).1 <-> l = 117%N /\ loaded_component = None.
Proof.
  unfold run_spec. destruct loaded_component as [[d|svc]|]; simpl.
  - destruct SdAbstractDialogFactory_Create as [f|]; simpl.
    + destruct (batch_result d f (getLines batch_file)).1 as [[]|e] eqn:E; simpl.
      * split; [by intros ?%elem_of_nil|by intros [_ [=]]].
      * destruct (batch_result_no_null d f _ e E) as [line ->].
        split; [by intros [=]%list_elem_of_singleton|by intros [_ [=]]].
    + split; [by intros ?%elem_of_nil|by intros [_ [=]]].
  - split; [by intros [=]%list_elem_of_singleton|by intros [_ [=]]].
  - split.
    + intros [[=]|[= ->]%list_elem_of_singleton]%elem_of_cons. done.
    + intros [-> _]. apply elem_of_cons. right. by apply list_elem_of_singleton.
Qed.

(** A line returns exactly when the document has what its dialog
    requires, and a failure has its cause in the document. *)
Lemma line_result_cause d f line :
  is_ok (line_result d f line) = line_meets d line /\
  forall e, line_result d f line = Failed e -> cause d line e.
Proof.
  unfold line_result, line_meets, cause, asked. destruct (is_entry line); [|done].
  destruct (registerKnownDialogsByID ∅ !! line) as [nID|]; [|done].
  pose proof (spec_call_explained nID d) as He.
  apply (explained_map (fun x : option FactoryCall => x ≫= create f)) in He.
  fold (built f (spec_call nID d)) in He.
  split.
  - rewrite <- (explained_is_ok _ _ _ He). by destruct (built f (spec_call nID d)).
  - intros e Hf. destruct (built f (spec_call nID d)) as [o|e'] eqn:E; [done|].
    injection Hf as <-. destruct (explained_failed _ _ _ _ He eq_refl) as (l & r & ?).
    by exists nID, l, r.
Qed.

(** A batch returns exactly when the document has what every line
    requires; it fails at the first line for which it has not. *)
Lemma batch_result_cause d f lines :
  is_ok (batch_result d f lines).1 = forallb (line_meets d) lines /\
  forall e, (batch_result d f lines).1 = Failed e ->
    exists l1 line l2,
      lines = l1 ++ line :: l2 /\ forallb (line_meets d) l1 = true /\ cause d line e.
Proof.
  induction lines as [|line lines [IH1 IH2]]; simpl; [done|].
  destruct (line_result_cause d f line) as [H1 H2]. rewrite <- H1.
  destruct (line_result d f line) as [l|e'] eqn:E; simpl.
  - destruct (batch_result d f lines) as [o sh]. simpl in *. split; [done|].
    intros e He. destruct (IH2 e He) as (l1 & line' & l2 & -> & Hl1 & Hc).
    exists (line :: l1), line', l2. simpl. by rewrite <- H1, Hl1.
  - split; [done|]. intros e [= <-]. exists [], line, lines. eauto.
Qed.

(** What a run has disposed and released when it ends. *)
Lemma runTest_resources :
  disposed (snd (runTest getLines SdDialogsTest_new)) = option_list loaded_component /\
  released (fixture (snd (runTest getLines SdDialogsTest_new))).
Proof.
  pose proof (reachable_resources_inv getLines _ (runTest_rtc getLines SdDialogsTest_new))
    as H.
  apply H.
Qed.

End RunFacts.

(** ** Theorems on whole runs *)

Section WholeRunTheorems.
Context `{IDS : SdAttrIds} `{HOST : HostEnv}.
Variable getLines : string -> list string.
Implicit Types (c : RunConfig).

(** C40: on every host, the run of the test on a new object reports the
    failures and writes the screenshots [run_spec] computes from what the
    host loads: the assertion of [setUp] and the null reference of
    [tearDown] when nothing is loaded, the assertion alone when the
    component is no Impress document, one fallback screenshot per entry
    when there is no factory, and the result of the batch otherwise.  It
    disposes the component the host loaded and nothing else.  So the only
    null pointer a run can use is the component at line 117, and it does
    exactly when nothing was loaded; the registered suite runs this one
    test. *)
Theorem runTest_refines :
  fst (runTest getLines SdDialogsTest_new) = (run_spec getLines).1 /\
  shots (snd (runTest getLines SdDialogsTest_new)) = (run_spec getLines).2 /\
  disposed (snd (runTest getLines SdDialogsTest_new)) = option_list loaded_component /\
  (forall l,
     NullDereference l ∈ fst (runTest getLines SdDialogsTest_new) <->
     l = 117%N /\ loaded_component = None) /\
  run_registered getLines =
    [("SdDialogsTest", [("openAnyDialog", fst (runTest getLines SdDialogsTest_new))])].
Proof.
  pose proof (runTest_run_spec getLines) as H. rewrite <- H. simpl.
  split_and!; [done..|apply runTest_resources| |done]. intros l.
  rewrite <- (run_spec_null getLines l). by rewrite <- H.
Qed.

(** C32: why a run fails, on a host that loads an Impress document and has
    a factory.  The run reports no failure exactly when the document has
    every object that the dialogs named in the batch file require.  When
    it reports one, the lines before some line of the batch were all
    served, and the failure is the assertion on an object that the dialog
    of that line requires and the document lacks. *)
Theorem run_failure_cause d f :
  loaded_component = Some (ImpressDocument d) ->
  SdAbstractDialogFactory_Create = Some f ->
  (fst (runTest getLines SdDialogsTest_new) = [] <->
   forallb (line_meets d) (getLines batch_file) = true) /\
  forall e, e ∈ fst (runTest getLines SdDialogsTest_new) ->
    exists l1 line l2,
      getLines batch_file = l1 ++ line :: l2 /\
      forallb (line_meets d) l1 = true /\ cause d line e.
Proof.
  intros Hl Hf. pose proof (runTest_run_spec getLines) as H. apply (f_equal fst) in H.
  unfold run_spec in H. rewrite Hl, Hf in H. simpl in H. rewrite H.
  destruct (batch_result_cause d f (getLines batch_file)) as [H1 H2]. rewrite <- H1.
  destruct (batch_result d f (getLines batch_file)).1 as [[]|e'] eqn:E; simpl.
  - split; [done|]. by intros e ?%elem_of_nil.
  - split; [done|]. intros e ->%list_elem_of_singleton. by apply H2.
Qed.

End WholeRunTheorems.

(** ** The test as any compiler builds it *)

Section Builds.
Context `{IDS : SdAttrIds} `{HOST : HostEnv}.
Variable getLines : string -> list string.

(** The overrides of lines 70 and 74 as a compiler that evaluates the
    arguments of the factory calls in the order [c] builds them. *)
Definition SdDialogsTest_compiled (c : Sequencing) : KnownDialogs SdDialogsTest :=
  {| virtual_registerKnownDialogsByID := registerKnownDialogsByID;
     virtual_createDialogByID := createDialogByID_in c |}.

(** The run of the test in that build. *)
Definition runTest_in (c : Sequencing) (s : ScreenshotTest SdDialogsTest) :
  list Failure * ScreenshotTest SdDialogsTest :=
  run_test (openAnyDialog (KD := SdDialogsTest_compiled c) getLines) s.

(** Two failures are reports of the dialog [nID] on [d], which one build
    or another gives for it. *)
Definition same_dialog (d : SdXImpressDocument) (nID : N) : relation Failure :=
  fun e1 e2 => e1 ∈ reports nID d /\ e2 ∈ reports nID d.

(** Two failures of two runs are akin: the same failure, or two reports
    of a registered dialog that a line of the batch file names, on the
    document the host loaded. *)
Definition akin : relation Failure :=
  fun e1 e2 =>
    e1 = e2 \/
    exists d,
      loaded_component = Some (ImpressDocument d) /\
      akin_in (same_dialog d) (registerKnownDialogsByID ∅) (getLines batch_file) e1 e2.

End Builds.

Section BuildFacts.
Context `{IDS : SdAttrIds} `{HOST : HostEnv}.
Variable getLines : string -> list string.
Implicit Types (d : SdXImpressDocument) (c : Sequencing).
Implicit Types (s : ScreenshotTest SdDialogsTest) (t : SdDialogsTest).

(** The builds are interchangeable on the fixtures set up on a document. *)
Lemma compiled_interchangeable c d :
  Interchangeable SdDialogsTest_overrides (SdDialogsTest_compiled c) (coherent d)
    (same_dialog d).
Proof.
  constructor. intros nID t C. simpl.
  pose proof (createDialogByID_Filled nID d t C) as F1.
  pose proof (createDialogByID_in_Filled c nID d t C) as F2.
  destruct (createDialogByID_agree c nID d t C) as [Ha He].
  pose proof (createDialogByID_outcome nID d t C) as O1.
  pose proof (createDialogByID_in_outcome c nID d t C) as O2.
  split_and!; [by eapply Filled_coherent..| |by intros ->%He].
  destruct (fst (createDialogByID nID t)) as [o1|e1] eqn:E1,
    (fst (createDialogByID_in c nID t)) as [o2|e2] eqn:E2; simpl in *; try done.
  - specialize (He eq_refl). rewrite He in E1. congruence.
  - destruct (mpFact t) as [f|]; [|done]. split.
    + by apply spec_call_reports, (built_Failed f).
    + apply (spec_createDialogByID_in_reports nID d f). by exists c.
Qed.

Lemma runTest_in_unfold c s :
  runTest_in getLines c s =
    let '(o1, s1) := full_setUp s in
    let '(o2, s2) :=
      match o1 with
      | Ok _ => openAnyDialog (KD := SdDialogsTest_compiled c) getLines s1
      | Failed _ => (Ok tt, s1)
      end in
    let '(o3, s3) := full_tearDown s2 in
    (failure_of o1 ++ failure_of o2 ++ failure_of o3, s3).
Proof. reflexivity. Qed.

(** From left to right the build is the one of [Dispatch]. *)
Lemma process_line_ltr line s :
  process_line (KD := SdDialogsTest_compiled left_to_right) line s = process_line line s.
Proof.
  unfold process_line, createDialogByName, bind, gets. simpl.
  destruct (is_entry line); [|done]. destruct (_ !! line); [|done].
  by rewrite createDialogByID_ltr.
Qed.

Lemma process_lines_ltr lines s :
  process_lines (KD := SdDialogsTest_compiled left_to_right) lines s = process_lines lines s.
Proof.
  revert s. induction lines as [|line lines IH]; intros s; [done|].
  cbn [process_lines]. unfold bind. rewrite process_line_ltr.
  destruct (process_line line s) as [[[]|?] ?]; [apply IH|done].
Qed.

Lemma failures_alike d (o1 o2 : Outcome unit) :
  loaded_component = Some (ImpressDocument d) ->
  alike_outcome
    (akin_in (same_dialog d) (registerKnownDialogsByID ∅) (getLines batch_file)) o1 o2 ->
  Forall2 (akin getLines) (failure_of o1 ++ []) (failure_of o2 ++ []).
Proof.
  intros Hl. destruct o1 as [[]|e1], o2 as [[]|e2]; simpl; intros H; try done.
  constructor; [right; by exists d|constructor].
Qed.

(** C16: the run of the test does not depend on the compiler's order of
    evaluation, on any host.  Built with any order [c] of the arguments of
    the factory calls, the run writes the same screenshots, disposes the
    same component and tears the base class down as the run of [Dispatch]
    does; it reports as many failures, each the same or, for a registered
    dialog that a line of the batch file names and that cannot be built,
    another of the reports of that dialog on the loaded document; when no
    failure is reported the two runs leave the same object; and from left
    to right the build is that of [Dispatch]. *)
Theorem runTest_any_order c :
  Forall2 (akin getLines) (fst (runTest getLines SdDialogsTest_new))
    (fst (runTest_in getLines c SdDialogsTest_new)) /\
  shots (snd (runTest_in getLines c SdDialogsTest_new)) =
    shots (snd (runTest getLines SdDialogsTest_new)) /\
  disposed (snd (runTest_in getLines c SdDialogsTest_new)) =
    disposed (snd (runTest getLines SdDialogsTest_new)) /\
  torn_down (snd (runTest_in getLines c SdDialogsTest_new)) =
    torn_down (snd (runTest getLines SdDialogsTest_new)) /\
  (fst (runTest getLines SdDialogsTest_new) = [] ->
   runTest_in getLines c SdDialogsTest_new = runTest getLines SdDialogsTest_new) /\
  runTest_in getLines left_to_right SdDialogsTest_new = runTest getLines SdDialogsTest_new.
Proof.
  rewrite !runTest_in_unfold, runTest_unfold.
  destruct (full_setUp SdDialogsTest_new) as [[[]|e] s0] eqn:H0; simpl.
  2:{ destruct (full_tearDown s0) as [o3 s3]. simpl.
      split_and!; try done. apply Forall2_same_length_lookup_2; [done|].
      intros i e1 e2 H1 H2. left. congruence. }
  rewrite !openAnyDialog_batch, process_lines_ltr.
  destruct (full_setUp_resources _ _ H0) as (Hc & _ & [d C0]); [done|].
  assert (loaded_component = Some (ImpressDocument d)) as Hl.
  { rewrite <- Hc. apply C0. }
  destruct (full_setUp_loaded d Hl) as (s0' & H0' & _ & _ & M0 & _).
  rewrite H0 in H0'. injection H0' as <-.
  pose proof (compiled_interchangeable c d) as HI.
  destruct (process_lines_alike SdDialogsTest_overrides (SdDialogsTest_compiled c)
              (coherent d) (same_dialog d) (getLines batch_file) s0 C0)
    as (G1 & G2 & Ho & _ & _ & Hsh & Hd & Ht & Hs).
  rewrite M0 in Ho.
  destruct (process_lines (getLines batch_file) s0) as [o1 s1],
    (process_lines (KD := SdDialogsTest_compiled c) (getLines batch_file) s0) as [o2 s2].
  simpl in *. rewrite (full_tearDown_run d s1 G1), (full_tearDown_run d s2 G2). simpl.
  split_and!; [by apply (failures_alike d)|done|by rewrite Hd|done| |done].
  destruct o1 as [[]|e1], o2 as [[]|e2]; simpl in *; try done.
  intros _. by rewrite (Hs eq_refl).
Qed.

End BuildFacts.

(** ** Witness: the batch of the witnesses on the document without shell *)

Lemma run_failure_cause_witness :
  loaded_component (HOST := empty_host) = Some (ImpressDocument empty_impress) /\
  fst (runTest (HOST := empty_host) demo_lines SdDialogsTest_new) =
    [AssertionFailed 136] /\
  exists l1 line l2,
    demo_lines batch_file = l1 ++ line :: l2 /\
    forallb (line_meets empty_impress) l1 = true /\
    cause empty_impress line (AssertionFailed 136).
Proof.
  split; [reflexivity|].
  assert (fst (runTest (HOST := empty_host) demo_lines SdDialogsTest_new) =
            [AssertionFailed 136]) as H by (by vm_compute).
  split; [exact H|].
  apply (proj2 (run_failure_cause (HOST := empty_host) demo_lines empty_impress demo_factory
                  eq_refl eq_refl)).
  rewrite H. by apply list_elem_of_singleton.
Defined.
